(** * FileOrganizer: the duplicate-file engine and its directory guards

    A shallow embedding of [scripts/doubleterminator.py] (path guard, streaming
    hasher, size/digest grouping, bulk and interactive resolution) and of the
    directory guard of [scripts/sorttofolders.py].

    Conventions of the embedding.
    - Python [str] is [string]; paths handled by the guards are strings, and
      [str.lower] acts on the letters A-Z (the model's strings are sequences
      of 8-bit characters).
    - Python [int] is [Z] (unbounded); a modification time is the [Z] the
      comparison of [os.path.getmtime] values orders by.
    - A [dict] is an association list in insertion order with unique keys
      (Python dicts iterate in insertion order).
    - The scanner and the resolver only ever join a directory path and a
      name a listing returned, so for them a path is the list of its
      components from the root of the tree.
    - The operating system is an explicit [world]: a directory tree, the
      standard input still to be read, and the trace of system calls and
      console output made so far.  A function of the program is a state and
      error monad over it; [except (OSError, IOError)] is [try_except]. *)

From Equations Require Import Equations.
From Stdlib Require Import ZArith List String Ascii Bool Lia Arith.
From Stdlib Require Import Permutation Sorted.
Import ListNotations.

Open Scope string_scope.
Open Scope Z_scope.

(** ** Python strings *)

Module PyStr.

(** [c.lower()] for one character. *)
Definition lower_char (c : ascii) : ascii :=
  let n := nat_of_ascii c in
  if ((65 <=? n)%nat && (n <=? 90)%nat)%bool then ascii_of_nat (n + 32) else c.

(** [s.lower()]. *)
Fixpoint lower (s : string) : string :=
  match s with
  | EmptyString => EmptyString
  | String c s' => String (lower_char c) (lower s')
  end.

(** [s.replace(a, b)] for one-character [a] and [b]. *)
Fixpoint replace_char (a b : ascii) (s : string) : string :=
  match s with
  | EmptyString => EmptyString
  | String c s' => String (if Ascii.eqb c a then b else c) (replace_char a b s')
  end.

(** [s.startswith(p)]. *)
Fixpoint startswith (p s : string) : bool :=
  match p with
  | EmptyString => true
  | String a p' =>
      match s with
      | EmptyString => false
      | String b s' => Ascii.eqb a b && startswith p' s'
      end
  end.

(** [needle in hay] on strings. *)
Fixpoint contains (needle hay : string) : bool :=
  startswith needle hay ||
  match hay with
  | EmptyString => false
  | String _ hay' => contains needle hay'
  end.

(** [s.split(sep)] for a one-character separator: never the empty list. *)
Fixpoint split (sep : ascii) (s : string) : list string :=
  match s with
  | EmptyString => [EmptyString]
  | String c s' =>
      if Ascii.eqb c sep then EmptyString :: split sep s'
      else match split sep s' with
           | [] => [String c EmptyString]
           | w :: ws => String c w :: ws
           end
  end.

(** [sep.join(parts)]. *)
Fixpoint join (sep : string) (parts : list string) : string :=
  match parts with
  | [] => EmptyString
  | [w] => w
  | w :: ws => w ++ sep ++ join sep ws
  end.

(** [x in parts] on a list of strings. *)
Definition mem (x : string) (parts : list string) : bool :=
  existsb (String.eqb x) parts.

(** [parts.index(x)]: position of the first occurrence ([None]: ValueError). *)
Fixpoint index (x : string) (parts : list string) : option nat :=
  match parts with
  | [] => None
  | w :: ws => if String.eqb w x then Some O else option_map S (index x ws)
  end.

(** [c * n] for a character. *)
Fixpoint repeat_char (c : ascii) (n : nat) : string :=
  match n with
  | O => EmptyString
  | S n' => String c (repeat_char c n')
  end.

(** ASCII white space, as [str.strip] removes it. *)
Definition is_space (c : ascii) : bool :=
  let n := nat_of_ascii c in
  (((9 <=? n)%nat && (n <=? 13)%nat) || ((28 <=? n)%nat && (n <=? 32)%nat))%bool.

Fixpoint lstrip (s : string) : string :=
  match s with
  | EmptyString => EmptyString
  | String c s' => if is_space c then lstrip s' else s
  end.

Fixpoint rstrip (s : string) : string :=
  match s with
  | EmptyString => EmptyString
  | String c s' =>
      match rstrip s' with
      | EmptyString => if is_space c then EmptyString else String c EmptyString
      | r => String c r
      end
  end.

(** [s.strip()]. *)
Definition strip (s : string) : string := rstrip (lstrip s).

(** The substring relation [contains] decides. *)
Definition Substring (needle hay : string) : Prop :=
  exists pre post, hay = pre ++ needle ++ post.

End PyStr.

(** ** [posixpath]: the part of the library [os.path.abspath] runs on POSIX *)

Module PosixPath.

Definition slash : ascii := "/"%char.

(** [posixpath.isabs]. *)
Definition isabs (p : string) : bool := PyStr.startswith "/" p.

(** [s.endswith('/')]. *)
Fixpoint ends_with_slash (s : string) : bool :=
  match s with
  | EmptyString => false
  | String c EmptyString => Ascii.eqb c slash
  | String _ s' => ends_with_slash s'
  end.

(** [posixpath.join(a, b)]. *)
Definition join (a b : string) : string :=
  if isabs b then b
  else if (String.eqb a EmptyString || ends_with_slash a)%bool then a ++ b
  else a ++ "/" ++ b.

(** One turn of [normpath]'s loop over the components. *)
Definition normpath_step (initial_slashes : nat) (new_comps : list string)
    (comp : string) : list string :=
  if (String.eqb comp EmptyString || String.eqb comp ".")%bool then new_comps
  else if (negb (String.eqb comp "..")
           || ((initial_slashes =? 0)%nat && (List.length new_comps =? 0)%nat)
           || (negb (List.length new_comps =? 0)%nat
               && String.eqb (last new_comps EmptyString) ".."))%bool
       then (new_comps ++ [comp])%list
       else removelast new_comps.

(** [posixpath.normpath]. *)
Definition normpath (path : string) : string :=
  if String.eqb path EmptyString then "."
  else
    let initial_slashes :=
      if PyStr.startswith "/" path then
        if (PyStr.startswith "//" path && negb (PyStr.startswith "///" path))%bool
        then 2%nat else 1%nat
      else 0%nat in
    let comps := PyStr.split slash path in
    let new_comps := fold_left (normpath_step initial_slashes) comps [] in
    let path := PyStr.join "/" new_comps in
    let path := PyStr.repeat_char slash initial_slashes ++ path in
    if String.eqb path EmptyString then "." else path.

(** [posixpath.abspath] in a process whose working directory is [cwd]. *)
Definition abspath (cwd : string) (path : string) : string :=
  normpath (if isabs path then path else join cwd path).

End PosixPath.

(** ** Python containers: insertion-ordered dicts and the stable sort *)

Module Py.

Section Dict.
Context {K V : Type} (eqb : K -> K -> bool).

(** [d.get(k)]. *)
Fixpoint dict_get (d : list (K * V)) (k : K) : option V :=
  match d with
  | [] => None
  | (k', v) :: d' => if eqb k' k then Some v else dict_get d' k
  end.

(** [d[k] = v]: a key already present keeps its place in the order. *)
Fixpoint dict_set (d : list (K * V)) (k : K) (v : V) : list (K * V) :=
  match d with
  | [] => [(k, v)]
  | (k', v') :: d' =>
      if eqb k' k then (k', v) :: d' else (k', v') :: dict_set d' k v
  end.

End Dict.

(** [d[k].append(x)] on a [defaultdict(list)]. *)
Definition dict_append {K X : Type} (eqb : K -> K -> bool)
    (d : list (K * list X)) (k : K) (x : X) : list (K * list X) :=
  dict_set eqb d k
    (match dict_get eqb d k with
     | Some l => l ++ [x]
     | None => [x]
     end)%list.

(** Grouping by an optional key: [d[key(x)].append(x)] for each [x] that
    has a key, in order. *)
Definition group_add {K X : Type} (eqb : K -> K -> bool) (key : X -> option K)
    (d : list (K * list X)) (x : X) : list (K * list X) :=
  match key x with
  | Some k => dict_append eqb d k x
  | None => d
  end.

Definition group_by {K X : Type} (eqb : K -> K -> bool) (key : X -> option K)
    (xs : list X) : list (K * list X) :=
  fold_left (group_add eqb key) xs [].

(** The members of [xs] whose key is [k]. *)
Definition with_key {K X : Type} (eqb : K -> K -> bool) (key : X -> option K)
    (k : K) (xs : list X) : list X :=
  filter (fun x => match key x with Some k' => eqb k' k | None => false end) xs.

(** The list filed under [k], empty when there is none. *)
Definition filed {K X : Type} (eqb : K -> K -> bool) (d : list (K * list X)) (k : K)
    : list X :=
  match dict_get eqb d k with
  | Some l => l
  | None => []
  end.

(** Every key of a grouping has members. *)
Definition inhabited {K X : Type} (d : list (K * list X)) : Prop :=
  forall k l, In (k, l) d -> l <> [].

(** [len(l)] as a Python int. *)
Definition len {X : Type} (l : list X) : Z := Z.of_nat (List.length l).

Section Sort.
Context {X : Type}.

(** Insertion of a keyed element before the first element whose key is not
    smaller: elements with equal keys keep their order. *)
Fixpoint insert_keyed (kx : Z * X) (l : list (Z * X)) : list (Z * X) :=
  match l with
  | [] => [kx]
  | ky :: l' =>
      if fst kx <=? fst ky then kx :: l else ky :: insert_keyed kx l'
  end.

(** The stable ascending sort of keyed elements ([list.sort] is stable). *)
Fixpoint sort_keyed (l : list (Z * X)) : list (Z * X) :=
  match l with
  | [] => []
  | kx :: l' => insert_keyed kx (sort_keyed l')
  end.

(** [sorted(l, key=key)]: decorate, sort stably by key, undecorate. *)
Definition sorted_by (key : X -> Z) (l : list X) : list X :=
  map snd (sort_keyed (combine (map key l) l)).

End Sort.

End Py.

(** ** The operating system: directory tree, console, and trace *)

Module OS.

(** A path is the list of names from the root of the tree;
    [os.path.join(root, name)] for a name a listing returned adds one. *)
Definition path := list string.

Definition join (root : path) (name : string) : path := (root ++ [name])%list.

Fixpoint path_eqb (p q : path) : bool :=
  match p, q with
  | [], [] => true
  | a :: p', b :: q' => String.eqb a b && path_eqb p' q'
  | _, _ => false
  end.

(** File contents are byte strings. *)
Definition bytes := string.

Record file := mkfile {
  f_data : bytes;               (* the content; its length is the size *)
  f_mtime : Z;                  (* st_mtime *)
  f_open_ok : bool;             (* open(path, 'rb') succeeds *)
  f_read_fault : option nat;    (* Some k: a read that reaches offset k raises *)
  f_unlink_ok : bool            (* os.remove succeeds *)
}.

(** A node of the tree.  [Broken] is a name whose [stat] fails: a dangling
    link, or an entry lost after the listing that returned it. *)
#[local] Set Warnings "-register-all".
Inductive node :=
| File (f : file)
| Dir (mtime size : Z) (entries : list (string * node))
| Broken.

Fixpoint find_entry (name : string) (entries : list (string * node)) : option node :=
  match entries with
  | [] => None
  | (n, c) :: es => if String.eqb n name then Some c else find_entry name es
  end.

(** Resolution of a path from a node. *)
Fixpoint lookup (n : node) (p : path) : option node :=
  match p with
  | [] => Some n
  | name :: rest =>
      match n with
      | Dir _ _ entries =>
          match find_entry name entries with
          | Some c => lookup c rest
          | None => None
          end
      | _ => None
      end
  end.

(** The entries without the name [name]. *)
Fixpoint drop_entry (name : string) (entries : list (string * node)) : list (string * node) :=
  match entries with
  | [] => []
  | (n, c) :: es =>
      if String.eqb n name then drop_entry name es else (n, c) :: drop_entry name es
  end.

(** The entries with the node the name [name] resolves to replaced. *)
Fixpoint set_entry (name : string) (c' : node) (entries : list (string * node))
    : list (string * node) :=
  match entries with
  | [] => []
  | (n, c) :: es =>
      if String.eqb n name then (n, c') :: es else (n, c) :: set_entry name c' es
  end.

(** The tree without the name at path [p]. *)
Fixpoint unlink (n : node) (p : path) : node :=
  match p with
  | [] => n
  | [name] =>
      match n with
      | Dir m s entries => Dir m s (drop_entry name entries)
      | _ => n
      end
  | name :: rest =>
      match n with
      | Dir m s entries =>
          match find_entry name entries with
          | Some c => Dir m s (set_entry name (unlink c rest) entries)
          | None => n
          end
      | _ => n
      end
  end.

Definition is_dir (n : node) : bool :=
  match n with Dir _ _ _ => true | _ => false end.

(** The [dirs] and [files] of one directory as [os.walk] reports them. *)
Definition dir_names (entries : list (string * node)) : list string :=
  map fst (filter (fun e => is_dir (snd e)) entries).

Definition nondir_names (entries : list (string * node)) : list string :=
  map fst (filter (fun e => negb (is_dir (snd e))) entries).

(** [os.walk(top)], top-down, from the node [n] that [root] resolves to: one
    triple [(root, dirs, files)] per directory. *)
Fixpoint walk_from (root : path) (n : node) {struct n} : list (path * list string * list string) :=
  match n with
  | Dir _ _ entries =>
      (root, dir_names entries, nondir_names entries) ::
      (fix walk_entries (es : list (string * node)) : list (path * list string * list string) :=
         match es with
         | [] => []
         | e :: es' =>
             (match snd e with
              | Dir _ _ _ => walk_from (join root (fst e)) (snd e)
              | _ => []
              end ++ walk_entries es')%list
         end) entries
  | _ => []
  end.

(** Console messages, by the statement that prints them. *)
Inductive message :=
| MsgNoPotentialDuplicates
| MsgHashing (files_to_hash : Z)
| MsgNewline
| MsgGroup (n_files : Z) (size : Z)
| MsgMember (i : Z) (filepath : path) (mod_time : Z)
| MsgKeeping (filepath : path)
| MsgDeleted (filepath : path)
| MsgFailedToDelete (filepath : path).

(** What the process did, in order. *)
Inductive event :=
| EvWalk (top : path)
| EvListdir (d : path)
| EvIsfile (p : path)
| EvGetsize (p : path)
| EvGetmtime (p : path)
| EvOpen (p : path)
| EvRemove (p : path)
| EvProgress (prefix : string) (progress total : Z)
| EvPrint (m : message)
| EvInput (prompt : string).

Record world := mkworld {
  w_root : node;
  w_stdin : list string;
  w_trace : list event
}.

Inductive exn := OSError | EOFError | IndexError.

Inductive result (A : Type) :=
| Ok (a : A)
| Raise (e : exn).
Arguments Ok {A} a.
Arguments Raise {A} e.

(** A computation of the program. *)
Definition M (A : Type) : Type := world -> result A * world.

Definition ret {A : Type} (a : A) : M A := fun w => (Ok a, w).

Definition bind {A B : Type} (m : M A) (k : A -> M B) : M B :=
  fun w =>
    match m w with
    | (Ok a, w') => k a w'
    | (Raise e, w') => (Raise e, w')
    end.

Definition raise {A : Type} (e : exn) : M A := fun w => (Raise e, w).

(** [try: body except (OSError, IOError): handler]. *)
Definition try_except {A : Type} (body handler : M A) : M A :=
  fun w =>
    match body w with
    | (Raise OSError, w') => handler w'
    | r => r
    end.

Definition emit (e : event) : M unit :=
  fun w => (Ok tt, mkworld (w_root w) (w_stdin w) (w_trace w ++ [e])).

(** [for x in xs: s = body(s, x)], the loop's variables carried in [s]. *)
Fixpoint for_each {X S : Type} (xs : list X) (body : S -> X -> M S) (s : S) : M S :=
  match xs with
  | [] => ret s
  | x :: xs' => bind (body s x) (fun s' => for_each xs' body s')
  end.

(** [[f(x) for x in xs]]. *)
Fixpoint map_m {X Y : Type} (f : X -> M Y) (xs : list X) : M (list Y) :=
  match xs with
  | [] => ret []
  | x :: xs' =>
      bind (f x) (fun y => bind (map_m f xs') (fun ys => ret (y :: ys)))
  end.

(** [[x for x in xs if f(x)]]. *)
Fixpoint filter_m {X : Type} (f : X -> M bool) (xs : list X) : M (list X) :=
  match xs with
  | [] => ret []
  | x :: xs' =>
      bind (f x) (fun b =>
      bind (filter_m f xs') (fun ys => ret (if b then x :: ys else ys)))
  end.

(** *** System calls *)

(** [os.walk(top)]: a top that is no directory yields nothing (the error of
    the listing is ignored, [onerror] being unset).  The generator is run to
    its end when it is called; the loops over it change nothing it reads. *)
Definition os_walk (top : path) : M (list (path * list string * list string)) :=
  bind (emit (EvWalk top)) (fun _ => fun w =>
    (Ok (match lookup (w_root w) top with
         | Some n => walk_from top n
         | None => []
         end), w)).

(** [os.listdir(d)]. *)
Definition os_listdir (d : path) : M (list string) :=
  bind (emit (EvListdir d)) (fun _ => fun w =>
    match lookup (w_root w) d with
    | Some (Dir _ _ entries) => (Ok (map fst entries), w)
    | _ => (Raise OSError, w)
    end).

(** What [os.stat(p)] sees of the node [p] resolves to. *)
Inductive inode :=
| IFile (f : file)
| IDir (mtime size : Z)
| IBroken.

Definition inode_of (n : node) : inode :=
  match n with
  | File f => IFile f
  | Dir mtime size _ => IDir mtime size
  | Broken => IBroken
  end.

Definition stat (root : node) (p : path) : option inode :=
  option_map inode_of (lookup root p).

(** Two trees in which [stat] sees the same of every path of a list. *)
Definition agree (r r' : node) (ps : list path) : Prop :=
  forall q, In q ps -> stat r' q = stat r q.

(** [os.path.isfile(p)]: never raises. *)
Definition os_path_isfile (p : path) : M bool :=
  bind (emit (EvIsfile p)) (fun _ => fun w =>
    (Ok (match stat (w_root w) p with
         | Some (IFile _) => true
         | _ => false
         end), w)).

(** [st_size] and [st_mtime] of what [p] resolves to. *)
Definition stat_size (root : node) (p : path) : option Z :=
  match stat root p with
  | Some (IFile f) => Some (Z.of_nat (String.length (f_data f)))
  | Some (IDir _ size) => Some size
  | _ => None
  end.

Definition stat_mtime (root : node) (p : path) : option Z :=
  match stat root p with
  | Some (IFile f) => Some (f_mtime f)
  | Some (IDir mtime _) => Some mtime
  | _ => None
  end.

(** [os.path.getsize(p)]. *)
Definition os_path_getsize (p : path) : M Z :=
  bind (emit (EvGetsize p)) (fun _ => fun w =>
    match stat_size (w_root w) p with
    | Some n => (Ok n, w)
    | None => (Raise OSError, w)
    end).

(** [os.path.getmtime(p)]. *)
Definition os_path_getmtime (p : path) : M Z :=
  bind (emit (EvGetmtime p)) (fun _ => fun w =>
    match stat_mtime (w_root w) p with
    | Some t => (Ok t, w)
    | None => (Raise OSError, w)
    end).

(** Whether [os.remove(p)] succeeds: on a file the process may unlink and on
    a broken link; a directory, a missing name and a refused unlink raise,
    and so does the root of the tree, which is no entry of a directory. *)
Definition removable (root : node) (p : path) : bool :=
  match p with
  | [] => false
  | _ :: _ =>
      match stat root p with
      | Some (IFile f) => f_unlink_ok f
      | Some IBroken => true
      | _ => false
      end
  end.

(** [os.remove(p)]. *)
Definition os_remove (p : path) : M unit :=
  bind (emit (EvRemove p)) (fun _ => fun w =>
    if removable (w_root w) p
    then (Ok tt, mkworld (unlink (w_root w) p) (w_stdin w) (w_trace w))
    else (Raise OSError, w)).

(** An open binary file: what is left to read, the offset reached, and the
    offset at which the device fails, if any. *)
Record handle := mkhandle {
  h_rest : bytes;
  h_pos : nat;
  h_fault : option nat
}.

(** [open(p, 'rb')]. *)
Definition open_rb (p : path) : M handle :=
  bind (emit (EvOpen p)) (fun _ => fun w =>
    match stat (w_root w) p with
    | Some (IFile f) =>
        if f_open_ok f
        then (Ok (mkhandle (f_data f) 0 (f_read_fault f)), w)
        else (Raise OSError, w)
    | _ => (Raise OSError, w)
    end).

(** [b[:n]] and [b[n:]]. *)
Fixpoint take (n : nat) (b : bytes) : bytes :=
  match n, b with
  | S n', String c b' => String c (take n' b')
  | _, _ => EmptyString
  end.

Fixpoint drop (n : nat) (b : bytes) : bytes :=
  match n, b with
  | S n', String _ b' => drop n' b'
  | _, _ => b
  end.

(** The number of bytes [f.read(size)] asks for. *)
Definition asked (h : handle) (size : Z) : nat :=
  if size <? 0 then String.length (h_rest h) else Z.to_nat size.

(** [f.read(size)]: at most [size] bytes, all that is left when [size] is
    negative; raises when the bytes asked for reach the faulty offset. *)
Definition read (h : handle) (size : Z) : result (bytes * handle) :=
  let n := asked h size in
  let data := take n (h_rest h) in
  let pos' := (h_pos h + String.length data)%nat in
  match h_fault h with
  | Some k =>
      if ((h_pos h <=? k)%nat && (k <? pos')%nat)%bool then Raise OSError
      else Ok (data, mkhandle (drop n (h_rest h)) pos' (h_fault h))
  | None => Ok (data, mkhandle (drop n (h_rest h)) pos' (h_fault h))
  end.

Lemma take_drop_length (n : nat) (b : bytes) :
  (String.length (take n b) + String.length (drop n b) = String.length b)%nat.
Proof. revert b; induction n; intros [|c b]; simpl; auto. Qed.

(** A read hands over bytes that are no longer left to read. *)
Lemma read_consumes (h : handle) (size : Z) (data : bytes) (h' : handle) :
  read h size = Ok (data, h') ->
  (String.length data + String.length (h_rest h') = String.length (h_rest h))%nat.
Proof.
  unfold read. intros H.
  destruct (h_fault h); [destruct (_ && _)%bool|]; inversion H; subst; simpl;
    apply take_drop_length.
Qed.

(** The lines written to the console among some events. *)
Definition console_output (evs : list event) : list event :=
  filter (fun e => match e with
                   | EvProgress _ _ _ | EvPrint _ => true
                   | _ => false
                   end) evs.

(** [print(...)] of one of the program's messages. *)
Definition print (m : message) : M unit := emit (EvPrint m).

(** [input(prompt)]: the next line of standard input, [EOFError] at its end. *)
Definition input (prompt : string) : M string :=
  bind (emit (EvInput prompt)) (fun _ => fun w =>
    match w_stdin w with
    | [] => (Raise EOFError, w)
    | line :: rest => (Ok line, mkworld (w_root w) rest (w_trace w))
    end).

(** The world after more events, everything else as it was. *)
Definition log (w : world) (evs : list event) : world :=
  mkworld (w_root w) (w_stdin w) (w_trace w ++ evs).

(** [m], started in any world whose tree is [root], ends with [res], leaves
    the tree and the standard input as they were, and adds to the trace
    only events that satisfy [P]. *)
Definition runs {A : Type} (root : node) (m : M A) (res : result A)
    (P : event -> Prop) : Prop :=
  forall w, w_root w = root ->
    exists evs, m w = (res, log w evs) /\ Forall P evs.

Declare Scope m_scope.
Delimit Scope m_scope with m.
Notation "x <- m ;; k" := (bind m (fun x => k))
  (at level 61, m at next level, right associativity) : m_scope.
Notation "' pat <- m ;; k" := (bind m (fun x => match x with pat => k end))
  (at level 61, pat pattern, m at next level, right associativity) : m_scope.
Notation "m ;;; k" := (bind m (fun _ => k))
  (at level 61, right associativity) : m_scope.

End OS.
(** ** The directory guard of doubleterminator.py *)

Module DoubleTerminator.

Definition protected_paths : list string :=
  [ "/windows/"; "/system32/"; "/program files/";
    "/programdata/"; "/boot/"; "/etc/"; "/usr/"; "/var/"; "/lib/" ].

(** The names between the separators of [protected_paths]. *)
Definition reserved_names : list string :=
  [ "windows"; "system32"; "program files"; "programdata"; "boot";
    "etc"; "usr"; "var"; "lib" ].

(** [os.path.abspath(path).lower().replace('\\', '/')]. *)
Definition path_lower (os_path_abspath : string -> string) (path : string) : string :=
  PyStr.replace_char "\"%char "/"%char (PyStr.lower (os_path_abspath path)).

(** [is_protected_directory(path)]; [os_path_abspath] is the platform's
    [os.path.abspath] ([ntpath] on Windows, [posixpath] elsewhere). *)
Definition is_protected_directory (os_path_abspath : string -> string)
    (path : string) : bool :=
  let path_lower := path_lower os_path_abspath path in
  if ((String.length path_lower <=? 3)%nat && PyStr.contains ":" path_lower)%bool
  then true
  else existsb (fun p => PyStr.contains p path_lower) protected_paths.

(** *** The hasher *)

Import OS.
Local Open Scope m_scope.

Definition inspect {A : Type} (a : A) : { b : A | a = b } := exist _ a eq_refl.

(** [progress_bar(progress, total, prefix=...)]: the event stands for the
    line written to the terminal; nothing is written when [total] is 0. *)
Definition progress_bar (progress total : Z) (prefix : string) : M unit :=
  if total =? 0 then ret tt else emit (EvProgress prefix progress total).

(** The [while True] loop of [calculate_file_hash].  The state of the [md5]
    object is the bytes it was fed: [md5.update(data)] appends. *)
Equations? md5_stream (md5 : bytes) (f : handle) (buffer_size : Z) : result bytes
  by wf (String.length (h_rest f)) lt :=
  md5_stream md5 f buffer_size with inspect (read f buffer_size) => {
    | exist _ (Raise e) _ := Raise e;
    | exist _ (Ok (EmptyString, _)) _ := Ok md5;
    | exist _ (Ok (String c data, f')) H :=
        md5_stream (md5 ++ String c data) f' buffer_size }.
Proof.
  apply read_consumes in H. simpl in H. lia.
Qed.

(** Whether the faulty offset lies in what is left to read. *)
Definition fault_ahead (h : handle) : bool :=
  match h_fault h with
  | Some k => ((h_pos h <=? k)%nat && (k <? h_pos h + String.length (h_rest h))%nat)%bool
  | None => false
  end.

Section Engine.

(** [hashlib.md5(data).hexdigest()]. *)
Variable md5_hexdigest : bytes -> string.

(** [calculate_file_hash(filepath, buffer_size=65536)]. *)
Definition calculate_file_hash (filepath : path) (buffer_size : Z) : M (option string) :=
  try_except
    (f <- open_rb filepath ;;
     fun w =>
       match md5_stream EmptyString f buffer_size with
       | Ok md5 => (Ok (Some (md5_hexdigest md5)), w)
       | Raise e => (Raise e, w)
       end)
    (ret None).

(** *** The scan *)

(** The first pass over the directory: [total_files]. *)
Definition count_total_files (directory : path) (include_subfolders : bool) : M Z :=
  if include_subfolders then
    walk <- os_walk directory ;;
    ret (fold_left (fun total_files '(_, _, files) => total_files + Py.len files) walk 0)
  else
    names <- os_listdir directory ;;
    regular <- filter_m (fun name => os_path_isfile (join directory name)) names ;;
    ret (Py.len regular).

(** The [try] statement run for one [filepath] of the second pass; the
    loop's variables are [files_by_size] and [processed_files]. *)
Definition scan_file (show_progress : bool) (total_files : Z)
    (st : list (Z * list path) * Z) (filepath : path) : M (list (Z * list path) * Z) :=
  let '(files_by_size, processed_files) := st in
  try_except
    (file_size <- os_path_getsize filepath ;;
     let files_by_size := Py.dict_append Z.eqb files_by_size file_size filepath in
     let processed_files := processed_files + 1 in
     (if (show_progress && (processed_files mod 100 =? 0))%bool
      then progress_bar processed_files total_files "Scanning files"
      else ret tt) ;;;
     ret (files_by_size, processed_files))
    (let processed_files := processed_files + 1 in
     (if (show_progress && (processed_files mod 100 =? 0))%bool
      then progress_bar processed_files total_files "Scanning files"
      else ret tt) ;;;
     ret (files_by_size, processed_files)).

(** The second pass: files grouped by size, and the files processed. *)
Definition scan_sizes (directory : path) (include_subfolders show_progress : bool)
    (total_files : Z) : M (list (Z * list path) * Z) :=
  if include_subfolders then
    walk <- os_walk directory ;;
    for_each walk (fun st '(root, _, files) =>
      for_each files (fun st filename =>
        scan_file show_progress total_files st (join root filename)) st)
      ([], 0)
  else
    names <- os_listdir directory ;;
    for_each names (fun st filename =>
      let filepath := join directory filename in
      is_file <- os_path_isfile filepath ;;
      if is_file then scan_file show_progress total_files st filepath
      else ret st)
      ([], 0).

(** *** The grouping by digest *)

(** [if file_hash:] on the value [calculate_file_hash] returned. *)
Definition truthy (file_hash : option string) : bool :=
  match file_hash with
  | Some EmptyString => false
  | Some _ => true
  | None => false
  end.

(** The body of [for filepath in files]; the loop's variables are [hashes]
    and [hashed_files]. *)
Definition hash_file (show_progress : bool) (files_to_hash : Z)
    (st : list (string * list path) * Z) (filepath : path)
    : M (list (string * list path) * Z) :=
  let '(hashes, hashed_files) := st in
  file_hash <- calculate_file_hash filepath 65536 ;;
  let hashes :=
    match file_hash with
    | Some h => if truthy file_hash then Py.dict_append String.eqb hashes h filepath
                else hashes
    | None => hashes
    end in
  let hashed_files := hashed_files + 1 in
  (if (show_progress && (hashed_files mod 10 =? 0))%bool
   then progress_bar hashed_files files_to_hash "Hashing files"
   else ret tt) ;;;
  ret (hashes, hashed_files).

(** [for file_hash, file_list in hashes.items(): if len(file_list) > 1:
    duplicates[file_hash] = file_list]. *)
Definition keep_groups (duplicates hashes : list (string * list path))
    : list (string * list path) :=
  fold_left (fun duplicates '(file_hash, file_list) =>
               if 1 <? Py.len file_list
               then Py.dict_set String.eqb duplicates file_hash file_list
               else duplicates)
            hashes duplicates.

(** The body of [for file_size, files in files_by_size.items()]; the loop's
    variables are [duplicates] and [hashed_files]. *)
Definition hash_bucket (show_progress : bool) (files_to_hash : Z)
    (st : list (string * list path) * Z) (bucket : Z * list path)
    : M (list (string * list path) * Z) :=
  let '(duplicates, hashed_files) := st in
  let '(file_size, files) := bucket in
  if 1 <? Py.len files then
    '(hashes, hashed_files) <-
      for_each files (hash_file show_progress files_to_hash) ([], hashed_files) ;;
    ret (keep_groups duplicates hashes, hashed_files)
  else ret st.

(** [sum(len(files) for files in files_by_size.values() if len(files) > 1)]. *)
Definition count_files_to_hash (files_by_size : list (Z * list path)) : Z :=
  fold_left (fun acc '(_, files) => if 1 <? Py.len files then acc + Py.len files else acc)
            files_by_size 0.

(** [find_duplicates(directory, include_subfolders, show_progress)]. *)
Definition find_duplicates (directory : path) (include_subfolders show_progress : bool)
    : M (list (string * list path)) :=
  let duplicates : list (string * list path) := [] in
  total_files <- count_total_files directory include_subfolders ;;
  if total_files =? 0 then ret duplicates
  else
    '(files_by_size, processed_files) <-
      scan_sizes directory include_subfolders show_progress total_files ;;
    (if show_progress
     then progress_bar total_files total_files "Scanning files" ;;; print MsgNewline
     else ret tt) ;;;
    let files_to_hash := count_files_to_hash files_by_size in
    if files_to_hash =? 0 then
      (if show_progress then print MsgNoPotentialDuplicates else ret tt) ;;;
      ret duplicates
    else
      (if show_progress then print (MsgHashing files_to_hash) else ret tt) ;;;
      '(duplicates, hashed_files) <-
        for_each files_by_size (hash_bucket show_progress files_to_hash) (duplicates, 0) ;;
      (if show_progress
       then progress_bar files_to_hash files_to_hash "Hashing files" ;;; print MsgNewline
       else ret tt) ;;;
      ret duplicates.

(** *** Resolution *)

(** [file_list.sort(key=lambda x: os.path.getmtime(x))]: the keys are taken
    first, one call per member in order, then the members are sorted
    stably by key.  An error of [getmtime] leaves the function. *)
Definition sort_by_mtime (file_list : list path) : M (list path) :=
  keys <- map_m os_path_getmtime file_list ;;
  ret (map snd (Py.sort_keyed (combine keys file_list))).

(** [file_list[1:]] when the oldest is kept, [file_list[:-1]] otherwise. *)
Definition files_to_delete (keep_oldest : bool) (file_list : list path) : list path :=
  if keep_oldest then skipn 1 file_list else removelast file_list.

(** [file_list[0]] when the oldest is kept, [file_list[-1]] otherwise. *)
Definition file_to_keep (keep_oldest : bool) (file_list : list path) : M path :=
  match (if keep_oldest then hd_error file_list else hd_error (rev file_list)) with
  | Some p => ret p
  | None => raise IndexError
  end.

(** The [try] statement of the bulk deletion for one [filepath]; the loop's
    variables are [deleted_count] and [reclaimed_space]. *)
Definition delete_file (st : Z * Z) (filepath : path) : M (Z * Z) :=
  let '(deleted_count, reclaimed_space) := st in
  try_except
    (file_size <- os_path_getsize filepath ;;
     os_remove filepath ;;;
     ret (deleted_count + 1, reclaimed_space + file_size))
    (ret (deleted_count, reclaimed_space)).

(** The body of [for file_list in duplicates.values()]. *)
Definition delete_group (keep_oldest : bool) (st : Z * Z) (file_list : list path)
    : M (Z * Z) :=
  file_list <- sort_by_mtime file_list ;;
  for_each (files_to_delete keep_oldest file_list) delete_file st.

(** [delete_duplicates(duplicates, keep_oldest)]: returns
    [(deleted_count, reclaimed_space)]. *)
Definition delete_duplicates (duplicates : list (string * list path))
    (keep_oldest : bool) : M (Z * Z) :=
  for_each (map snd duplicates) (delete_group keep_oldest) (0, 0).

(** [enumerate(l, start)]. *)
Fixpoint enumerate {X : Type} (l : list X) (start : Z) : list (Z * X) :=
  match l with
  | [] => []
  | x :: l' => (start, x) :: enumerate l' (start + 1)
  end.

(** The [try] statement of the interactive deletion for one [filepath]. *)
Definition delete_file_verbosely (st : Z * Z) (filepath : path) : M (Z * Z) :=
  let '(deleted_count, reclaimed_space) := st in
  try_except
    (file_size <- os_path_getsize filepath ;;
     os_remove filepath ;;;
     print (MsgDeleted filepath) ;;;
     ret (deleted_count + 1, reclaimed_space + file_size))
    (print (MsgFailedToDelete filepath) ;;;
     ret (deleted_count, reclaimed_space)).

(** The body of [for file_hash, file_list in duplicates.items()]. *)
Definition confirm_group (keep_oldest : bool) (st : Z * Z)
    (group : string * list path) : M (Z * Z) :=
  let '(file_hash, file_list) := group in
  file_list <- sort_by_mtime file_list ;;
  kept <- file_to_keep keep_oldest file_list ;;
  let doomed := files_to_delete keep_oldest file_list in
  first <- file_to_keep true file_list ;;
  size <- os_path_getsize first ;;
  print (MsgGroup (Py.len file_list) size) ;;;
  for_each (enumerate file_list 1) (fun _ '(i, filepath) =>
    mod_time <- os_path_getmtime filepath ;;
    print (MsgMember i filepath mod_time)) tt ;;;
  print (MsgKeeping kept) ;;;
  answer <- input "Delete duplicates in this group? (y/N): " ;;
  let confirm := PyStr.lower (PyStr.strip answer) in
  if String.eqb confirm "y"
  then for_each doomed delete_file_verbosely st
  else ret st.

(** [delete_interactive(duplicates, keep_oldest)]. *)
Definition delete_interactive (duplicates : list (string * list path))
    (keep_oldest : bool) : M (Z * Z) :=
  for_each duplicates (confirm_group keep_oldest) (0, 0).

(** *** What the bulk deletion does, as functions of the tree *)

(** Whether the [try] block of the deletion completes for [p]: [getsize]
    and [remove] both succeed. *)
Definition deletable (root : node) (p : path) : bool :=
  match stat_size root p with
  | Some _ => removable root p
  | None => false
  end.

Definition size_or_zero (root : node) (p : path) : Z :=
  match stat_size root p with
  | Some size => size
  | None => 0
  end.

Definition mtime_or_zero (root : node) (p : path) : Z :=
  match stat_mtime root p with
  | Some t => t
  | None => 0
  end.

(** The system calls of the [try] block for [p]. *)
Definition delete_events (root : node) (p : path) : list event :=
  match stat_size root p with
  | Some _ => [EvGetsize p; EvRemove p]
  | None => [EvGetsize p]
  end.

(** The files of one group the policy marks for removal. *)
Definition doomed (root : node) (keep_oldest : bool) (file_list : list path) : list path :=
  files_to_delete keep_oldest (Py.sorted_by (mtime_or_zero root) file_list).

(** The system calls of the bulk deletion of one group. *)
Definition group_events (root : node) (keep_oldest : bool) (file_list : list path)
    : list event :=
  (map EvGetmtime file_list
   ++ flat_map (delete_events root) (doomed root keep_oldest file_list))%list.

(** [sum(xs)]. *)
Definition sum (xs : list Z) : Z := fold_right Z.add 0 xs.

(** *** What the engine computes, as functions of the tree *)

(** The bytes a complete read of [p] yields, when it can be opened and read
    to its end. *)
Definition content (root : node) (p : path) : option bytes :=
  match stat root p with
  | Some (IFile f) =>
      if f_open_ok f then
        match f_read_fault f with
        | Some k =>
            if (k <? String.length (f_data f))%nat then None else Some (f_data f)
        | None => Some (f_data f)
        end
      else None
  | _ => None
  end.

(** The digest of [p], when it has one. *)
Definition digest (root : node) (p : path) : option string :=
  option_map md5_hexdigest (content root p).

Definition is_file (root : node) (p : path) : bool :=
  match stat root p with
  | Some (IFile _) => true
  | _ => false
  end.

(** The file paths the second pass visits, in order. *)
Definition scanned_paths (root : node) (directory : path) (include_subfolders : bool)
    : list path :=
  if include_subfolders then
    flat_map (fun '(r, _, files) => map (join r) files)
             (match lookup root directory with
              | Some n => walk_from directory n
              | None => []
              end)
  else
    match lookup root directory with
    | Some (Dir _ _ entries) =>
        filter (is_file root) (map (join directory) (map fst entries))
    | _ => []
    end.

(** The effect of one visited path on [files_by_size]. *)
Definition bucket_step (root : node) : list (Z * list path) -> path -> list (Z * list path) :=
  Py.group_add Z.eqb (stat_size root).

Definition size_buckets (root : node) (paths : list path) : list (Z * list path) :=
  Py.group_by Z.eqb (stat_size root) paths.

(** The key a hashed path is filed under: its digest, when [if file_hash:]
    lets it through. *)
Definition hash_key (root : node) (p : path) : option string :=
  match digest root p with
  | Some h => if truthy (Some h) then Some h else None
  | None => None
  end.

(** The effect of one hashed path on [hashes]. *)
Definition hashes_step (root : node)
    : list (string * list path) -> path -> list (string * list path) :=
  Py.group_add String.eqb (hash_key root).

Definition digest_classes (root : node) (files : list path) : list (string * list path) :=
  Py.group_by String.eqb (hash_key root) files.

(** The visited paths of one size, and the members of a list of files
    filed under one digest. *)
Definition size_bucket (root : node) (paths : list path) (size : Z) : list path :=
  Py.with_key Z.eqb (stat_size root) size paths.

Definition digest_class (root : node) (files : list path) (h : string) : list path :=
  Py.with_key String.eqb (hash_key root) h files.

(** The effect of one size bucket on [duplicates]. *)
Definition group_step (root : node) (duplicates : list (string * list path))
    (bucket : Z * list path) : list (string * list path) :=
  if 1 <? Py.len (snd bucket)
  then keep_groups duplicates (digest_classes root (snd bucket))
  else duplicates.

Definition groups (root : node) (files_by_size : list (Z * list path))
    : list (string * list path) :=
  fold_left (group_step root) files_by_size [].

(** Lines on the console. *)
Definition console_event (e : event) : Prop :=
  match e with
  | EvProgress _ _ _ | EvPrint _ => True
  | _ => False
  end.

(** The events of the passes over the directory: listing, [stat], console. *)
Definition stat_event (e : event) : Prop :=
  match e with
  | EvWalk _ | EvListdir _ | EvIsfile _ | EvGetsize _
  | EvProgress _ _ _ | EvPrint _ => True
  | _ => False
  end.

(** The events of the hashing: opening a member of a bucket of two or more
    for reading, console. *)
Definition hash_event (files_by_size : list (Z * list path)) (e : event) : Prop :=
  match e with
  | EvOpen p =>
      exists size files,
        In (size, files) files_by_size /\ 1 < Py.len files /\ In p files
  | EvProgress _ _ _ | EvPrint _ => True
  | _ => False
  end.

(** The directory can be listed: [os.walk] lists what it can and ignores
    the rest, [os.listdir] needs a directory. *)
Definition listable (root : node) (directory : path) (include_subfolders : bool) : Prop :=
  include_subfolders = true \/
  exists mtime size entries, lookup root directory = Some (Dir mtime size entries).

(** The events of a scan: listing, [stat], opening for reading, console. *)
Definition scan_event (e : event) : Prop :=
  match e with
  | EvWalk _ | EvListdir _ | EvIsfile _ | EvGetsize _ | EvOpen _
  | EvProgress _ _ _ | EvPrint _ => True
  | EvGetmtime _ | EvRemove _ | EvInput _ => False
  end.

End Engine.

End DoubleTerminator.

(** ** The directory guard of sorttofolders.py *)

Module SortToFolders.

Definition windows_system_paths : list string :=
  [ "/windows/"; "/system32/"; "/system64/"; "/program files/";
    "/program files (x86)/"; "/programdata/"; "/boot/";
    "/system volume information/"; "$windows.~bt"; "$windows.~ws";
    "windows.old"; "/recovery/"; "/perflogs/" ].

Definition unix_system_paths : list string :=
  [ "/etc/"; "/usr/"; "/var/"; "/lib/"; "/bin/"; "/sbin/"; "/system/";
    "/library/"; "/applications/" ].

(** The test of the Users branch: ['users' in path_parts and
    path_parts.index('users') == len(path_parts) - 2]. *)
Definition users_second_to_last (path_parts : list string) : bool :=
  (PyStr.mem "users" path_parts &&
   match PyStr.index "users" path_parts with
   | Some i => (Z.of_nat i =? Z.of_nat (List.length path_parts) - 2)
   | None => false
   end)%bool.

Definition is_protected_directory (os_path_abspath : string -> string)
    (path : string) : bool :=
  let path_lower := DoubleTerminator.path_lower os_path_abspath path in
  if ((String.length path_lower <=? 3)%nat && PyStr.contains ":" path_lower)%bool
  then true
  else if (PyStr.contains "/users/" path_lower
           && users_second_to_last (PyStr.split "/"%char path_lower))%bool
  then true
  else (existsb (fun sys_path => PyStr.contains sys_path path_lower) windows_system_paths
        || existsb (fun sys_path => PyStr.contains sys_path path_lower) unix_system_paths)%bool.

End SortToFolders.

(** ** Small worlds for the examples *)

Module Examples.
Import OS.

(** The world of the examples: [a] is older than [b], and [b] may not be
    unlinked; [c] and [d] are a second pair of duplicates. *)
Definition example_root : node :=
  Dir 0 4096
      [ ("a", File (mkfile "xx" 10 true None true));
        ("b", File (mkfile "xx" 20 true None false));
        ("c", File (mkfile "yyy" 30 true None true));
        ("d", File (mkfile "yyy" 40 true None true)) ].

Definition example_world : world := mkworld example_root [] [].

Definition example_groups : list (string * list path) :=
  [ ("hx", [["a"]; ["b"]]); ("hy", [["c"]; ["d"]]) ].

(** A stand-in for the digest: injective and never empty. *)
Definition example_digest (data : bytes) : string := "md5:" ++ data.

(** A directory with three copies of one content, one of them in a
    subdirectory, a file of the same size that cannot be opened, a file of
    another size and a broken entry. *)
Definition example_tree : node :=
  Dir 0 4096
      [ ("a", File (mkfile "xx" 10 true None true));
        ("b", File (mkfile "xx" 20 true None true));
        ("u", File (mkfile "zz" 5 false None true));
        ("c", File (mkfile "yyy" 30 true None true));
        ("lost", Broken);
        ("sub", Dir 1 4096 [ ("e", File (mkfile "xx" 1 true None true)) ]) ].

Definition example_scan : world := mkworld example_tree [] [].

End Examples.

(** ** What a scan may call *)

Module ScanCalls.
Import OS.

(** The names [os.listdir(directory)] returns. *)
Definition listed (root : node) (directory : path) : list string :=
  match lookup root directory with
  | Some (Dir _ _ entries) => map fst entries
  | _ => []
  end.

(** The events of a scan of [directory], one by one: the one listing of the
    mode; [isfile] on a listed name, without subfolders; [getsize] on a
    visited path; [open] on a visited path whose size at least two visited
    paths have; lines on the console when progress is shown. *)
Definition scan_call (root : node) (directory : path)
    (include_subfolders show_progress : bool) (e : event) : Prop :=
  let paths := DoubleTerminator.scanned_paths root directory include_subfolders in
  match e with
  | EvWalk top => include_subfolders = true /\ top = directory
  | EvListdir d => include_subfolders = false /\ d = directory
  | EvIsfile p =>
      include_subfolders = false /\
      exists name, In name (listed root directory) /\ p = join directory name
  | EvGetsize p => In p paths
  | EvOpen p =>
      In p paths /\
      exists size,
        stat_size root p = Some size /\
        (2 <= List.length (DoubleTerminator.size_bucket root paths size))%nat
  | EvProgress _ _ _ | EvPrint _ => show_progress = true
  | EvGetmtime _ | EvRemove _ | EvInput _ => False
  end.

(** [m] adds to the trace only events that have [P], whatever it returns
    or raises. *)
Definition adds {A : Type} (P : event -> Prop) (m : M A) : Prop :=
  forall w, exists evs,
    w_trace (snd (m w)) = (w_trace w ++ evs)%list /\ Forall P evs.

End ScanCalls.

(** ** The program of doubleterminator.py: lists, menus and [main] *)

Module Main.

(** The lines the program prints, by statement; a line without a value of
    the run in it is its text (the pictographs are left out). *)
Inductive line :=
| LnText (text : string)
| LnRule (width : nat)                      (* "=" * width *)
| LnBlankRule (width : nat)                 (* "\n" + "=" * width *)
| LnGroup (group_number n_files file_size : Z)
| LnMember (i : Z) (filepath : OS.path) (mod_time : Z)
| LnErrorNotFound (directory : string)      (* "ERROR: Directory not found: ..." *)
| LnNotFound (directory : string)           (* "Directory not found: ..." *)
| LnUsingDefault (default_dir : string)
| LnProtected (directory : string)
| LnScanning (directory : string)
| LnChangedTo (directory : string)
| LnFound (n_groups : Z)
| LnTotal (total_duplicates : Z)
| LnReclaimable (total_space : Z)
| LnDeleted (deleted_count : Z)
| LnReclaimed (reclaimed_space : Z).

(** The prompts of [input]. *)
Inductive prompt :=
| AskText (text : string)
| AskDirectory (default_dir : string)
| AskDelete (total_duplicates : Z)
| AskBulk (total_duplicates : Z).

Inductive event :=
| Engine (e : OS.event)               (* a call or a line of the engine *)
| Print (l : line)
| Input (p : prompt)
| Isdir (directory : string)          (* os.path.isdir *)
| Makedirs (directory : string).      (* os.makedirs(..., exist_ok=True) *)

Inductive exn :=
| EngineError (e : OS.exn)
| AttributeError
| UnboundLocalError.

Inductive result (A : Type) :=
| Ok (a : A)
| Raise (e : exn).
Arguments Ok {A} a.
Arguments Raise {A} e.

Record world := mkworld {
  w_root : OS.node;
  w_stdin : list string;
  w_trace : list event
}.

Definition M (A : Type) : Type := world -> result A * world.

Definition ret {A : Type} (a : A) : M A := fun w => (Ok a, w).

Definition bind {A B : Type} (m : M A) (k : A -> M B) : M B :=
  fun w =>
    match m w with
    | (Ok a, w') => k a w'
    | (Raise e, w') => (Raise e, w')
    end.

Definition raise {A : Type} (e : exn) : M A := fun w => (Raise e, w).

Definition emit (e : event) : M unit :=
  fun w => (Ok tt, mkworld (w_root w) (w_stdin w) (w_trace w ++ [e])).

Fixpoint for_each {X S : Type} (xs : list X) (body : S -> X -> M S) (s : S) : M S :=
  match xs with
  | [] => ret s
  | x :: xs' => bind (body s x) (fun s' => for_each xs' body s')
  end.

(** The result of a function of the engine, as the program sees it. *)
Definition of_engine {A : Type} (r : OS.result A) : result A :=
  match r with
  | OS.Ok a => Ok a
  | OS.Raise e => Raise (EngineError e)
  end.

(** A function of the engine, run by the program: on the same tree and
    standard input, its events added to the trace as it made them. *)
Definition lift {A : Type} (m : OS.M A) : M A :=
  fun w =>
    let '(r, w0) := m (OS.mkworld (w_root w) (w_stdin w) []) in
    (of_engine r,
     mkworld (OS.w_root w0) (OS.w_stdin w0) (w_trace w ++ map Engine (OS.w_trace w0))).

Definition print (l : line) : M unit := emit (Print l).

(** The world after more events, everything else as it was. *)
Definition log (w : world) (evs : list event) : world :=
  mkworld (w_root w) (w_stdin w) (w_trace w ++ evs).

(** [m] leaves the tree and the standard input as they were. *)
Definition reads_only {A : Type} (m : M A) : Prop :=
  forall w, exists res evs, m w = (res, log w evs).

(** [m] adds no line to the standard input; [m] returns only after it has
    taken a line off it. *)
Definition keeps_input {A : Type} (m : M A) : Prop :=
  forall w, (List.length (w_stdin (snd (m w))) <= List.length (w_stdin w))%nat.

Definition takes_input {A : Type} (m : M A) : Prop :=
  forall w a w',
    m w = (Ok a, w') -> (List.length (w_stdin w') < List.length (w_stdin w))%nat.

(** [m] never leaves with the exception [e]; what [m] returns has [Q]. *)
Definition never_raises {A : Type} (e : exn) (m : M A) : Prop :=
  forall w, fst (m w) <> Raise e.

Definition returns_only {A : Type} (Q : A -> Prop) (m : M A) : Prop :=
  forall w a w', m w = (Ok a, w') -> Q a.

(** [m] adds to the trace only events that have [P]. *)
Definition adds {A : Type} (P : event -> Prop) (m : M A) : Prop :=
  forall w, exists evs,
    w_trace (snd (m w)) = (w_trace w ++ evs)%list /\ Forall P evs.

(** [input(prompt)]. *)
Definition input (p : prompt) : M string :=
  bind (emit (Input p)) (fun _ => fun w =>
    match w_stdin w with
    | [] => (Raise (EngineError OS.EOFError), w)
    | answer :: rest => (Ok answer, mkworld (w_root w) rest (w_trace w))
    end).

Declare Scope main_scope.
Delimit Scope main_scope with main.
Notation "x <- m ;; k" := (bind m (fun x => k))
  (at level 61, m at next level, right associativity) : main_scope.
Notation "' pat <- m ;; k" := (bind m (fun x => match x with pat => k end))
  (at level 61, pat pattern, m at next level, right associativity) : main_scope.
Notation "m ;;; k" := (bind m (fun _ => k))
  (at level 61, right associativity) : main_scope.
Local Open Scope main_scope.

(** The tree with the directories of [p] made where they are missing:
    [None] when a name on the way is no directory.  The times of a new
    directory are not modelled. *)
Fixpoint makedirs (n : OS.node) (p : OS.path) : option OS.node :=
  match n with
  | OS.Dir mtime size entries =>
      match p with
      | [] => Some n
      | name :: rest =>
          match OS.find_entry name entries with
          | Some c =>
              option_map (fun c' => OS.Dir mtime size (OS.set_entry name c' entries))
                         (makedirs c rest)
          | None =>
              Some (OS.Dir mtime size
                      (entries
                       ++ [(name, fold_right (fun name' c' => OS.Dir 0 0 [(name', c')])
                                             (OS.Dir 0 0 []) rest)]))
          end
      end
  | _ => None
  end.

(** [if x:] on a string, and on the value of [duplicates]. *)
Definition nonempty (s : string) : bool :=
  match s with EmptyString => false | _ => true end.

Definition truthy {X : Type} (duplicates : option (list X)) : bool :=
  match duplicates with
  | Some (_ :: _) => true
  | _ => false
  end.

(** [l[0]]. *)
Definition item0 {X : Type} (l : list X) : M X :=
  match l with
  | x :: _ => ret x
  | [] => raise (EngineError OS.IndexError)
  end.

(** [keep_option not in ['n', 'no']]. *)
Definition keeps_oldest (keep_option : string) : bool :=
  negb (String.eqb keep_option "n" || String.eqb keep_option "no").

(** [show_main_menu()]. *)
Definition show_main_menu : M unit :=
  print (LnBlankRule 50) ;;;
  print (LnText "1. Interactive deletion (confirm each group)") ;;;
  print (LnText "2. Bulk deletion (delete all duplicates)") ;;;
  print (LnText "3. Change directory") ;;;
  print (LnText "4. Show list of duplicate files") ;;;
  print (LnText "5. Rescan for duplicates") ;;;
  print (LnText "6. Exit") ;;;
  print (LnRule 50).

(** The body of the loop of [show_duplicates_list]; the loop's variable is
    [group_number], and [listed] holds the groups seen, as the sort left
    their lists. *)
Definition list_group (st : Z * list (string * list OS.path))
    (group : string * list OS.path) : M (Z * list (string * list OS.path)) :=
  let '(group_number, listed) := st in
  let '(file_hash, file_list) := group in
  first <- item0 file_list ;;
  file_size <- lift (OS.os_path_getsize first) ;;
  print (LnGroup group_number (Py.len file_list) file_size) ;;;
  file_list <- lift (DoubleTerminator.sort_by_mtime file_list) ;;
  for_each (DoubleTerminator.enumerate file_list 1) (fun _ '(i, filepath) =>
    mod_time <- lift (OS.os_path_getmtime filepath) ;;
    print (LnMember i filepath mod_time)) tt ;;;
  ret (group_number + 1, (listed ++ [(file_hash, file_list)])%list).

(** [show_duplicates_list(duplicates)]: returns the dict as the sorts left
    it ([file_list.sort] sorts the lists of the caller's dict in place).
    [duplicates] may be [None], which has no [items]. *)
Definition show_duplicates_list (duplicates : option (list (string * list OS.path)))
    : M (list (string * list OS.path)) :=
  print (LnText "LIST OF DUPLICATE FILES") ;;;
  print (LnRule 60) ;;;
  match duplicates with
  | None => raise AttributeError
  | Some d =>
      '(_, listed) <- for_each d list_group (1, []) ;;
      _ <- input (AskText "Press Enter to return to the menu...") ;;
      ret listed
  end.

(** [sum(len(files) - 1 for files in duplicates.values())]. *)
Definition total_duplicates_of (duplicates : list (string * list OS.path)) : Z :=
  DoubleTerminator.sum (map (fun '(_, files) => Py.len files - 1) duplicates).

(** [sum(os.path.getsize(files[0]) * (len(files) - 1)
        for files in duplicates.values())]. *)
Definition total_space_of (duplicates : list (string * list OS.path)) : M Z :=
  for_each duplicates (fun acc '(_, files) =>
    first <- item0 files ;;
    size <- lift (OS.os_path_getsize first) ;;
    ret (acc + size * (Py.len files - 1))) 0.

Section Program.

(** The platform: [hashlib], [os.path], and where a directory name leads
    in the tree. *)
Variable md5_hexdigest : OS.bytes -> string.
Variable os_path_abspath : string -> string.
Variable os_path_dirname : string -> string.
Variable os_path_join : string -> string -> string.
Variable locate : string -> OS.path.

(** The process: [sys.frozen], [sys.executable], [__file__],
    [os.path.expanduser("~")] and [os.getcwd()]. *)
Variable sys_frozen : bool.
Variable sys_executable : string.
Variable script_file : string.
Variable home_dir : string.
Variable current_dir : string.

Definition is_protected_directory : string -> bool :=
  DoubleTerminator.is_protected_directory os_path_abspath.

(** [os.path.isdir(directory)]. *)
Definition os_path_isdir (directory : string) : M bool :=
  emit (Isdir directory) ;;;
  fun w =>
    (Ok (match OS.lookup (w_root w) (locate directory) with
         | Some n => OS.is_dir n
         | None => false
         end), w).

(** [os.makedirs(directory, exist_ok=True)]. *)
Definition os_makedirs (directory : string) : M unit :=
  emit (Makedirs directory) ;;;
  fun w =>
    match makedirs (w_root w) (locate directory) with
    | Some root' => (Ok tt, mkworld root' (w_stdin w) (w_trace w))
    | None => (Raise (EngineError OS.OSError), w)
    end.

(** [get_script_directory()]. *)
Definition get_script_directory : string :=
  if sys_frozen then os_path_dirname sys_executable
  else os_path_dirname (os_path_abspath script_file).

(** [get_safe_default_directory()]. *)
Definition get_safe_default_directory : M string :=
  let script_dir := get_script_directory in
  if negb (is_protected_directory script_dir) then ret script_dir
  else if negb (is_protected_directory home_dir) then ret home_dir
  else if negb (is_protected_directory current_dir) then ret current_dir
  else
    let temp_dir := os_path_join home_dir "DuplicateScan" in
    os_makedirs temp_dir ;;;
    ret temp_dir.

(** [find_duplicates(directory, include_subfolders, show_progress)] on a
    directory name. *)
Definition find_duplicates (directory : string) (include_subfolders show_progress : bool)
    : M (list (string * list OS.path)) :=
  lift (DoubleTerminator.find_duplicates md5_hexdigest (locate directory)
          include_subfolders show_progress).

(** The run with arguments: [directory] is [sys.argv[1]]. *)
Definition main_with_arguments (sys_argv : list string) (directory : string) : M unit :=
  let include_subfolders := PyStr.mem "--subfolders" sys_argv in
  is_dir <- os_path_isdir directory ;;
  if negb is_dir then print (LnErrorNotFound directory)
  else if is_protected_directory directory then
    print (LnText "ERROR: Protected system directory - operation cancelled")
  else
    duplicates <- find_duplicates directory include_subfolders false ;;
    if negb (truthy (Some duplicates)) then print (LnText "No duplicates found!")
    else
      let total_duplicates := total_duplicates_of duplicates in
      total_space <- total_space_of duplicates ;;
      print (LnFound (Py.len duplicates)) ;;;
      print (LnTotal total_duplicates) ;;;
      print (LnReclaimable total_space) ;;;
      answer <- input (AskDelete total_duplicates) ;;
      let confirm := PyStr.lower (PyStr.strip answer) in
      if negb (String.eqb confirm "y") then print (LnText "Operation cancelled")
      else
        answer <- input (AskText "Keep oldest files? (Y/n): ") ;;
        let keep_option := PyStr.lower (PyStr.strip answer) in
        let keep_oldest := keeps_oldest keep_option in
        print (LnText "Deleting duplicates...") ;;;
        '(deleted_count, reclaimed_space) <-
          lift (DoubleTerminator.delete_duplicates duplicates keep_oldest) ;;
        print (LnDeleted deleted_count) ;;;
        print (LnReclaimed reclaimed_space) ;;;
        print (LnText "Duplicate cleanup complete!").

(** The variables of the interactive loop.  [total_duplicates] is bound by
    the first turn that has duplicates to show, and stays bound. *)
Record state := mkstate {
  directory : string;
  include_subfolders : bool;
  keep_oldest : bool;
  duplicates : option (list (string * list OS.path));
  total_duplicates : option Z
}.

(** How a turn of the loop ends: [continue] or the end of the body, with
    the variables as they are then, or [break]. *)
Inductive turn :=
| Again (st : state)
| Break.

(** The head of a turn: the directory is protected. *)
Definition ask_safe_directory (st : state) : M turn :=
  print (LnProtected (directory st)) ;;;
  answer <- input (AskText "Enter a safe directory to scan: ") ;;
  let new_dir := PyStr.strip answer in
  is_dir <- (if nonempty new_dir then os_path_isdir new_dir else ret false) ;;
  if is_dir then
    ret (Again (mkstate (os_path_abspath new_dir) (include_subfolders st) (keep_oldest st)
                        None (total_duplicates st)))
  else
    print (LnText "Invalid directory. Using default safe directory.") ;;;
    default_dir <- get_safe_default_directory ;;
    ret (Again (mkstate default_dir (include_subfolders st) (keep_oldest st)
                        (duplicates st) (total_duplicates st))).

(** [if duplicates is None:] the scan of a turn. *)
Definition scan_if_needed (st : state) : M state :=
  match duplicates st with
  | None =>
      answer <- input (AskText "Include subfolders in search? (y/N): ") ;;
      let include_subfolders := String.eqb (PyStr.lower (PyStr.strip answer)) "y" in
      print (LnScanning (directory st)) ;;;
      found <- find_duplicates (directory st) include_subfolders true ;;
      if negb (truthy (Some found)) then
        print (LnText "No duplicates found!") ;;;
        ret (mkstate (directory st) include_subfolders (keep_oldest st) None
                     (total_duplicates st))
      else
        ret (mkstate (directory st) include_subfolders (keep_oldest st) (Some found)
                     (total_duplicates st))
  | Some _ => ret st
  end.

(** [if duplicates: ... else: ...]: the menu of a turn and the choice. *)
Definition ask_choice (st : state) : M (state * string) :=
  match duplicates st with
  | Some ((_ :: _) as found) =>
      let total_duplicates := total_duplicates_of found in
      total_space <- total_space_of found ;;
      print (LnFound (Py.len found)) ;;;
      print (LnTotal total_duplicates) ;;;
      print (LnReclaimable total_space) ;;;
      show_main_menu ;;;
      answer <- input (AskText "Select option (1-6): ") ;;
      ret (mkstate (directory st) (include_subfolders st) (keep_oldest st)
                   (duplicates st) (Some total_duplicates),
           PyStr.strip answer)
  | _ =>
      print (LnText "1. Change directory") ;;;
      print (LnText "2. Rescan for duplicates") ;;;
      print (LnText "3. Exit") ;;;
      answer <- input (AskText "Select option (1-3): ") ;;
      let choice := PyStr.strip answer in
      let choice :=
        if String.eqb choice "1" then "3"
        else if String.eqb choice "2" then "5"
        else if String.eqb choice "3" then "6"
        else choice in
      ret (st, choice)
  end.

(** [duplicates.items()], [duplicates.values()] on the value of
    [duplicates]. *)
Definition items_of (duplicates : option (list (string * list OS.path)))
    : M (list (string * list OS.path)) :=
  match duplicates with
  | Some d => ret d
  | None => raise AttributeError
  end.

(** The branches of [if choice == '1': ... elif ...]. *)
Definition dispatch (st : state) (choice : string) : M turn :=
  if String.eqb choice "1" then
    answer <- input (AskText "Keep oldest files? (Y/n): ") ;;
    let keep_oldest := keeps_oldest (PyStr.lower (PyStr.strip answer)) in
    print (LnText "Starting interactive deletion...") ;;;
    found <- items_of (duplicates st) ;;
    '(deleted_count, reclaimed_space) <-
      lift (DoubleTerminator.delete_interactive found keep_oldest) ;;
    print (LnDeleted deleted_count) ;;;
    print (LnReclaimed reclaimed_space) ;;;
    ret (Again (mkstate (directory st) (include_subfolders st) keep_oldest None
                        (total_duplicates st)))
  else if String.eqb choice "2" then
    match total_duplicates st with
    | None => raise UnboundLocalError
    | Some total =>
        answer <- input (AskBulk total) ;;
        let confirm := PyStr.lower (PyStr.strip answer) in
        if negb (String.eqb confirm "y") then
          print (LnText "Operation cancelled") ;;;
          ret (Again st)
        else
          answer <- input (AskText "Keep oldest files? (Y/n): ") ;;
          let keep_oldest := keeps_oldest (PyStr.lower (PyStr.strip answer)) in
          print (LnText "Deleting all duplicates...") ;;;
          found <- items_of (duplicates st) ;;
          '(deleted_count, reclaimed_space) <-
            lift (DoubleTerminator.delete_duplicates found keep_oldest) ;;
          print (LnDeleted deleted_count) ;;;
          print (LnReclaimed reclaimed_space) ;;;
          print (LnText "Bulk deletion complete!") ;;;
          ret (Again (mkstate (directory st) (include_subfolders st) keep_oldest None
                              (total_duplicates st)))
    end
  else if String.eqb choice "3" then
    answer <- input (AskText "Enter new directory (or press Enter to keep current): ") ;;
    let new_dir := PyStr.strip answer in
    if nonempty new_dir then
      is_dir <- os_path_isdir new_dir ;;
      if is_dir then
        let directory := os_path_abspath new_dir in
        print (LnChangedTo directory) ;;;
        ret (Again (mkstate directory (include_subfolders st) (keep_oldest st) None
                            (total_duplicates st)))
      else
        print (LnNotFound new_dir) ;;;
        ret (Again st)
    else
      print (LnText "Keeping current directory") ;;;
      ret (Again st)
  else if String.eqb choice "4" then
    listed <- show_duplicates_list (duplicates st) ;;
    ret (Again (mkstate (directory st) (include_subfolders st) (keep_oldest st)
                        (Some listed) (total_duplicates st)))
  else if String.eqb choice "5" then
    print (LnText "Rescanning directory...") ;;;
    ret (Again (mkstate (directory st) (include_subfolders st) (keep_oldest st) None
                        (total_duplicates st)))
  else if String.eqb choice "6" then
    print (LnText "Goodbye!") ;;;
    ret Break
  else
    print (LnText "Invalid option. Please try again.") ;;;
    ret (Again st).

(** One turn of [while True]. *)
Definition turn_of (st : state) : M turn :=
  if is_protected_directory (directory st) then ask_safe_directory st
  else
    st <- scan_if_needed st ;;
    '(st, choice) <- ask_choice st ;;
    dispatch st choice.

(** [while True]: [None] when the turns allowed are used up. *)
Fixpoint loop (turns : nat) (st : state) : M (option unit) :=
  match turns with
  | O => ret None
  | S turns' =>
      next <- turn_of st ;;
      match next with
      | Again st' => loop turns' st'
      | Break => ret (Some tt)
      end
  end.

(** The interactive run, up to the loop. *)
Definition main_interactive (turns : nat) : M (option unit) :=
  print (LnText "DUPLICATE TERMINATOR - INTERACTIVE MODE") ;;;
  default_dir <- get_safe_default_directory ;;
  answer <- input (AskDirectory default_dir) ;;
  let directory_input := PyStr.strip answer in
  directory <-
    (if nonempty directory_input then
       is_dir <- os_path_isdir directory_input ;;
       if is_dir then ret (os_path_abspath directory_input)
       else
         print (LnNotFound directory_input) ;;;
         print (LnUsingDefault default_dir) ;;;
         ret default_dir
     else ret default_dir) ;;
  loop turns (mkstate directory false true None None).

(** [main()], for a run whose loop makes at most [turns] turns. *)
Definition main (turns : nat) (sys_argv : list string) : M (option unit) :=
  match sys_argv with
  | _ :: directory :: _ =>
      main_with_arguments sys_argv directory ;;;
      ret (Some tt)
  | _ => main_interactive turns
  end.

End Program.

End Main.

(** ** sorttofolders.py: the organizer *)

Module Organizer.
Import OS.

(** *** [posixpath.splitext] *)

(** [s.rfind(c)] for one character: the last position of [c], [-1] when
    there is none. *)
Fixpoint rfind_from (c : ascii) (s : string) (i last : Z) : Z :=
  match s with
  | EmptyString => last
  | String a s' => rfind_from c s' (i + 1) (if Ascii.eqb a c then i else last)
  end.

Definition rfind (c : ascii) (s : string) : Z := rfind_from c s 0 (-1).

(** [p[:i]] and [p[i:]] for [0 <= i]. *)
Definition upto (p : string) (i : Z) : string := substring 0 (Z.to_nat i) p.

Definition from (p : string) (i : Z) : string :=
  substring (Z.to_nat i) (String.length p - Z.to_nat i) p.

(** The [while filenameIndex < dotIndex] loop of [genericpath._splitext]:
    it returns from the function at the first character that is no dot. *)
Fixpoint skip_leading_dots (p : string) (filenameIndex dotIndex : Z) (turns : nat)
    : option (string * string) :=
  match turns with
  | O => None
  | S turns' =>
      if filenameIndex <? dotIndex then
        match String.get (Z.to_nat filenameIndex) p with
        | Some "."%char => skip_leading_dots p (filenameIndex + 1) dotIndex turns'
        | _ => Some (upto p dotIndex, from p dotIndex)
        end
      else None
  end.

(** [os.path.splitext(p)] of [posixpath]: [sep] is ['/'], there is no
    [altsep], [extsep] is ['.']. *)
Definition splitext (p : string) : string * string :=
  let sepIndex := rfind "/"%char p in
  let dotIndex := rfind "."%char p in
  if sepIndex <? dotIndex then
    match skip_leading_dots p (sepIndex + 1) dotIndex (Z.to_nat (dotIndex - sepIndex)) with
    | Some parts => parts
    | None => (p, EmptyString)
    end
  else (p, EmptyString).

(** *** The categories *)

(** [get_file_categories()]: the dict, in the order of its keys. *)
Definition get_file_categories : list (string * list string) :=
  [ ("Images", [".jpg"; ".jpeg"; ".png"; ".gif"; ".bmp"; ".tiff"; ".svg"; ".webp";
                ".heic"; ".raw"]);
    ("Documents", [".pdf"; ".doc"; ".docx"; ".txt"; ".rtf"; ".xls"; ".xlsx"; ".ppt";
                   ".pptx"; ".odt"; ".ods"; ".odp"]);
    ("Archives", [".zip"; ".rar"; ".7z"; ".tar"; ".gz"; ".bz2"; ".xz"]);
    ("Audio", [".mp3"; ".wav"; ".flac"; ".aac"; ".ogg"; ".wma"; ".m4a"]);
    ("Video", [".mp4"; ".avi"; ".mov"; ".wmv"; ".flv"; ".mkv"; ".m4v"; ".webm"; ".mpeg";
               ".mpg"]);
    ("Code", [".py"; ".js"; ".html"; ".css"; ".java"; ".cpp"; ".c"; ".php"; ".rb"; ".xml";
              ".json"; ".yaml"; ".yml"]);
    ("Executables", [".exe"; ".msi"; ".deb"; ".rpm"; ".appimage"; ".bat"; ".sh"; ".cmd"]);
    ("Data", [".csv"; ".json"; ".xml"; ".sql"; ".db"; ".sqlite"; ".sqlite3"]);
    ("Fonts", [".ttf"; ".otf"; ".woff"; ".woff2"; ".eot"]);
    ("Other", []) ].

(** [next((k for k, v in categories.items() if ext in v), 'Other')]. *)
Fixpoint first_category (categories : list (string * list string)) (ext : string) : string :=
  match categories with
  | [] => "Other"
  | (k, v) :: categories' => if PyStr.mem ext v then k else first_category categories' ext
  end.

(** The first two statements of the body of the loop of [organize_files]:
    the category of a file name. *)
Definition category_of (filename : string) : string :=
  let ext := PyStr.lower (snd (splitext filename)) in
  first_category get_file_categories ext.

(** *** The world of the organizer *)

Inductive line :=
| LnProtected
| LnNotFound (directory : string)
| LnNotADirectory (directory : string)
| LnScanning (directory : string)
| LnNoFiles
| LnFound (files : Z)
| LnInvalidMode
| LnErrorMoving (filename : string)
| LnNewline
| LnOrganized (moved : Z)
| LnSkipped (skipped : Z)
| LnErrors (errors : Z).

Inductive event :=
| Print (l : line)
| Progress (prefix : string) (progress total : Z)
| Exists (p : path)                    (* os.path.exists *)
| Isdir (p : path)                     (* os.path.isdir *)
| Walk (top : path)                    (* os.walk *)
| Listdir (d : path)                   (* os.listdir *)
| Isfile (p : path)                    (* os.path.isfile *)
| Getmtime (p : path)                  (* os.path.getmtime *)
| Makedirs (p : path)                  (* os.makedirs(..., exist_ok=True) *)
| Move (src dst : path).               (* shutil.move *)

Record world := mkworld {
  w_root : node;
  w_trace : list event
}.

(** A computation of the organizer: it returns or raises. *)
Definition M (A : Type) : Type := world -> option A * world.

Definition ret {A : Type} (a : A) : M A := fun w => (Some a, w).

Definition raise {A : Type} : M A := fun w => (None, w).

Definition bind {A B : Type} (m : M A) (k : A -> M B) : M B :=
  fun w =>
    match m w with
    | (Some a, w') => k a w'
    | (None, w') => (None, w')
    end.

(** [try: body except Exception: handler]. *)
Definition try_except {A : Type} (body handler : M A) : M A :=
  fun w =>
    match body w with
    | (None, w') => handler w'
    | r => r
    end.

Definition emit (e : event) : M unit :=
  fun w => (Some tt, mkworld (w_root w) (w_trace w ++ [e])).

Definition print (l : line) : M unit := emit (Print l).

Fixpoint for_each {X S : Type} (xs : list X) (body : S -> X -> M S) (s : S) : M S :=
  match xs with
  | [] => ret s
  | x :: xs' => bind (body s x) (fun s' => for_each xs' body s')
  end.

Fixpoint filter_m {X : Type} (f : X -> M bool) (xs : list X) : M (list X) :=
  match xs with
  | [] => ret []
  | x :: xs' =>
      bind (f x) (fun b =>
      bind (filter_m f xs') (fun ys => ret (if b then x :: ys else ys)))
  end.

Declare Scope organizer_scope.
Delimit Scope organizer_scope with organizer.
Notation "x <- m ;; k" := (bind m (fun x => k))
  (at level 61, m at next level, right associativity) : organizer_scope.
Notation "' pat <- m ;; k" := (bind m (fun x => match x with pat => k end))
  (at level 61, pat pattern, m at next level, right associativity) : organizer_scope.
Notation "m ;;; k" := (bind m (fun _ => k))
  (at level 61, right associativity) : organizer_scope.
Local Open Scope organizer_scope.

(** The world after more events, the tree as it was. *)
Definition log (w : world) (evs : list event) : world :=
  mkworld (w_root w) (w_trace w ++ evs).

(** [m] adds to the trace only events that have [P]. *)
Definition adds {A : Type} (P : event -> Prop) (m : M A) : Prop :=
  forall w, exists evs,
    w_trace (snd (m w)) = (w_trace w ++ evs)%list /\ Forall P evs.

(** [m] returns, whatever the world; what [m] returns has [Q]; the tree
    [m] leaves is related by [R] to the tree it found. *)
Definition returns {A : Type} (m : M A) : Prop := forall w, fst (m w) <> None.

Definition returns_only {A : Type} (Q : A -> Prop) (m : M A) : Prop :=
  forall w a w', m w = (Some a, w') -> Q a.

Definition evolves {A : Type} (R : node -> node -> Prop) (m : M A) : Prop :=
  forall w, R (w_root w) (w_root (snd (m w))).

(** *** System calls *)

(** [os.path.exists(p)]: a broken link does not exist. *)
Definition exists_in (root : node) (p : path) : bool :=
  match stat root p with
  | Some (IFile _) | Some (IDir _ _) => true
  | _ => false
  end.

Definition os_path_exists (p : path) : M bool :=
  emit (Exists p) ;;; fun w => (Some (exists_in (w_root w) p), w).

Definition os_path_isdir (p : path) : M bool :=
  emit (Isdir p) ;;;
  fun w => (Some (match lookup (w_root w) p with
                  | Some n => is_dir n
                  | None => false
                  end), w).

Definition os_path_isfile (p : path) : M bool :=
  emit (Isfile p) ;;; fun w => (Some (DoubleTerminator.is_file (w_root w) p), w).

(** [os.walk(top)], run to its end when it is called. *)
Definition os_walk (top : path) : M (list (path * list string * list string)) :=
  emit (Walk top) ;;;
  fun w => (Some (match lookup (w_root w) top with
                  | Some n => walk_from top n
                  | None => []
                  end), w).

Definition os_listdir (d : path) : M (list string) :=
  emit (Listdir d) ;;;
  fun w =>
    match lookup (w_root w) d with
    | Some (Dir _ _ entries) => (Some (map fst entries), w)
    | _ => (None, w)
    end.

Definition os_path_getmtime (p : path) : M Z :=
  emit (Getmtime p) ;;; fun w => (stat_mtime (w_root w) p, w).

Definition os_makedirs (p : path) : M unit :=
  emit (Makedirs p) ;;;
  fun w =>
    match Main.makedirs (w_root w) p with
    | Some root' => (Some tt, mkworld root' (w_trace w))
    | None => (None, w)
    end.

(** [os.path.join(d, name)] where [name] may be empty: [d/] is [d]. *)
Definition join_folder (d : path) (name : string) : path :=
  match name with
  | EmptyString => d
  | _ => join d name
  end.

(** [progress_bar(progress, total, prefix=...)]: the event stands for the
    line written to the terminal; nothing is written when [total] is 0. *)
Definition progress_bar (progress total : Z) (prefix : string) : M unit :=
  if total =? 0 then ret tt else emit (Progress prefix progress total).

(** How a turn of the loop over [file_list] ends: with the counters
    [(moved, errors, skipped)], or with [return False]. *)
Inductive turn :=
| Next (moved errors skipped : Z)
| ReturnFalse.

Section Platform.

(** The platform: [os.path.abspath], where a directory name leads in the
    tree, [datetime.fromtimestamp] (which raises on a time out of its
    range), the five date formats by number, and [shutil.move], which
    succeeds or raises and leaves a tree. *)
Variable os_path_abspath : string -> string.
Variable locate : string -> path.
Variable datetime : Type.
Variable datetime_fromtimestamp : Z -> option datetime.
Variable format_date : Z -> datetime -> string.
Variable shutil_move : node -> path -> path -> bool * node.

Definition is_protected_directory : string -> bool :=
  SortToFolders.is_protected_directory os_path_abspath.

Definition move (src dst : path) : M unit :=
  emit (Move src dst) ;;;
  fun w =>
    let '(done, root') := shutil_move (w_root w) src dst in
    ((if done then Some tt else None), mkworld root' (w_trace w)).

Definition fromtimestamp (mod_time : Z) : M datetime :=
  fun w => (datetime_fromtimestamp mod_time, w).

(** [[f for f in files if not f.startswith('.') and
      os.path.isfile(os.path.join(root, f))]]. *)
Definition visible_files (root : path) (files : list string) : M (list string) :=
  filter_m (fun f =>
              if negb (PyStr.startswith "." f) then os_path_isfile (join root f)
              else ret false) files.

(** The first walk: [total_files]. *)
Definition count_files (directory : path) : M Z :=
  triples <- os_walk directory ;;
  for_each triples (fun total_files '(root, _, files) =>
    found <- visible_files root files ;;
    ret (total_files + Py.len found)) 0.

(** The body of [for file in files] of the second walk; the loop's
    variables are [file_list] and [processed_files]. *)
Definition collect_file (show_progress : bool) (total_files : Z) (root : path)
    (st : list (path * string) * Z) (file : string) : M (list (path * string) * Z) :=
  let '(file_list, processed_files) := st in
  if PyStr.startswith "." file then ret st
  else
    let file_path := join root file in
    is_file <- os_path_isfile file_path ;;
    if is_file then
      let processed_files := processed_files + 1 in
      (if (show_progress && (processed_files mod 10 =? 0))%bool
       then progress_bar processed_files total_files "Scanning files"
       else ret tt) ;;;
      ret ((file_list ++ [(file_path, file)])%list, processed_files)
    else ret st.

(** The second walk. *)
Definition collect_files (directory : path) (show_progress : bool) (total_files : Z)
    : M (list (path * string)) :=
  triples <- os_walk directory ;;
  '(file_list, _) <-
    for_each triples (fun st '(root, _, files) =>
      for_each files (collect_file show_progress total_files root) st) ([], 0) ;;
  ret file_list.

(** [[f for f in os.listdir(directory)
      if os.path.isfile(os.path.join(directory, f)) and not f.startswith('.')]]. *)
Definition listed_files (directory : path) : M (list string) :=
  names <- os_listdir directory ;;
  filter_m (fun f =>
              is_file <- os_path_isfile (join directory f) ;;
              ret (is_file && negb (PyStr.startswith "." f))%bool) names.

(** [for i, file in enumerate(files)] of the scan without subfolders. *)
Definition collect_listed (directory : path) (show_progress : bool) (total_files : Z)
    (files : list string) : M (list (path * string)) :=
  for_each (DoubleTerminator.enumerate files 0) (fun file_list '(i, file) =>
    (if (show_progress && (i mod 10 =? 0))%bool
     then progress_bar (i + 1) total_files "Scanning files"
     else ret tt) ;;;
    ret (file_list ++ [(join directory file, file)])%list) [].

(** [date_folder], for the modes that use a date. *)
Definition date_folder_of (mode date_format : Z) (mod_date : datetime) : string :=
  if ((mode =? 2) || (mode =? 3))%bool then
    if date_format =? 1 then format_date 1 mod_date
    else if date_format =? 2 then format_date 2 mod_date
    else if date_format =? 3 then format_date 3 mod_date
    else if date_format =? 4 then format_date 4 mod_date
    else if date_format =? 5 then format_date 5 mod_date
    else EmptyString
  else EmptyString.

(** [target_dir]: [None] when the mode is none of the three. *)
Definition target_dir_of (directory : path) (mode : Z) (category date_folder : string)
    : option path :=
  if mode =? 1 then Some (join_folder directory category)
  else if mode =? 2 then Some (join_folder directory date_folder)
  else if mode =? 3 then Some (join_folder (join_folder directory category) date_folder)
  else None.

(** The [try] block of the loop over [file_list], for the file [i]. *)
Definition organize_file (directory : path) (mode date_format : Z) (show_progress : bool)
    (files : Z) (moved errors skipped : Z) (i : Z) (file_path : path) (filename : string)
    : M turn :=
  let category := category_of filename in
  mod_time <- os_path_getmtime file_path ;;
  mod_date <- fromtimestamp mod_time ;;
  let date_folder := date_folder_of mode date_format mod_date in
  match target_dir_of directory mode category date_folder with
  | None =>
      print LnInvalidMode ;;;
      ret ReturnFalse
  | Some target_dir =>
      os_makedirs target_dir ;;;
      let target_path := join target_dir filename in
      present <- os_path_exists target_path ;;
      if present then ret (Next moved errors (skipped + 1))
      else
        move file_path target_path ;;;
        let moved := moved + 1 in
        (if (show_progress && ((i + 1) mod 10 =? 0))%bool
         then progress_bar (i + 1) files "Organizing files"
         else ret tt) ;;;
        ret (Next moved errors skipped)
  end.

(** [for i, (file_path, filename) in enumerate(file_list)], with its
    [try] and [except Exception]; [ReturnFalse] leaves the loop. *)
Fixpoint organize_each (directory : path) (mode date_format : Z) (show_progress : bool)
    (files : Z) (file_list : list (Z * (path * string))) (moved errors skipped : Z)
    : M turn :=
  match file_list with
  | [] => ret (Next moved errors skipped)
  | (i, (file_path, filename)) :: file_list' =>
      next <- try_except
                (organize_file directory mode date_format show_progress files
                   moved errors skipped i file_path filename)
                (print (LnErrorMoving filename) ;;;
                 ret (Next moved (errors + 1) skipped)) ;;
      match next with
      | Next moved' errors' skipped' =>
          organize_each directory mode date_format show_progress files file_list'
            moved' errors' skipped'
      | ReturnFalse => ret ReturnFalse
      end
  end.

(** The scan for files: [total_files], and [file_list] unless the function
    is left for want of files. *)
Definition scan_for_files (directory : path) (include_subfolders show_progress : bool)
    : M (Z * option (list (path * string))) :=
  if include_subfolders then
    total_files <- count_files directory ;;
    if total_files =? 0 then ret (total_files, None)
    else
      file_list <- collect_files directory show_progress total_files ;;
      ret (total_files, Some file_list)
  else
    files <- listed_files directory ;;
    let total_files := Py.len files in
    if total_files =? 0 then ret (total_files, None)
    else
      file_list <- collect_listed directory show_progress total_files files ;;
      ret (total_files, Some file_list).

(** The lines after the loop. *)
Definition report (show_progress : bool) (files moved errors skipped : Z) : M unit :=
  (if show_progress then
     progress_bar files files "Organizing files" ;;;
     print LnNewline
   else ret tt) ;;;
  print (LnOrganized moved) ;;;
  (if 0 <? skipped then print (LnSkipped skipped) else ret tt) ;;;
  (if 0 <? errors then print (LnErrors errors) else ret tt).

(** [organize_files(directory, mode, date_format, include_subfolders,
    show_progress)]. *)
Definition organize_files (directory : string) (mode date_format : Z)
    (include_subfolders show_progress : bool) : M bool :=
  let place := locate directory in
  if is_protected_directory directory then
    print LnProtected ;;;
    ret false
  else
    present <- os_path_exists place ;;
    if negb present then
      print (LnNotFound directory) ;;;
      ret false
    else
      is_dir <- os_path_isdir place ;;
      if negb is_dir then
        print (LnNotADirectory directory) ;;;
        ret false
      else
        print (LnScanning directory) ;;;
        '(total_files, found) <- scan_for_files place include_subfolders show_progress ;;
        match found with
        | None =>
            print LnNoFiles ;;;
            ret false
        | Some file_list =>
            (if show_progress then
               progress_bar total_files total_files "Scanning files" ;;;
               print LnNewline
             else ret tt) ;;;
            print (LnFound (Py.len file_list)) ;;;
            next <- organize_each place mode date_format show_progress (Py.len file_list)
                      (DoubleTerminator.enumerate file_list 0) 0 0 0 ;;
            match next with
            | ReturnFalse => ret false
            | Next moved errors skipped =>
                report show_progress (Py.len file_list) moved errors skipped ;;;
                ret true
            end
        end.

End Platform.

(** The events of the loop over the files of [directory]: a move takes a
    file that is not hidden from somewhere below [directory] to the folder
    of its category or date, under its own name. *)
Definition organizing (directory : path) (mode : Z) (e : event) : Prop :=
  match e with
  | Getmtime _ | Exists _ | Progress "Organizing files" _ _
  | Print (LnErrorMoving _) | Print LnInvalidMode => True
  | Makedirs target_dir =>
      exists filename date_folder,
        target_dir_of directory mode (category_of filename) date_folder = Some target_dir
  | Move src dst =>
      exists filename rel date_folder target_dir,
        PyStr.startswith "." filename = false
        /\ src = (directory ++ rel ++ [filename])%list
        /\ target_dir_of directory mode (category_of filename) date_folder = Some target_dir
        /\ dst = join target_dir filename
  | _ => False
  end.

(** The number of lines [Error moving ...] among some events. *)
Definition error_lines (evs : list event) : Z :=
  Py.len (filter (fun e => match e with
                           | Print (LnErrorMoving _) => true
                           | _ => false
                           end) evs).

(** A [shutil.move] onto a name that is not there: every other path is as
    it was; a move that succeeds has put the source at the destination,
    a move that raises has left the source where it was. *)
Definition moves_files (shutil_move : node -> path -> path -> bool * node) : Prop :=
  forall root src dst,
    exists_in root dst = false ->
    (forall q, q <> src -> q <> dst ->
       stat (snd (shutil_move root src dst)) q = stat root q)
    /\ (fst (shutil_move root src dst) = true ->
        stat (snd (shutil_move root src dst)) dst = stat root src
        /\ stat (snd (shutil_move root src dst)) src = None)
    /\ (fst (shutil_move root src dst) = false ->
        stat (snd (shutil_move root src dst)) src = stat root src).

(** The tree with [c] at [p], in place of what the name held or as a new
    entry: [None] when [p] is the root or its parent is no directory. *)
Fixpoint put (n : node) (p : path) (c : node) : option node :=
  match p, n with
  | name :: rest, Dir mtime size entries =>
      match rest with
      | [] =>
          Some (Dir mtime size
                  (match find_entry name entries with
                   | Some _ => set_entry name c entries
                   | None => (entries ++ [(name, c)])%list
                   end))
      | _ :: _ =>
          match find_entry name entries with
          | Some d =>
              option_map (fun d' => Dir mtime size (set_entry name d' entries))
                         (put d rest c)
          | None => None
          end
      end
  | _, _ => None
  end.

(** A [shutil.move] of a regular file within one file system: [os.rename],
    which needs what [os.remove] needs and a directory to put the name in. *)
Definition rename (root : node) (src dst : path) : bool * node :=
  match lookup root src with
  | Some (File f) =>
      if removable root src then
        match put (unlink root src) dst (File f) with
        | Some root' => (true, root')
        | None => (false, root)
        end
      else (false, root)
  | _ => (false, root)
  end.

End Organizer.

(** ** A small world for the organizer *)

Module OrganizerExamples.
Import OS.

(** A directory with a picture whose name is taken in [Images], a text
    that may not be unlinked, a hidden file, a JSON file, a broken entry
    and a picture in a subdirectory. *)
Definition photos : node :=
  Dir 0 4096
      [ ("a.JPG", File (mkfile "xx" 10 true None true));
        ("notes.txt", File (mkfile "hello" 20 true None false));
        (".hidden", File (mkfile "zz" 5 true None true));
        ("data.json", File (mkfile "{}" 30 true None true));
        ("lost", Broken);
        ("Images", Dir 1 4096 [ ("a.JPG", File (mkfile "old" 1 true None true)) ]);
        ("sub", Dir 1 4096 [ ("b.png", File (mkfile "png" 2 true None true)) ]) ].

(** [organize_files] on [photos], on a platform whose moves rename and
    whose dates all read [2024]. *)
Definition organize_photos (mode : Z) (include_subfolders : bool)
    : option bool * Organizer.world :=
  Organizer.organize_files (fun p => p) (fun _ => []) Z Some (fun _ _ => "2024")
    Organizer.rename "/home/u/photos" mode 2 include_subfolders true
    (Organizer.mkworld photos []).

End OrganizerExamples.

(** * Properties *)

(** ** Strings *)

Lemma startswith_iff (p s : string) :
  PyStr.startswith p s = true <-> exists post, s = p ++ post.
Proof.
  revert s; induction p as [|a p IH]; intros s; simpl.
  - split; [intros _; exists s; reflexivity | reflexivity].
  - destruct s as [|b s]; simpl.
    + split; [discriminate | intros [post H]; discriminate].
    + rewrite andb_true_iff, Ascii.eqb_eq, IH. split.
      * intros [-> [post ->]]. exists post. reflexivity.
      * intros [post H]. injection H as -> ->. split; [reflexivity | eauto].
Qed.

Lemma contains_iff (p s : string) :
  PyStr.contains p s = true <-> PyStr.Substring p s.
Proof.
  unfold PyStr.Substring. induction s as [|c s IH]; simpl.
  - rewrite orb_false_r, startswith_iff. split.
    + intros [post H]. exists EmptyString, post. exact H.
    + intros [pre [post H]]. destruct pre; simpl in H; [eauto | discriminate].
  - rewrite orb_true_iff, startswith_iff, IH. split.
    + intros [[post H] | [pre [post H]]].
      * exists EmptyString, post. exact H.
      * exists (String c pre), post. simpl. now rewrite H.
    + intros [pre [post H]]. destruct pre as [|c' pre]; simpl in H.
      * left. eauto.
      * right. injection H as -> ->. eauto.
Qed.

Lemma split_nonempty (sep : ascii) (s : string) : PyStr.split sep s <> [].
Proof.
  destruct s as [|c s]; simpl; [discriminate |].
  destruct (Ascii.eqb c sep); [discriminate |].
  destruct (PyStr.split sep s); discriminate.
Qed.

(** A string with no separator is its own single component. *)
Lemma split_no_sep (sep : ascii) (s : string) :
  PyStr.contains (String sep EmptyString) s = false -> PyStr.split sep s = [s].
Proof.
  induction s as [|c s IH]; simpl; [reflexivity |].
  rewrite (Ascii.eqb_sym sep c).
  destruct (Ascii.eqb c sep); simpl; [discriminate |].
  intros H. rewrite IH by exact H. reflexivity.
Qed.

(** Splitting distributes over a separator. *)
Lemma split_app_sep (sep : ascii) (a b : string) :
  PyStr.split sep (a ++ String sep b) = (PyStr.split sep a ++ PyStr.split sep b)%list.
Proof.
  induction a as [|c a IH]; simpl.
  - rewrite Ascii.eqb_refl. reflexivity.
  - destruct (Ascii.eqb c sep); [now rewrite IH |].
    rewrite IH. destruct (PyStr.split sep a) eqn:E; [|reflexivity].
    now apply split_nonempty in E.
Qed.

Lemma string_app_assoc (a b c : string) : (a ++ b) ++ c = a ++ (b ++ c).
Proof. induction a; simpl; congruence. Qed.

Lemma string_length_app (a b : string) :
  String.length (a ++ b) = (String.length a + String.length b)%nat.
Proof. induction a; simpl; congruence. Qed.

(** A reserved segment [/x/] inside a path makes [x] one of its inner
    components. *)
Lemma inner_component (x s : string) :
  PyStr.contains "/" x = false ->
  PyStr.contains ("/" ++ x ++ "/") s = true ->
  exists before after,
    before <> [] /\ after <> [] /\
    PyStr.split "/"%char s = (before ++ x :: after)%list.
Proof.
  intros Hx H. apply contains_iff in H. destruct H as [pre [post ->]].
  exists (PyStr.split "/"%char pre), (PyStr.split "/"%char post).
  split; [apply split_nonempty | split; [apply split_nonempty |]].
  change (pre ++ ("/" ++ x ++ "/") ++ post)
    with (pre ++ String "/"%char ((x ++ "/") ++ post)).
  rewrite split_app_sep. f_equal.
  rewrite string_app_assoc. change ("/" ++ post) with (String "/"%char post).
  rewrite split_app_sep, (split_no_sep _ x Hx). reflexivity.
Qed.

(** ** The directory guards *)

Lemma protected_paths_reserved :
  DoubleTerminator.protected_paths = map (fun x => "/" ++ x ++ "/") DoubleTerminator.reserved_names.
Proof. reflexivity. Qed.

Lemma reserved_segment_inner (s : string) :
  existsb (fun p => PyStr.contains p s) DoubleTerminator.protected_paths = true ->
  exists x before after,
    In x DoubleTerminator.reserved_names /\ before <> [] /\ after <> [] /\
    PyStr.split "/"%char s = (before ++ x :: after)%list.
Proof.
  intros H. apply existsb_exists in H. destruct H as [p [Hp H]].
  rewrite protected_paths_reserved in Hp. apply in_map_iff in Hp.
  destruct Hp as [x [<- Hx]].
  assert (Hfree : PyStr.contains "/" x = false).
  { assert (F : forallb (fun x => negb (PyStr.contains "/" x))
                        DoubleTerminator.reserved_names = true)
      by reflexivity.
    rewrite forallb_forall in F. apply F in Hx. now apply negb_true_iff in Hx. }
  destruct (inner_component x s Hfree H) as [before [after [Hb [Ha E]]]].
  exists x, before, after. auto.
Qed.

(** C9 (amended).  The guard of the duplicate engine has no rule for the
    users directory: a path whose normalized form is [<drive>/users], and a
    path whose normalized form is [<drive>/users/<name>], an immediate
    subdirectory, are both classified not protected. *)
Theorem duplicate_guard_has_no_users_rule
    (os_path_abspath : string -> string) (path drive name : string) :
  PyStr.contains "/" drive = false ->
  PyStr.contains "/" name = false ->
  DoubleTerminator.path_lower os_path_abspath path = drive ++ "/users" \/
  DoubleTerminator.path_lower os_path_abspath path = drive ++ "/users/" ++ name ->
  DoubleTerminator.is_protected_directory os_path_abspath path = false.
Proof.
  intros Hd Hn Hpl. unfold DoubleTerminator.is_protected_directory.
  set (pl := DoubleTerminator.path_lower os_path_abspath path) in *.
  assert (Hlen : (String.length pl <=? 3)%nat = false).
  { apply Nat.leb_gt. destruct Hpl as [-> | ->]; rewrite string_length_app; simpl; lia. }
  rewrite Hlen. simpl andb. cbv iota.
  destruct (existsb _ _) eqn:E; [exfalso | reflexivity].
  apply reserved_segment_inner in E.
  destruct E as [x [before [after [Hx [Hb [Ha E]]]]]].
  assert (Hsplit : PyStr.split "/"%char pl = [drive; "users"]
                   \/ PyStr.split "/"%char pl = [drive; "users"; name]).
  { destruct Hpl as [-> | ->]; [left | right].
    - change (drive ++ "/users") with (drive ++ String "/"%char "users").
      rewrite split_app_sep, (split_no_sep _ drive Hd). reflexivity.
    - change (drive ++ "/users/" ++ name)
        with (drive ++ String "/"%char ("users" ++ String "/"%char name)).
      rewrite !split_app_sep, (split_no_sep _ drive Hd), (split_no_sep _ name Hn).
      reflexivity. }
  assert (Hu : In "users" DoubleTerminator.reserved_names).
  { destruct Hsplit as [Hs | Hs]; rewrite Hs in E.
    - apply (f_equal (@List.length string)) in E. rewrite length_app in E.
      destruct before, after; simpl in E; try congruence; lia.
    - destruct before as [|b1 [|b2 before]]; [congruence | |].
      + simpl in E. injection E as _ Ex _. now rewrite Ex.
      + apply (f_equal (@List.length string)) in E. simpl in E.
        rewrite length_app in E. destruct after; simpl in E; try congruence; lia. }
  simpl in Hu. repeat (destruct Hu as [Hu | Hu]; [discriminate Hu |]). exact Hu.
Qed.

(** C9, at work: [/users/alice] on POSIX. *)
Lemma duplicate_guard_has_no_users_rule_witness :
  DoubleTerminator.is_protected_directory (PosixPath.abspath "/home/alice") "/users/alice"
  = false.
Proof.
  apply (duplicate_guard_has_no_users_rule _ _ EmptyString "alice");
    [reflexivity | reflexivity | right; reflexivity].
Defined.

(** C9 as stated fails: the guard of the duplicate engine answers [false]
    for the users directory itself, [/users] as well as [C:\Users]. *)
Lemma users_root_not_protected :
  DoubleTerminator.is_protected_directory (PosixPath.abspath "/home/alice") "/users" = false
  /\ DoubleTerminator.is_protected_directory (fun p => p) "C:\Users" = false.
Proof. split; reflexivity. Qed.




(** ** Running computations that only read *)

Import OS Examples.

Lemma log_root (w : world) (evs : list event) : w_root (log w evs) = w_root w.
Proof. reflexivity. Qed.

Lemma log_nil (w : world) : log w [] = w.
Proof. destruct w; unfold log; simpl. now rewrite app_nil_r. Qed.

Lemma log_log (w : world) (a b : list event) : log (log w a) b = log w (a ++ b).
Proof. unfold log; simpl. now rewrite app_assoc. Qed.

Lemma emit_run (e : event) (w : world) : emit e w = (Ok tt, log w [e]).
Proof. reflexivity. Qed.

Section Runs.
Context {A : Type} (root : node).

Lemma runs_ret (a : A) (P : event -> Prop) : runs root (ret a) (Ok a) P.
Proof. intros w _. exists []. rewrite log_nil. split; [reflexivity | constructor]. Qed.

Lemma runs_weaken (m : M A) (res : result A) (P Q : event -> Prop) :
  (forall e, P e -> Q e) -> runs root m res P -> runs root m res Q.
Proof.
  intros HPQ H w Hw. destruct (H w Hw) as [evs [E F]].
  exists evs. split; [exact E | eapply Forall_impl; eauto].
Qed.

Lemma runs_bind {B : Type} (m : M B) (k : B -> M A) (b : B) (res : result A)
    (P : event -> Prop) :
  runs root m (Ok b) P -> runs root (k b) res P -> runs root (bind m k) res P.
Proof.
  intros Hm Hk w Hw. destruct (Hm w Hw) as [e1 [E1 F1]].
  destruct (Hk (log w e1)) as [e2 [E2 F2]]; [now rewrite log_root |].
  exists (e1 ++ e2)%list. unfold bind. rewrite E1, E2, log_log.
  split; [reflexivity | now apply Forall_app].
Qed.

Lemma runs_bind_raise {B : Type} (m : M B) (k : B -> M A) (e : exn)
    (P : event -> Prop) :
  runs root m (Raise e) P -> runs root (bind m k) (Raise e) P.
Proof.
  intros Hm w Hw. destruct (Hm w Hw) as [e1 [E1 F1]].
  exists e1. unfold bind. now rewrite E1.
Qed.

Lemma runs_try_ok (body handler : M A) (a : A) (P : event -> Prop) :
  runs root body (Ok a) P -> runs root (try_except body handler) (Ok a) P.
Proof.
  intros Hb w Hw. destruct (Hb w Hw) as [e1 [E1 F1]].
  exists e1. unfold try_except. now rewrite E1.
Qed.

Lemma runs_try_caught (body handler : M A) (res : result A) (P : event -> Prop) :
  runs root body (Raise OSError) P -> runs root handler res P ->
  runs root (try_except body handler) res P.
Proof.
  intros Hb Hh w Hw. destruct (Hb w Hw) as [e1 [E1 F1]].
  destruct (Hh (log w e1)) as [e2 [E2 F2]]; [now rewrite log_root |].
  exists (e1 ++ e2)%list. unfold try_except. rewrite E1, E2, log_log.
  split; [reflexivity | now apply Forall_app].
Qed.

End Runs.

(** An event of the head, and an event of an element of the tail, is an
    event of an element of the list. *)
Ltac of_head x := intros ? ?; exists x; split; [now left | assumption].
Ltac of_tail := intros ? [? [? ?]]; eexists; split; [right; eassumption | assumption].

(** A loop whose body only reads computes a fold, and each of its events
    belongs to one of the elements it ran over. *)
Lemma runs_for_each {X S : Type} (root : node) (body : S -> X -> M S)
    (step : S -> X -> S) (P : X -> event -> Prop) (xs : list X) :
  (forall s x, In x xs -> runs root (body s x) (Ok (step s x)) (P x)) ->
  forall s,
    runs root (for_each xs body s) (Ok (fold_left step xs s))
         (fun e => exists x, In x xs /\ P x e).
Proof.
  induction xs as [|x xs IH]; intros Hbody s; simpl.
  - apply runs_ret.
  - eapply runs_bind.
    + eapply runs_weaken; [| apply Hbody; now left].
      of_head x.
    + eapply runs_weaken; [| apply IH; intros; apply Hbody; now right].
      of_tail.
Qed.

Lemma runs_filter_m {X : Type} (root : node) (f : X -> M bool) (g : X -> bool)
    (P : X -> event -> Prop) (xs : list X) :
  (forall x, In x xs -> runs root (f x) (Ok (g x)) (P x)) ->
  runs root (filter_m f xs) (Ok (filter g xs)) (fun e => exists x, In x xs /\ P x e).
Proof.
  induction xs as [|x xs IH]; intros Hf; simpl.
  - apply runs_ret.
  - eapply runs_bind.
    + eapply runs_weaken; [| apply Hf; now left].
      of_head x.
    + eapply runs_bind.
      * eapply runs_weaken; [| apply IH; intros; apply Hf; now right].
        of_tail.
      * destruct (g x); apply runs_ret.
Qed.

(** *** The system calls that read *)

Lemma runs_emit (root : node) (e : event) (P : event -> Prop) :
  P e -> runs root (emit e) (Ok tt) P.
Proof. intros He w _. exists [e]. split; [reflexivity | now constructor]. Qed.

Lemma runs_pure {A : Type} (root : node) (f : node -> result A) (P : event -> Prop) :
  runs root (fun w => (f (w_root w), w)) (f root) P.
Proof.
  intros w <-. exists []. rewrite log_nil. split; [reflexivity | constructor].
Qed.

Lemma os_walk_runs (root : node) (top : path) (P : event -> Prop) :
  P (EvWalk top) ->
  runs root (os_walk top)
       (Ok (match lookup root top with Some n => walk_from top n | None => [] end)) P.
Proof.
  intros HP. unfold os_walk. eapply runs_bind; [now apply runs_emit |].
  apply (runs_pure root (fun r => Ok (match lookup r top with
                                      | Some n => walk_from top n
                                      | None => []
                                      end))).
Qed.

Lemma os_listdir_runs (root : node) (d : path) (P : event -> Prop) :
  P (EvListdir d) ->
  runs root (os_listdir d)
       (match lookup root d with
        | Some (Dir _ _ entries) => Ok (map fst entries)
        | _ => Raise OSError
        end) P.
Proof.
  intros HP w Hw. exists [EvListdir d]. split; [| now constructor].
  unfold os_listdir, bind. rewrite emit_run. rewrite log_root, Hw.
  destruct (lookup root d) as [[| |]|]; reflexivity.
Qed.

Lemma os_path_isfile_runs (root : node) (p : path) (P : event -> Prop) :
  P (EvIsfile p) ->
  runs root (os_path_isfile p) (Ok (DoubleTerminator.is_file root p)) P.
Proof.
  intros HP. unfold os_path_isfile. eapply runs_bind; [now apply runs_emit |].
  apply (runs_pure root (fun r => Ok (DoubleTerminator.is_file r p))).
Qed.

Lemma os_path_getsize_runs (root : node) (p : path) (P : event -> Prop) :
  P (EvGetsize p) ->
  runs root (os_path_getsize p)
       (match stat_size root p with Some n => Ok n | None => Raise OSError end) P.
Proof.
  intros HP w Hw. exists [EvGetsize p]. split; [| now constructor].
  unfold os_path_getsize, bind. rewrite emit_run. rewrite log_root, Hw.
  destruct (stat_size root p); reflexivity.
Qed.

Lemma progress_bar_runs (root : node) (progress total : Z) (prefix : string)
    (P : event -> Prop) :
  P (EvProgress prefix progress total) ->
  runs root (DoubleTerminator.progress_bar progress total prefix) (Ok tt) P.
Proof.
  intros HP. unfold DoubleTerminator.progress_bar.
  destruct (total =? 0); [apply runs_ret | now apply runs_emit].
Qed.

(** ** The hasher *)

Lemma take_drop (n : nat) (b : bytes) : take n b ++ drop n b = b.
Proof. revert b; induction n; intros [|c b]; simpl; auto. now rewrite IHn. Qed.

Lemma take_empty (n : nat) (b : bytes) :
  take n b = EmptyString -> n = 0%nat \/ b = EmptyString.
Proof. destruct n, b; simpl; auto; discriminate. Qed.

Lemma string_app_nil_r (s : string) : s ++ EmptyString = s.
Proof. induction s; simpl; congruence. Qed.

Lemma read_ok (h : handle) (size : Z) (data : bytes) (h' : handle) :
  read h size = Ok (data, h') ->
  data = take (asked h size) (h_rest h) /\
  h_rest h' = drop (asked h size) (h_rest h) /\
  h_pos h' = (h_pos h + String.length data)%nat /\
  h_fault h' = h_fault h /\
  (forall k, h_fault h = Some k ->
             ~ (h_pos h <= k < h_pos h + String.length data)%nat).
Proof.
  unfold read. intros H.
  destruct (h_fault h) as [k|] eqn:F.
  - destruct (_ && _)%bool eqn:E; [discriminate |].
    inversion H; subst; simpl. repeat split; auto.
    intros k' [= <-] [H1 H2].
    apply andb_false_iff in E. destruct E as [E | E].
    + apply Nat.leb_gt in E. lia.
    + apply Nat.ltb_ge in E. lia.
  - inversion H; subst; simpl. repeat split; auto. discriminate.
Qed.

Lemma read_raise (h : handle) (size : Z) (e : exn) :
  read h size = Raise e ->
  e = OSError /\
  exists k, h_fault h = Some k /\
            (h_pos h <= k < h_pos h + String.length (h_rest h))%nat.
Proof.
  unfold read. intros H.
  destruct (h_fault h) as [k|] eqn:F; [| discriminate].
  destruct (_ && _)%bool eqn:E; [| discriminate].
  inversion H; subst. split; [reflexivity |]. exists k. split; [reflexivity |].
  apply andb_true_iff in E. destruct E as [E1 E2].
  apply Nat.leb_le in E1. apply Nat.ltb_lt in E2.
  pose proof (take_drop_length (asked h size) (h_rest h)). lia.
Qed.

Lemma fault_ahead_iff (h : handle) :
  DoubleTerminator.fault_ahead h = true <->
  exists k, h_fault h = Some k /\
            (h_pos h <= k < h_pos h + String.length (h_rest h))%nat.
Proof.
  unfold DoubleTerminator.fault_ahead. destruct (h_fault h) as [k|].
  - rewrite andb_true_iff, Nat.leb_le, Nat.ltb_lt. split.
    + intros H. exists k. auto.
    + intros [k' [[= <-] H]]. exact H.
  - split; [discriminate | intros [k [H _]]; discriminate].
Qed.

(** The chunked loop feeds the digest every byte left, whatever the size of
    the chunks, unless the device fails on the way. *)
Lemma md5_stream_spec (md5 : bytes) (f : handle) (buffer_size : Z) :
  buffer_size <> 0 ->
  DoubleTerminator.md5_stream md5 f buffer_size
  = if DoubleTerminator.fault_ahead f then Raise OSError else Ok (md5 ++ h_rest f).
Proof.
  intros Hb. funelim (DoubleTerminator.md5_stream md5 f buffer_size);
    match goal with E : read _ _ = _ |- _ => rename E into Hread end;
    clear Heqcall;
    match goal with E : _ = {| pr1 := _ |} |- _ => clear E end.
  - (* the read returned nothing: the end of the file *)
    apply read_ok in Hread. destruct Hread as [T _].
    assert (Hrest : h_rest f = EmptyString).
    { symmetry in T. apply take_empty in T. destruct T as [T | T]; [| exact T].
      unfold asked in T. destruct (buffer_size <? 0) eqn:E.
      + destruct (h_rest f); [reflexivity | discriminate T].
      + apply Z.ltb_ge in E. lia. }
    destruct (DoubleTerminator.fault_ahead f) eqn:F.
    + apply fault_ahead_iff in F. destruct F as [k [_ F]].
      rewrite Hrest in F. simpl in F. lia.
    + now rewrite Hrest, string_app_nil_r.
  - (* a chunk was read: the rest follows *)
    apply read_ok in Hread. destruct Hread as [T [R [Ps [Fl NF]]]].
    match goal with
    | IH : _ -> DoubleTerminator.md5_stream _ _ _ = _ |- _ => rewrite IH by exact Hb
    end.
    assert (Hsplit : h_rest f = String c data ++ h_rest f').
    { rewrite T, R. symmetry. apply take_drop. }
    assert (Hsame : DoubleTerminator.fault_ahead f' = DoubleTerminator.fault_ahead f).
    { apply eq_true_iff_eq. rewrite !fault_ahead_iff, Fl, Ps, Hsplit.
      rewrite string_length_app.
      split; intros [k [Hk Hin]]; exists k; (split; [exact Hk |]).
      - lia.
      - specialize (NF k Hk). lia. }
    rewrite Hsame, Hsplit, string_app_assoc. reflexivity.
  - (* the read failed *)
    apply read_raise in Hread. destruct Hread as [-> Hk].
    apply fault_ahead_iff in Hk. now rewrite Hk.
Qed.

Lemma md5_stream_raises_oserror (md5 : bytes) (f : handle) (buffer_size : Z) (e : exn) :
  DoubleTerminator.md5_stream md5 f buffer_size = Raise e -> e = OSError.
Proof.
  funelim (DoubleTerminator.md5_stream md5 f buffer_size);
    match goal with E : read _ _ = _ |- _ => rename E into Hread end;
    clear Heqcall;
    match goal with E : _ = {| pr1 := _ |} |- _ => clear E end.
  - discriminate.
  - auto.
  - intros [= <-]. now apply read_raise in Hread.
Qed.

Section Hasher.
Variable md5_hexdigest : bytes -> string.

(** The hasher never raises: it returns a digest or [None], and opens the
    file for reading and does nothing else. *)
Lemma calculate_file_hash_total (root : node) (p : path) (buffer_size : Z) :
  exists r,
    runs root (DoubleTerminator.calculate_file_hash md5_hexdigest p buffer_size) (Ok r)
         (eq (EvOpen p)).
Proof.
  assert (Hfail : stat root p = None \/ stat root p = Some IBroken
                  \/ (exists m s, stat root p = Some (IDir m s))
                  \/ (exists f, stat root p = Some (IFile f) /\ f_open_ok f = false) ->
          runs root (DoubleTerminator.calculate_file_hash md5_hexdigest p buffer_size)
               (Ok None) (eq (EvOpen p))).
  { intros H w Hw. exists [EvOpen p]. split; [| now constructor].
    unfold DoubleTerminator.calculate_file_hash, open_rb, try_except, bind.
    rewrite emit_run, log_root, Hw.
    destruct H as [-> | [-> | [[m [s ->]] | [f [-> ->]]]]]; reflexivity. }
  destruct (stat root p) as [[f | m s |]|] eqn:S; eauto 8.
  destruct (f_open_ok f) eqn:O; [| eauto 8].
  destruct (DoubleTerminator.md5_stream EmptyString
              (mkhandle (f_data f) 0 (f_read_fault f)) buffer_size) as [m | e] eqn:E.
  - exists (Some (md5_hexdigest m)). intros w Hw. exists [EvOpen p].
    split; [| now constructor].
    unfold DoubleTerminator.calculate_file_hash, open_rb, try_except, bind.
    rewrite emit_run, log_root, Hw, S, O, E. reflexivity.
  - exists None. intros w Hw. exists [EvOpen p]. split; [| now constructor].
    pose proof (md5_stream_raises_oserror _ _ _ _ E) as ->.
    unfold DoubleTerminator.calculate_file_hash, open_rb, try_except, bind.
    rewrite emit_run, log_root, Hw, S, O, E. reflexivity.
Qed.

(** With chunks of any size but 0, the hasher returns the digest of the
    content, and [None] for a file that cannot be opened or read. *)
Lemma calculate_file_hash_runs (root : node) (p : path) (buffer_size : Z) :
  buffer_size <> 0 ->
  runs root (DoubleTerminator.calculate_file_hash md5_hexdigest p buffer_size)
       (Ok (DoubleTerminator.digest md5_hexdigest root p)) (eq (EvOpen p)).
Proof.
  intros Hb w Hw. exists [EvOpen p]. split; [| now constructor].
  unfold DoubleTerminator.calculate_file_hash, open_rb, try_except, bind.
  rewrite emit_run, log_root, Hw.
  unfold DoubleTerminator.digest, DoubleTerminator.content.
  destruct (stat root p) as [[f | m s |]|]; try reflexivity.
  destruct (f_open_ok f); [| reflexivity].
  rewrite (md5_stream_spec _ _ _ Hb). unfold DoubleTerminator.fault_ahead. simpl.
  destruct (f_read_fault f) as [k|]; [| reflexivity].
  destruct (k <? String.length (f_data f))%nat; reflexivity.
Qed.

End Hasher.

(** ** Dicts and grouping *)

Section DictFacts.
Context {K V : Type} (eqb : K -> K -> bool).
Hypothesis eqb_spec : forall a b, eqb a b = true <-> a = b.

Lemma eqb_refl_spec (a : K) : eqb a a = true.
Proof. now apply eqb_spec. Qed.

Lemma eqb_neq_spec (a b : K) : a <> b -> eqb a b = false.
Proof.
  intros H. destruct (eqb a b) eqn:E; [| reflexivity].
  now apply eqb_spec in E.
Qed.

Lemma dict_get_set_same (d : list (K * V)) (k : K) (v : V) :
  Py.dict_get eqb (Py.dict_set eqb d k v) k = Some v.
Proof.
  induction d as [|[k' v'] d IH]; simpl.
  - now rewrite eqb_refl_spec.
  - destruct (eqb k' k) eqn:E; simpl; rewrite E; auto.
Qed.

Lemma dict_get_set_other (d : list (K * V)) (k k' : K) (v : V) :
  k' <> k -> Py.dict_get eqb (Py.dict_set eqb d k v) k' = Py.dict_get eqb d k'.
Proof.
  intros Hne. induction d as [|[k0 v0] d IH]; simpl.
  - rewrite eqb_neq_spec; auto.
  - destruct (eqb k0 k) eqn:E; simpl.
    + apply eqb_spec in E. subst k0. rewrite eqb_neq_spec; auto.
    + now rewrite IH.
Qed.

Lemma dict_set_in (d : list (K * V)) (k k' : K) (v v' : V) :
  In (k', v') (Py.dict_set eqb d k v) -> (k' = k /\ v' = v) \/ In (k', v') d.
Proof.
  induction d as [|[k0 v0] d IH]; simpl.
  - intros [[= <- <-] | []]. now left.
  - destruct (eqb k0 k) eqn:E; simpl.
    + intros [[= <- <-] | H]; [apply eqb_spec in E; now left | now right; right].
    + intros [H | H]; [now right; left |].
      destruct (IH H) as [? | ?]; [now left | now right; right].
Qed.

Lemma dict_set_keys (d : list (K * V)) (k : K) (v : V) (k' : K) :
  In k' (map fst (Py.dict_set eqb d k v)) <-> k' = k \/ In k' (map fst d).
Proof.
  induction d as [|[k0 v0] d IH]; simpl.
  - intuition.
  - destruct (eqb k0 k) eqn:E; simpl.
    + apply eqb_spec in E. subst k0. intuition.
    + rewrite IH. intuition.
Qed.

Lemma dict_set_nodup (d : list (K * V)) (k : K) (v : V) :
  NoDup (map fst d) -> NoDup (map fst (Py.dict_set eqb d k v)).
Proof.
  induction d as [|[k0 v0] d IH]; simpl; intros H.
  - constructor; [intros [] | constructor].
  - inversion H as [|? ? Hnot Hd]; subst.
    destruct (eqb k0 k) eqn:E; simpl.
    + now constructor.
    + constructor; [| now apply IH].
      rewrite dict_set_keys. intros [-> | Hin]; [| contradiction].
      now rewrite eqb_refl_spec in E.
Qed.

Lemma dict_get_in (d : list (K * V)) (k : K) (v : V) :
  Py.dict_get eqb d k = Some v -> In (k, v) d.
Proof.
  induction d as [|[k0 v0] d IH]; simpl; [discriminate |].
  destruct (eqb k0 k) eqn:E.
  - intros [= ->]. apply eqb_spec in E. subst. now left.
  - intros H. right. now apply IH.
Qed.

Lemma dict_in_get (d : list (K * V)) (k : K) (v : V) :
  NoDup (map fst d) -> In (k, v) d -> Py.dict_get eqb d k = Some v.
Proof.
  induction d as [|[k0 v0] d IH]; simpl; [intros _ [] |].
  intros H Hin. inversion H as [|? ? Hnot Hd]; subst.
  destruct Hin as [[= -> ->] | Hin].
  - now rewrite eqb_refl_spec.
  - destruct (eqb k0 k) eqn:E; [| now apply IH].
    apply eqb_spec in E. subst k0. exfalso. apply Hnot.
    apply in_map_iff. now exists (k, v).
Qed.

End DictFacts.

Section Grouping.
Context {K X : Type} (eqb : K -> K -> bool) (key : X -> option K).
Hypothesis eqb_spec : forall a b, eqb a b = true <-> a = b.

Lemma filed_group_add (d : list (K * list X)) (x : X) (k : K) :
  Py.filed eqb (Py.group_add eqb key d x) k = (Py.filed eqb d k ++ Py.with_key eqb key k [x])%list.
Proof.
  unfold Py.group_add, Py.with_key, Py.filed, Py.dict_append. simpl.
  destruct (key x) as [k'|]; [| now rewrite app_nil_r].
  destruct (eqb k' k) eqn:E.
  - apply eqb_spec in E. subst k'. rewrite (dict_get_set_same eqb eqb_spec).
    destruct (Py.dict_get eqb d k); reflexivity.
  - rewrite (dict_get_set_other eqb eqb_spec), app_nil_r; [reflexivity |].
    intros ->. now rewrite (eqb_refl_spec eqb eqb_spec) in E.
Qed.

Lemma group_add_nodup (d : list (K * list X)) (x : X) :
  NoDup (map fst d) -> NoDup (map fst (Py.group_add eqb key d x)).
Proof.
  unfold Py.group_add, Py.dict_append. destruct (key x); [| auto].
  now apply dict_set_nodup.
Qed.

Lemma group_add_inhabited (d : list (K * list X)) (x : X) :
  Py.inhabited d -> Py.inhabited (Py.group_add eqb key d x).
Proof.
  unfold Py.group_add, Py.dict_append. destruct (key x) as [k|]; [| auto].
  intros H k' l Hin. apply (dict_set_in eqb eqb_spec) in Hin.
  destruct Hin as [[-> ->] | Hin]; [| eauto].
  destruct (Py.dict_get eqb d k); [| discriminate].
  intros E. now apply app_eq_nil in E.
Qed.

Lemma with_key_app (k : K) (xs ys : list X) :
  Py.with_key eqb key k (xs ++ ys)
  = (Py.with_key eqb key k xs ++ Py.with_key eqb key k ys)%list.
Proof. unfold Py.with_key. apply filter_app. Qed.

Lemma fold_group_add (xs : list X) (d : list (K * list X)) :
  NoDup (map fst d) -> Py.inhabited d ->
  let d' := fold_left (Py.group_add eqb key) xs d in
  NoDup (map fst d') /\ Py.inhabited d' /\
  forall k, Py.filed eqb d' k = (Py.filed eqb d k ++ Py.with_key eqb key k xs)%list.
Proof.
  revert d. induction xs as [|x xs IH]; intros d Hn Hi; simpl.
  - repeat split; auto. intros k. now rewrite app_nil_r.
  - destruct (IH (Py.group_add eqb key d x)) as [Hn' [Hi' Hf]].
    + now apply group_add_nodup.
    + now apply group_add_inhabited.
    + repeat split; auto. intros k.
      rewrite Hf, filed_group_add, <- app_assoc. f_equal.
      symmetry. apply (with_key_app k [x] xs).
Qed.

Lemma group_by_nodup (xs : list X) : NoDup (map fst (Py.group_by eqb key xs)).
Proof.
  apply (fold_group_add xs []); [constructor | intros k l []].
Qed.

(** The grouping files under each key the members with that key, in order,
    and has no key without members. *)
Lemma group_by_in (xs : list X) (k : K) (l : list X) :
  In (k, l) (Py.group_by eqb key xs) <-> l = Py.with_key eqb key k xs /\ l <> [].
Proof.
  destruct (fold_group_add xs []) as [Hn [Hi Hf]];
    [constructor | intros ? ? [] |]. fold (Py.group_by eqb key xs) in *.
  specialize (Hf k). unfold Py.filed in Hf. simpl in Hf. split.
  - intros Hin. split; [| eauto].
    now rewrite (dict_in_get eqb eqb_spec _ _ _ Hn Hin) in Hf.
  - intros [-> Hne].
    destruct (Py.dict_get eqb (Py.group_by eqb key xs) k) as [l|] eqn:E.
    + subst l. now apply (dict_get_in eqb eqb_spec).
    + now symmetry in Hf.
Qed.

End Grouping.

(** ** From digest classes to duplicate groups *)

Lemma string_eqb_spec (a b : string) : String.eqb a b = true <-> a = b.
Proof. apply String.eqb_eq. Qed.

Lemma keep_groups_in (hashes duplicates : list (string * list path))
    (h : string) (fl : list path) :
  In (h, fl) (DoubleTerminator.keep_groups duplicates hashes) ->
  In (h, fl) duplicates \/ (In (h, fl) hashes /\ 1 < Py.len fl).
Proof.
  unfold DoubleTerminator.keep_groups. revert duplicates.
  induction hashes as [|[h0 l0] hashes IH]; intros duplicates; simpl; [auto |].
  intros H. apply IH in H. destruct H as [H | [H1 H2]]; [| now right; split; [right |]].
  destruct (1 <? Py.len l0) eqn:E; [| now left].
  apply (dict_set_in String.eqb string_eqb_spec) in H.
  destruct H as [[-> ->] | H]; [| now left].
  right. split; [now left | now apply Z.ltb_lt].
Qed.

Lemma keep_groups_nodup (hashes duplicates : list (string * list path)) :
  NoDup (map fst duplicates) ->
  NoDup (map fst (DoubleTerminator.keep_groups duplicates hashes)).
Proof.
  unfold DoubleTerminator.keep_groups. revert duplicates.
  induction hashes as [|[h0 l0] hashes IH]; intros duplicates H; simpl; [exact H |].
  apply IH. destruct (1 <? Py.len l0); [| exact H].
  now apply (dict_set_nodup String.eqb string_eqb_spec).
Qed.

Lemma keep_groups_other (hashes duplicates : list (string * list path)) (h : string) :
  ~ In h (map fst hashes) ->
  Py.dict_get String.eqb (DoubleTerminator.keep_groups duplicates hashes) h
  = Py.dict_get String.eqb duplicates h.
Proof.
  unfold DoubleTerminator.keep_groups. revert duplicates.
  induction hashes as [|[h0 l0] hashes IH]; intros duplicates Hnot; simpl; [reflexivity |].
  simpl in Hnot. rewrite IH by tauto.
  destruct (1 <? Py.len l0); [| reflexivity].
  apply (dict_get_set_other String.eqb string_eqb_spec). intros ->. tauto.
Qed.

Lemma keep_groups_set (hashes duplicates : list (string * list path))
    (h : string) (l : list path) :
  NoDup (map fst hashes) -> In (h, l) hashes -> 1 < Py.len l ->
  Py.dict_get String.eqb (DoubleTerminator.keep_groups duplicates hashes) h = Some l.
Proof.
  revert duplicates.
  induction hashes as [|[h0 l0] hashes IH]; intros duplicates Hn Hin Hlen; [destruct Hin |].
  inversion Hn as [|? ? Hnot Hn']; subst.
  destruct Hin as [[= -> ->] | Hin].
  - change (DoubleTerminator.keep_groups duplicates ((h, l) :: hashes))
      with (DoubleTerminator.keep_groups
              (if 1 <? Py.len l then Py.dict_set String.eqb duplicates h l else duplicates)
              hashes).
    rewrite keep_groups_other by exact Hnot.
    apply Z.ltb_lt in Hlen. rewrite Hlen.
    apply (dict_get_set_same String.eqb string_eqb_spec).
  - change (DoubleTerminator.keep_groups duplicates ((h0, l0) :: hashes))
      with (DoubleTerminator.keep_groups
              (if 1 <? Py.len l0 then Py.dict_set String.eqb duplicates h0 l0 else duplicates)
              hashes).
    now apply IH.
Qed.

Section Groups.
Variable md5_hexdigest : bytes -> string.
Variable root : node.

#[local] Abbreviation group_step := (DoubleTerminator.group_step md5_hexdigest root).
#[local] Abbreviation digest_classes := (DoubleTerminator.digest_classes md5_hexdigest root).

Lemma digest_classes_nodup (files : list path) : NoDup (map fst (digest_classes files)).
Proof. apply (group_by_nodup String.eqb _ string_eqb_spec). Qed.

Lemma fold_group_step_in (fbs : list (Z * list path))
    (duplicates : list (string * list path)) (h : string) (fl : list path) :
  In (h, fl) (fold_left group_step fbs duplicates) ->
  In (h, fl) duplicates \/
  exists b, In b fbs /\ 1 < Py.len (snd b) /\
            In (h, fl) (digest_classes (snd b)) /\ 1 < Py.len fl.
Proof.
  revert duplicates. induction fbs as [|b fbs IH]; intros duplicates; simpl; [auto |].
  intros H. apply IH in H.
  destruct H as [H | [b' [Hb' H]]]; [| right; exists b'; split; [now right | exact H]].
  unfold DoubleTerminator.group_step in H.
  destruct (1 <? Py.len (snd b)) eqn:E; [| now left].
  apply keep_groups_in in H. destruct H as [H | [H1 H2]]; [now left |].
  right. exists b. apply Z.ltb_lt in E. auto.
Qed.

Lemma fold_group_step_nodup (fbs : list (Z * list path))
    (duplicates : list (string * list path)) :
  NoDup (map fst duplicates) -> NoDup (map fst (fold_left group_step fbs duplicates)).
Proof.
  revert duplicates. induction fbs as [|b fbs IH]; intros duplicates H; simpl; [exact H |].
  apply IH. unfold DoubleTerminator.group_step.
  destruct (1 <? Py.len (snd b)); [| exact H]. now apply keep_groups_nodup.
Qed.

Lemma fold_group_step_other (fbs : list (Z * list path))
    (duplicates : list (string * list path)) (h : string) :
  (forall b, In b fbs -> ~ In h (map fst (digest_classes (snd b)))) ->
  Py.dict_get String.eqb (fold_left group_step fbs duplicates) h
  = Py.dict_get String.eqb duplicates h.
Proof.
  revert duplicates. induction fbs as [|b fbs IH]; intros duplicates Hnot; simpl;
    [reflexivity |].
  rewrite IH by (intros; apply Hnot; now right).
  unfold DoubleTerminator.group_step. destruct (1 <? Py.len (snd b)); [| reflexivity].
  apply keep_groups_other. apply Hnot. now left.
Qed.

(** The class of a digest in the last bucket that has the digest is the
    group of that digest. *)
Lemma fold_group_step_last (before after : list (Z * list path)) (b : Z * list path)
    (duplicates : list (string * list path)) (h : string) (l : list path) :
  1 < Py.len (snd b) -> In (h, l) (digest_classes (snd b)) -> 1 < Py.len l ->
  (forall b', In b' after -> ~ In h (map fst (digest_classes (snd b')))) ->
  Py.dict_get String.eqb (fold_left group_step (before ++ b :: after) duplicates) h
  = Some l.
Proof.
  intros Hb Hin Hl Hafter. rewrite fold_left_app. simpl.
  rewrite fold_group_step_other by exact Hafter.
  unfold DoubleTerminator.group_step at 1. apply Z.ltb_lt in Hb. rewrite Hb.
  apply keep_groups_set; [apply digest_classes_nodup | exact Hin | exact Hl].
Qed.

End Groups.

(** ** The scan *)

Lemma runs_ret_eq {A : Type} (root : node) (a b : A) (P : event -> Prop) :
  a = b -> runs root (ret a) (Ok b) P.
Proof. intros ->. apply runs_ret. Qed.

Lemma runs_result_eq {A : Type} (root : node) (m : M A) (r r' : result A)
    (P : event -> Prop) :
  r = r' -> runs root m r P -> runs root m r' P.
Proof. now intros ->. Qed.

Lemma fold_left_pair {X S T : Type} (f : S -> X -> S) (g : T -> X -> T)
    (xs : list X) (s : S) (t : T) :
  fold_left (fun st x => (f (fst st) x, g (snd st) x)) xs (s, t)
  = (fold_left f xs s, fold_left g xs t).
Proof. revert s t. induction xs as [|x xs IH]; intros s t; simpl; [reflexivity | apply IH]. Qed.

Lemma fold_left_count {X : Type} (xs : list X) (n : Z) :
  fold_left (fun k (_ : X) => k + 1) xs n = n + Py.len xs.
Proof.
  unfold Py.len. revert n. induction xs as [|x xs IH]; intros n.
  - simpl. lia.
  - simpl fold_left. rewrite IH. simpl List.length. lia.
Qed.

Lemma fold_left_map {X Y S : Type} (f : S -> Y -> S) (g : X -> Y) (xs : list X) (s : S) :
  fold_left (fun st x => f st (g x)) xs s = fold_left f (map g xs) s.
Proof. revert s. induction xs as [|x xs IH]; intros s; simpl; auto. Qed.

Lemma fold_left_flat_map {X Y S : Type} (f : S -> Y -> S) (g : X -> list Y)
    (xs : list X) (s : S) :
  fold_left (fun st x => fold_left f (g x) st) xs s = fold_left f (flat_map g xs) s.
Proof.
  revert s. induction xs as [|x xs IH]; intros s; simpl; [reflexivity |].
  now rewrite fold_left_app, IH.
Qed.

Lemma fold_left_filter {X S : Type} (f : S -> X -> S) (g : X -> bool) (xs : list X) (s : S) :
  fold_left (fun st x => if g x then f st x else st) xs s = fold_left f (filter g xs) s.
Proof.
  revert s. induction xs as [|x xs IH]; intros s; simpl; [reflexivity |].
  destruct (g x); simpl; apply IH.
Qed.

Lemma filter_map_comm {X Y : Type} (g : Y -> bool) (f : X -> Y) (xs : list X) :
  filter g (map f xs) = map f (filter (fun x => g (f x)) xs).
Proof.
  induction xs as [|x xs IH]; simpl; [reflexivity |].
  destruct (g (f x)); simpl; now rewrite IH.
Qed.

Section Scan.
Variable root : node.

(** One visited path: filed under its size when [getsize] succeeds, skipped
    when it fails, counted either way. *)
Lemma scan_file_runs (show_progress : bool) (total_files : Z)
    (st : list (Z * list path) * Z) (filepath : path) :
  runs root (DoubleTerminator.scan_file show_progress total_files st filepath)
       (Ok (DoubleTerminator.bucket_step root (fst st) filepath, snd st + 1))
       DoubleTerminator.stat_event.
Proof.
  destruct st as [fbs n]. unfold DoubleTerminator.scan_file.
  unfold DoubleTerminator.bucket_step, Py.group_add. simpl fst; simpl snd.
  pose proof (os_path_getsize_runs root filepath DoubleTerminator.stat_event I) as G.
  assert (T : runs root
                (if (show_progress && ((n + 1) mod 100 =? 0))%bool
                 then DoubleTerminator.progress_bar (n + 1) total_files "Scanning files"
                 else ret tt) (Ok tt) DoubleTerminator.stat_event).
  { destruct (_ && _)%bool; [now apply progress_bar_runs | apply runs_ret]. }
  destruct (stat_size root filepath) as [size|].
  - apply runs_try_ok. eapply runs_bind; [exact G |].
    eapply runs_bind; [exact T | apply runs_ret].
  - apply runs_try_caught; [now apply runs_bind_raise |].
    eapply runs_bind; [exact T | apply runs_ret].
Qed.

Lemma fold_scan (paths : list path) (fbs : list (Z * list path)) (n : Z) :
  fold_left (fun st p => (DoubleTerminator.bucket_step root (fst st) p, snd st + 1))
            paths (fbs, n)
  = (fold_left (DoubleTerminator.bucket_step root) paths fbs, n + Py.len paths).
Proof.
  rewrite (fold_left_pair (DoubleTerminator.bucket_step root) (fun k _ => k + 1)).
  now rewrite fold_left_count.
Qed.

Lemma count_walk (walk : list (path * list string * list string)) (n : Z) :
  fold_left (fun total_files '(_, _, files) => total_files + Py.len files) walk n
  = n + Py.len (flat_map (fun '(r, _, files) => map (join r) files) walk).
Proof.
  unfold Py.len. revert n. induction walk as [|[[r ds] fs] walk IH]; intros n; simpl.
  - lia.
  - rewrite IH, length_app, length_map. lia.
Qed.

Lemma count_total_files_runs (directory : path) (include_subfolders : bool) :
  DoubleTerminator.listable root directory include_subfolders ->
  runs root (DoubleTerminator.count_total_files directory include_subfolders)
       (Ok (Py.len (DoubleTerminator.scanned_paths root directory include_subfolders)))
       DoubleTerminator.stat_event.
Proof.
  intros L. unfold DoubleTerminator.count_total_files, DoubleTerminator.scanned_paths.
  destruct include_subfolders.
  - eapply runs_bind; [now apply os_walk_runs |].
    apply runs_ret_eq. now rewrite count_walk.
  - destruct L as [L | [mtime [size [entries L]]]]; [discriminate |].
    pose proof (os_listdir_runs root directory DoubleTerminator.stat_event I) as G.
    rewrite L in *. eapply runs_bind; [exact G |].
    eapply runs_bind.
    + eapply runs_weaken;
        [| apply (runs_filter_m root _
                    (fun name => DoubleTerminator.is_file root (join directory name))
                    (fun _ => DoubleTerminator.stat_event))].
      * now intros e [x [_ He]].
      * intros name _. now apply os_path_isfile_runs.
    + apply runs_ret_eq. unfold Py.len.
      now rewrite (filter_map_comm (DoubleTerminator.is_file root) (join directory)),
        length_map.
Qed.

Lemma count_total_files_raises (directory : path) :
  ~ DoubleTerminator.listable root directory false ->
  runs root (DoubleTerminator.count_total_files directory false) (Raise OSError)
       DoubleTerminator.stat_event.
Proof.
  intros L. unfold DoubleTerminator.count_total_files.
  apply runs_bind_raise.
  pose proof (os_listdir_runs root directory DoubleTerminator.stat_event I) as G.
  destruct (lookup root directory) as [[f | m s es |]|] eqn:E; try exact G.
  exfalso. apply L. right. eauto.
Qed.

(** The second pass files every visited path it can [stat] under its size,
    and counts every visited path. *)
Lemma scan_sizes_runs (directory : path) (include_subfolders show_progress : bool)
    (total_files : Z) :
  DoubleTerminator.listable root directory include_subfolders ->
  let paths := DoubleTerminator.scanned_paths root directory include_subfolders in
  runs root
       (DoubleTerminator.scan_sizes directory include_subfolders show_progress total_files)
       (Ok (DoubleTerminator.size_buckets root paths, Py.len paths))
       DoubleTerminator.stat_event.
Proof.
  intros L paths. subst paths.
  unfold DoubleTerminator.scan_sizes, DoubleTerminator.scanned_paths,
    DoubleTerminator.size_buckets, Py.group_by.
  fold (DoubleTerminator.bucket_step root).
  destruct include_subfolders.
  - eapply runs_bind; [now apply os_walk_runs |].
    set (walk := match lookup root directory with
                 | Some n => walk_from directory n
                 | None => []
                 end).
    eapply runs_result_eq;
      [| eapply runs_weaken;
         [| apply (runs_for_each root _
                     (fun st x =>
                        fold_left (fun st p =>
                                     (DoubleTerminator.bucket_step root (fst st) p,
                                      snd st + 1))
                                  ((fun '(r, _, files) => map (join r) files) x) st)
                     (fun _ => DoubleTerminator.stat_event))]].
    + rewrite (fold_left_flat_map
                 (fun st p => (DoubleTerminator.bucket_step root (fst st) p, snd st + 1))
                 (fun '(r, _, files) => map (join r) files)).
      * now rewrite fold_scan.
    + now intros e [x [_ He]].
    + intros st [[r ds] files] _. cbv beta iota.
      rewrite <- fold_left_map.
      eapply runs_weaken;
        [| apply (runs_for_each root _
                    (fun st filename =>
                       (DoubleTerminator.bucket_step root (fst st) (join r filename),
                        snd st + 1))
                    (fun _ => DoubleTerminator.stat_event))].
      * now intros e [x [_ He]].
      * intros s filename _. apply scan_file_runs.
  - destruct L as [L | [mtime [size [entries L]]]]; [discriminate |].
    pose proof (os_listdir_runs root directory DoubleTerminator.stat_event I) as G.
    rewrite L in *. eapply runs_bind; [exact G |].
    eapply runs_result_eq;
      [| eapply runs_weaken;
         [| apply (runs_for_each root _
                     (fun st filename =>
                        if DoubleTerminator.is_file root (join directory filename)
                        then (DoubleTerminator.bucket_step root (fst st)
                                (join directory filename), snd st + 1)
                        else st)
                     (fun _ => DoubleTerminator.stat_event))]].
    + rewrite (fold_left_filter
                 (fun st filename =>
                    (DoubleTerminator.bucket_step root (fst st) (join directory filename),
                     snd st + 1))
                 (fun filename => DoubleTerminator.is_file root (join directory filename))).
      rewrite (filter_map_comm (DoubleTerminator.is_file root) (join directory)).
      rewrite (fold_left_map
                 (fun st p => (DoubleTerminator.bucket_step root (fst st) p, snd st + 1))
                 (join directory)).
      now rewrite fold_scan.
    + now intros e [x [_ He]].
    + intros st filename _. simpl.
      eapply runs_bind; [now apply os_path_isfile_runs |].
      destruct (DoubleTerminator.is_file root (join directory filename));
        [apply scan_file_runs | apply runs_ret].
Qed.

End Scan.

(** ** The grouping *)

Section Grouper.
Variable md5_hexdigest : bytes -> string.
Variable root : node.

#[local] Abbreviation hashes_step := (DoubleTerminator.hashes_step md5_hexdigest root).
#[local] Abbreviation digest_classes := (DoubleTerminator.digest_classes md5_hexdigest root).
#[local] Abbreviation group_step := (DoubleTerminator.group_step md5_hexdigest root).
#[local] Abbreviation groups := (DoubleTerminator.groups md5_hexdigest root).

(** One hashed path: filed under its digest when it has one, left out when
    the hasher fails, counted either way. *)
Lemma hash_file_runs (show_progress : bool) (files_to_hash : Z)
    (st : list (string * list path) * Z) (filepath : path) :
  runs root (DoubleTerminator.hash_file md5_hexdigest show_progress files_to_hash st filepath)
       (Ok (hashes_step (fst st) filepath, snd st + 1))
       (fun e => e = EvOpen filepath \/ DoubleTerminator.console_event e).
Proof.
  destruct st as [hashes n]. unfold DoubleTerminator.hash_file. simpl fst; simpl snd.
  eapply runs_bind.
  - eapply runs_weaken; [| apply (calculate_file_hash_runs md5_hexdigest root filepath 65536)].
    + intros e <-. now left.
    + discriminate.
  - eapply runs_bind.
    + destruct (_ && _)%bool; [apply progress_bar_runs; now right | apply runs_ret].
    + apply runs_ret_eq. f_equal.
      unfold DoubleTerminator.hashes_step, Py.group_add, DoubleTerminator.hash_key.
      destruct (DoubleTerminator.digest md5_hexdigest root filepath) as [h|]; [| reflexivity].
      destruct (DoubleTerminator.truthy (Some h)); reflexivity.
Qed.

Lemma fold_hash (files : list path) (hashes : list (string * list path)) (n : Z) :
  fold_left (fun st p => (hashes_step (fst st) p, snd st + 1)) files (hashes, n)
  = (fold_left hashes_step files hashes, n + Py.len files).
Proof.
  rewrite (fold_left_pair hashes_step (fun k _ => k + 1)).
  now rewrite fold_left_count.
Qed.

(** One size bucket: hashed member by member when it has two members or
    more, passed over otherwise. *)
Lemma hash_bucket_runs (show_progress : bool) (files_to_hash : Z)
    (st : list (string * list path) * Z) (bucket : Z * list path) :
  runs root (DoubleTerminator.hash_bucket md5_hexdigest show_progress files_to_hash st bucket)
       (Ok (group_step (fst st) bucket,
            if 1 <? Py.len (snd bucket) then snd st + Py.len (snd bucket) else snd st))
       (fun e => (exists p, e = EvOpen p /\ In p (snd bucket) /\ 1 < Py.len (snd bucket))
                 \/ DoubleTerminator.console_event e).
Proof.
  destruct st as [duplicates n]. destruct bucket as [size files].
  unfold DoubleTerminator.hash_bucket, DoubleTerminator.group_step. simpl fst; simpl snd.
  destruct (1 <? Py.len files) eqn:E; [| apply runs_ret].
  apply Z.ltb_lt in E.
  eapply runs_bind.
  - eapply runs_weaken;
      [| apply (runs_for_each root _
                  (fun st p => (hashes_step (fst st) p, snd st + 1))
                  (fun p e => e = EvOpen p \/ DoubleTerminator.console_event e))].
    + intros e [p [Hp [-> | He]]]; [left; eauto | now right].
    + intros s p _. apply hash_file_runs.
  - rewrite fold_hash. apply runs_ret.
Qed.

Lemma fold_buckets (fbs : list (Z * list path)) (duplicates : list (string * list path))
    (n : Z) :
  fst (fold_left (fun st b =>
                    (group_step (fst st) b,
                     if 1 <? Py.len (snd b) then snd st + Py.len (snd b) else snd st))
                 fbs (duplicates, n))
  = fold_left group_step fbs duplicates.
Proof.
  now rewrite (fold_left_pair group_step
                 (fun k b => if 1 <? Py.len (snd b) then k + Py.len (snd b) else k)).
Qed.

Lemma count_files_to_hash_zero (fbs : list (Z * list path)) :
  DoubleTerminator.count_files_to_hash fbs = 0 ->
  forall b, In b fbs -> (1 <? Py.len (snd b)) = false.
Proof.
  unfold DoubleTerminator.count_files_to_hash.
  assert (G : forall (l : list (Z * list path)) acc, 0 <= acc ->
            acc <= fold_left (fun acc '(_, files) =>
                                if 1 <? Py.len files then acc + Py.len files else acc) l acc
            /\ (fold_left (fun acc '(_, files) =>
                             if 1 <? Py.len files then acc + Py.len files else acc) l acc
                = acc ->
                forall b, In b l -> (1 <? Py.len (snd b)) = false)).
  { induction l as [|[s files] l IH]; intros acc Hacc; simpl.
    - split; [lia | intros _ b []].
    - destruct (1 <? Py.len files) eqn:E.
      + apply Z.ltb_lt in E. destruct (IH (acc + Py.len files)) as [H1 H2]; [lia |].
        split; [lia | intros Heq; lia].
      + destruct (IH acc Hacc) as [H1 H2]. split; [exact H1 |].
        intros Heq b [<- | Hb]; [exact E | now apply H2]. }
  intros H. apply (G fbs 0); [lia | exact H].
Qed.

Lemma groups_without_candidates (fbs : list (Z * list path))
    (duplicates : list (string * list path)) :
  (forall b, In b fbs -> (1 <? Py.len (snd b)) = false) ->
  fold_left group_step fbs duplicates = duplicates.
Proof.
  revert duplicates. induction fbs as [|b fbs IH]; intros duplicates H; simpl;
    [reflexivity |].
  unfold DoubleTerminator.group_step at 2. rewrite (H b) by now left.
  apply IH. intros; apply H; now right.
Qed.

(** The scan of a directory that can be listed returns the groups of the
    size buckets of the visited paths; it lists, [stat]s and prints, and
    opens for reading only members of buckets of two or more. *)
Lemma find_duplicates_runs (directory : path) (include_subfolders show_progress : bool) :
  DoubleTerminator.listable root directory include_subfolders ->
  let fbs := DoubleTerminator.size_buckets root
               (DoubleTerminator.scanned_paths root directory include_subfolders) in
  runs root
       (DoubleTerminator.find_duplicates md5_hexdigest directory include_subfolders
          show_progress)
       (Ok (groups fbs))
       (fun e => DoubleTerminator.stat_event e \/ DoubleTerminator.hash_event fbs e).
Proof.
  intros L fbs. unfold DoubleTerminator.find_duplicates.
  set (paths := DoubleTerminator.scanned_paths root directory include_subfolders) in *.
  eapply runs_bind.
  { eapply runs_weaken; [| apply (count_total_files_runs root _ _ L)]. now left. }
  fold paths.
  destruct (Py.len paths =? 0) eqn:E0.
  { apply runs_ret_eq. apply Z.eqb_eq in E0. unfold Py.len in E0.
    destruct paths; [reflexivity | discriminate]. }
  eapply runs_bind.
  { eapply runs_weaken; [| apply (scan_sizes_runs root _ _ show_progress _ L)]. now left. }
  fold paths. fold fbs. cbv beta iota.
  assert (Hconsole : forall (m1 m2 : message) (a b : Z) (s : string),
            runs root (if show_progress
                       then bind (DoubleTerminator.progress_bar a b s) (fun _ => print m1)
                       else ret tt) (Ok tt)
                 (fun e => DoubleTerminator.stat_event e
                           \/ DoubleTerminator.hash_event fbs e)).
  { intros. destruct show_progress; [| apply runs_ret].
    eapply runs_bind; [apply progress_bar_runs | apply runs_emit]; now left. }
  assert (Hprint : forall (m : message),
            runs root (if show_progress then print m else ret tt) (Ok tt)
                 (fun e => DoubleTerminator.stat_event e
                           \/ DoubleTerminator.hash_event fbs e)).
  { intros. destruct show_progress; [apply runs_emit; now left | apply runs_ret]. }
  eapply runs_bind; [apply (Hconsole MsgNewline MsgNewline) |].
  destruct (DoubleTerminator.count_files_to_hash fbs =? 0) eqn:E1.
  { eapply runs_bind; [apply Hprint |]. apply runs_ret_eq.
    apply Z.eqb_eq in E1. symmetry.
    apply groups_without_candidates. now apply count_files_to_hash_zero. }
  eapply runs_bind; [apply Hprint |].
  eapply runs_bind.
  { eapply runs_weaken;
      [| apply (runs_for_each root _
                  (fun st b =>
                     (group_step (fst st) b,
                      if 1 <? Py.len (snd b) then snd st + Py.len (snd b) else snd st))
                  (fun b e => (exists p, e = EvOpen p /\ In p (snd b) /\ 1 < Py.len (snd b))
                              \/ DoubleTerminator.console_event e))].
    - intros e [[size files] [Hb [[p [-> [Hp Hlen]]] | He]]].
      + right. simpl. exists size, files. auto.
      + left. destruct e; simpl in *; tauto.
    - intros s b _. apply hash_bucket_runs. }
  destruct (fold_left _ fbs ([], 0)) as [duplicates hashed_files] eqn:EF.
  cbv beta iota.
  eapply runs_bind; [apply (Hconsole MsgNewline MsgNewline) |].
  apply runs_ret_eq.
  pose proof (fold_buckets fbs [] 0) as FB. rewrite EF in FB. exact FB.
Qed.

Lemma find_duplicates_raises (directory : path) (show_progress : bool) :
  ~ DoubleTerminator.listable root directory false ->
  runs root (DoubleTerminator.find_duplicates md5_hexdigest directory false show_progress)
       (Raise OSError) DoubleTerminator.stat_event.
Proof.
  intros L. unfold DoubleTerminator.find_duplicates.
  apply runs_bind_raise. now apply count_total_files_raises.
Qed.

End Grouper.

(** ** What the groups are *)

Lemma with_key_in {K X : Type} (eqb : K -> K -> bool) (key : X -> option K)
    (eqb_spec : forall a b, eqb a b = true <-> a = b) (k : K) (xs : list X) (x : X) :
  In x (Py.with_key eqb key k xs) <-> In x xs /\ key x = Some k.
Proof.
  unfold Py.with_key. rewrite filter_In. split; intros [H1 H2]; split; auto.
  - destruct (key x) as [k'|]; [| discriminate]. apply eqb_spec in H2. now subst.
  - rewrite H2. now apply eqb_spec.
Qed.

Lemma z_eqb_spec (a b : Z) : Z.eqb a b = true <-> a = b.
Proof. apply Z.eqb_eq. Qed.

Lemma two_members {X : Type} (l : list X) (a b : X) :
  In a l -> In b l -> a <> b -> 1 < Py.len l.
Proof.
  unfold Py.len. destruct l as [|x [|y l]]; simpl; intros Ha Hb Hne.
  - destruct Ha.
  - destruct Ha as [<- | []], Hb as [<- | []]. congruence.
  - lia.
Qed.

Section GroupFacts.
Variable md5_hexdigest : bytes -> string.
Variable root : node.
Variable paths : list path.

#[local] Abbreviation hash_key := (DoubleTerminator.hash_key md5_hexdigest root).
#[local] Abbreviation size_bucket := (DoubleTerminator.size_bucket root paths).
#[local] Abbreviation digest_class := (DoubleTerminator.digest_class md5_hexdigest root).
#[local] Abbreviation the_groups :=
  (DoubleTerminator.groups md5_hexdigest root (DoubleTerminator.size_buckets root paths)).

Lemma size_bucket_in (size : Z) (p : path) :
  In p (size_bucket size) <-> In p paths /\ stat_size root p = Some size.
Proof. apply (with_key_in Z.eqb _ z_eqb_spec). Qed.

Lemma digest_class_in (files : list path) (h : string) (p : path) :
  In p (digest_class files h) <-> In p files /\ hash_key p = Some h.
Proof. apply (with_key_in String.eqb _ string_eqb_spec). Qed.

Lemma size_buckets_in (size : Z) (files : list path) :
  In (size, files) (DoubleTerminator.size_buckets root paths)
  <-> files = size_bucket size /\ files <> [].
Proof. apply (group_by_in Z.eqb _ z_eqb_spec). Qed.

Lemma digest_classes_in (files : list path) (h : string) (fl : list path) :
  In (h, fl) (DoubleTerminator.digest_classes md5_hexdigest root files)
  <-> fl = digest_class files h /\ fl <> [].
Proof. apply (group_by_in String.eqb _ string_eqb_spec). Qed.

Lemma groups_nodup : NoDup (map fst the_groups).
Proof. apply fold_group_step_nodup. constructor. Qed.

(** A group is a whole digest class of a size bucket, and both have two
    members or more. *)
Lemma groups_members (h : string) (fl : list path) :
  In (h, fl) the_groups ->
  exists size,
    fl = digest_class (size_bucket size) h /\
    1 < Py.len fl /\ 1 < Py.len (size_bucket size).
Proof.
  intros H. apply fold_group_step_in in H.
  destruct H as [[] | [[size files] [Hb [Hlen [Hc Hfl]]]]].
  simpl in *. apply size_buckets_in in Hb. destruct Hb as [-> _].
  apply digest_classes_in in Hc. destruct Hc as [-> _].
  exists size. auto.
Qed.

(** A digest class of two members or more is a group, when the digest is
    filed in no bucket of another size. *)
Lemma group_of_class (size : Z) (h : string) :
  1 < Py.len (digest_class (size_bucket size) h) ->
  (forall q, In q paths -> hash_key q = Some h -> stat_size root q = Some size) ->
  In (h, digest_class (size_bucket size) h) the_groups.
Proof.
  intros Hlen Honly.
  set (files := size_bucket size) in *. set (fl := digest_class files h) in *.
  assert (Hfl : fl <> []).
  { intros E. rewrite E in Hlen. unfold Py.len in Hlen. simpl in Hlen. lia. }
  assert (Hfiles : In (size, files) (DoubleTerminator.size_buckets root paths)).
  { apply size_buckets_in. split; [reflexivity |].
    intros E. apply Hfl. unfold fl. rewrite E. reflexivity. }
  assert (Hfiles_len : 1 < Py.len files).
  { unfold fl, DoubleTerminator.digest_class, Py.with_key in Hlen.
    unfold Py.len in *. pose proof (filter_length_le
      (fun x => match hash_key x with Some k' => String.eqb k' h | None => false end) files).
    lia. }
  destruct (in_split _ _ Hfiles) as [before [after Hsplit]].
  apply (dict_get_in String.eqb string_eqb_spec).
  unfold DoubleTerminator.groups. rewrite Hsplit.
  apply fold_group_step_last; simpl; auto.
  - apply digest_classes_in. now split.
  - intros [size' files'] Hb' Hkey. simpl in Hkey.
    apply in_map_iff in Hkey. destruct Hkey as [[h' l] [Eh Hl]]. simpl in Eh. subst h'.
    apply digest_classes_in in Hl. destruct Hl as [-> Hne].
    destruct (digest_class files' h) as [|q l'] eqn:El; [congruence |].
    assert (Hq : In q (digest_class files' h)) by (rewrite El; now left).
    apply digest_class_in in Hq. destruct Hq as [Hq Hh].
    assert (Hb'' : In (size', files') (DoubleTerminator.size_buckets root paths)).
    { rewrite Hsplit. apply in_or_app. right. now right. }
    apply size_buckets_in in Hb''. destruct Hb'' as [-> _].
    apply size_bucket_in in Hq. destruct Hq as [Hq Hs].
    rewrite (Honly q Hq Hh) in Hs. injection Hs as <-.
    pose proof (group_by_nodup Z.eqb (stat_size root) z_eqb_spec paths) as Hn.
    fold (DoubleTerminator.size_buckets root paths) in Hn.
    rewrite Hsplit, map_app in Hn. simpl in Hn.
    apply NoDup_remove_2 in Hn. apply Hn. apply in_or_app. right.
    apply in_map_iff. exists (size, size_bucket size). auto.
Qed.

End GroupFacts.

(** ** The grouping phase *)

Section FindDuplicates.
Variable md5_hexdigest : bytes -> string.

#[local] Abbreviation find_duplicates := (DoubleTerminator.find_duplicates md5_hexdigest).
#[local] Abbreviation digest := (DoubleTerminator.digest md5_hexdigest).
#[local] Abbreviation hash_key := (DoubleTerminator.hash_key md5_hexdigest).
#[local] Abbreviation digest_class := (DoubleTerminator.digest_class md5_hexdigest).

Lemma listable_dec (root : node) (directory : path) (include_subfolders : bool) :
  DoubleTerminator.listable root directory include_subfolders
  \/ ~ DoubleTerminator.listable root directory include_subfolders.
Proof.
  unfold DoubleTerminator.listable. destruct include_subfolders; [now left; left |].
  destruct (lookup root directory) as [[f | m s es |]|]; eauto 6;
    right; intros [H | [m' [s' [es' H]]]]; discriminate.
Qed.

Lemma hash_key_digest (root : node) (p : path) (h : string) :
  hash_key root p = Some h <-> digest root p = Some h /\ h <> EmptyString.
Proof.
  unfold DoubleTerminator.hash_key. destruct (digest root p) as [h'|].
  - destruct h' as [|c h']; simpl.
    + split; [discriminate | intros [[= <-] H]; congruence].
    + split; [intros [= <-]; split; [reflexivity | discriminate] | now intros [[= <-] _]].
  - split; [discriminate | intros [H _]; discriminate].
Qed.

(** A scan that returns has listed its directory, and returns the groups
    of the size buckets of the paths it visited. *)
Lemma find_duplicates_ok (w w' : world) (directory : path)
    (include_subfolders show_progress : bool) (dups : list (string * list path)) :
  find_duplicates directory include_subfolders show_progress w = (Ok dups, w') ->
  let root := w_root w in
  let fbs := DoubleTerminator.size_buckets root
               (DoubleTerminator.scanned_paths root directory include_subfolders) in
  DoubleTerminator.listable root directory include_subfolders /\
  dups = DoubleTerminator.groups md5_hexdigest root fbs /\
  exists evs,
    w' = log w evs /\
    Forall (fun e => DoubleTerminator.stat_event e \/ DoubleTerminator.hash_event fbs e) evs.
Proof.
  intros H root fbs.
  destruct (listable_dec root directory include_subfolders) as [L | L].
  - destruct (find_duplicates_runs md5_hexdigest root directory include_subfolders
                show_progress L w eq_refl) as [evs [E F]].
    rewrite E in H. injection H as <- <-. eauto.
  - assert (include_subfolders = false) as ->.
    { destruct include_subfolders; [exfalso; apply L; now left | reflexivity]. }
    destruct (find_duplicates_raises md5_hexdigest root directory show_progress L w eq_refl)
      as [evs [E F]].
    rewrite E in H. discriminate.
Qed.

(** C4.  Every group a scan returns has two members or more and is a
    whole digest class of one size bucket of the visited paths, so its
    members share the digest that keys the group and share their size; a
    digest class of fewer than two members is no group; and no file whose
    size bucket has fewer than two members is opened for hashing. *)
Theorem duplicate_groups_invariant (w w' : world) (directory : path)
    (include_subfolders show_progress : bool) (dups : list (string * list path)) :
  find_duplicates directory include_subfolders show_progress w = (Ok dups, w') ->
  let root := w_root w in
  let paths := DoubleTerminator.scanned_paths root directory include_subfolders in
  (forall h fl, In (h, fl) dups ->
     (2 <= List.length fl)%nat /\
     exists size,
       fl = digest_class root (DoubleTerminator.size_bucket root paths size) h /\
       forall p, In p fl ->
                 In p paths /\ stat_size root p = Some size /\ digest root p = Some h)
  /\ (forall size h,
        (List.length (digest_class root (DoubleTerminator.size_bucket root paths size) h)
         < 2)%nat ->
        ~ In (h, digest_class root (DoubleTerminator.size_bucket root paths size) h) dups)
  /\ exists evs,
       w_trace w' = (w_trace w ++ evs)%list /\
       forall p size,
         stat_size root p = Some size ->
         (List.length (DoubleTerminator.size_bucket root paths size) < 2)%nat ->
         ~ In (EvOpen p) evs.
Proof.
  intros H root paths.
  apply find_duplicates_ok in H. fold root in H. fold paths in H.
  destruct H as [L [-> [evs [-> F]]]].
  assert (G : forall h fl,
             In (h, fl) (DoubleTerminator.groups md5_hexdigest root
                           (DoubleTerminator.size_buckets root paths)) ->
             (2 <= List.length fl)%nat /\
             exists size,
               fl = digest_class root (DoubleTerminator.size_bucket root paths size) h /\
               forall p, In p fl ->
                 In p paths /\ stat_size root p = Some size /\ digest root p = Some h).
  { intros h fl Hin. apply groups_members in Hin.
    destruct Hin as [size [-> [Hlen _]]]. split; [unfold Py.len in Hlen; lia |].
    exists size. split; [reflexivity |]. intros p Hp.
    apply digest_class_in in Hp. destruct Hp as [Hp Hk].
    apply size_bucket_in in Hp. apply hash_key_digest in Hk. tauto. }
  split; [exact G | split].
  - intros size h Hlen Hin. apply G in Hin. lia.
  - exists evs. split; [reflexivity |].
    intros p size Hsize Hlen Hin.
    rewrite Forall_forall in F. destruct (F _ Hin) as [[] | Hh]. simpl in Hh.
    destruct Hh as [size' [files [Hb [Hl Hp]]]].
    apply size_buckets_in in Hb. destruct Hb as [-> _].
    apply size_bucket_in in Hp. destruct Hp as [_ Hs].
    rewrite Hsize in Hs. injection Hs as <-. unfold Py.len in Hl. lia.
Qed.

Lemma content_size (root : node) (p : path) (c : bytes) :
  DoubleTerminator.content root p = Some c ->
  stat_size root p = Some (Z.of_nat (String.length c)).
Proof.
  unfold DoubleTerminator.content, stat_size.
  destruct (stat root p) as [[f | |]|]; try discriminate.
  destruct (f_open_ok f); [| discriminate].
  destruct (f_read_fault f) as [k|];
    [destruct (k <? String.length (f_data f))%nat; [discriminate |] |];
    now intros [= <-].
Qed.

Lemma scanned_listable (root : node) (directory : path) (include_subfolders : bool)
    (p : path) :
  In p (DoubleTerminator.scanned_paths root directory include_subfolders) ->
  DoubleTerminator.listable root directory include_subfolders.
Proof.
  unfold DoubleTerminator.listable, DoubleTerminator.scanned_paths.
  destruct include_subfolders; [now left |].
  destruct (lookup root directory) as [[f | m s es |]|]; simpl; try tauto.
  intros _. right. eauto.
Qed.

(** C6.  When digests are never empty and equal digests of visited files
    mean equal contents, the visited files that can be read and have one
    same content, if there are two or more, are exactly the members of one
    group, keyed by the digest of that content; no other group holds any of
    them; a second scan of the unchanged tree returns the same groups; and
    the members of any group have one same size. *)
Theorem identical_files_share_one_group (w : world) (directory : path)
    (include_subfolders show_progress : bool) (c : bytes) (p1 p2 : path) :
  let root := w_root w in
  let paths := DoubleTerminator.scanned_paths root directory include_subfolders in
  (forall d, md5_hexdigest d <> EmptyString) ->
  (forall q1 q2 c1 c2,
     In q1 paths -> In q2 paths ->
     DoubleTerminator.content root q1 = Some c1 ->
     DoubleTerminator.content root q2 = Some c2 ->
     md5_hexdigest c1 = md5_hexdigest c2 -> c1 = c2) ->
  In p1 paths -> In p2 paths -> p1 <> p2 ->
  DoubleTerminator.content root p1 = Some c ->
  DoubleTerminator.content root p2 = Some c ->
  exists dups w' fl,
    find_duplicates directory include_subfolders show_progress w = (Ok dups, w') /\
    In (md5_hexdigest c, fl) dups /\
    (forall q, In q fl <-> In q paths /\ DoubleTerminator.content root q = Some c) /\
    (forall h' fl' q, In (h', fl') dups -> In q fl -> In q fl' ->
                      h' = md5_hexdigest c /\ fl' = fl) /\
    (exists w'',
       find_duplicates directory include_subfolders show_progress w' = (Ok dups, w'')) /\
    (forall h g a b, In (h, g) dups -> In a g -> In b g ->
                     stat_size root a = stat_size root b).
Proof.
  intros root paths Hne Hid H1 H2 Hp12 C1 C2.
  pose proof (scanned_listable _ _ _ _ H1) as L.
  destruct (find_duplicates_runs md5_hexdigest root directory include_subfolders
              show_progress L w eq_refl) as [evs [E F]].
  fold paths in E.
  set (size := Z.of_nat (String.length c)).
  set (h := md5_hexdigest c).
  set (fl := digest_class root (DoubleTerminator.size_bucket root paths size) h).
  assert (Hkey : forall q, DoubleTerminator.content root q = Some c ->
                           hash_key root q = Some h).
  { intros q Cq. apply hash_key_digest. split; [| apply Hne].
    unfold DoubleTerminator.digest. now rewrite Cq. }
  assert (Hmem : forall q, In q fl <-> In q paths /\ DoubleTerminator.content root q = Some c).
  { intros q. unfold fl. rewrite digest_class_in, size_bucket_in. split.
    - intros [[Hq Hs] Hk]. split; [exact Hq |].
      apply hash_key_digest in Hk. destruct Hk as [Hd _].
      unfold DoubleTerminator.digest in Hd.
      destruct (DoubleTerminator.content root q) as [c'|] eqn:Cq; [| discriminate].
      injection Hd as Hd. f_equal. now apply (Hid q p1 c' c).
    - intros [Hq Cq]. repeat split; auto. now apply content_size. }
  assert (Honly : forall q, In q paths -> hash_key root q = Some h ->
                            stat_size root q = Some size).
  { intros q Hq Hk. apply hash_key_digest in Hk. destruct Hk as [Hd _].
    unfold DoubleTerminator.digest in Hd.
    destruct (DoubleTerminator.content root q) as [c'|] eqn:Cq; [| discriminate].
    injection Hd as Hd. rewrite (Hid q p1 c' c Hq H1 Cq C1 Hd) in Cq.
    now apply content_size. }
  assert (Hlen : 1 < Py.len fl).
  { apply (two_members fl p1 p2); [apply Hmem | apply Hmem | exact Hp12]; auto. }
  pose proof (group_of_class md5_hexdigest root paths size h Hlen Honly) as Hin.
  exists (DoubleTerminator.groups md5_hexdigest root (DoubleTerminator.size_buckets root paths)),
    (log w evs), fl.
  split; [exact E | split; [exact Hin | split; [exact Hmem | split; [| split]]]].
  - intros h' fl' q Hin' Hq Hq'.
    destruct (groups_members _ _ _ _ _ Hin') as [size' [Efl' _]].
    assert (h' = h) as ->.
    { rewrite Efl' in Hq'. apply digest_class_in in Hq'. destruct Hq' as [_ Hk'].
      unfold fl in Hq. apply digest_class_in in Hq. destruct Hq as [_ Hk].
      congruence. }
    split; [reflexivity |].
    pose proof (groups_nodup md5_hexdigest root paths) as Hn.
    pose proof (dict_in_get String.eqb string_eqb_spec _ _ _ Hn Hin) as G1.
    pose proof (dict_in_get String.eqb string_eqb_spec _ _ _ Hn Hin') as G2.
    rewrite G1 in G2. now injection G2.
  - destruct (find_duplicates_runs md5_hexdigest root directory include_subfolders
                show_progress L (log w evs) eq_refl) as [evs' [E' _]].
    fold paths in E'. eauto.
  - intros h0 g a b Hg Ha Hb.
    destruct (groups_members _ _ _ _ _ Hg) as [size' [-> _]].
    apply digest_class_in in Ha, Hb. destruct Ha as [Ha _], Hb as [Hb _].
    apply size_bucket_in in Ha, Hb. destruct Ha as [_ ->], Hb as [_ ->]. reflexivity.
Qed.

(** C7.  For a file that cannot be opened or read to its end, the hasher
    returns [None] without raising and leaves the tree as it was; a scan of
    a directory that can be listed still returns, no group holds that file,
    and two readable members of a size bucket that share a digest filed in
    no bucket of another size are together in the group of that digest,
    which is the digest class of the bucket, whatever else the bucket
    holds. *)
Theorem hashing_failure_excludes_one_file (w : world) (directory : path)
    (include_subfolders show_progress : bool) (p : path) :
  let root := w_root w in
  let paths := DoubleTerminator.scanned_paths root directory include_subfolders in
  DoubleTerminator.content root p = None ->
  (exists w',
     DoubleTerminator.calculate_file_hash md5_hexdigest p 65536 w = (Ok None, w') /\
     w_root w' = root)
  /\ (DoubleTerminator.listable root directory include_subfolders ->
      exists dups w',
        find_duplicates directory include_subfolders show_progress w = (Ok dups, w') /\
        (forall h fl, In (h, fl) dups -> ~ In p fl) /\
        (forall size h q1 q2,
           In q1 (DoubleTerminator.size_bucket root paths size) ->
           In q2 (DoubleTerminator.size_bucket root paths size) ->
           q1 <> q2 ->
           hash_key root q1 = Some h -> hash_key root q2 = Some h ->
           (forall q, In q paths -> hash_key root q = Some h ->
                      stat_size root q = Some size) ->
           exists fl,
             In (h, fl) dups /\ In q1 fl /\ In q2 fl /\
             fl = digest_class root (DoubleTerminator.size_bucket root paths size) h)).
Proof.
  intros root paths Hp. split.
  - destruct (calculate_file_hash_runs md5_hexdigest root p 65536 ltac:(discriminate)
                w eq_refl) as [evs [E _]].
    unfold DoubleTerminator.digest in E. rewrite Hp in E. simpl in E.
    exists (log w evs). split; [exact E | reflexivity].
  - intros L.
    destruct (find_duplicates_runs md5_hexdigest root directory include_subfolders
                show_progress L w eq_refl) as [evs [E F]].
    fold paths in E.
    exists (DoubleTerminator.groups md5_hexdigest root
              (DoubleTerminator.size_buckets root paths)), (log w evs).
    split; [exact E | split].
    + intros h fl Hin Hpfl.
      destruct (groups_members _ _ _ _ _ Hin) as [size [-> _]].
      apply digest_class_in in Hpfl. destruct Hpfl as [_ Hk].
      apply hash_key_digest in Hk. destruct Hk as [Hd _].
      unfold DoubleTerminator.digest in Hd. rewrite Hp in Hd. discriminate.
    + intros size h q1 q2 Hq1 Hq2 Hne Hk1 Hk2 Honly.
      exists (digest_class root (DoubleTerminator.size_bucket root paths size) h).
      assert (I1 : In q1 (digest_class root (DoubleTerminator.size_bucket root paths size) h))
        by (apply digest_class_in; auto).
      assert (I2 : In q2 (digest_class root (DoubleTerminator.size_bucket root paths size) h))
        by (apply digest_class_in; auto).
      repeat split; auto.
      apply group_of_class; [| exact Honly].
      now apply (two_members _ q1 q2).
Qed.

(** C8.  A path whose [getsize] fails leaves [files_by_size] as it was
    and adds one to [processed_files]; the second pass over a directory that
    can be listed never raises, ends with [processed_files] equal to the
    number of paths visited, and files under each size exactly the visited
    paths of that size, so a path without a size is in no bucket; and for
    an empty directory the pass yields no bucket, and [find_duplicates]
    returns no group after the one listing, without opening any file. *)
Theorem scan_skips_entries_it_cannot_stat (w : world) (directory : path)
    (include_subfolders show_progress : bool) (total_files : Z) :
  let root := w_root w in
  let paths := DoubleTerminator.scanned_paths root directory include_subfolders in
  (forall st filepath,
     stat_size root filepath = None ->
     exists w',
       DoubleTerminator.scan_file show_progress total_files st filepath w
       = (Ok (fst st, snd st + 1), w'))
  /\ (DoubleTerminator.listable root directory include_subfolders ->
      exists files_by_size w',
        DoubleTerminator.scan_sizes directory include_subfolders show_progress
          total_files w = (Ok (files_by_size, Py.len paths), w') /\
        (forall size files p,
           In (size, files) files_by_size -> In p files ->
           In p paths /\ stat_size root p = Some size) /\
        (forall size p,
           In p paths -> stat_size root p = Some size ->
           exists files, In (size, files) files_by_size /\ In p files))
  /\ (forall mtime size,
        lookup root directory = Some (Dir mtime size []) ->
        let listing := if include_subfolders then EvWalk directory
                       else EvListdir directory in
        DoubleTerminator.scan_sizes directory include_subfolders show_progress
          total_files w = (Ok ([], 0), log w [listing]) /\
        find_duplicates directory include_subfolders show_progress w
        = (Ok [], log w [listing])).
Proof.
  intros root paths. split; [| split].
  - intros st filepath Hs.
    destruct (scan_file_runs root show_progress total_files st filepath w eq_refl)
      as [evs [E _]].
    unfold DoubleTerminator.bucket_step, Py.group_add in E. rewrite Hs in E. eauto.
  - intros L.
    destruct (scan_sizes_runs root directory include_subfolders show_progress
                total_files L w eq_refl) as [evs [E _]].
    fold paths in E.
    exists (DoubleTerminator.size_buckets root paths), (log w evs).
    split; [exact E | split].
    + intros size files p Hb Hp. apply size_buckets_in in Hb. destruct Hb as [-> _].
      now apply size_bucket_in in Hp.
    + intros size p Hp Hs. exists (DoubleTerminator.size_bucket root paths size).
      assert (Hin : In p (DoubleTerminator.size_bucket root paths size))
        by (apply size_bucket_in; auto).
      split; [| exact Hin]. apply size_buckets_in. split; [reflexivity |].
      intros E0. rewrite E0 in Hin. destruct Hin.
  - intros mtime size Hdir listing. subst listing.
    unfold DoubleTerminator.find_duplicates, DoubleTerminator.count_total_files,
      DoubleTerminator.scan_sizes, os_walk, os_listdir, bind.
    destruct include_subfolders; rewrite !emit_run, !log_root; fold root;
      rewrite Hdir; split; reflexivity.
Qed.

(** C10.  [find_duplicates] and [calculate_file_hash], whatever they
    return, leave the tree and the standard input as they were and add to
    the trace only listings, [stat] calls, openings for reading and console
    lines, [calculate_file_hash] only the opening of its file; the two
    resolution functions do change the tree. *)
Theorem scanning_never_modifies_files (w : world) (directory : path)
    (include_subfolders show_progress : bool) (filepath : path) (buffer_size : Z) :
  (exists r w' evs,
     find_duplicates directory include_subfolders show_progress w = (r, w') /\
     w_root w' = w_root w /\ w_stdin w' = w_stdin w /\
     w_trace w' = (w_trace w ++ evs)%list /\
     Forall DoubleTerminator.scan_event evs)
  /\ (exists r w' evs,
        DoubleTerminator.calculate_file_hash md5_hexdigest filepath buffer_size w
        = (Ok r, w') /\
        w_root w' = w_root w /\ w_stdin w' = w_stdin w /\
        w_trace w' = (w_trace w ++ evs)%list /\
        Forall (eq (EvOpen filepath)) evs)
  /\ (exists w0 duplicates,
        w_root (snd (DoubleTerminator.delete_duplicates duplicates true w0)) <> w_root w0
        /\ w_root (snd (DoubleTerminator.delete_interactive duplicates true w0))
           <> w_root w0).
Proof.
  split; [| split].
  - assert (Hev : forall fbs e,
              DoubleTerminator.stat_event e \/ DoubleTerminator.hash_event fbs e ->
              DoubleTerminator.scan_event e).
    { intros fbs e [H | H]; destruct e; simpl in *; tauto. }
    destruct (listable_dec (w_root w) directory include_subfolders) as [L | L].
    + destruct (find_duplicates_runs md5_hexdigest (w_root w) directory include_subfolders
                  show_progress L w eq_refl) as [evs [E F]].
      eexists _, (log w evs), evs. split; [exact E |]. repeat split.
      eapply Forall_impl; [apply Hev | exact F].
    + assert (include_subfolders = false) as ->.
      { destruct include_subfolders; [exfalso; apply L; now left | reflexivity]. }
      destruct (find_duplicates_raises md5_hexdigest (w_root w) directory show_progress
                  L w eq_refl) as [evs [E F]].
      eexists _, (log w evs), evs. split; [exact E |]. repeat split.
      eapply Forall_impl; [| exact F]. intros e He. apply (Hev [] e). now left.
  - destruct (calculate_file_hash_total md5_hexdigest (w_root w) filepath buffer_size)
      as [r Hr].
    destruct (Hr w eq_refl) as [evs [E F]].
    exists r, (log w evs), evs. repeat split; auto.
  - exists (mkworld (Dir 0 0 [("a", File (mkfile "x" 1 true None true));
                              ("b", File (mkfile "x" 2 true None true))])
                    ["y"] []),
      [("h", [["a"]; ["b"]])].
    split; vm_compute; discriminate.
Qed.

End FindDuplicates.

(** ** The stable sort *)

Section SortFacts.
Context {X : Type}.

Lemma insert_keyed_perm (kx : Z * X) (l : list (Z * X)) :
  Permutation (Py.insert_keyed kx l) (kx :: l).
Proof.
  induction l as [|ky l IH]; simpl; [reflexivity |].
  destruct (fst kx <=? fst ky); [reflexivity |].
  rewrite IH. apply perm_swap.
Qed.

Lemma sort_keyed_perm (l : list (Z * X)) : Permutation (Py.sort_keyed l) l.
Proof.
  induction l as [|kx l IH]; simpl; [reflexivity |].
  rewrite insert_keyed_perm. now constructor.
Qed.

Lemma insert_keyed_sorted (kx : Z * X) (l : list (Z * X)) :
  StronglySorted (fun a b => fst a <= fst b) l ->
  StronglySorted (fun a b => fst a <= fst b) (Py.insert_keyed kx l).
Proof.
  induction l as [|ky l IH]; intros H; simpl.
  - constructor; constructor.
  - inversion H as [|? ? Hl Hall]; subst.
    destruct (fst kx <=? fst ky) eqn:E.
    + apply Z.leb_le in E. constructor; [exact H |].
      constructor; [exact E |].
      rewrite Forall_forall in *. intros z Hz. specialize (Hall z Hz). lia.
    + apply Z.leb_gt in E. constructor; [now apply IH |].
      rewrite Forall_forall in *. intros z Hz.
      apply (Permutation_in _ (insert_keyed_perm kx l)) in Hz.
      destruct Hz as [<- | Hz]; [lia | now apply Hall].
Qed.

Lemma sort_keyed_sorted (l : list (Z * X)) :
  StronglySorted (fun a b => fst a <= fst b) (Py.sort_keyed l).
Proof.
  induction l as [|kx l IH]; simpl; [constructor | now apply insert_keyed_sorted].
Qed.



(** Sorting members by a key taken from each of them. *)
Variable key : X -> Z.

Lemma combine_keys (l : list X) : combine (map key l) l = map (fun x => (key x, x)) l.
Proof. induction l; simpl; congruence. Qed.

Lemma keyed_members (l : list X) (a : Z * X) :
  In a (Py.sort_keyed (map (fun x => (key x, x)) l)) -> fst a = key (snd a).
Proof.
  intros H. apply (Permutation_in _ (sort_keyed_perm _)) in H.
  apply in_map_iff in H. now destruct H as [x [<- _]].
Qed.

Lemma sorted_by_perm (l : list X) : Permutation (Py.sorted_by key l) l.
Proof.
  unfold Py.sorted_by. rewrite combine_keys, sort_keyed_perm, map_map. simpl.
  now rewrite map_id.
Qed.

Lemma sorted_by_sorted (l : list X) :
  StronglySorted (fun a b => key a <= key b) (Py.sorted_by key l).
Proof.
  unfold Py.sorted_by. rewrite combine_keys.
  pose proof (sort_keyed_sorted (map (fun x => (key x, x)) l)) as S.
  pose proof (keyed_members l) as K.
  induction (Py.sort_keyed (map (fun x => (key x, x)) l)) as [|a s IH]; simpl;
    [constructor |].
  inversion S as [|? ? Hs Hall]; subst.
  constructor; [apply IH; auto; intros; apply K; now right |].
  rewrite Forall_forall in *. intros y Hy. apply in_map_iff in Hy.
  destruct Hy as [b [<- Hb]]. specialize (Hall b Hb).
  rewrite <- (K a), <- (K b); [exact Hall | now right | now left].
Qed.


End SortFacts.

(** ** The resolution policy *)

Lemma os_path_getmtime_run (p : path) (w : world) :
  os_path_getmtime p w
  = (match stat_mtime (w_root w) p with Some t => Ok t | None => Raise OSError end,
     log w [EvGetmtime p]).
Proof.
  unfold os_path_getmtime, bind. rewrite emit_run, log_root.
  destruct (stat_mtime (w_root w) p); reflexivity.
Qed.

Lemma map_m_getmtime (mt : path -> Z) (file_list : list path) (w : world) :
  (forall p, In p file_list -> stat_mtime (w_root w) p = Some (mt p)) ->
  map_m os_path_getmtime file_list w
  = (Ok (map mt file_list), log w (map EvGetmtime file_list)).
Proof.
  revert w. induction file_list as [|p l IH]; intros w H; simpl.
  - unfold ret. now rewrite log_nil.
  - unfold bind at 1. rewrite os_path_getmtime_run, (H p) by now left.
    unfold bind at 1. rewrite IH by (intros; rewrite log_root; apply H; now right).
    unfold ret. now rewrite log_log.
Qed.

(** Sorting a group whose members all have a modification time. *)
Lemma sort_by_mtime_run (mt : path -> Z) (file_list : list path) (w : world) :
  (forall p, In p file_list -> stat_mtime (w_root w) p = Some (mt p)) ->
  DoubleTerminator.sort_by_mtime file_list w
  = (Ok (Py.sorted_by mt file_list), log w (map EvGetmtime file_list)).
Proof.
  intros H. unfold DoubleTerminator.sort_by_mtime, bind.
  now rewrite (map_m_getmtime mt).
Qed.





(** ** Unlinking *)

Lemma path_eqb_spec (p q : path) : path_eqb p q = true <-> p = q.
Proof.
  revert q. induction p as [|a p IH]; intros [|b q]; simpl;
    try (split; [discriminate | congruence]); [tauto |].
  rewrite andb_true_iff, String.eqb_eq, IH. split; [intros [-> ->] | intros [= -> ->]]; auto.
Qed.

Lemma find_entry_drop_same (name : string) (es : list (string * node)) :
  find_entry name (drop_entry name es) = None.
Proof.
  induction es as [|[n c] es IH]; simpl; [reflexivity |].
  destruct (String.eqb n name) eqn:E; [exact IH |]. simpl. now rewrite E.
Qed.

Lemma find_entry_drop_other (name n0 : string) (es : list (string * node)) :
  n0 <> name -> find_entry n0 (drop_entry name es) = find_entry n0 es.
Proof.
  intros Hne. induction es as [|[n c] es IH]; simpl; [reflexivity |].
  destruct (String.eqb n name) eqn:E; simpl.
  - apply String.eqb_eq in E. subst n.
    destruct (String.eqb name n0) eqn:E0; [| exact IH].
    apply String.eqb_eq in E0. congruence.
  - now rewrite IH.
Qed.

Lemma find_entry_set_same (name : string) (c c' : node) (es : list (string * node)) :
  find_entry name es = Some c -> find_entry name (set_entry name c' es) = Some c'.
Proof.
  induction es as [|[n c0] es IH]; simpl; [discriminate |].
  destruct (String.eqb n name) eqn:E; simpl; rewrite E; auto.
Qed.

Lemma find_entry_set_other (name n0 : string) (c' : node) (es : list (string * node)) :
  n0 <> name -> find_entry n0 (set_entry name c' es) = find_entry n0 es.
Proof.
  intros Hne. induction es as [|[n c0] es IH]; simpl; [reflexivity |].
  destruct (String.eqb n name) eqn:E; simpl.
  - apply String.eqb_eq in E. subst n.
    destruct (String.eqb name n0) eqn:E0; [| reflexivity].
    apply String.eqb_eq in E0. congruence.
  - now rewrite IH.
Qed.

(** Unlinking a name that is no directory takes that name away and leaves
    what [stat] sees of every other path as it was. *)
Lemma stat_unlink (p : path) :
  forall (r n : node),
    p <> [] -> lookup r p = Some n -> is_dir n = false ->
    forall q, stat (unlink r p) q = if path_eqb q p then None else stat r q.
Proof.
  induction p as [|name p IH]; intros r n Hp Hl Hn q; [congruence |].
  destruct r as [f | m s es |]; simpl in Hl; try discriminate.
  destruct (find_entry name es) as [c|] eqn:Ec; [| discriminate].
  destruct p as [|name' p'].
  - (* the name is an entry of this directory *)
    simpl in Hl. injection Hl as ->. simpl unlink.
    destruct q as [|n0 rest]; [reflexivity |].
    unfold stat. simpl.
    destruct (String.eqb n0 name) eqn:E0.
    + apply String.eqb_eq in E0. subst n0.
      rewrite find_entry_drop_same, Ec.
      destruct rest as [|x rest]; [reflexivity |].
      destruct n; simpl in *; try discriminate; reflexivity.
    + rewrite find_entry_drop_other; [reflexivity |].
      intros ->. now rewrite String.eqb_refl in E0.
  - (* the name is further down *)
    change (unlink (Dir m s es) (name :: name' :: p'))
      with (match find_entry name es with
            | Some c => Dir m s (set_entry name (unlink c (name' :: p')) es)
            | None => Dir m s es
            end).
    rewrite Ec.
    destruct q as [|n0 rest]; [reflexivity |].
    unfold stat. simpl lookup. simpl path_eqb.
    destruct (String.eqb n0 name) eqn:E0.
    + apply String.eqb_eq in E0. subst n0.
      rewrite (find_entry_set_same _ _ _ _ Ec), Ec. simpl andb.
      apply (IH c n); auto. discriminate.
    + rewrite find_entry_set_other; [reflexivity |].
      intros ->. now rewrite String.eqb_refl in E0.
Qed.

Lemma removable_not_dir (r : node) (p : path) :
  removable r p = true ->
  p <> [] /\ exists n, lookup r p = Some n /\ is_dir n = false.
Proof.
  unfold removable, stat. destruct p as [|a p]; [discriminate |].
  intros H. split; [discriminate |].
  destruct (lookup r (a :: p)) as [[f | m s es |]|]; simpl in H; try discriminate; eauto.
Qed.

Lemma stat_unlink_removable (r : node) (p q : path) :
  removable r p = true ->
  stat (unlink r p) q = if path_eqb q p then None else stat r q.
Proof.
  intros H. apply removable_not_dir in H. destruct H as [Hp [n [Hl Hn]]].
  now apply (stat_unlink p r n).
Qed.

(** ** The bulk deletion *)

Lemma delete_file_run (st : Z * Z) (p : path) (w : world) :
  DoubleTerminator.delete_file st p w
  = match stat_size (w_root w) p with
    | None => (Ok st, log w [EvGetsize p])
    | Some size =>
        if removable (w_root w) p
        then (Ok (fst st + 1, snd st + size),
              mkworld (unlink (w_root w) p) (w_stdin w)
                      (w_trace w ++ [EvGetsize p; EvRemove p]))
        else (Ok st, log w [EvGetsize p; EvRemove p])
    end.
Proof.
  destruct st as [dc rs].
  unfold DoubleTerminator.delete_file, try_except, os_path_getsize, os_remove, bind.
  rewrite emit_run, log_root.
  destruct (stat_size (w_root w) p) as [size|]; [| reflexivity].
  rewrite emit_run. unfold ret, log. simpl.
  destruct (removable (w_root w) p); now rewrite <- app_assoc.
Qed.

Lemma stat_same_deletable (r r' : node) (p : path) :
  stat r' p = stat r p ->
  DoubleTerminator.deletable r' p = DoubleTerminator.deletable r p
  /\ DoubleTerminator.size_or_zero r' p = DoubleTerminator.size_or_zero r p
  /\ DoubleTerminator.delete_events r' p = DoubleTerminator.delete_events r p
  /\ stat_mtime r' p = stat_mtime r p.
Proof.
  intros H.
  unfold DoubleTerminator.deletable, DoubleTerminator.size_or_zero,
    DoubleTerminator.delete_events, stat_size, stat_mtime, removable.
  rewrite H. repeat split; reflexivity.
Qed.

Lemma flat_map_ext_in' {X Y : Type} (f g : X -> list Y) (l : list X) :
  (forall x, In x l -> f x = g x) -> flat_map f l = flat_map g l.
Proof.
  induction l as [|x l IH]; intros H; simpl; [reflexivity |].
  rewrite (H x) by now left. rewrite IH; [reflexivity | intros; apply H; now right].
Qed.

Lemma path_eqb_neq (p q : path) : p <> q -> path_eqb p q = false.
Proof.
  intros H. destruct (path_eqb p q) eqn:E; [| reflexivity].
  now apply path_eqb_spec in E.
Qed.

(** The loop over the files to delete: every file whose [try] block
    completes is counted with its size and unlinked, every other one is
    passed over, and the loop goes on to the end. *)
Lemma for_each_delete_file (files : list path) :
  forall (st : Z * Z) (w : world),
    NoDup files ->
    let root := w_root w in
    let gone := filter (DoubleTerminator.deletable root) files in
    exists w',
      for_each files DoubleTerminator.delete_file st w
      = (Ok (fst st + Py.len gone,
             snd st + DoubleTerminator.sum (map (DoubleTerminator.size_or_zero root) gone)),
         w') /\
      w_stdin w' = w_stdin w /\
      w_trace w' = (w_trace w ++ flat_map (DoubleTerminator.delete_events root) files)%list /\
      (forall q, In q gone -> stat (w_root w') q = None) /\
      (forall q, ~ In q gone -> stat (w_root w') q = stat root q).
Proof.
  induction files as [|p files IH]; intros st w Hnd root gone.
  - exists w. subst gone. simpl. unfold ret, Py.len. simpl.
    rewrite !Z.add_0_r, app_nil_r. destruct st. repeat split; auto. intros q [].
  - inversion Hnd as [|? ? Hnot Hnd']; subst.
    simpl for_each. unfold bind. rewrite delete_file_run. fold root.
    assert (Hrest : forall r', (forall q, q <> p -> stat r' q = stat root q) ->
              filter (DoubleTerminator.deletable r') files
              = filter (DoubleTerminator.deletable root) files
              /\ flat_map (DoubleTerminator.delete_events r') files
                 = flat_map (DoubleTerminator.delete_events root) files
              /\ map (DoubleTerminator.size_or_zero r')
                     (filter (DoubleTerminator.deletable root) files)
                 = map (DoubleTerminator.size_or_zero root)
                       (filter (DoubleTerminator.deletable root) files)).
    { intros r' Hr'.
      assert (Hq : forall q, In q files -> stat r' q = stat root q).
      { intros q Hq. apply Hr'. intros ->. contradiction. }
      split; [| split].
      - apply filter_ext_in. intros q Hin. now apply stat_same_deletable, Hq.
      - apply flat_map_ext_in'. intros q Hin. now apply stat_same_deletable, Hq.
      - apply map_ext_in. intros q Hin. apply filter_In in Hin.
        now apply stat_same_deletable, Hq. }
    assert (Hd : DoubleTerminator.deletable root p
                 = match stat_size root p with
                   | Some _ => removable root p
                   | None => false
                   end) by reflexivity.
    assert (Hev : DoubleTerminator.delete_events root p
                  = match stat_size root p with
                    | Some _ => [EvGetsize p; EvRemove p]
                    | None => [EvGetsize p]
                    end) by reflexivity.
    assert (Hsz : DoubleTerminator.size_or_zero root p
                  = match stat_size root p with Some size => size | None => 0 end)
      by reflexivity.
    subst gone. simpl filter. simpl flat_map.
    destruct (stat_size root p) as [size|] eqn:Es;
      [destruct (removable root p) eqn:Er |]; rewrite Hd, Hev.
    + (* the file is removed *)
      pose proof (stat_unlink_removable root p) as U.
      set (w1 := mkworld (unlink root p) (w_stdin w)
                         (w_trace w ++ [EvGetsize p; EvRemove p])).
      destruct (IH (fst st + 1, snd st + size) w1 Hnd') as [w' [E [Hin [Ht [Hg Hk]]]]].
      destruct (Hrest (unlink root p)) as [R1 [R2 R3]].
      { intros q Hq. rewrite (U q Er). now rewrite path_eqb_neq. }
      simpl in E, Hin, Ht, Hg, Hk. rewrite R1 in *. rewrite R2 in Ht. rewrite R3 in E.
      exists w'. split; [| split; [exact Hin | split; [| split]]].
      * rewrite E. do 2 f_equal. f_equal.
        -- unfold Py.len. simpl List.length. lia.
        -- simpl map. unfold DoubleTerminator.sum. simpl fold_right. rewrite Hsz. lia.
      * rewrite Ht, <- app_assoc. reflexivity.
      * intros q [<- | Hq]; [| now apply Hg].
        rewrite Hk by (intros Hq; apply filter_In in Hq; tauto).
        rewrite (U p Er). now rewrite (proj2 (path_eqb_spec p p) eq_refl).
      * intros q Hq. rewrite Hk by (intros Hq'; apply Hq; now right).
        rewrite (U q Er).
        rewrite path_eqb_neq; [reflexivity | intros ->; apply Hq; now left].
    + (* the unlink is refused *)
      destruct (IH st (log w [EvGetsize p; EvRemove p]) Hnd')
        as [w' [E [Hin [Ht [Hg Hk]]]]].
      rewrite log_root in *. fold root in E, Ht, Hg, Hk.
      exists w'. simpl in Ht. rewrite <- app_assoc in Ht. simpl in Ht.
      repeat split; auto.
    + (* the size cannot be read *)
      destruct (IH st (log w [EvGetsize p]) Hnd') as [w' [E [Hin [Ht [Hg Hk]]]]].
      rewrite log_root in *. fold root in E, Ht, Hg, Hk.
      exists w'. simpl in Ht. rewrite <- app_assoc in Ht. simpl in Ht.
      repeat split; auto.
Qed.

Lemma files_to_delete_incl (keep_oldest : bool) (l : list path) (p : path) :
  In p (DoubleTerminator.files_to_delete keep_oldest l) -> In p l.
Proof.
  unfold DoubleTerminator.files_to_delete. destruct keep_oldest.
  - destruct l; simpl; auto.
  - intros H. destruct l as [|x l]; [destruct H |].
    destruct (exists_last (l := x :: l) ltac:(discriminate)) as [init [z E]].
    rewrite E in *. rewrite removelast_last in H. apply in_or_app. now left.
Qed.

Lemma files_to_delete_nodup (keep_oldest : bool) (l : list path) :
  NoDup l -> NoDup (DoubleTerminator.files_to_delete keep_oldest l).
Proof.
  unfold DoubleTerminator.files_to_delete. intros H. destruct keep_oldest.
  - destruct l; simpl; [constructor | now inversion H].
  - destruct l as [|x l]; [constructor |].
    destruct (exists_last (l := x :: l) ltac:(discriminate)) as [init [z E]].
    rewrite E in *. rewrite removelast_last. now apply NoDup_app_remove_r in H.
Qed.

Lemma nodup_app_disjoint {X : Type} (l l' : list X) (x : X) :
  NoDup (l ++ l') -> In x l -> In x l' -> False.
Proof.
  induction l as [|a l IH]; simpl; intros H Hx Hx'; [destruct Hx |].
  inversion H as [|? ? Hnot Hnd]; subst. destruct Hx as [-> | Hx]; [| eauto].
  apply Hnot. apply in_or_app. now right.
Qed.

Lemma sorted_by_ext {X : Type} (key key' : X -> Z) (l : list X) :
  (forall x, In x l -> key x = key' x) -> Py.sorted_by key l = Py.sorted_by key' l.
Proof.
  intros H. unfold Py.sorted_by. do 3 f_equal. now apply map_ext_in.
Qed.

Section Bulk.
Variable keep_oldest : bool.

#[local] Abbreviation doomed := (fun root => DoubleTerminator.doomed root keep_oldest).

Lemma doomed_incl (root : node) (g : list path) (p : path) :
  In p (doomed root g) -> In p g.
Proof.
  intros H. apply files_to_delete_incl in H.
  now apply (Permutation_in _ (sorted_by_perm _ g)) in H.
Qed.

Lemma doomed_nodup (root : node) (g : list path) : NoDup g -> NoDup (doomed root g).
Proof.
  intros H. apply files_to_delete_nodup.
  now apply (Permutation_NoDup (Permutation_sym (sorted_by_perm _ g))).
Qed.

Lemma agree_doomed (r r' : node) (g : list path) :
  agree r r' g -> doomed r' g = doomed r g.
Proof.
  intros H. unfold DoubleTerminator.doomed. f_equal. apply sorted_by_ext.
  intros p Hp. unfold DoubleTerminator.mtime_or_zero.
  now rewrite (proj2 (proj2 (proj2 (stat_same_deletable r r' p (H p Hp))))).
Qed.

Lemma agree_filter (r r' : node) (ps : list path) :
  agree r r' ps ->
  filter (DoubleTerminator.deletable r') ps = filter (DoubleTerminator.deletable r) ps.
Proof. intros H. apply filter_ext_in. intros q Hq. now apply stat_same_deletable, H. Qed.

Lemma agree_sizes (r r' : node) (ps : list path) :
  agree r r' ps ->
  map (DoubleTerminator.size_or_zero r') ps = map (DoubleTerminator.size_or_zero r) ps.
Proof. intros H. apply map_ext_in. intros q Hq. now apply stat_same_deletable, H. Qed.

Lemma agree_events (r r' : node) (g : list path) :
  agree r r' g ->
  DoubleTerminator.group_events r' keep_oldest g
  = DoubleTerminator.group_events r keep_oldest g.
Proof.
  intros H. unfold DoubleTerminator.group_events. rewrite (agree_doomed r r' g H).
  f_equal. apply flat_map_ext_in'. intros q Hq.
  apply stat_same_deletable, H. now apply doomed_incl in Hq.
Qed.

(** The bulk deletion of one group whose members all have a modification
    time: it never raises, and removes the files marked for removal whose
    [try] block completes. *)
Lemma delete_group_run (g : list path) (st : Z * Z) (w : world) :
  NoDup g ->
  (forall p, In p g -> stat_mtime (w_root w) p <> None) ->
  let root := w_root w in
  let gone := filter (DoubleTerminator.deletable root) (doomed root g) in
  exists w',
    DoubleTerminator.delete_group keep_oldest st g w
    = (Ok (fst st + Py.len gone,
           snd st + DoubleTerminator.sum (map (DoubleTerminator.size_or_zero root) gone)),
       w') /\
    w_stdin w' = w_stdin w /\
    w_trace w' = (w_trace w ++ DoubleTerminator.group_events root keep_oldest g)%list /\
    (forall q, In q gone -> stat (w_root w') q = None) /\
    (forall q, ~ In q gone -> stat (w_root w') q = stat root q).
Proof.
  intros Hnd Hmt root gone.
  unfold DoubleTerminator.delete_group, bind.
  rewrite (sort_by_mtime_run (DoubleTerminator.mtime_or_zero root)).
  - fold (DoubleTerminator.doomed root keep_oldest g).
    destruct (for_each_delete_file (doomed root g) st (log w (map EvGetmtime g))
                (doomed_nodup root g Hnd)) as [w' [E [Hin [Ht [Hg Hk]]]]].
    rewrite log_root in *. fold root in E, Ht, Hg, Hk. exists w'.
    split; [exact E | split; [exact Hin | split; [| split; assumption]]].
    rewrite Ht. simpl. unfold DoubleTerminator.group_events. now rewrite app_assoc.
  - intros p Hp. specialize (Hmt p Hp). unfold DoubleTerminator.mtime_or_zero.
    fold root in Hmt |- *. destruct (stat_mtime root p); congruence.
Qed.

(** The bulk deletion of groups that share no member and whose members all
    have a modification time. *)
Lemma delete_groups_run (groups : list (list path)) :
  forall (st : Z * Z) (w : world),
    NoDup (List.concat groups) ->
    (forall p, In p (List.concat groups) -> stat_mtime (w_root w) p <> None) ->
    let root := w_root w in
    let gone := filter (DoubleTerminator.deletable root) (flat_map (doomed root) groups) in
    exists w',
      for_each groups (DoubleTerminator.delete_group keep_oldest) st w
      = (Ok (fst st + Py.len gone,
             snd st + DoubleTerminator.sum (map (DoubleTerminator.size_or_zero root) gone)),
         w') /\
      w_stdin w' = w_stdin w /\
      w_trace w'
      = (w_trace w
         ++ flat_map (DoubleTerminator.group_events root keep_oldest) groups)%list /\
      (forall q, In q gone -> stat (w_root w') q = None) /\
      (forall q, ~ In q gone -> stat (w_root w') q = stat root q).
Proof.
  induction groups as [|g groups IH]; intros st w Hnd Hmt root gone.
  - exists w. subst gone. simpl. unfold ret, Py.len. simpl.
    rewrite !Z.add_0_r, app_nil_r. destruct st. repeat split; auto. intros q [].
  - simpl in Hnd, Hmt.
    pose proof (NoDup_app_remove_r _ _ Hnd) as Hg.
    pose proof (NoDup_app_remove_l _ _ Hnd) as Hgs.
    destruct (delete_group_run g st w Hg) as [w1 [E1 [I1 [T1 [G1 K1]]]]].
    { intros p Hp. apply Hmt. apply in_or_app. now left. }
    fold root in E1, T1, G1, K1.
    set (gone1 := filter (DoubleTerminator.deletable root) (doomed root g)) in *.
    assert (Hdisj : forall q, In q (List.concat groups) -> ~ In q gone1).
    { intros q Hq Hq1. apply filter_In in Hq1. destruct Hq1 as [Hq1 _].
      apply doomed_incl in Hq1.
      exact (nodup_app_disjoint _ _ q Hnd Hq1 Hq). }
    assert (Hag : forall h, In h groups -> agree root (w_root w1) h).
    { intros h Hh q Hq. apply K1, Hdisj. apply in_concat. eauto. }
    destruct (IH (fst st + Py.len gone1,
                  snd st + DoubleTerminator.sum
                             (map (DoubleTerminator.size_or_zero root) gone1))
                 w1 Hgs) as [w' [E [Hin [Ht [Hgone Hkept]]]]].
    { intros p Hp. rewrite (proj2 (proj2 (proj2 (stat_same_deletable root (w_root w1) p
                                                    (K1 p (Hdisj p Hp)))))).
      apply Hmt. apply in_or_app. now right. }
    assert (R1 : flat_map (doomed (w_root w1)) groups = flat_map (doomed root) groups).
    { apply flat_map_ext_in'. intros h Hh. apply agree_doomed. now apply Hag. }
    assert (Hplan : forall q, In q (flat_map (doomed root) groups) -> In q (List.concat groups)).
    { intros q Hq. apply in_flat_map in Hq. destruct Hq as [h [Hh Hq]].
      apply in_concat. exists h. split; [exact Hh | now apply doomed_incl in Hq]. }
    assert (R2 : filter (DoubleTerminator.deletable (w_root w1))
                        (flat_map (doomed root) groups)
                 = filter (DoubleTerminator.deletable root) (flat_map (doomed root) groups)).
    { apply agree_filter. intros q Hq. apply K1, Hdisj, Hplan, Hq. }
    assert (R3 : map (DoubleTerminator.size_or_zero (w_root w1))
                     (filter (DoubleTerminator.deletable root)
                             (flat_map (doomed root) groups))
                 = map (DoubleTerminator.size_or_zero root)
                       (filter (DoubleTerminator.deletable root)
                               (flat_map (doomed root) groups))).
    { apply agree_sizes. intros q Hq. apply filter_In in Hq.
      apply K1, Hdisj, Hplan. tauto. }
    assert (R4 : flat_map (DoubleTerminator.group_events (w_root w1) keep_oldest) groups
                 = flat_map (DoubleTerminator.group_events root keep_oldest) groups).
    { apply flat_map_ext_in'. intros h Hh. apply agree_events. now apply Hag. }
    simpl in E, Ht, Hgone, Hkept. rewrite R1, R2 in *. rewrite R3 in E. rewrite R4 in Ht.
    set (gone2 := filter (DoubleTerminator.deletable root)
                         (flat_map (doomed root) groups)) in *.
    assert (Egone : gone = (gone1 ++ gone2)%list).
    { subst gone gone1 gone2. simpl flat_map. now rewrite filter_app. }
    exists w'. simpl for_each. unfold bind. rewrite E1, E, Egone.
    split; [| split; [congruence | split; [| split]]].
    + do 2 f_equal. unfold Py.len. rewrite length_app, map_app.
      unfold DoubleTerminator.sum. rewrite fold_right_app.
      f_equal; [lia |].
      assert (S : forall (a b : list Z),
                fold_right Z.add (fold_right Z.add 0 b) a
                = fold_right Z.add 0 a + fold_right Z.add 0 b).
      { induction a as [|x a IHa]; intros b; simpl; [reflexivity | rewrite IHa; lia]. }
      rewrite S. lia.
    + rewrite Ht, T1. simpl flat_map. now rewrite app_assoc.
    + intros q Hq. apply in_app_or in Hq. destruct Hq as [Hq | Hq]; [| now apply Hgone].
      destruct (in_dec (list_eq_dec string_dec) q gone2) as [H2 | H2];
        [now apply Hgone |].
      rewrite (Hkept q H2). now apply G1.
    + intros q Hq. rewrite Hkept by (intros H2; apply Hq, in_or_app; now right).
      apply K1. intros H1. apply Hq, in_or_app. now left.
Qed.

End Bulk.

(** ** Bulk resolution *)

Lemma sum_app (a b : list Z) :
  DoubleTerminator.sum (a ++ b) = DoubleTerminator.sum a + DoubleTerminator.sum b.
Proof.
  unfold DoubleTerminator.sum. induction a as [|x a IH]; simpl; [reflexivity | lia].
Qed.

Lemma sum_flat_map {X Y : Type} (f : Y -> Z) (d : X -> list Y) (l : list X) :
  DoubleTerminator.sum (map f (flat_map d l))
  = DoubleTerminator.sum (map (fun x => DoubleTerminator.sum (map f (d x))) l).
Proof.
  induction l as [|x l IH]; simpl; [reflexivity |].
  rewrite map_app, sum_app, IH. reflexivity.
Qed.

Lemma len_flat_map {X Y : Type} (d : X -> list Y) (l : list X) :
  Py.len (flat_map d l) = DoubleTerminator.sum (map (fun x => Py.len (d x)) l).
Proof.
  unfold Py.len. induction l as [|x l IH]; simpl; [reflexivity |].
  rewrite length_app, Nat2Z.inj_add, IH. reflexivity.
Qed.

Lemma sum_constant {X : Type} (f : X -> Z) (c : Z) (l : list X) :
  (forall x, In x l -> f x = c) -> DoubleTerminator.sum (map f l) = Py.len l * c.
Proof.
  unfold Py.len, DoubleTerminator.sum.
  induction l as [|x l IH]; intros H; simpl fold_right; [simpl; lia |].
  rewrite (H x) by now left. rewrite IH by (intros; apply H; now right).
  simpl List.length. lia.
Qed.

(** The policy keeps one member and marks the others. *)
Lemma doomed_kept (root : node) (keep_oldest : bool) (g : list path) :
  g <> [] -> exists kept, Permutation (kept :: DoubleTerminator.doomed root keep_oldest g) g.
Proof.
  intros Hne. unfold DoubleTerminator.doomed.
  pose proof (sorted_by_perm (DoubleTerminator.mtime_or_zero root) g) as P.
  destruct (Py.sorted_by (DoubleTerminator.mtime_or_zero root) g) as [|x s] eqn:E.
  { apply Permutation_nil in P. congruence. }
  unfold DoubleTerminator.files_to_delete. destruct keep_oldest.
  - exists x. exact P.
  - destruct (exists_last (l := x :: s) ltac:(discriminate)) as [init [z Ez]].
    rewrite Ez in *. exists z. rewrite removelast_last, <- P.
    apply Permutation_cons_append.
Qed.

Lemma doomed_length (root : node) (keep_oldest : bool) (g : list path) :
  g <> [] -> Py.len (DoubleTerminator.doomed root keep_oldest g) = Py.len g - 1.
Proof.
  intros Hne. destruct (doomed_kept root keep_oldest g Hne) as [kept P].
  apply Permutation_length in P. unfold Py.len. simpl in P. lia.
Qed.

Lemma delete_duplicates_run (keep_oldest : bool) (duplicates : list (string * list path))
    (w : world) :
  let root := w_root w in
  let groups := map snd duplicates in
  let gone := filter (DoubleTerminator.deletable root)
                     (flat_map (DoubleTerminator.doomed root keep_oldest) groups) in
  NoDup (List.concat groups) ->
  (forall p, In p (List.concat groups) -> stat_mtime root p <> None) ->
  exists w',
    DoubleTerminator.delete_duplicates duplicates keep_oldest w
    = (Ok (Py.len gone,
           DoubleTerminator.sum (map (DoubleTerminator.size_or_zero root) gone)), w') /\
    w_stdin w' = w_stdin w /\
    w_trace w'
    = (w_trace w ++ flat_map (DoubleTerminator.group_events root keep_oldest) groups)%list /\
    (forall q, In q gone -> stat (w_root w') q = None) /\
    (forall q, ~ In q gone -> stat (w_root w') q = stat root q).
Proof.
  intros root groups gone Hnd Hmt.
  destruct (delete_groups_run keep_oldest groups (0, 0) w Hnd Hmt)
    as [w' [E H]].
  exists w'. split; [| exact H]. unfold DoubleTerminator.delete_duplicates.
  fold groups. rewrite E. reflexivity.
Qed.

(** C2.  When the groups share no member, are not empty, and every
    member of a group has the size of its group and can be removed, the
    bulk deletion returns, for groups of [N] members of size [fileSize]
    each, the sum of the [N - 1] as [deleted_count] and the sum of the
    [(N - 1) * fileSize] as [reclaimed_space]; each [remove] comes right
    after the [getsize] of the same file; and of each group one member is
    left as it was and all the others are gone. *)
Theorem bulk_resolution_reclaims (w : world) (duplicates : list (string * list path))
    (keep_oldest : bool) (size_of : list path -> Z) :
  let root := w_root w in
  let groups := map snd duplicates in
  NoDup (List.concat groups) ->
  (forall g, In g groups -> g <> []) ->
  (forall g p, In g groups -> In p g ->
     stat_size root p = Some (size_of g) /\ removable root p = true) ->
  exists w',
    DoubleTerminator.delete_duplicates duplicates keep_oldest w
    = (Ok (DoubleTerminator.sum (map (fun g => Py.len g - 1) groups),
           DoubleTerminator.sum (map (fun g => (Py.len g - 1) * size_of g) groups)),
       w') /\
    w_trace w'
    = (w_trace w
       ++ flat_map (fun g =>
                      map EvGetmtime g
                      ++ flat_map (fun p => [EvGetsize p; EvRemove p])
                                  (DoubleTerminator.doomed root keep_oldest g))
                   groups)%list /\
    (forall g, In g groups ->
       exists kept,
         Permutation (kept :: DoubleTerminator.doomed root keep_oldest g) g /\
         stat (w_root w') kept = stat root kept /\
         forall p, In p (DoubleTerminator.doomed root keep_oldest g) ->
                   stat (w_root w') p = None).
Proof.
  intros root groups Hnd Hne Hok.
  assert (Hmem : forall p, In p (List.concat groups) ->
            exists g, In g groups /\ In p g).
  { intros p Hp. apply in_concat in Hp. destruct Hp as [g [Hg Hp]]. eauto. }
  assert (Hdel : forall g p, In g groups -> In p g ->
            DoubleTerminator.deletable root p = true
            /\ DoubleTerminator.size_or_zero root p = size_of g
            /\ DoubleTerminator.delete_events root p = [EvGetsize p; EvRemove p]).
  { intros g p Hg Hp. destruct (Hok g p Hg Hp) as [Hs Hr].
    unfold DoubleTerminator.deletable, DoubleTerminator.size_or_zero,
      DoubleTerminator.delete_events. now rewrite Hs. }
  destruct (delete_duplicates_run keep_oldest duplicates w Hnd) as [w' [E [_ [T [G K]]]]].
  { intros p Hp. destruct (Hmem p Hp) as [g [Hg Hpg]].
    destruct (Hok g p Hg Hpg) as [Hs _]. unfold stat_size, stat_mtime in *. fold root.
    destruct (stat root p) as [[f | m s |]|]; congruence. }
  fold root in E, T, G, K. fold groups in E, T, G, K.
  assert (Hall : filter (DoubleTerminator.deletable root)
                        (flat_map (DoubleTerminator.doomed root keep_oldest) groups)
                 = flat_map (DoubleTerminator.doomed root keep_oldest) groups).
  { apply forallb_filter_id. apply forallb_forall. intros p Hp.
    apply in_flat_map in Hp. destruct Hp as [g [Hg Hp]].
    apply (Hdel g p Hg). now apply doomed_incl in Hp. }
  rewrite Hall in *.
  exists w'. split; [| split].
  - rewrite E. do 2 f_equal. f_equal.
    + rewrite len_flat_map. f_equal. apply map_ext_in. intros g Hg.
      apply doomed_length. now apply Hne.
    + rewrite sum_flat_map. f_equal. apply map_ext_in. intros g Hg.
      rewrite (sum_constant _ (size_of g)).
      * now rewrite doomed_length by now apply Hne.
      * intros p Hp. apply (Hdel g p Hg). now apply doomed_incl in Hp.
  - rewrite T. f_equal. apply flat_map_ext_in'. intros g Hg.
    unfold DoubleTerminator.group_events. f_equal. apply flat_map_ext_in'.
    intros p Hp. apply (Hdel g p Hg). now apply doomed_incl in Hp.
  - intros g Hg. destruct (doomed_kept root keep_oldest g (Hne g Hg)) as [kept P].
    exists kept. split; [exact P | split].
    + apply K. intros Hk. apply in_flat_map in Hk. destruct Hk as [g' [Hg' Hk]].
      assert (Hkg : In kept g) by (apply (Permutation_in _ P); now left).
      assert (Hndg : NoDup g).
      { clear - Hnd Hg. induction groups as [|a l IH]; [destruct Hg |].
        simpl in Hnd. destruct Hg as [-> | Hg];
          [now apply NoDup_app_remove_r in Hnd
          | apply IH; auto; now apply NoDup_app_remove_l in Hnd]. }
      assert (g' = g) as ->.
      { apply doomed_incl in Hk. clear - Hnd Hg Hg' Hk Hkg.
        induction groups as [|a l IH]; [destruct Hg |].
        simpl in Hnd. destruct Hg as [-> | Hg], Hg' as [-> | Hg'];
          [reflexivity | | | apply IH; auto; now apply NoDup_app_remove_l in Hnd].
        - exfalso. apply (nodup_app_disjoint _ _ kept Hnd Hkg).
          apply in_concat. eauto.
        - exfalso. apply (nodup_app_disjoint _ _ kept Hnd Hk).
          apply in_concat. eauto. }
      apply (Permutation_NoDup (Permutation_sym P)) in Hndg.
      inversion Hndg; subst. contradiction.
    + intros p Hp. apply G. apply in_flat_map. eauto.
Qed.

(** C5 (amended).  When the groups share no member and every member has
    a modification time, a file whose [getsize] or [remove] fails leaves
    the counters and the tree as they were; the bulk deletion never raises,
    attempts every file marked for removal, removes each one whose attempt
    succeeds, whatever failed before it, and returns their number and the
    sum of their sizes: a file whose removal failed is counted in neither.
    The pair returned holds no count of failures. *)
Theorem bulk_deletion_failure_is_skipped (w : world)
    (duplicates : list (string * list path)) (keep_oldest : bool) :
  let root := w_root w in
  let groups := map snd duplicates in
  let marked := flat_map (DoubleTerminator.doomed root keep_oldest) groups in
  let removed := filter (DoubleTerminator.deletable root) marked in
  NoDup (List.concat groups) ->
  (forall p, In p (List.concat groups) -> stat_mtime root p <> None) ->
  (forall st p,
     DoubleTerminator.deletable root p = false ->
     exists w', DoubleTerminator.delete_file st p w = (Ok st, w') /\ w_root w' = root)
  /\ exists w',
       DoubleTerminator.delete_duplicates duplicates keep_oldest w
       = (Ok (Py.len removed,
              DoubleTerminator.sum (map (DoubleTerminator.size_or_zero root) removed)),
          w') /\
       (forall p, In p marked -> DoubleTerminator.deletable root p = false ->
                  ~ In p removed /\ stat (w_root w') p = stat root p) /\
       (forall p, In p marked -> DoubleTerminator.deletable root p = true ->
                  stat (w_root w') p = None) /\
       (forall p, In p marked -> In (EvGetsize p) (w_trace w')).
Proof.
  intros root groups marked removed Hnd Hmt. split.
  - intros st p Hd. rewrite delete_file_run. fold root.
    unfold DoubleTerminator.deletable in Hd.
    destruct (stat_size root p); [rewrite Hd |]; eauto.
  - destruct (delete_duplicates_run keep_oldest duplicates w Hnd Hmt)
      as [w' [E [_ [T [G K]]]]].
    fold root in E, T, G, K. fold groups in E, T, G, K. fold marked in E, G, K.
    fold removed in E, G, K.
    exists w'. split; [exact E | split; [| split]].
    + intros p Hp Hd.
      assert (Hnot : ~ In p removed).
      { intros H. apply filter_In in H. destruct H as [_ H]. congruence. }
      split; [exact Hnot | now apply K].
    + intros p Hp Hd. apply G. apply filter_In. auto.
    + intros p Hp. rewrite T. apply in_or_app. right.
      apply in_flat_map in Hp. destruct Hp as [g [Hg Hp]].
      apply in_flat_map. exists g. split; [exact Hg |].
      unfold DoubleTerminator.group_events. apply in_or_app. right.
      apply in_flat_map. exists p. split; [exact Hp |].
      unfold DoubleTerminator.delete_events. destruct (stat_size root p); now left.
Qed.

(** C5, at work: [b] may not be unlinked, [d] is removed after it. *)
Lemma bulk_deletion_failure_is_skipped_witness :
  exists w',
    DoubleTerminator.delete_duplicates example_groups true example_world = (Ok (1, 3), w')
    /\ stat (w_root w') ["b"] = stat example_root ["b"]
    /\ stat (w_root w') ["d"] = None.
Proof.
  destruct (bulk_deletion_failure_is_skipped example_world example_groups true)
    as [_ [w' [E [F [G _]]]]].
  - vm_compute. repeat constructor; simpl; intuition discriminate.
  - intros p Hp. vm_compute in Hp.
    destruct Hp as [<- | [<- | [<- | [<- | []]]]]; discriminate.
  - exists w'. split; [exact E | split].
    + apply (F ["b"]); [vm_compute; tauto | reflexivity].
    + apply (G ["d"]); [vm_compute; tauto | reflexivity].
Defined.

(** C5 as stated fails: the run in which the removal of [b] fails returns
    what a run with nothing to remove returns, and prints nothing; the
    failure is neither counted nor reported. *)
Lemma bulk_failure_leaves_no_mark :
  let failing :=
    DoubleTerminator.delete_duplicates [("hx", [["a"]; ["b"]])] true example_world in
  let idle := DoubleTerminator.delete_duplicates [] true example_world in
  In (EvRemove ["b"]) (w_trace (snd failing))
  /\ stat (w_root (snd failing)) ["b"] = stat example_root ["b"]
  /\ w_trace (snd idle) = []
  /\ fst failing = Ok (0, 0)
  /\ fst idle = Ok (0, 0)
  /\ console_output (w_trace (snd failing)) = [].
Proof. vm_compute. intuition. Qed.

(** C2, at work: two groups of two files, of 2 and 3 bytes. *)
Lemma bulk_resolution_reclaims_witness :
  exists w',
    DoubleTerminator.delete_duplicates
      [("hx", [["a"]; ["b"]]); ("hy", [["c"]; ["d"]])] true
      (mkworld (Dir 0 4096
                  [ ("a", File (mkfile "xx" 10 true None true));
                    ("b", File (mkfile "xx" 20 true None true));
                    ("c", File (mkfile "yyy" 30 true None true));
                    ("d", File (mkfile "yyy" 40 true None true)) ]) [] [])
    = (Ok (2, 5), w').
Proof.
  destruct (bulk_resolution_reclaims
              (mkworld (Dir 0 4096
                  [ ("a", File (mkfile "xx" 10 true None true));
                    ("b", File (mkfile "xx" 20 true None true));
                    ("c", File (mkfile "yyy" 30 true None true));
                    ("d", File (mkfile "yyy" 40 true None true)) ]) [] [])
              [("hx", [["a"]; ["b"]]); ("hy", [["c"]; ["d"]])] true
              (fun g => if path_eqb (hd [] g) ["a"] then 2 else 3))
    as [w' [E _]].
  - vm_compute. repeat constructor; simpl; intuition discriminate.
  - intros g [<- | [<- | []]]; discriminate.
  - intros g p [<- | [<- | []]] [<- | [<- | []]]; split; reflexivity.
  - exists w'. exact E.
Defined.

(** ** The theorems at work on a small tree *)

Example example_find_duplicates :
  fst (DoubleTerminator.find_duplicates example_digest [] true false example_scan)
  = Ok [("md5:xx", [["a"]; ["b"]; ["sub"; "e"]])].
Proof. reflexivity. Qed.

(** C4, at work on the example tree. *)
Lemma duplicate_groups_invariant_witness :
  (2 <= List.length [["a"]; ["b"]; ["sub"; "e"]])%nat
  /\ exists size,
       [["a"]; ["b"]; ["sub"; "e"]]
       = DoubleTerminator.digest_class example_digest example_tree
           (DoubleTerminator.size_bucket example_tree
              (DoubleTerminator.scanned_paths example_tree [] true) size) "md5:xx"
       /\ forall p, In p [["a"]; ["b"]; ["sub"; "e"]] ->
            In p (DoubleTerminator.scanned_paths example_tree [] true)
            /\ stat_size example_tree p = Some size
            /\ DoubleTerminator.digest example_digest example_tree p = Some "md5:xx".
Proof.
  apply (proj1 (duplicate_groups_invariant example_digest example_scan
                  (snd (DoubleTerminator.find_duplicates example_digest [] true false
                          example_scan))
                  [] true false
                  [("md5:xx", [["a"]; ["b"]; ["sub"; "e"]])] eq_refl)).
  now left.
Defined.

(** C6, at work: [a] and [sub/e] have the same content. *)
Lemma identical_files_share_one_group_witness :
  exists dups w' fl,
    DoubleTerminator.find_duplicates example_digest [] true false example_scan
    = (Ok dups, w')
    /\ In ("md5:xx", fl) dups /\ In ["a"] fl /\ In ["sub"; "e"] fl.
Proof.
  destruct (identical_files_share_one_group example_digest example_scan [] true false
              "xx" ["a"] ["sub"; "e"])
    as [dups [w' [fl [E [Hin [Hmem _]]]]]].
  - discriminate.
  - intros q1 q2 c1 c2 _ _ _ _ H. now injection H.
  - vm_compute. tauto.
  - vm_compute. tauto.
  - discriminate.
  - reflexivity.
  - reflexivity.
  - exists dups, w', fl. split; [exact E | split; [exact Hin |]].
    split; apply Hmem; split; try reflexivity; vm_compute; tauto.
Defined.

(** C7, at work: [u] cannot be opened. *)
Lemma hashing_failure_excludes_one_file_witness :
  exists dups w',
    DoubleTerminator.find_duplicates example_digest [] true false example_scan
    = (Ok dups, w')
    /\ (forall h fl, In (h, fl) dups -> ~ In ["u"] fl)
    /\ exists fl, In ("md5:xx", fl) dups /\ In ["a"] fl /\ In ["b"] fl.
Proof.
  destruct (proj2 (hashing_failure_excludes_one_file example_digest example_scan
                     [] true false ["u"] eq_refl))
    as [dups [w' [E [Hout Hin]]]].
  - now left.
  - exists dups, w'. split; [exact E | split; [exact Hout |]].
    destruct (Hin 2 "md5:xx" ["a"] ["b"]) as [fl [H1 [H2 [H3 _]]]];
      try reflexivity; try discriminate; try (vm_compute; tauto).
    + intros q Hq Hk. vm_compute in Hq.
      destruct Hq as [<- | [<- | [<- | [<- | [<- | [<- | []]]]]]];
        try reflexivity; discriminate.
    + eauto.
Defined.

(** C8, at work: [lost] has no size, and is counted. *)
Lemma scan_skips_entries_it_cannot_stat_witness :
  exists files_by_size w',
    DoubleTerminator.scan_sizes [] true false 6 example_scan
    = (Ok (files_by_size, 6), w')
    /\ forall size files, In (size, files) files_by_size -> ~ In ["lost"] files.
Proof.
  destruct (proj1 (proj2 (scan_skips_entries_it_cannot_stat example_digest example_scan
                            [] true false 6)))
    as [fbs [w' [E [Hin _]]]].
  - now left.
  - exists fbs, w'. split; [exact E |].
    intros size files Hb Hl. destruct (Hin size files ["lost"] Hb Hl) as [_ Hs].
    discriminate.
Defined.

(** ** Further examples *)

(** [posixpath.abspath] on a few paths. *)
Example abspath_examples :
  PosixPath.abspath "/home/alice" "/" = "/"
  /\ PosixPath.abspath "/home/alice" "/etc/" = "/etc"
  /\ PosixPath.abspath "/home/alice" "photos/../x//y/." = "/home/alice/x/y"
  /\ PosixPath.abspath "/home/alice" "//etc" = "//etc".
Proof. repeat split; reflexivity. Qed.

(** The guard of sorttofolders.py has a rule for the users directory, and
    the rule is off by one component: it answers [true] for an immediate
    subdirectory of the users directory, and [false] for the users
    directory itself and for what lies deeper. *)
Example sorttofolders_users_rule :
  SortToFolders.is_protected_directory (fun p => p) "C:\Users" = false
  /\ SortToFolders.is_protected_directory (fun p => p) "C:\Users\Alice" = true
  /\ SortToFolders.is_protected_directory (fun p => p) "C:\Users\Alice\Documents" = false
  /\ SortToFolders.is_protected_directory (PosixPath.abspath "/") "/users" = false
  /\ SortToFolders.is_protected_directory (PosixPath.abspath "/") "/users/alice" = true.
Proof. repeat split; reflexivity. Qed.

(** A member that is gone when its group is sorted makes [getmtime] raise
    outside of any [try]: the bulk deletion raises, and the groups after it
    are not processed. *)
Example bulk_deletion_raises_on_missing_member :
  let run :=
    DoubleTerminator.delete_duplicates
      [("hx", [["a"]; ["gone"]]); ("hy", [["c"]; ["d"]])] true example_world in
  fst run = Raise OSError
  /\ w_root (snd run) = example_root
  /\ w_trace (snd run) = [EvGetmtime ["a"]; EvGetmtime ["gone"]].
Proof. vm_compute. auto. Qed.

(** The scenario of three files of one size, two of them with the same
    content: one group of the two, and the bulk deletion that keeps the
    oldest removes the newer one and reclaims its size. *)
Example three_files_scenario :
  let tree :=
    Dir 0 4096 [ ("A", File (mkfile "xxxx" 1 true None true));
                 ("B", File (mkfile "xxxx" 2 true None true));
                 ("C", File (mkfile "yyyy" 3 true None true)) ] in
  let scan :=
    DoubleTerminator.find_duplicates example_digest [] false false (mkworld tree [] []) in
  fst scan = Ok [("md5:xxxx", [["A"]; ["B"]])]
  /\ let bulk :=
       DoubleTerminator.delete_duplicates [("md5:xxxx", [["A"]; ["B"]])] true (snd scan) in
     fst bulk = Ok (1, 4)
     /\ stat (w_root (snd bulk)) ["B"] = None
     /\ stat (w_root (snd bulk)) ["A"] = stat tree ["A"].
Proof. vm_compute. auto. Qed.

(** The interactive deletion asks before it removes, and says what failed. *)
Example interactive_deletion_reports :
  let run :=
    DoubleTerminator.delete_interactive [("hx", [["a"]; ["b"]])] true
      (mkworld example_root [" Y "] []) in
  fst run = Ok (0, 0)
  /\ console_output (w_trace (snd run))
     = [ EvPrint (MsgGroup 2 2);
         EvPrint (MsgMember 1 ["a"] 10);
         EvPrint (MsgMember 2 ["b"] 20);
         EvPrint (MsgKeeping ["a"]);
         EvPrint (MsgFailedToDelete ["b"]) ].
Proof. vm_compute. auto. Qed.

(** * Further properties *)

(** ** The two guards compared *)

Lemma contains_app_r (p s t : string) :
  PyStr.contains p s = true -> PyStr.contains p (s ++ t) = true.
Proof.
  rewrite !contains_iff. intros [pre [post ->]].
  exists pre, (post ++ t). now rewrite !string_app_assoc.
Qed.

Lemma existsb_incl {X : Type} (f : X -> bool) (l l' : list X) :
  incl l l' -> existsb f l = true -> existsb f l' = true.
Proof.
  intros H E. apply existsb_exists in E. destruct E as [x [Hx Hf]].
  apply existsb_exists. exists x. split; [now apply H | exact Hf].
Qed.

Lemma protected_paths_covered :
  incl DoubleTerminator.protected_paths
       (SortToFolders.windows_system_paths ++ SortToFolders.unix_system_paths).
Proof.
  intros p Hp. simpl in Hp.
  repeat (destruct Hp as [<- | Hp]; [simpl; tauto |]). destruct Hp.
Qed.

(** X1.  Whatever path the guard of doubleterminator.py classifies as
    protected, the guard of sorttofolders.py classifies as protected too:
    the drive-root test is the same, and the nine patterns of the first are
    among the patterns of the second.  The converse fails: [/bin/sh] is
    protected by the second guard only. *)
Theorem organizer_guard_covers_duplicate_guard :
  (forall (os_path_abspath : string -> string) (path : string),
     DoubleTerminator.is_protected_directory os_path_abspath path = true ->
     SortToFolders.is_protected_directory os_path_abspath path = true)
  /\ (forall cwd,
        SortToFolders.is_protected_directory (PosixPath.abspath cwd) "/bin/sh" = true
        /\ DoubleTerminator.is_protected_directory (PosixPath.abspath cwd) "/bin/sh" = false).
Proof.
  split; [| intros; split; reflexivity].
  intros os_path_abspath path.
  unfold DoubleTerminator.is_protected_directory, SortToFolders.is_protected_directory.
  destruct (_ && _)%bool; [reflexivity |].
  destruct (_ && _)%bool; [reflexivity |].
  intros H. rewrite <- existsb_app.
  exact (existsb_incl _ _ _ protected_paths_covered H).
Qed.

(** X1, at work: [C:\Windows\Temp]. *)
Lemma organizer_guard_covers_duplicate_guard_witness :
  SortToFolders.is_protected_directory (fun p => p) "C:\Windows\Temp" = true.
Proof.
  apply (proj1 organizer_guard_covers_duplicate_guard). reflexivity.
Defined.

(** X2.  Protection by a reserved segment is inherited: when the guard of
    doubleterminator.py protects a path whose normalized form has more than
    three characters (so that it is the pattern test that answered), it
    protects every path whose normalized form extends that one. *)
Theorem reserved_segment_protects_what_lies_below
    (os_path_abspath : string -> string) (path below rest : string) :
  DoubleTerminator.is_protected_directory os_path_abspath path = true ->
  (3 < String.length (DoubleTerminator.path_lower os_path_abspath path))%nat ->
  DoubleTerminator.path_lower os_path_abspath below
  = DoubleTerminator.path_lower os_path_abspath path ++ rest ->
  DoubleTerminator.is_protected_directory os_path_abspath below = true.
Proof.
  unfold DoubleTerminator.is_protected_directory. intros H Hlen Hbelow.
  apply Nat.leb_gt in Hlen. rewrite Hlen in H. cbn [andb] in H.
  rewrite Hbelow. destruct (_ && _)%bool; [reflexivity |].
  apply existsb_exists in H. destruct H as [p [Hp H]].
  apply existsb_exists. exists p. split; [exact Hp | now apply contains_app_r].
Qed.

(** X2, at work: [/etc/ssh/keys] below [/etc/ssh]. *)
Lemma reserved_segment_protects_what_lies_below_witness :
  DoubleTerminator.is_protected_directory (PosixPath.abspath "/") "/etc/ssh/keys" = true.
Proof.
  apply (reserved_segment_protects_what_lies_below (PosixPath.abspath "/")
           "/etc/ssh" "/etc/ssh/keys" "/keys").
  - reflexivity.
  - simpl. lia.
  - reflexivity.
Defined.

(** ** The Users rule of sorttofolders.py *)

Lemma index_first_after (x : string) (l r : list string) :
  PyStr.mem x l = false -> PyStr.index x (l ++ x :: r) = Some (List.length l).
Proof.
  unfold PyStr.mem. induction l as [|w l IH]; simpl.
  - now rewrite String.eqb_refl.
  - rewrite (String.eqb_sym x w). destruct (String.eqb w x); simpl; [discriminate |].
    intros H. now rewrite IH.
Qed.

Lemma mem_middle (x : string) (l r : list string) : PyStr.mem x (l ++ x :: r) = true.
Proof.
  unfold PyStr.mem. rewrite existsb_app. simpl. now rewrite String.eqb_refl, orb_true_r.
Qed.

(** The test of the Users branch on a path whose first component [users]
    has [n] components after it: it holds exactly when [n] is 1. *)
Lemma users_second_to_last_after (before after : list string) :
  PyStr.mem "users" before = false ->
  SortToFolders.users_second_to_last (before ++ "users" :: after)
  = (List.length after =? 1)%nat.
Proof.
  intros H. unfold SortToFolders.users_second_to_last.
  rewrite mem_middle, index_first_after by exact H. simpl andb.
  rewrite length_app. simpl List.length.
  destruct (Nat.eqb_spec (List.length after) 1) as [E | E].
  - apply Z.eqb_eq. lia.
  - apply Z.eqb_neq. lia.
Qed.

(** X3.  The Users rule of the guard of sorttofolders.py fires for a path
    with exactly one component after its first component [users]: an
    immediate subdirectory of a users directory, such as [C:\Users\Alice],
    is protected.  For the users directory itself and for anything deeper
    the rule does not fire, and the answer is that of the two pattern
    lists. *)
Theorem organizer_users_rule
    (os_path_abspath : string -> string) (path pre name rest : string) :
  let path_lower := DoubleTerminator.path_lower os_path_abspath path in
  PyStr.mem "users" (PyStr.split "/"%char pre) = false ->
  PyStr.contains "/" name = false ->
  (path_lower = pre ++ "/users/" ++ name ->
   SortToFolders.is_protected_directory os_path_abspath path = true)
  /\ (path_lower = pre ++ "/users"
      \/ path_lower = pre ++ "/users/" ++ name ++ "/" ++ rest ->
      SortToFolders.is_protected_directory os_path_abspath path
      = (existsb (fun sys_path => PyStr.contains sys_path path_lower)
                 SortToFolders.windows_system_paths
         || existsb (fun sys_path => PyStr.contains sys_path path_lower)
                    SortToFolders.unix_system_paths)%bool).
Proof.
  intros pl Hpre Hname. unfold SortToFolders.is_protected_directory. fold pl.
  split.
  - intros E.
    assert (Hlen : (String.length pl <=? 3)%nat = false).
    { apply Nat.leb_gt. rewrite E, string_length_app. simpl. lia. }
    rewrite Hlen. simpl andb. cbv iota.
    assert (Hc : PyStr.contains "/users/" pl = true).
    { apply contains_iff. exists pre, name. now rewrite E. }
    assert (Hs : PyStr.split "/"%char pl
                 = (PyStr.split "/"%char pre ++ "users" :: [name])%list).
    { rewrite E.
      change (pre ++ "/users/" ++ name)
        with (pre ++ String "/"%char ("users" ++ String "/"%char name)).
      rewrite !split_app_sep, (split_no_sep _ name Hname). reflexivity. }
    now rewrite Hc, Hs, users_second_to_last_after.
  - intros E.
    assert (Hlen : (String.length pl <=? 3)%nat = false).
    { apply Nat.leb_gt. destruct E as [E | E]; rewrite E, string_length_app; simpl; lia. }
    rewrite Hlen. simpl andb. cbv iota.
    assert (Hu : SortToFolders.users_second_to_last (PyStr.split "/"%char pl) = false).
    { destruct E as [E | E]; rewrite E.
      - change (pre ++ "/users") with (pre ++ String "/"%char "users").
        rewrite split_app_sep. change (PyStr.split "/"%char "users") with ["users"].
        now rewrite users_second_to_last_after.
      - change (pre ++ "/users/" ++ name ++ "/" ++ rest)
          with (pre ++ String "/"%char
                  ("users" ++ String "/"%char (name ++ String "/"%char rest))).
        rewrite !split_app_sep, (split_no_sep _ name Hname).
        change (PyStr.split "/"%char "users") with ["users"]. cbn [app].
        rewrite users_second_to_last_after by exact Hpre.
        simpl List.length. destruct (PyStr.split "/"%char rest) eqn:Er;
          [now apply split_nonempty in Er | reflexivity]. }
    now rewrite Hu, andb_false_r.
Qed.

(** X3, at work: [D:\Users\Bob]. *)
Lemma organizer_users_rule_witness :
  SortToFolders.is_protected_directory (fun p => p) "D:\Users\Bob" = true.
Proof.
  apply (proj1 (organizer_users_rule (fun p => p) "D:\Users\Bob" "d:" "bob" EmptyString
                  eq_refl eq_refl)).
  reflexivity.
Defined.

(** ** The hasher and the size of its chunks *)



Section ChunkSize.
Variable md5_hexdigest : bytes -> string.


End ChunkSize.


(** ** Scanning what is no directory *)

Section NoDirectory.
Variable md5_hexdigest : bytes -> string.

(** X5.  When [directory] does not resolve to a directory (it is missing,
    or is a file), the two modes of [find_duplicates] differ: without
    subfolders [os.listdir] raises and the [OSError] leaves the function;
    with subfolders [os.walk] yields nothing and the function returns no
    group.  Either way nothing else is done. *)
Theorem scan_of_what_is_no_directory (w : world) (directory : path)
    (show_progress : bool) :
  (forall mtime size entries,
     lookup (w_root w) directory <> Some (Dir mtime size entries)) ->
  DoubleTerminator.find_duplicates md5_hexdigest directory false show_progress w
  = (Raise OSError, log w [EvListdir directory])
  /\ DoubleTerminator.find_duplicates md5_hexdigest directory true show_progress w
     = (Ok [], log w [EvWalk directory]).
Proof.
  intros H.
  unfold DoubleTerminator.find_duplicates, DoubleTerminator.count_total_files,
    os_listdir, os_walk, bind.
  rewrite !emit_run, !log_root.
  destruct (lookup (w_root w) directory) as [[f | m s es |]|] eqn:E;
    try (split; reflexivity).
  now destruct (H m s es).
Qed.

End NoDirectory.

(** X5, at work: the file [a] scanned as if it were a directory. *)
Lemma scan_of_what_is_no_directory_witness :
  DoubleTerminator.find_duplicates example_digest ["a"] false true example_scan
  = (Raise OSError, log example_scan [EvListdir ["a"]])
  /\ DoubleTerminator.find_duplicates example_digest ["a"] true true example_scan
     = (Ok [], log example_scan [EvWalk ["a"]]).
Proof.
  apply (scan_of_what_is_no_directory example_digest example_scan ["a"] true).
  discriminate.
Defined.

(** ** The two scan modes on a directory without subdirectories *)





Section FlatDirectory.
Variable md5_hexdigest : bytes -> string.


End FlatDirectory.


(** ** The resolution, whatever fails *)

Lemma for_each_app {X S : Type} (xs ys : list X) (body : S -> X -> M S) :
  forall (s : S) (w : world),
    for_each (xs ++ ys) body s w
    = bind (for_each xs body s) (fun s' => for_each ys body s') w.
Proof.
  induction xs as [|x xs IH]; intros s w; simpl; [reflexivity |].
  unfold bind. destruct (body s x w) as [[s' | e] w1]; [apply IH | reflexivity].
Qed.

(** The keys of the sort are read one after the other; the first member
    without a modification time stops the reading with [OSError]. *)
Lemma map_m_getmtime_raises (file_list : list path) : forall (w : world),
  (exists p, In p file_list /\ stat_mtime (w_root w) p = None) ->
  exists evs,
    map_m os_path_getmtime file_list w = (Raise OSError, log w evs) /\
    Forall (fun e => exists p, In p file_list /\ e = EvGetmtime p) evs.
Proof.
  induction file_list as [|p l IH]; intros w [q [Hq Hn]]; [destruct Hq |].
  simpl. unfold bind at 1. rewrite os_path_getmtime_run.
  destruct (stat_mtime (w_root w) p) as [t|] eqn:Ep.
  - destruct (IH (log w [EvGetmtime p])) as [evs [E F]].
    { exists q. rewrite log_root. split; [| exact Hn].
      destruct Hq as [<- | Hq]; [congruence | exact Hq]. }
    exists (EvGetmtime p :: evs). unfold bind. rewrite E, log_log. split; [reflexivity |].
    constructor; [exists p; split; [now left | reflexivity] |].
    eapply Forall_impl; [| exact F]. intros e [x [Hx ->]]. exists x. split; [now right | reflexivity].
  - exists [EvGetmtime p]. split; [reflexivity |].
    constructor; [| constructor]. exists p. split; [now left | reflexivity].
Qed.

Lemma mtime_all_or_one_missing (root : node) (file_list : list path) :
  (forall p, In p file_list -> stat_mtime root p <> None)
  \/ (exists p, In p file_list /\ stat_mtime root p = None).
Proof.
  induction file_list as [|p l [IH | [q [Hq Hn]]]].
  - left. intros p [].
  - destruct (stat_mtime root p) eqn:E.
    + left. intros q [<- | Hq]; [congruence | now apply IH].
    + right. exists p. split; [now left | exact E].
  - right. exists q. split; [now right | exact Hn].
Qed.

Lemma sort_by_mtime_raises (file_list : list path) (w : world) :
  (exists p, In p file_list /\ stat_mtime (w_root w) p = None) ->
  exists evs,
    DoubleTerminator.sort_by_mtime file_list w = (Raise OSError, log w evs) /\
    Forall (fun e => exists p, In p file_list /\ e = EvGetmtime p) evs.
Proof.
  intros H. destruct (map_m_getmtime_raises file_list w H) as [evs [E F]].
  exists evs. unfold DoubleTerminator.sort_by_mtime, bind. now rewrite E.
Qed.

Lemma sort_by_mtime_sorts (file_list : list path) (w : world) :
  (forall p, In p file_list -> stat_mtime (w_root w) p <> None) ->
  DoubleTerminator.sort_by_mtime file_list w
  = (Ok (Py.sorted_by (DoubleTerminator.mtime_or_zero (w_root w)) file_list),
     log w (map EvGetmtime file_list)).
Proof.
  intros H. apply sort_by_mtime_run. intros p Hp. specialize (H p Hp).
  unfold DoubleTerminator.mtime_or_zero. destruct (stat_mtime (w_root w) p); congruence.
Qed.

(** What a step of the deletion leaves alone: the standard input, and
    every path but the ones of [ps]; its events are [stat]s and removals of
    paths of [ps]. *)
Lemma delete_file_touches (st : Z * Z) (p : path) (w : world) :
  exists st' w' evs,
    DoubleTerminator.delete_file st p w = (Ok st', w') /\
    w_stdin w' = w_stdin w /\
    w_trace w' = (w_trace w ++ evs)%list /\
    Forall (fun e => e = EvGetsize p \/ e = EvRemove p) evs /\
    (forall q, q <> p -> stat (w_root w') q = stat (w_root w) q) /\
    (forall q, stat (w_root w') q = stat (w_root w) q \/ stat (w_root w') q = None).
Proof.
  rewrite delete_file_run.
  destruct (stat_size (w_root w) p) as [size|];
    [destruct (removable (w_root w) p) eqn:Er |];
    do 3 eexists; (split; [reflexivity |]); simpl;
    repeat split; auto.
  - intros q Hq. rewrite (stat_unlink_removable _ _ q Er). now rewrite path_eqb_neq.
  - intros q. rewrite (stat_unlink_removable _ _ q Er). destruct (path_eqb q p); auto.
Qed.

Lemma for_each_delete_file_touches (files : list path) : forall (st : Z * Z) (w : world),
  exists st' w' evs,
    for_each files DoubleTerminator.delete_file st w = (Ok st', w') /\
    w_stdin w' = w_stdin w /\
    w_trace w' = (w_trace w ++ evs)%list /\
    Forall (fun e => exists p, In p files /\ (e = EvGetsize p \/ e = EvRemove p)) evs /\
    (forall q, ~ In q files -> stat (w_root w') q = stat (w_root w) q) /\
    (forall q, stat (w_root w') q = stat (w_root w) q \/ stat (w_root w') q = None).
Proof.
  induction files as [|p files IH]; intros st w; simpl.
  - exists st, w, []. rewrite app_nil_r. repeat split; auto.
  - destruct (delete_file_touches st p w) as [st1 [w1 [e1 [E1 [I1 [T1 [F1 [K1 G1]]]]]]]].
    destruct (IH st1 w1) as [st2 [w2 [e2 [E2 [I2 [T2 [F2 [K2 G2]]]]]]]].
    exists st2, w2, (e1 ++ e2)%list. unfold bind. rewrite E1, E2.
    split; [reflexivity | split; [congruence | split; [| split; [| split]]]];
      [| | | intros q; destruct (G2 q) as [-> | ->]; auto].
    + rewrite T2, T1. now rewrite app_assoc.
    + apply Forall_app. split.
      * eapply Forall_impl; [| exact F1]. intros e He. exists p. split; [now left | exact He].
      * eapply Forall_impl; [| exact F2]. intros e [x [Hx He]]. exists x. split; [now right | exact He].
    + intros q Hq. rewrite K2 by (intros H; apply Hq; now right).
      apply K1. intros ->. apply Hq. now left.
Qed.

Lemma delete_group_touches (keep_oldest : bool) (st : Z * Z) (g : list path) (w : world) :
  exists res w' evs,
    DoubleTerminator.delete_group keep_oldest st g w = (res, w') /\
    w_stdin w' = w_stdin w /\
    w_trace w' = (w_trace w ++ evs)%list /\
    Forall (fun e => exists p, In p g /\
                     (e = EvGetmtime p \/ e = EvGetsize p \/ e = EvRemove p)) evs /\
    (forall q, ~ In q g -> stat (w_root w') q = stat (w_root w) q) /\
    (forall q, stat (w_root w') q = stat (w_root w) q \/ stat (w_root w') q = None) /\
    (NoDup g -> g <> [] ->
     exists kept, In kept g /\ stat (w_root w') kept = stat (w_root w) kept) /\
    (forall e, res = Raise e ->
       e = OSError /\ w_root w' = w_root w /\
       exists p, In p g /\ stat_mtime (w_root w) p = None) /\
    ((exists p, In p g /\ stat_mtime (w_root w) p = None) -> res = Raise OSError).
Proof.
  unfold DoubleTerminator.delete_group, bind.
  destruct (mtime_all_or_one_missing (w_root w) g) as [Hall | Hone].
  - rewrite (sort_by_mtime_sorts g w Hall).
    fold (DoubleTerminator.doomed (w_root w) keep_oldest g).
    set (doomed := DoubleTerminator.doomed (w_root w) keep_oldest g).
    destruct (for_each_delete_file_touches doomed st (log w (map EvGetmtime g)))
      as [st' [w' [evs [E [I [T [F [K G]]]]]]]].
    rewrite log_root in K, G. simpl in I, T.
    exists (Ok st'), w', (map EvGetmtime g ++ evs)%list.
    split; [exact E | split; [exact I |]].
    split; [| split; [| split; [| split; [exact G | split; [| split]]]]].
    + now rewrite T, app_assoc.
    + apply Forall_app. split.
      * apply Forall_forall. intros e He. apply in_map_iff in He.
        destruct He as [p [<- Hp]]. exists p. auto.
      * eapply Forall_impl; [| exact F]. intros e [p [Hp He]]. exists p.
        split; [now apply (doomed_incl keep_oldest (w_root w) g) | tauto].
    + intros q Hq. apply K. intros H. apply Hq.
      now apply (doomed_incl keep_oldest (w_root w) g).
    + intros Hnd Hne.
      destruct (doomed_kept (w_root w) keep_oldest g Hne) as [kept P].
      exists kept. split; [apply (Permutation_in _ P); now left |].
      apply K. apply (Permutation_NoDup (Permutation_sym P)) in Hnd.
      now inversion Hnd.
    + discriminate.
    + intros [p [Hp Hn]]. now destruct (Hall p Hp).
  - destruct (sort_by_mtime_raises g w Hone) as [evs [E F]]. rewrite E.
    exists (Raise OSError), (log w evs), evs.
    split; [reflexivity | split; [reflexivity | split; [reflexivity |]]].
    split; [| split; [| split; [| split; [| split]]]].
    + eapply Forall_impl; [| exact F]. intros e [p [Hp ->]]. exists p. auto.
    + reflexivity.
    + now left.
    + intros _ Hne. destruct g as [|p g]; [congruence |]. exists p. split; [now left | reflexivity].
    + intros e [= <-]. auto.
    + reflexivity.
Qed.

Lemma disjoint_head {X : Type} (g : list X) (groups : list (list X)) (x : X) :
  NoDup (g ++ List.concat groups) -> In x (List.concat groups) -> ~ In x g.
Proof. intros H Hx Hg. exact (nodup_app_disjoint _ _ x H Hg Hx). Qed.

Lemma delete_groups_touches (keep_oldest : bool) (groups : list (list path)) :
  forall (st : Z * Z) (w : world),
  exists res w' evs,
    for_each groups (DoubleTerminator.delete_group keep_oldest) st w = (res, w') /\
    w_stdin w' = w_stdin w /\
    w_trace w' = (w_trace w ++ evs)%list /\
    Forall (fun e => exists p, In p (List.concat groups) /\
                     (e = EvGetmtime p \/ e = EvGetsize p \/ e = EvRemove p)) evs /\
    (forall q, ~ In q (List.concat groups) -> stat (w_root w') q = stat (w_root w) q) /\
    (forall q, stat (w_root w') q = stat (w_root w) q \/ stat (w_root w') q = None) /\
    (NoDup (List.concat groups) ->
     forall g, In g groups -> g <> [] ->
       exists kept, In kept g /\ stat (w_root w') kept = stat (w_root w) kept).
Proof.
  induction groups as [|g groups IH]; intros st w.
  - exists (Ok st), w, []. simpl. rewrite app_nil_r.
    repeat split; auto. intros _ g [].
  - destruct (delete_group_touches keep_oldest st g w)
      as [r1 [w1 [e1 [E1 [I1 [T1 [F1 [K1 [G1 [S1 _]]]]]]]]]].
    assert (F1' : Forall (fun e => exists p, In p (List.concat (g :: groups)) /\
                     (e = EvGetmtime p \/ e = EvGetsize p \/ e = EvRemove p)) e1).
    { eapply Forall_impl; [| exact F1]. intros e [p [Hp He]]. exists p.
      split; [simpl; apply in_or_app; now left | exact He]. }
    simpl for_each. unfold bind. rewrite E1. destruct r1 as [st1 | e].
    + destruct (IH st1 w1) as [r2 [w2 [e2 [E2 [I2 [T2 [F2 [K2 [G2 S2]]]]]]]]].
      exists r2, w2, (e1 ++ e2)%list.
      split; [exact E2 | split; [congruence | split; [| split; [| split; [| split]]]]];
        [| | | intros q; destruct (G2 q) as [-> | ->]; auto |].
      * now rewrite T2, T1, app_assoc.
      * apply Forall_app. split; [exact F1' |].
        eapply Forall_impl; [| exact F2]. intros e [p [Hp He]]. exists p.
        split; [simpl; apply in_or_app; now right | exact He].
      * intros q Hq. simpl in Hq.
        rewrite K2 by (intros H; apply Hq, in_or_app; now right).
        apply K1. intros H. apply Hq, in_or_app. now left.
      * intros Hnd g' Hg' Hne. simpl in Hnd.
        destruct Hg' as [<- | Hg'].
        -- destruct (S1 (NoDup_app_remove_r _ _ Hnd) Hne) as [kept [Hk Es]].
           exists kept. split; [exact Hk |]. rewrite K2; [exact Es |].
           intros H. exact (nodup_app_disjoint _ _ kept Hnd Hk H).
        -- destruct (S2 (NoDup_app_remove_l _ _ Hnd) g' Hg' Hne) as [kept [Hk Es]].
           exists kept. split; [exact Hk |]. rewrite Es. apply K1.
           apply (disjoint_head g groups kept Hnd). apply in_concat. eauto.
    + exists (Raise e), w1, e1.
      split; [reflexivity | split; [exact I1 | split; [exact T1 | split; [exact F1' |]]]].
      split; [| split; [exact G1 |]].
      * intros q Hq. apply K1. intros H. apply Hq. simpl. apply in_or_app. now left.
      * intros Hnd g' Hg' Hne. simpl in Hnd. destruct Hg' as [<- | Hg'].
        -- exact (S1 (NoDup_app_remove_r _ _ Hnd) Hne).
        -- destruct g' as [|p g']; [congruence |]. exists p. split; [now left |].
           apply K1. apply (disjoint_head g groups p Hnd). apply in_concat.
           exists (p :: g'). split; [exact Hg' | now left].
Qed.



(** X8.  The bulk deletion, whether it returns or raises, reads no
    input, leaves every regular file that is no member of a group as it
    was, creates and alters no file (a regular file found after it was
    there before, the same), and makes no system call but [getmtime],
    [getsize] and [remove] on members of the groups. *)
Theorem bulk_deletion_touches_group_members_only (w : world)
    (duplicates : list (string * list path)) (keep_oldest : bool) :
  let members := List.concat (map snd duplicates) in
  let w' := snd (DoubleTerminator.delete_duplicates duplicates keep_oldest w) in
  w_stdin w' = w_stdin w
  /\ (forall q f, ~ In q members ->
        stat (w_root w) q = Some (IFile f) -> stat (w_root w') q = Some (IFile f))
  /\ (forall q f, stat (w_root w') q = Some (IFile f) -> stat (w_root w) q = Some (IFile f))
  /\ exists evs,
       w_trace w' = (w_trace w ++ evs)%list /\
       Forall (fun e => exists p, In p members /\
                        (e = EvGetmtime p \/ e = EvGetsize p \/ e = EvRemove p)) evs.
Proof.
  intros members w'. subst w'. unfold DoubleTerminator.delete_duplicates.
  destruct (delete_groups_touches keep_oldest (map snd duplicates) (0, 0) w)
    as [res [w' [evs [E [I [T [F [K [G _]]]]]]]]].
  rewrite E. simpl. fold members in F, K.
  split; [exact I | split; [| split; [| eauto]]].
  - intros q f Hq Hs. now rewrite K.
  - intros q f Hs. destruct (G q) as [H | H]; congruence.
Qed.

(** X9.  When a member of a group has no modification time at the moment
    its group is sorted (it was removed, or is a broken link), [getmtime]
    raises outside of any [try]: the bulk deletion raises [OSError] there.
    The groups before it have been dealt with and stay so (their counts are
    lost with the exception); that group and the groups after it are left
    as they were. *)
Theorem bulk_deletion_stops_at_a_missing_member (w w1 : world)
    (before after : list (string * list path)) (file_hash : string)
    (file_list : list path) (keep_oldest : bool) (done : Z * Z) (p : path) :
  DoubleTerminator.delete_duplicates before keep_oldest w = (Ok done, w1) ->
  In p file_list ->
  stat_mtime (w_root w1) p = None ->
  exists w',
    DoubleTerminator.delete_duplicates (before ++ (file_hash, file_list) :: after)
      keep_oldest w
    = (Raise OSError, w') /\
    w_root w' = w_root w1.
Proof.
  intros Hdone Hp Hgone. unfold DoubleTerminator.delete_duplicates in *.
  rewrite map_app, for_each_app. unfold bind at 1. rewrite Hdone.
  simpl map. simpl for_each. unfold bind at 1.
  destruct (delete_group_touches keep_oldest done file_list w1)
    as [res [w' [evs [E [_ [_ [_ [_ [_ [_ [R1 R2]]]]]]]]]]].
  rewrite E. rewrite (R2 (ex_intro _ p (conj Hp Hgone))) in *.
  exists w'. split; [reflexivity |]. now destruct (R1 OSError eq_refl) as [_ [H _]].
Qed.

(** X9, at work: [d] is removed with the first group and missed by the second. *)
Lemma bulk_deletion_stops_at_a_missing_member_witness :
  exists w',
    DoubleTerminator.delete_duplicates
      ([("hy", [["c"]; ["d"]])] ++ ("hx", [["a"]; ["d"]]) :: [("hz", [["b"]])])
      true example_world
    = (Raise OSError, w') /\
    w_root w'
    = w_root (snd (DoubleTerminator.delete_duplicates [("hy", [["c"]; ["d"]])] true
                     example_world)).
Proof.
  apply (bulk_deletion_stops_at_a_missing_member example_world _ _ _ _ _ true (1, 3) ["d"]).
  - reflexivity.
  - right. now left.
  - reflexivity.
Defined.

(** ** The interactive resolution *)

Lemma os_path_getsize_run (p : path) (w : world) :
  os_path_getsize p w
  = (match stat_size (w_root w) p with Some n => Ok n | None => Raise OSError end,
     log w [EvGetsize p]).
Proof.
  unfold os_path_getsize, bind. rewrite emit_run, log_root.
  destruct (stat_size (w_root w) p); reflexivity.
Qed.

Lemma print_run (m : message) (w : world) : print m w = (Ok tt, log w [EvPrint m]).
Proof. reflexivity. Qed.

Lemma stat_size_mtime (root : node) (p : path) :
  stat_size root p = None <-> stat_mtime root p = None.
Proof.
  unfold stat_size, stat_mtime. destruct (stat root p) as [[f | m s |]|];
    split; intros H; try reflexivity; discriminate.
Qed.

(** The listing of the members of a group whose members all have a
    modification time. *)
Lemma list_members_run (root : node) (l : list path) : forall (start : Z) (w : world),
  w_root w = root ->
  (forall p, In p l -> stat_mtime root p <> None) ->
  exists evs,
    for_each (DoubleTerminator.enumerate l start)
      (fun (_ : unit) '(i, filepath) =>
         bind (os_path_getmtime filepath)
              (fun mod_time => print (MsgMember i filepath mod_time))) tt w
    = (Ok tt, log w evs).
Proof.
  induction l as [|p l IH]; intros start w Hw H; simpl.
  - exists []. now rewrite log_nil.
  - unfold bind at 1. unfold bind at 1. rewrite os_path_getmtime_run, Hw.
    destruct (stat_mtime root p) as [t|] eqn:E; [| now destruct (H p (or_introl eq_refl))].
    rewrite print_run, log_log.
    destruct (IH (start + 1) (log w ([EvGetmtime p] ++ [EvPrint (MsgMember start p t)])))
      as [evs E'].
    + now rewrite log_root.
    + intros q Hq. apply H. now right.
    + rewrite E', log_log. eauto.
Qed.

Lemma sorted_by_nonempty {X : Type} (key : X -> Z) (l : list X) :
  l <> [] -> Py.sorted_by key l <> [].
Proof.
  intros H E. pose proof (sorted_by_perm key l) as P. rewrite E in P.
  apply Permutation_nil in P. congruence.
Qed.

(** One group of the interactive deletion, when the group is not empty and
    its members all have a modification time: the group is listed, one line
    is read, and the files marked are deleted when the line is a [y]. *)
Lemma confirm_group_run (keep_oldest : bool) (st : Z * Z) (file_hash : string)
    (g : list path) (w : world) :
  g <> [] ->
  (forall p, In p g -> stat_mtime (w_root w) p <> None) ->
  exists evs,
    DoubleTerminator.confirm_group keep_oldest st (file_hash, g) w
    = match w_stdin w with
      | [] => (Raise EOFError, log w evs)
      | answer :: rest =>
          let w1 := mkworld (w_root w) rest (w_trace w ++ evs) in
          if String.eqb (PyStr.lower (PyStr.strip answer)) "y"
          then for_each (DoubleTerminator.doomed (w_root w) keep_oldest g)
                        DoubleTerminator.delete_file_verbosely st w1
          else (Ok st, w1)
      end.
Proof.
  intros Hne Hall. set (root := w_root w).
  unfold DoubleTerminator.confirm_group. unfold bind at 1.
  rewrite (sort_by_mtime_sorts g w Hall). fold root.
  set (sorted := Py.sorted_by (DoubleTerminator.mtime_or_zero root) g).
  assert (Hs : sorted <> []) by now apply sorted_by_nonempty.
  assert (Hin : forall p, In p sorted -> stat_mtime root p <> None).
  { intros p Hp. apply Hall.
    exact (Permutation_in _ (sorted_by_perm (DoubleTerminator.mtime_or_zero root) g) Hp). }
  assert (Hkeep : exists kept,
            DoubleTerminator.file_to_keep keep_oldest sorted = ret kept).
  { unfold DoubleTerminator.file_to_keep. destruct keep_oldest.
    - destruct sorted as [|x s]; [congruence | simpl; eauto].
    - destruct (rev sorted) as [|x s] eqn:Er; [| simpl; eauto].
      apply (f_equal (@rev path)) in Er. rewrite rev_involutive in Er. now destruct Hs. }
  destruct Hkeep as [kept Hkeep]. rewrite Hkeep.
  destruct sorted as [|first s] eqn:Es; [congruence |]. rewrite <- Es in *.
  assert (Hfirst : DoubleTerminator.file_to_keep true sorted = ret first)
    by now rewrite Es.
  rewrite Hfirst. unfold bind at 1. unfold ret at 1. unfold bind at 1. unfold ret at 1.
  unfold bind at 1. rewrite os_path_getsize_run, log_root. fold root.
  destruct (stat_size root first) as [size|] eqn:Esz.
  2:{ apply stat_size_mtime in Esz. exfalso. apply (Hin first); [rewrite Es; now left | exact Esz]. }
  unfold bind at 1. rewrite print_run.
  unfold bind at 1.
  destruct (list_members_run root sorted 1
              (log (log (log w (map EvGetmtime g)) [EvGetsize first])
                   [EvPrint (MsgGroup (Py.len sorted) size)]) eq_refl Hin) as [evs E].
  rewrite E. unfold bind at 1. rewrite print_run.
  unfold bind at 1. unfold input, bind. rewrite emit_run. rewrite !log_log.
  eexists. unfold log at 1. simpl w_stdin.
  destruct (w_stdin w) as [|answer rest]; [reflexivity |].
  simpl. fold root. fold (DoubleTerminator.doomed root keep_oldest g).
  destruct (String.eqb _ "y"); reflexivity.
Qed.

Lemma delete_file_verbosely_run (st : Z * Z) (p : path) (w : world) :
  DoubleTerminator.delete_file_verbosely st p w
  = match stat_size (w_root w) p with
    | None => (Ok st, log w [EvGetsize p; EvPrint (MsgFailedToDelete p)])
    | Some size =>
        if removable (w_root w) p
        then (Ok (fst st + 1, snd st + size),
              mkworld (unlink (w_root w) p) (w_stdin w)
                      (w_trace w ++ [EvGetsize p; EvRemove p; EvPrint (MsgDeleted p)]))
        else (Ok st, log w [EvGetsize p; EvRemove p; EvPrint (MsgFailedToDelete p)])
    end.
Proof.
  destruct st as [dc rs].
  unfold DoubleTerminator.delete_file_verbosely, try_except, os_remove, bind.
  rewrite os_path_getsize_run.
  destruct (stat_size (w_root w) p) as [size|].
  - unfold print, emit, ret, log. simpl.
    destruct (removable (w_root w) p); simpl; now rewrite <- !app_assoc.
  - unfold print, emit, ret, log. simpl. now rewrite <- !app_assoc.
Qed.

(** The loop of the interactive deletion removes what the loop of the bulk
    deletion removes, and counts the same. *)
Lemma verbose_deletion_simulates (files : list path) :
  forall (st : Z * Z) (v1 v2 : world),
    w_root v1 = w_root v2 ->
    exists st' v1' v2',
      for_each files DoubleTerminator.delete_file st v1 = (Ok st', v1') /\
      for_each files DoubleTerminator.delete_file_verbosely st v2 = (Ok st', v2') /\
      w_root v1' = w_root v2' /\
      w_stdin v2' = w_stdin v2.
Proof.
  induction files as [|p files IH]; intros st v1 v2 Hr; simpl.
  - exists st, v1, v2. auto.
  - unfold bind. rewrite delete_file_run, delete_file_verbosely_run, Hr.
    destruct (stat_size (w_root v2) p) as [size|];
      [destruct (removable (w_root v2) p) |].
    + destruct (IH (fst st + 1, snd st + size)
                  (mkworld (unlink (w_root v2) p) (w_stdin v1)
                           (w_trace v1 ++ [EvGetsize p; EvRemove p]))
                  (mkworld (unlink (w_root v2) p) (w_stdin v2)
                           (w_trace v2 ++ [EvGetsize p; EvRemove p; EvPrint (MsgDeleted p)]))
                  eq_refl) as [st' [a [b [E1 [E2 [R S]]]]]].
      exists st', a, b. auto.
    + destruct (IH st (log v1 [EvGetsize p; EvRemove p])
                  (log v2 [EvGetsize p; EvRemove p; EvPrint (MsgFailedToDelete p)]) Hr)
        as [st' [a [b [E1 [E2 [R S]]]]]].
      exists st', a, b. auto.
    + destruct (IH st (log v1 [EvGetsize p])
                  (log v2 [EvGetsize p; EvPrint (MsgFailedToDelete p)]) Hr)
        as [st' [a [b [E1 [E2 [R S]]]]]].
      exists st', a, b. auto.
Qed.









(** ** The system calls of a scan *)

Section CallsOfAScan.
Variable md5_hexdigest : bytes -> string.
Variable root : node.
Variable directory : path.

#[local] Abbreviation allowed := (ScanCalls.scan_call root directory).
#[local] Abbreviation visited := (DoubleTerminator.scanned_paths root directory).

Lemma progress_step_calls (s show_progress : bool) (n total_files : Z) (m : Z)
    (prefix : string) :
  runs root
       (if (show_progress && (n mod m =? 0))%bool
        then DoubleTerminator.progress_bar n total_files prefix
        else ret tt) (Ok tt) (allowed s show_progress).
Proof.
  destruct show_progress; simpl; [| apply runs_ret].
  destruct (n mod m =? 0); [| apply runs_ret].
  apply progress_bar_runs. reflexivity.
Qed.

Lemma scan_file_calls (s show_progress : bool) (total_files : Z)
    (st : list (Z * list path) * Z) (filepath : path) :
  In filepath (visited s) ->
  runs root (DoubleTerminator.scan_file show_progress total_files st filepath)
       (Ok (DoubleTerminator.bucket_step root (fst st) filepath, snd st + 1))
       (allowed s show_progress).
Proof.
  intros Hin. destruct st as [fbs n]. unfold DoubleTerminator.scan_file.
  unfold DoubleTerminator.bucket_step, Py.group_add. simpl fst; simpl snd.
  pose proof (os_path_getsize_runs root filepath (allowed s show_progress) Hin) as G.
  pose proof (progress_step_calls s show_progress (n + 1) total_files 100
                "Scanning files") as T.
  destruct (stat_size root filepath) as [size|].
  - apply runs_try_ok. eapply runs_bind; [exact G |].
    eapply runs_bind; [exact T | apply runs_ret].
  - apply runs_try_caught; [now apply runs_bind_raise |].
    eapply runs_bind; [exact T | apply runs_ret].
Qed.

Lemma isfile_calls (show_progress : bool) (names : list string) :
  incl names (ScanCalls.listed root directory) ->
  forall e, (exists name, In name names /\ e = EvIsfile (join directory name)) ->
            allowed false show_progress e.
Proof.
  intros Hl e [name [Hn ->]]. simpl. split; [reflexivity |]. exists name. auto.
Qed.

Lemma count_total_files_calls (s show_progress : bool) :
  exists res,
    runs root (DoubleTerminator.count_total_files directory s) res
         (allowed s show_progress).
Proof.
  unfold DoubleTerminator.count_total_files. destruct s.
  - eexists. eapply runs_bind; [apply os_walk_runs; simpl; auto | apply runs_ret].
  - pose proof (os_listdir_runs root directory (allowed false show_progress)
                  (conj eq_refl eq_refl)) as G.
    pose proof (isfile_calls show_progress) as HI. unfold ScanCalls.listed in HI.
    destruct (lookup root directory) as [[f | m s es |]|] eqn:El;
      try (eexists; apply runs_bind_raise; exact G).
    eexists. eapply runs_bind; [exact G |].
    eapply runs_bind; [| apply runs_ret].
    eapply runs_weaken;
      [| apply (runs_filter_m root _
                  (fun name => DoubleTerminator.is_file root (join directory name))
                  (fun name e => e = EvIsfile (join directory name)))].
    + apply HI. apply incl_refl.
    + intros name _. now apply os_path_isfile_runs.
Qed.

Lemma scan_sizes_calls (s show_progress : bool) (total_files : Z) :
  exists res,
    runs root (DoubleTerminator.scan_sizes directory s show_progress total_files) res
         (allowed s show_progress).
Proof.
  unfold DoubleTerminator.scan_sizes. destruct s.
  - eexists. eapply runs_bind; [apply os_walk_runs; simpl; auto |].
    set (walk := match lookup root directory with
                 | Some n => walk_from directory n
                 | None => []
                 end).
    eapply runs_weaken;
      [| apply (runs_for_each root _
                  (fun st x =>
                     fold_left (fun st p =>
                                  (DoubleTerminator.bucket_step root (fst st) p,
                                   snd st + 1))
                               ((fun '(r, _, files) => map (join r) files) x) st)
                  (fun _ => allowed true show_progress))].
    + now intros e [x [_ He]].
    + intros st [[r ds] files] Hx. cbv beta iota.
      rewrite <- fold_left_map.
      eapply runs_weaken;
        [| apply (runs_for_each root _
                    (fun st filename =>
                       (DoubleTerminator.bucket_step root (fst st) (join r filename),
                        snd st + 1))
                    (fun _ => allowed true show_progress))].
      * now intros e [x [_ He]].
      * intros st' filename Hf. apply scan_file_calls.
        unfold DoubleTerminator.scanned_paths. fold walk.
        apply in_flat_map. exists (r, ds, files). split; [exact Hx |].
        now apply in_map.
  - pose proof (os_listdir_runs root directory (allowed false show_progress)
                  (conj eq_refl eq_refl)) as G.
    pose proof (isfile_calls show_progress) as HI. unfold ScanCalls.listed in HI.
    assert (HV : forall name, In name (ScanCalls.listed root directory) ->
              DoubleTerminator.is_file root (join directory name) = true ->
              In (join directory name) (visited false)).
    { unfold ScanCalls.listed, DoubleTerminator.scanned_paths.
      destruct (lookup root directory) as [[f | m s es |]|]; try (intros ? []).
      intros name Hn Hf. apply filter_In. split; [now apply in_map | exact Hf]. }
    unfold ScanCalls.listed in HV.
    destruct (lookup root directory) as [[f | m s es |]|] eqn:El;
      try (eexists; apply runs_bind_raise; exact G).
    eexists. eapply runs_bind; [exact G |].
    eapply runs_weaken;
      [| apply (runs_for_each root _
                  (fun st filename =>
                     if DoubleTerminator.is_file root (join directory filename)
                     then (DoubleTerminator.bucket_step root (fst st)
                             (join directory filename), snd st + 1)
                     else st)
                  (fun _ => allowed false show_progress))].
    + now intros e [x [_ He]].
    + intros st filename Hf. simpl.
      eapply runs_bind.
      * apply os_path_isfile_runs. apply (HI [filename]).
        -- intros x [<- | []]. exact Hf.
        -- exists filename. split; [now left | reflexivity].
      * destruct (DoubleTerminator.is_file root (join directory filename)) eqn:Ef;
          [apply scan_file_calls; now apply HV | apply runs_ret].
Qed.


Lemma hash_file_calls (s show_progress : bool) (files_to_hash : Z)
    (st : list (string * list path) * Z) (filepath : path) :
  allowed s show_progress (EvOpen filepath) ->
  runs root (DoubleTerminator.hash_file md5_hexdigest show_progress files_to_hash st filepath)
       (Ok (DoubleTerminator.hashes_step md5_hexdigest root (fst st) filepath, snd st + 1))
       (allowed s show_progress).
Proof.
  intros Hopen. destruct st as [hashes n]. unfold DoubleTerminator.hash_file.
  simpl fst; simpl snd.
  eapply runs_bind.
  - eapply runs_weaken; [| apply (calculate_file_hash_runs md5_hexdigest root filepath 65536)].
    + now intros e <-.
    + discriminate.
  - eapply runs_bind; [apply progress_step_calls |].
    apply runs_ret_eq. f_equal.
    unfold DoubleTerminator.hashes_step, Py.group_add, DoubleTerminator.hash_key.
    destruct (DoubleTerminator.digest md5_hexdigest root filepath) as [h|]; [| reflexivity].
    destruct (DoubleTerminator.truthy (Some h)); reflexivity.
Qed.

Lemma hash_bucket_calls (s show_progress : bool) (files_to_hash : Z)
    (st : list (string * list path) * Z) (bucket : Z * list path) :
  In bucket (DoubleTerminator.size_buckets root (visited s)) ->
  runs root (DoubleTerminator.hash_bucket md5_hexdigest show_progress files_to_hash st bucket)
       (Ok (DoubleTerminator.group_step md5_hexdigest root (fst st) bucket,
            if 1 <? Py.len (snd bucket) then snd st + Py.len (snd bucket) else snd st))
       (allowed s show_progress).
Proof.
  intros Hb. destruct st as [duplicates n]. destruct bucket as [size files].
  unfold DoubleTerminator.hash_bucket, DoubleTerminator.group_step. simpl fst; simpl snd.
  destruct (1 <? Py.len files) eqn:E; [| apply runs_ret].
  apply Z.ltb_lt in E. apply size_buckets_in in Hb. destruct Hb as [Hfiles _].
  eapply runs_bind.
  - eapply runs_weaken;
      [| apply (runs_for_each root _
                  (fun st p => (DoubleTerminator.hashes_step md5_hexdigest root (fst st) p,
                                snd st + 1))
                  (fun _ => allowed s show_progress))].
    + now intros e [p [_ He]].
    + intros st' p Hp. apply hash_file_calls. simpl.
      assert (Hp' := Hp). rewrite Hfiles in Hp'. apply size_bucket_in in Hp'.
      destruct Hp' as [Hv Hs]. split; [exact Hv |]. exists size. split; [exact Hs |].
      rewrite <- Hfiles. unfold Py.len in E. lia.
  - rewrite fold_hash. apply runs_ret.
Qed.

(** Two accounts of one computation agree on its result, and its events
    answer to both. *)
Lemma runs_both {A : Type} (m : M A) (r r' : result A) (P Q : event -> Prop) :
  runs root m r P -> runs root m r' Q ->
  r = r' /\ runs root m r (fun e => P e /\ Q e).
Proof.
  intros HP HQ. split.
  - destruct (HP (mkworld root [] []) eq_refl) as [e1 [E1 _]].
    destruct (HQ (mkworld root [] []) eq_refl) as [e2 [E2 _]]. congruence.
  - intros w Hw. destruct (HP w Hw) as [e1 [E1 F1]]. destruct (HQ w Hw) as [e2 [E2 F2]].
    exists e1. split; [exact E1 |].
    assert (e1 = e2) as <-.
    { rewrite E1 in E2.
      assert (T : w_trace (log w e1) = w_trace (log w e2)) by congruence.
      simpl in T. now apply app_inv_head in T. }
    apply Forall_forall. intros e He. rewrite Forall_forall in F1, F2. auto.
Qed.

Lemma runs_as {A : Type} (m : M A) (r r' : result A) (P Q : event -> Prop) :
  runs root m r P -> runs root m r' Q -> runs root m r Q.
Proof.
  intros HP HQ. destruct (runs_both m r r' P Q HP HQ) as [_ H].
  eapply runs_weaken; [| exact H]. now intros e [_ He].
Qed.

Lemma find_duplicates_calls (s show_progress : bool) :
  exists res,
    runs root (DoubleTerminator.find_duplicates md5_hexdigest directory s show_progress) res
         (allowed s show_progress).
Proof.
  unfold DoubleTerminator.find_duplicates.
  destruct (count_total_files_calls s show_progress) as [rc Hc].
  destruct (listable_dec root directory s) as [L | L].
  2:{ assert (s = false) as ->.
      { destruct s; [exfalso; apply L; now left | reflexivity]. }
      exists (Raise OSError). apply runs_bind_raise.
      exact (runs_as _ _ _ _ _ (count_total_files_raises root directory L) Hc). }
  pose proof (runs_as _ _ _ _ _ (count_total_files_runs root directory s L) Hc) as Hcount.
  destruct (scan_sizes_calls s show_progress (Py.len (visited s))) as [rs Hs].
  pose proof (runs_as _ _ _ _ _
                (scan_sizes_runs root directory s show_progress (Py.len (visited s)) L) Hs)
    as Hscan. cbv zeta in Hscan.
  assert (Hconsole : forall (m1 : message) (a b : Z) (prefix : string),
            runs root (if show_progress
                       then bind (DoubleTerminator.progress_bar a b prefix)
                                 (fun _ => print m1)
                       else ret tt) (Ok tt) (allowed s show_progress)).
  { intros. destruct show_progress; [| apply runs_ret].
    eapply runs_bind; [apply progress_bar_runs | apply runs_emit]; reflexivity. }
  assert (Hprint : forall (m : message),
            runs root (if show_progress then print m else ret tt) (Ok tt)
                 (allowed s show_progress)).
  { intros. destruct show_progress; [apply runs_emit; reflexivity | apply runs_ret]. }
  destruct (Py.len (visited s) =? 0) eqn:E0.
  { eexists. eapply runs_bind; [exact Hcount |]. rewrite E0. apply runs_ret. }
  set (fbs := DoubleTerminator.size_buckets root (visited s)) in *.
  destruct (DoubleTerminator.count_files_to_hash fbs =? 0) eqn:E1.
  { eexists. eapply runs_bind; [exact Hcount |]. rewrite E0.
    eapply runs_bind; [exact Hscan |]. cbv beta iota.
    eapply runs_bind; [apply Hconsole |]. rewrite E1.
    eapply runs_bind; [apply Hprint | apply runs_ret]. }
  set (step := fun (st : list (string * list path) * Z) (b : Z * list path) =>
                 (DoubleTerminator.group_step md5_hexdigest root (fst st) b,
                  if 1 <? Py.len (snd b) then snd st + Py.len (snd b) else snd st)).
  destruct (fold_left step fbs ([], 0)) as [duplicates hashed_files] eqn:EF.
  exists (Ok duplicates). eapply runs_bind; [exact Hcount |]. rewrite E0.
  eapply runs_bind; [exact Hscan |]. cbv beta iota.
  eapply runs_bind; [apply Hconsole |]. rewrite E1.
  eapply runs_bind; [apply Hprint |].
  eapply runs_bind.
  { eapply runs_weaken;
      [| apply (runs_for_each root _ step (fun _ => allowed s show_progress))].
    - now intros e [b [_ He]].
    - intros st b Hb. now apply hash_bucket_calls. }
  rewrite EF. cbv beta iota.
  eapply runs_bind; [apply Hconsole | apply runs_ret].
Qed.

End CallsOfAScan.
Lemma visited_flat (root : node) (directory : path) (p : path) :
  In p (DoubleTerminator.scanned_paths root directory false) ->
  exists name, In name (ScanCalls.listed root directory) /\ p = join directory name.
Proof.
  unfold DoubleTerminator.scanned_paths, ScanCalls.listed.
  destruct (lookup root directory) as [[f | m s es |]|]; try (intros []).
  intros H. apply filter_In in H. destruct H as [H _].
  apply in_map_iff in H. destruct H as [name [<- Hn]]. eauto.
Qed.

Section CallsTheorem.
Variable md5_hexdigest : bytes -> string.

(** X12.  Every system call of [find_duplicates], whether it returns or
    raises, is the one listing of its mode ([os.walk] or [os.listdir] of
    the directory), [isfile] on a name the listing returned, [getsize] on a
    visited path, or [open] on a visited path whose size at least two
    visited paths have.  Without [show_progress] nothing is written to the
    console; without subfolders every path tested, measured or opened is a
    direct entry of the directory. *)
Theorem scan_calls_stay_in_the_directory (w : world) (directory : path)
    (include_subfolders show_progress : bool) :
  let root := w_root w in
  let run :=
    DoubleTerminator.find_duplicates md5_hexdigest directory include_subfolders
      show_progress w in
  exists evs,
    w_trace (snd run) = (w_trace w ++ evs)%list /\
    Forall (ScanCalls.scan_call root directory include_subfolders show_progress) evs /\
    (show_progress = false -> console_output evs = []) /\
    (include_subfolders = false ->
     forall p, In (EvIsfile p) evs \/ In (EvGetsize p) evs \/ In (EvOpen p) evs ->
               exists name, In name (ScanCalls.listed root directory) /\
                            p = join directory name).
Proof.
  intros root run. subst run.
  destruct (find_duplicates_calls md5_hexdigest root directory include_subfolders
              show_progress) as [res H].
  destruct (H w eq_refl) as [evs [E F]]. exists evs. rewrite E.
  split; [reflexivity | split; [exact F | split]].
  - intros ->. clear E. induction F as [|e evs He F IH]; [reflexivity |].
    simpl. rewrite IH. destruct e; simpl in He; try reflexivity; discriminate.
  - intros -> p Hp. rewrite Forall_forall in F.
    destruct Hp as [Hp | [Hp | Hp]]; apply F in Hp; simpl in Hp.
    + tauto.
    + now apply visited_flat.
    + apply visited_flat. tauto.
Qed.

End CallsTheorem.

(** ** The program of doubleterminator.py *)

Lemma main_log_root (w : Main.world) (evs : list Main.event) :
  Main.w_root (Main.log w evs) = Main.w_root w.
Proof. reflexivity. Qed.

Lemma main_log_nil (w : Main.world) : Main.log w [] = w.
Proof. destruct w; unfold Main.log; simpl. now rewrite app_nil_r. Qed.

Lemma main_log_log (w : Main.world) (a b : list Main.event) :
  Main.log (Main.log w a) b = Main.log w (a ++ b).
Proof. unfold Main.log; simpl. now rewrite app_assoc. Qed.

Lemma main_emit_run (e : Main.event) (w : Main.world) :
  Main.emit e w = (Main.Ok tt, Main.log w [e]).
Proof. reflexivity. Qed.

Lemma main_print_run (l : Main.line) (w : Main.world) :
  Main.print l w = (Main.Ok tt, Main.log w [Main.Print l]).
Proof. reflexivity. Qed.

Lemma main_input_run (p : Main.prompt) (w : Main.world) :
  Main.input p w
  = match Main.w_stdin w with
    | [] => (Main.Raise (Main.EngineError EOFError), Main.log w [Main.Input p])
    | answer :: rest =>
        (Main.Ok answer,
         Main.mkworld (Main.w_root w) rest (Main.w_trace w ++ [Main.Input p]))
    end.
Proof.
  unfold Main.input, Main.bind. rewrite main_emit_run. simpl.
  destruct (Main.w_stdin w); reflexivity.
Qed.

Lemma reads_only_ret {A : Type} (a : A) : Main.reads_only (Main.ret a).
Proof. intros w. exists (Main.Ok a), []. now rewrite main_log_nil. Qed.

Lemma reads_only_raise {A : Type} (e : Main.exn) : Main.reads_only (@Main.raise A e).
Proof. intros w. exists (Main.Raise e), []. now rewrite main_log_nil. Qed.

Lemma reads_only_print (l : Main.line) : Main.reads_only (Main.print l).
Proof. intros w. now exists (Main.Ok tt), [Main.Print l]. Qed.

Lemma reads_only_bind {A B : Type} (m : Main.M A) (k : A -> Main.M B) :
  Main.reads_only m -> (forall a, Main.reads_only (k a)) -> Main.reads_only (Main.bind m k).
Proof.
  intros Hm Hk w. destruct (Hm w) as [r1 [e1 E1]]. unfold Main.bind. rewrite E1.
  destruct r1 as [a | e].
  - destruct (Hk a (Main.log w e1)) as [r2 [e2 E2]]. rewrite E2, main_log_log. eauto.
  - eauto.
Qed.

Lemma reads_only_for_each {X S : Type} (xs : list X) (body : S -> X -> Main.M S) :
  (forall s x, Main.reads_only (body s x)) ->
  forall s, Main.reads_only (Main.for_each xs body s).
Proof.
  intros Hb. induction xs as [|x xs IH]; intros s; simpl.
  - apply reads_only_ret.
  - apply reads_only_bind; [apply Hb | exact IH].
Qed.

(** A function of the engine that only reads, run by the program. *)
Lemma lift_runs {A : Type} (m : M A) (root : node) (res : result A) (P : event -> Prop)
    (w : Main.world) :
  runs root m res P -> Main.w_root w = root ->
  exists evs,
    Main.lift m w = (Main.of_engine res, Main.log w (map Main.Engine evs)) /\
    Forall P evs.
Proof.
  intros H Hw. subst root.
  destruct (H (mkworld (Main.w_root w) (Main.w_stdin w) []) eq_refl) as [evs [E F]].
  exists evs. split; [| exact F]. unfold Main.lift. rewrite E. reflexivity.
Qed.

Lemma reads_only_lift {A : Type} (m : M A) :
  (forall root, exists res P, runs root m res P) -> Main.reads_only (Main.lift m).
Proof.
  intros H w. destruct (H (Main.w_root w)) as [res [P HP]].
  destruct (lift_runs m _ res P w HP eq_refl) as [evs [E _]]. eauto.
Qed.

Lemma reads_only_getsize (p : path) : Main.reads_only (Main.lift (os_path_getsize p)).
Proof.
  apply reads_only_lift. intros root. do 2 eexists.
  apply (os_path_getsize_runs root p (fun _ => True) I).
Qed.

Lemma reads_only_item0 {X : Type} (l : list X) : Main.reads_only (Main.item0 l).
Proof. destruct l; [apply reads_only_raise | apply reads_only_ret]. Qed.

Lemma reads_only_total_space (duplicates : list (string * list path)) :
  Main.reads_only (Main.total_space_of duplicates).
Proof.
  apply reads_only_for_each. intros acc [h files].
  apply reads_only_bind; [apply reads_only_item0 | intros first].
  apply reads_only_bind; [apply reads_only_getsize | intros size].
  apply reads_only_ret.
Qed.

Section ProgramFacts.
Variable md5_hexdigest : bytes -> string.
Variable os_path_abspath : string -> string.
Variable locate : string -> path.

Lemma reads_only_find_duplicates (directory : string)
    (include_subfolders show_progress : bool) :
  Main.reads_only
    (Main.find_duplicates md5_hexdigest locate directory include_subfolders show_progress).
Proof.
  apply reads_only_lift. intros root.
  destruct (find_duplicates_calls md5_hexdigest root (locate directory) include_subfolders
              show_progress) as [res H].
  eauto.
Qed.

Lemma os_path_isdir_run (directory : string) (w : Main.world) :
  Main.os_path_isdir locate directory w
  = (Main.Ok (match lookup (Main.w_root w) (locate directory) with
              | Some n => is_dir n
              | None => false
              end),
     Main.log w [Main.Isdir directory]).
Proof. reflexivity. Qed.


Lemma lift_run {A : Type} (m : M A) (w : Main.world) (r : result A) (w0 : world) :
  m (mkworld (Main.w_root w) (Main.w_stdin w) []) = (r, w0) ->
  Main.lift m w
  = (Main.of_engine r,
     Main.mkworld (w_root w0) (w_stdin w0) (Main.w_trace w ++ map Main.Engine (w_trace w0))).
Proof. intros E. unfold Main.lift. now rewrite E. Qed.

Lemma main_item0_run {X : Type} (x : X) (l : list X) (w : Main.world) :
  Main.item0 (x :: l) w = (Main.Ok x, w).
Proof. reflexivity. Qed.

Lemma main_getsize_run (p : path) (w : Main.world) :
  Main.lift (os_path_getsize p) w
  = (match stat_size (Main.w_root w) p with
     | Some n => Main.Ok n
     | None => Main.Raise (Main.EngineError OSError)
     end,
     Main.log w [Main.Engine (EvGetsize p)]).
Proof.
  rewrite (lift_run _ w _ _ (os_path_getsize_run p _)). simpl.
  destruct (stat_size (Main.w_root w) p); reflexivity.
Qed.

(** The space the program announces, when the first member of every group
    has a size. *)
Lemma total_space_of_run (size_of : list path -> Z)
    (duplicates : list (string * list path)) : forall (acc : Z) (w : Main.world),
  (forall h g, In (h, g) duplicates ->
     exists first rest, g = first :: rest /\
                        stat_size (Main.w_root w) first = Some (size_of g)) ->
  exists evs,
    Main.for_each duplicates
      (fun acc '(_, files) =>
         Main.bind (Main.item0 files) (fun first =>
         Main.bind (Main.lift (os_path_getsize first)) (fun size =>
         Main.ret (acc + size * (Py.len files - 1))))) acc w
    = (Main.Ok (acc + DoubleTerminator.sum
                        (map (fun g => (Py.len g - 1) * size_of g) (map snd duplicates))),
       Main.log w (map Main.Engine evs)).
Proof.
  induction duplicates as [|[h g] duplicates IH]; intros acc w H.
  - exists []. simpl. unfold Main.ret, DoubleTerminator.sum. simpl.
    now rewrite Z.add_0_r, main_log_nil.
  - destruct (H h g (or_introl eq_refl)) as [first [rest [-> Hs]]].
    cbn [Main.for_each]. unfold Main.bind at 1. unfold Main.bind at 1.
    rewrite main_item0_run. unfold Main.bind at 1. rewrite main_getsize_run, Hs.
    unfold Main.ret at 1.
    destruct (IH (acc + size_of (first :: rest) * (Py.len (first :: rest) - 1))
                 (Main.log w [Main.Engine (EvGetsize first)])) as [evs E].
    { intros h' g' Hg'. apply (H h' g'). now right. }
    exists (EvGetsize first :: evs). rewrite E, main_log_log.
    cbn [map snd]. unfold DoubleTerminator.sum. cbn [fold_right].
    set (n := Py.len (first :: rest) - 1). set (k := size_of (first :: rest)).
    replace (acc + k * n + fold_right Z.add 0
                             (map (fun g => (Py.len g - 1) * size_of g) (map snd duplicates)))
      with (acc + (n * k + fold_right Z.add 0
                             (map (fun g => (Py.len g - 1) * size_of g) (map snd duplicates))))
      by lia.
    reflexivity.
Qed.

(** Groups whose keys differ and whose members carry their group's key
    share no member. *)
Lemma keyed_groups_disjoint {K X : Type} (key : X -> option K)
    (d : list (K * list X)) :
  NoDup (map fst d) ->
  (forall k l, In (k, l) d -> NoDup l /\ forall x, In x l -> key x = Some k) ->
  NoDup (List.concat (map snd d)).
Proof.
  induction d as [|[k l] d IH]; intros Hk H; simpl; [constructor |].
  inversion Hk as [|? ? Hnot Hk']; subst.
  destruct (H k l (or_introl eq_refl)) as [Hl Hkey].
  assert (Hrest : NoDup (List.concat (map snd d))).
  { apply IH; [exact Hk' | intros; apply H; now right]. }
  clear IH. induction l as [|x l IHl]; [exact Hrest |].
  simpl. inversion Hl as [|? ? Hx Hl']; subst. constructor.
  - intros Hin. apply in_app_or in Hin. destruct Hin as [Hin | Hin]; [contradiction |].
    apply in_concat in Hin. destruct Hin as [l' [Hl'' Hx']].
    apply in_map_iff in Hl''. destruct Hl'' as [[k' l''] [E Hd]]. simpl in E. subst l''.
    destruct (H k' l' (or_intror Hd)) as [_ Hkey'].
    assert (k' = k).
    { pose proof (Hkey x (or_introl eq_refl)) as E1. pose proof (Hkey' x Hx') as E2.
      congruence. }
    subst k'. apply Hnot. apply in_map_iff. exists (k, l'). auto.
  - apply IHl; auto.
    + intros k0 l0 [[= <- <-] | Hd].
      * split; [exact Hl' | intros y Hy; apply Hkey; now right].
      * apply H. now right.
    + intros y Hy. apply Hkey. now right.
Qed.

(** The counts of a bulk deletion in which every removal succeeds. *)
Lemma bulk_counts (keep_oldest : bool) (duplicates : list (string * list path))
    (w : world) (size_of : list path -> Z) :
  let root := w_root w in
  let groups := map snd duplicates in
  NoDup (List.concat groups) ->
  (forall g, In g groups -> g <> []) ->
  (forall g p, In g groups -> In p g ->
     stat_size root p = Some (size_of g) /\ removable root p = true) ->
  exists w',
    DoubleTerminator.delete_duplicates duplicates keep_oldest w
    = (Ok (DoubleTerminator.sum (map (fun g => Py.len g - 1) groups),
           DoubleTerminator.sum (map (fun g => (Py.len g - 1) * size_of g) groups)),
       w') /\
    w_stdin w' = w_stdin w /\
    w_trace w'
    = (w_trace w ++ flat_map (DoubleTerminator.group_events root keep_oldest) groups)%list.
Proof.
  intros root groups Hnd Hne Hok.
  assert (Hdel : forall g p, In g groups -> In p g ->
            DoubleTerminator.deletable root p = true
            /\ DoubleTerminator.size_or_zero root p = size_of g).
  { intros g p Hg Hp. destruct (Hok g p Hg Hp) as [Hs Hr].
    unfold DoubleTerminator.deletable, DoubleTerminator.size_or_zero. now rewrite Hs. }
  destruct (delete_duplicates_run keep_oldest duplicates w Hnd) as [w' [E [I [T _]]]].
  { intros p Hp. apply in_concat in Hp. destruct Hp as [g [Hg Hpg]].
    destruct (Hok g p Hg Hpg) as [Hs _]. fold root. intros Hm.
    apply stat_size_mtime in Hm. congruence. }
  fold root in E, T. fold groups in E, T.
  assert (Hall : filter (DoubleTerminator.deletable root)
                        (flat_map (DoubleTerminator.doomed root keep_oldest) groups)
                 = flat_map (DoubleTerminator.doomed root keep_oldest) groups).
  { apply forallb_filter_id. apply forallb_forall. intros p Hp.
    apply in_flat_map in Hp. destruct Hp as [g [Hg Hp]].
    apply (Hdel g p Hg). now apply doomed_incl in Hp. }
  rewrite Hall in E.
  exists w'. split; [| split; [exact I | exact T]].
  rewrite E. do 2 f_equal. f_equal.
  - rewrite len_flat_map. f_equal. apply map_ext_in. intros g Hg.
    apply doomed_length. now apply Hne.
  - rewrite sum_flat_map. f_equal. apply map_ext_in. intros g Hg.
    rewrite (sum_constant _ (size_of g)).
    + now rewrite doomed_length by now apply Hne.
    + intros p Hp. apply (Hdel g p Hg). now apply doomed_incl in Hp.
Qed.

(** The groups of a scan of paths that are all different share no member,
    and the members of a group are all different. *)
Lemma groups_share_no_member (paths : list path) (root : node) :
  NoDup paths ->
  NoDup (List.concat (map snd (DoubleTerminator.groups md5_hexdigest root
                                 (DoubleTerminator.size_buckets root paths)))).
Proof.
  intros Hnd.
  apply (keyed_groups_disjoint (DoubleTerminator.hash_key md5_hexdigest root)).
  - apply groups_nodup.
  - intros h g Hg. apply groups_members in Hg. destruct Hg as [size [-> _]].
    split.
    + unfold DoubleTerminator.digest_class, DoubleTerminator.size_bucket, Py.with_key.
      now do 2 apply NoDup_filter.
    + intros x Hx. now apply digest_class_in in Hx.
Qed.

(** X14.  The run with arguments removes what it announces.  On a
    directory that is not protected, whose visited paths are all different
    and can all be removed, and that holds duplicates, the run that is
    answered [y] returns; the number of files it reports as deleted is the
    number of duplicates it announced before asking, and the space it
    reports as reclaimed is the space it announced. *)
Theorem batch_run_removes_what_it_announces (w : Main.world) (sys_argv : list string)
    (directory : string) (confirm keep_option : string) (rest : list string) :
  let root := Main.w_root w in
  let include_subfolders := PyStr.mem "--subfolders" sys_argv in
  let paths := DoubleTerminator.scanned_paths root (locate directory) include_subfolders in
  let duplicates :=
    DoubleTerminator.groups md5_hexdigest root (DoubleTerminator.size_buckets root paths) in
  (exists mtime size entries, lookup root (locate directory) = Some (Dir mtime size entries)) ->
  DoubleTerminator.is_protected_directory os_path_abspath directory = false ->
  Main.w_stdin w = confirm :: keep_option :: rest ->
  PyStr.lower (PyStr.strip confirm) = "y" ->
  NoDup paths ->
  (forall p, In p paths -> stat_size root p <> None -> removable root p = true) ->
  duplicates <> [] ->
  exists w' total_space scan sizes removals,
    Main.main_with_arguments md5_hexdigest os_path_abspath locate sys_argv directory w
    = (Main.Ok tt, w') /\
    Main.w_stdin w' = rest /\
    let total_duplicates := Main.total_duplicates_of duplicates in
    Main.w_trace w'
    = (Main.w_trace w
       ++ [Main.Isdir directory]
       ++ map Main.Engine scan
       ++ map Main.Engine sizes
       ++ [Main.Print (Main.LnFound (Py.len duplicates));
           Main.Print (Main.LnTotal total_duplicates);
           Main.Print (Main.LnReclaimable total_space);
           Main.Input (Main.AskDelete total_duplicates);
           Main.Input (Main.AskText "Keep oldest files? (Y/n): ");
           Main.Print (Main.LnText "Deleting duplicates...")]
       ++ map Main.Engine removals
       ++ [Main.Print (Main.LnDeleted total_duplicates);
           Main.Print (Main.LnReclaimed total_space);
           Main.Print (Main.LnText "Duplicate cleanup complete!")])%list.
Proof.
  intros root inc paths duplicates Hdir Hsafe Hin Hyes Hnd Hrem Hsome.
  set (size_of := fun g : list path => DoubleTerminator.size_or_zero root (hd [] g)).
  assert (Hgroups : forall h g, In (h, g) duplicates ->
            g <> [] /\
            forall p, In p g ->
              In p paths /\ stat_size root p = Some (size_of g)).
  { intros h g Hg. apply groups_members in Hg. destruct Hg as [size [Eg [Hlen _]]].
    assert (Hmem : forall p, In p g -> In p paths /\ stat_size root p = Some size).
    { intros p Hp. rewrite Eg in Hp. apply digest_class_in in Hp.
      destruct Hp as [Hp _]. now apply size_bucket_in in Hp. }
    destruct g as [|first g']; [unfold Py.len in Hlen; simpl in Hlen; lia |].
    split; [discriminate |]. intros p Hp. destruct (Hmem p Hp) as [Hv Hs].
    split; [exact Hv |]. unfold size_of, DoubleTerminator.size_or_zero. simpl hd.
    destruct (Hmem first (or_introl eq_refl)) as [_ Hf]. now rewrite Hf. }
  unfold Main.main_with_arguments, Main.is_protected_directory.
  unfold Main.bind at 1. rewrite os_path_isdir_run. fold root.
  destruct Hdir as [mtime [size [entries Hdir]]]. rewrite Hdir. cbn [is_dir negb].
  rewrite Hsafe. fold inc.
  (* the scan *)
  unfold Main.bind at 1.
  destruct (lift_runs _ root _ _ (Main.log w [Main.Isdir directory])
              (find_duplicates_runs md5_hexdigest root (locate directory) inc false
                 (or_intror (ex_intro _ mtime (ex_intro _ size (ex_intro _ entries Hdir)))))
              eq_refl) as [scan [Escan _]].
  unfold Main.find_duplicates. rewrite Escan. fold paths. fold duplicates.
  cbn [Main.of_engine].
  destruct duplicates as [|group0 others] eqn:Edups; [congruence |].
  cbn [Main.truthy negb]. rewrite <- Edups in *. clear Hsome.
  (* the space announced *)
  unfold Main.bind at 1. unfold Main.total_space_of.
  destruct (total_space_of_run size_of duplicates 0
              (Main.log (Main.log w [Main.Isdir directory]) (map Main.Engine scan)))
    as [sizes Esizes].
  { intros h g Hg. destruct (Hgroups h g Hg) as [Hne Hmem].
    destruct g as [|first g']; [congruence |]. exists first, g'.
    split; [reflexivity |]. apply Hmem. now left. }
  rewrite Esizes. rewrite Z.add_0_l.
  set (total_space := DoubleTerminator.sum
                        (map (fun g => (Py.len g - 1) * size_of g) (map snd duplicates))).
  unfold Main.bind at 1. rewrite main_print_run.
  unfold Main.bind at 1. rewrite main_print_run.
  unfold Main.bind at 1. rewrite main_print_run.
  unfold Main.bind at 1. rewrite main_input_run. simpl Main.w_stdin. rewrite Hin.
  rewrite Hyes. cbn [String.eqb Ascii.eqb Bool.eqb negb].
  unfold Main.bind at 1. rewrite main_input_run. simpl Main.w_stdin.
  unfold Main.bind at 1. rewrite main_print_run.
  set (keep_oldest := Main.keeps_oldest (PyStr.lower (PyStr.strip keep_option))).
  (* the deletion *)
  unfold Main.bind at 1.
  match goal with
  | |- context [Main.lift _ ?v] => set (w3 := v)
  end.
  destruct (bulk_counts keep_oldest duplicates
              (mkworld (Main.w_root w3) (Main.w_stdin w3) []) size_of)
    as [w4 [Edel [Istd Tdel]]].
  { now apply groups_share_no_member. }
  { intros g Hg. apply in_map_iff in Hg. destruct Hg as [[h g'] [<- Hg]].
    now apply (Hgroups h g'). }
  { intros g p Hg Hp. apply in_map_iff in Hg. destruct Hg as [[h g'] [<- Hg]].
    destruct (Hgroups h g' Hg) as [_ Hmem]. destruct (Hmem p Hp) as [Hv Hs].
    split; [exact Hs |]. apply Hrem; [exact Hv |]. simpl. fold root. congruence. }
  rewrite (lift_run _ w3 _ _ Edel). cbn [Main.of_engine].
  unfold Main.bind at 1. rewrite main_print_run.
  unfold Main.bind at 1. rewrite main_print_run.
  rewrite main_print_run.
  exists (Main.log
            (Main.log
               (Main.log
                  (Main.mkworld (w_root w4) (w_stdin w4)
                     (Main.w_trace w3 ++ map Main.Engine (w_trace w4)))
                  [Main.Print (Main.LnDeleted
                     (DoubleTerminator.sum (map (fun g => Py.len g - 1) (map snd duplicates))))])
               [Main.Print (Main.LnReclaimed total_space)])
            [Main.Print (Main.LnText "Duplicate cleanup complete!")]),
    total_space, scan, sizes, (w_trace w4).
  assert (Etotal : Main.total_duplicates_of duplicates
                   = DoubleTerminator.sum (map (fun g => Py.len g - 1) (map snd duplicates))).
  { unfold Main.total_duplicates_of. rewrite map_map. f_equal.
    apply map_ext. now intros [h g]. }
  split; [reflexivity | split; [simpl; rewrite Istd; reflexivity |]].
  cbv zeta. subst w3. simpl. rewrite !Etotal. repeat rewrite <- app_assoc. reflexivity.
Qed.

End ProgramFacts.

(** X14, at work: [a] and [b] of the example tree, the newer one removed. *)
Lemma batch_run_removes_what_it_announces_witness :
  exists w',
    Main.main_with_arguments example_digest (fun p => p) (fun _ => [])
      ["prog"; "/data"] "/data" (Main.mkworld example_tree ["y"; ""] [])
    = (Main.Ok tt, w') /\
    Main.w_stdin w' = [].
Proof.
  destruct (batch_run_removes_what_it_announces example_digest (fun p => p) (fun _ => [])
              (Main.mkworld example_tree ["y"; ""] []) ["prog"; "/data"] "/data"
              "y" EmptyString [])
    as [w' [total_space [scan [sizes [removals [E [I _]]]]]]].
  - do 3 eexists. reflexivity.
  - reflexivity.
  - reflexivity.
  - reflexivity.
  - vm_compute. repeat constructor; simpl; intuition discriminate.
  - intros p Hp _. vm_compute in Hp.
    destruct Hp as [<- | [<- | [<- | [<- | []]]]]; reflexivity.
  - vm_compute. discriminate.
  - exists w'. split; [exact E | exact I].
Defined.

(** ** The loop of the program and its input *)

Lemma reads_only_keeps_input {A : Type} (m : Main.M A) :
  Main.reads_only m -> Main.keeps_input m.
Proof. intros H w. destruct (H w) as [r [evs ->]]. simpl. lia. Qed.

Lemma keeps_input_bind {A B : Type} (m : Main.M A) (k : A -> Main.M B) :
  Main.keeps_input m -> (forall a, Main.keeps_input (k a)) ->
  Main.keeps_input (Main.bind m k).
Proof.
  intros Hm Hk w. unfold Main.bind. specialize (Hm w).
  destruct (m w) as [[a | e] w1]; simpl in *; [| exact Hm].
  specialize (Hk a w1). clear - Hm Hk. lia.
Qed.

Lemma takes_input_bind_l {A B : Type} (m : Main.M A) (k : A -> Main.M B) :
  Main.takes_input m -> (forall a, Main.keeps_input (k a)) ->
  Main.takes_input (Main.bind m k).
Proof.
  intros Hm Hk w b w' E. unfold Main.bind in E.
  destruct (m w) as [[a | e] w1] eqn:Em; [| discriminate].
  specialize (Hm w a w1 Em). specialize (Hk a w1). rewrite E in Hk. simpl in Hk.
  clear - Hm Hk. lia.
Qed.

Lemma takes_input_bind_r {A B : Type} (m : Main.M A) (k : A -> Main.M B) :
  Main.keeps_input m -> (forall a, Main.takes_input (k a)) ->
  Main.takes_input (Main.bind m k).
Proof.
  intros Hm Hk w b w' E. unfold Main.bind in E.
  specialize (Hm w). destruct (m w) as [[a | e] w1] eqn:Em; [| discriminate].
  specialize (Hk a w1 b w' E). simpl in Hm. clear - Hm Hk. lia.
Qed.

Lemma keeps_input_ret {A : Type} (a : A) : Main.keeps_input (Main.ret a).
Proof. intros w. simpl. lia. Qed.

Lemma keeps_input_raise {A : Type} (e : Main.exn) : Main.keeps_input (@Main.raise A e).
Proof. intros w. simpl. lia. Qed.

Lemma keeps_input_print (l : Main.line) : Main.keeps_input (Main.print l).
Proof. intros w. simpl. lia. Qed.

Lemma keeps_input_input (p : Main.prompt) : Main.keeps_input (Main.input p).
Proof.
  intros w. rewrite main_input_run.
  destruct (Main.w_stdin w) eqn:E; simpl; rewrite ?E; simpl; lia.
Qed.

Lemma takes_input_input (p : Main.prompt) : Main.takes_input (Main.input p).
Proof.
  intros w a w' E. rewrite main_input_run in E.
  destruct (Main.w_stdin w); [discriminate |]. injection E as _ <-. simpl. lia.
Qed.

Lemma keeps_input_for_each {X S : Type} (xs : list X) (body : S -> X -> Main.M S) :
  (forall s x, Main.keeps_input (body s x)) ->
  forall s, Main.keeps_input (Main.for_each xs body s).
Proof.
  intros Hb. induction xs as [|x xs IH]; intros s; simpl.
  - apply keeps_input_ret.
  - apply keeps_input_bind; [apply Hb | exact IH].
Qed.

Lemma keeps_input_lift {A : Type} (m : M A) :
  (forall w0, (List.length (w_stdin (snd (m w0))) <= List.length (w_stdin w0))%nat) ->
  Main.keeps_input (Main.lift m).
Proof.
  intros H w. unfold Main.lift.
  specialize (H (mkworld (Main.w_root w) (Main.w_stdin w) [])).
  destruct (m _) as [r w0]. simpl in *. exact H.
Qed.

(** The engine's resolution functions add no line to the input. *)
Lemma delete_duplicates_input (duplicates : list (string * list path)) (keep_oldest : bool)
    (w : world) :
  w_stdin (snd (DoubleTerminator.delete_duplicates duplicates keep_oldest w)) = w_stdin w.
Proof.
  unfold DoubleTerminator.delete_duplicates.
  destruct (delete_groups_touches keep_oldest (map snd duplicates) (0, 0) w)
    as [res [w' [evs [E [I _]]]]].
  now rewrite E.
Qed.

Lemma confirm_group_input (keep_oldest : bool) (st : Z * Z)
    (group : string * list path) (w : world) :
  (List.length (w_stdin (snd (DoubleTerminator.confirm_group keep_oldest st group w)))
   <= List.length (w_stdin w))%nat.
Proof.
  destruct group as [h g].
  destruct (mtime_all_or_one_missing (w_root w) g) as [Hall | Hone].
  - destruct g as [|p0 g0] eqn:Eg.
    + unfold DoubleTerminator.confirm_group, bind.
      rewrite (sort_by_mtime_sorts [] w Hall).
      destruct keep_oldest; simpl; lia.
    + rewrite <- Eg in *.
      destruct (confirm_group_run keep_oldest st h g w) as [evs E];
        [rewrite Eg; discriminate | exact Hall |].
      rewrite E. destruct (w_stdin w) as [|answer rest] eqn:Ein;
        [simpl; rewrite Ein; simpl; lia |].
      cbv zeta. destruct (String.eqb _ "y"); [| simpl; lia].
      match goal with
      | |- context [for_each ?files _ _ ?v] =>
          destruct (verbose_deletion_simulates files st v v eq_refl)
            as [st' [a [b [_ [E2 [_ S]]]]]]
      end.
      rewrite E2. simpl in *. rewrite S. lia.
  - destruct (sort_by_mtime_raises g w Hone) as [evs [E _]].
    unfold DoubleTerminator.confirm_group, bind. rewrite E. simpl. lia.
Qed.

Lemma delete_interactive_input (duplicates : list (string * list path))
    (keep_oldest : bool) : forall (st : Z * Z) (w : world),
  (List.length
     (w_stdin (snd (for_each duplicates (DoubleTerminator.confirm_group keep_oldest) st w)))
   <= List.length (w_stdin w))%nat.
Proof.
  induction duplicates as [|group duplicates IH]; intros st w; simpl; [lia |].
  unfold bind. pose proof (confirm_group_input keep_oldest st group w) as H.
  destruct (DoubleTerminator.confirm_group keep_oldest st group w) as [[st1 | e] w1];
    simpl in *; [| exact H].
  specialize (IH st1 w1). lia.
Qed.

Lemma reads_only_lift_log {A : Type} (m : M A) :
  (forall w0, exists evs, snd (m w0) = log w0 evs) -> Main.reads_only (Main.lift m).
Proof.
  intros H w. unfold Main.lift.
  destruct (H (mkworld (Main.w_root w) (Main.w_stdin w) [])) as [evs E].
  destruct (m _) as [r w0]. simpl in E. subst w0.
  exists (Main.of_engine r), (map Main.Engine evs). reflexivity.
Qed.

Lemma reads_only_getmtime (p : path) : Main.reads_only (Main.lift (os_path_getmtime p)).
Proof.
  apply reads_only_lift_log. intros w0. rewrite os_path_getmtime_run.
  exists [EvGetmtime p]. now destruct (stat_mtime (w_root w0) p).
Qed.

Lemma reads_only_sort_by_mtime (file_list : list path) :
  Main.reads_only (Main.lift (DoubleTerminator.sort_by_mtime file_list)).
Proof.
  apply reads_only_lift_log. intros w0.
  destruct (mtime_all_or_one_missing (w_root w0) file_list) as [Hall | Hone].
  - rewrite (sort_by_mtime_sorts file_list w0 Hall).
    now exists (map EvGetmtime file_list).
  - destruct (sort_by_mtime_raises file_list w0 Hone) as [evs [E _]]. rewrite E.
    now exists evs.
Qed.

Lemma reads_only_list_group (st : Z * list (string * list path))
    (group : string * list path) :
  Main.reads_only (Main.list_group st group).
Proof.
  destruct st as [group_number listed]. destruct group as [file_hash file_list].
  unfold Main.list_group.
  apply reads_only_bind; [apply reads_only_item0 | intros first].
  apply reads_only_bind; [apply reads_only_getsize | intros file_size].
  apply reads_only_bind; [apply reads_only_print | intros _].
  apply reads_only_bind; [apply reads_only_sort_by_mtime | intros sorted].
  apply reads_only_bind; [| intros _; apply reads_only_ret].
  apply reads_only_for_each. intros _ [i filepath].
  apply reads_only_bind; [apply reads_only_getmtime | intros mod_time].
  apply reads_only_print.
Qed.

Lemma keeps_input_show_duplicates_list (duplicates : option (list (string * list path))) :
  Main.keeps_input (Main.show_duplicates_list duplicates).
Proof.
  unfold Main.show_duplicates_list.
  apply keeps_input_bind; [apply keeps_input_print | intros _].
  apply keeps_input_bind; [apply keeps_input_print | intros _].
  destruct duplicates as [d|]; [| apply keeps_input_raise].
  apply keeps_input_bind.
  - apply reads_only_keeps_input. apply reads_only_for_each. intros.
    apply reads_only_list_group.
  - intros [n listed]. apply keeps_input_bind; [apply keeps_input_input | intros _].
    apply keeps_input_ret.
Qed.

Lemma keeps_input_show_main_menu : Main.keeps_input Main.show_main_menu.
Proof.
  unfold Main.show_main_menu.
  repeat (apply keeps_input_bind; [apply keeps_input_print | intros _]).
  apply keeps_input_print.
Qed.

Lemma takes_input_ask_choice (st : Main.state) : Main.takes_input (Main.ask_choice st).
Proof.
  unfold Main.ask_choice.
  assert (Hshort : Main.takes_input
            (Main.bind (Main.print (Main.LnText "1. Change directory")) (fun _ =>
             Main.bind (Main.print (Main.LnText "2. Rescan for duplicates")) (fun _ =>
             Main.bind (Main.print (Main.LnText "3. Exit")) (fun _ =>
             Main.bind (Main.input (Main.AskText "Select option (1-3): ")) (fun answer =>
             Main.ret (st,
                       if String.eqb (PyStr.strip answer) "1" then "3"
                       else if String.eqb (PyStr.strip answer) "2" then "5"
                       else if String.eqb (PyStr.strip answer) "3" then "6"
                       else PyStr.strip answer))))))).
  { repeat (apply takes_input_bind_r; [apply keeps_input_print | intros _]).
    apply takes_input_bind_l; [apply takes_input_input | intros; apply keeps_input_ret]. }
  destruct (Main.duplicates st) as [[|g found]|]; try exact Hshort.
  apply takes_input_bind_r;
    [apply reads_only_keeps_input, reads_only_total_space | intros total_space].
  do 3 (apply takes_input_bind_r; [apply keeps_input_print | intros _]).
  apply takes_input_bind_r; [apply keeps_input_show_main_menu | intros _].
  apply takes_input_bind_l; [apply takes_input_input | intros; apply keeps_input_ret].
Qed.

Section LoopFacts.
Variable md5_hexdigest : bytes -> string.
Variable os_path_abspath : string -> string.
Variable os_path_dirname : string -> string.
Variable os_path_join : string -> string -> string.
Variable locate : string -> path.
Variable sys_frozen : bool.
Variable sys_executable : string.
Variable script_file : string.
Variable home_dir : string.
Variable current_dir : string.

#[local] Abbreviation get_safe_default_directory :=
  (Main.get_safe_default_directory os_path_abspath os_path_dirname os_path_join locate
     sys_frozen sys_executable script_file home_dir current_dir).
#[local] Abbreviation turn_of :=
  (Main.turn_of md5_hexdigest os_path_abspath os_path_dirname os_path_join locate
     sys_frozen sys_executable script_file home_dir current_dir).
#[local] Abbreviation loop :=
  (Main.loop md5_hexdigest os_path_abspath os_path_dirname os_path_join locate
     sys_frozen sys_executable script_file home_dir current_dir).
#[local] Abbreviation main_interactive :=
  (Main.main_interactive md5_hexdigest os_path_abspath os_path_dirname os_path_join locate
     sys_frozen sys_executable script_file home_dir current_dir).
#[local] Abbreviation main :=
  (Main.main md5_hexdigest os_path_abspath os_path_dirname os_path_join locate
     sys_frozen sys_executable script_file home_dir current_dir).

Lemma reads_only_isdir (directory : string) :
  Main.reads_only (Main.os_path_isdir locate directory).
Proof. intros w. rewrite os_path_isdir_run. eauto. Qed.

Lemma keeps_input_makedirs (directory : string) :
  Main.keeps_input (Main.os_makedirs locate directory).
Proof.
  intros w. unfold Main.os_makedirs, Main.bind. rewrite main_emit_run. simpl.
  destruct (Main.makedirs (Main.w_root w) (locate directory)); simpl; lia.
Qed.

Lemma keeps_input_default_directory : Main.keeps_input get_safe_default_directory.
Proof.
  unfold Main.get_safe_default_directory.
  repeat (match goal with |- context [if ?b then _ else _] => destruct b end;
          [apply keeps_input_ret |]).
  apply keeps_input_bind; [apply keeps_input_makedirs | intros; apply keeps_input_ret].
Qed.

Lemma takes_input_ask_safe_directory (st : Main.state) :
  Main.takes_input
    (Main.ask_safe_directory os_path_abspath os_path_dirname os_path_join locate
       sys_frozen sys_executable script_file home_dir current_dir st).
Proof.
  unfold Main.ask_safe_directory.
  apply takes_input_bind_r; [apply keeps_input_print | intros _].
  apply takes_input_bind_l; [apply takes_input_input | intros answer].
  apply keeps_input_bind.
  - destruct (Main.nonempty _);
      [apply reads_only_keeps_input, reads_only_isdir | apply keeps_input_ret].
  - intros [|]; [apply keeps_input_ret |].
    apply keeps_input_bind; [apply keeps_input_print | intros _].
    apply keeps_input_bind; [apply keeps_input_default_directory | intros d].
    apply keeps_input_ret.
Qed.

Lemma keeps_input_scan_if_needed (st : Main.state) :
  Main.keeps_input (Main.scan_if_needed md5_hexdigest locate st).
Proof.
  unfold Main.scan_if_needed. destruct (Main.duplicates st); [apply keeps_input_ret |].
  apply keeps_input_bind; [apply keeps_input_input | intros answer].
  apply keeps_input_bind; [apply keeps_input_print | intros _].
  apply keeps_input_bind;
    [apply reads_only_keeps_input, reads_only_find_duplicates | intros found].
  destruct (negb _); [| apply keeps_input_ret].
  apply keeps_input_bind; [apply keeps_input_print | intros _; apply keeps_input_ret].
Qed.

Lemma keeps_input_items_of (duplicates : option (list (string * list path))) :
  Main.keeps_input (Main.items_of duplicates).
Proof. destruct duplicates; [apply keeps_input_ret | apply keeps_input_raise]. Qed.

Lemma keeps_input_dispatch (st : Main.state) (choice : string) :
  Main.keeps_input (Main.dispatch os_path_abspath locate st choice).
Proof.
  unfold Main.dispatch.
  destruct (String.eqb choice "1").
  { apply keeps_input_bind; [apply keeps_input_input | intros answer].
    apply keeps_input_bind; [apply keeps_input_print | intros _].
    apply keeps_input_bind; [apply keeps_input_items_of | intros found].
    apply keeps_input_bind.
    - apply keeps_input_lift. intros w0. apply delete_interactive_input.
    - intros [deleted_count reclaimed_space].
      repeat (apply keeps_input_bind; [apply keeps_input_print | intros _]).
      apply keeps_input_ret. }
  destruct (String.eqb choice "2").
  { destruct (Main.total_duplicates st) as [total|]; [| apply keeps_input_raise].
    apply keeps_input_bind; [apply keeps_input_input | intros answer].
    destruct (negb _).
    { apply keeps_input_bind; [apply keeps_input_print | intros _; apply keeps_input_ret]. }
    apply keeps_input_bind; [apply keeps_input_input | intros answer'].
    apply keeps_input_bind; [apply keeps_input_print | intros _].
    apply keeps_input_bind; [apply keeps_input_items_of | intros found].
    apply keeps_input_bind.
    - apply keeps_input_lift. intros w0. rewrite delete_duplicates_input. lia.
    - intros [deleted_count reclaimed_space].
      repeat (apply keeps_input_bind; [apply keeps_input_print | intros _]).
      apply keeps_input_ret. }
  destruct (String.eqb choice "3").
  { apply keeps_input_bind; [apply keeps_input_input | intros answer].
    destruct (Main.nonempty _).
    - apply keeps_input_bind; [apply reads_only_keeps_input, reads_only_isdir | intros [|]];
        (apply keeps_input_bind; [apply keeps_input_print | intros _; apply keeps_input_ret]).
    - apply keeps_input_bind; [apply keeps_input_print | intros _; apply keeps_input_ret]. }
  destruct (String.eqb choice "4").
  { apply keeps_input_bind; [apply keeps_input_show_duplicates_list | intros listed].
    apply keeps_input_ret. }
  destruct (String.eqb choice "5").
  { apply keeps_input_bind; [apply keeps_input_print | intros _; apply keeps_input_ret]. }
  destruct (String.eqb choice "6").
  { apply keeps_input_bind; [apply keeps_input_print | intros _; apply keeps_input_ret]. }
  apply keeps_input_bind; [apply keeps_input_print | intros _; apply keeps_input_ret].
Qed.

(** Every turn of the loop that goes on to another has taken a line. *)
Lemma takes_input_turn_of (st : Main.state) : Main.takes_input (turn_of st).
Proof.
  unfold Main.turn_of. destruct (Main.is_protected_directory _ _).
  - apply takes_input_ask_safe_directory.
  - apply takes_input_bind_r; [apply keeps_input_scan_if_needed | intros st1].
    apply takes_input_bind_l; [apply takes_input_ask_choice | intros [st2 choice]].
    apply keeps_input_dispatch.
Qed.

(** With more turns than lines the loop does what it does with one turn
    more than lines, and does not use them up. *)
Lemma loop_enough (turns : nat) : forall (more : nat) (st : Main.state) (w : Main.world),
  (List.length (Main.w_stdin w) < turns)%nat -> (turns <= more)%nat ->
  loop more st w = loop turns st w /\ fst (loop turns st w) <> Main.Ok None.
Proof.
  induction turns as [|turns IH]; intros more st w Hlen Hmore; [lia |].
  destruct more as [|more]; [lia |]. cbn [Main.loop]. unfold Main.bind.
  destruct (turn_of st w) as [[[st' |] | e] w'] eqn:E.
  - pose proof (takes_input_turn_of st w _ _ E) as Ht.
    apply IH; clear - Ht Hlen Hmore; lia.
  - split; [reflexivity | discriminate].
  - split; [reflexivity | discriminate].
Qed.

(** Before its loop the interactive run raises, or takes a line and enters
    the loop; the number of turns plays no part in it. *)
Lemma main_interactive_enters (w : Main.world) :
  (exists e w', forall turns, main_interactive turns w = (Main.Raise e, w'))
  \/ (exists st w',
        (List.length (Main.w_stdin w') < List.length (Main.w_stdin w))%nat /\
        forall turns, main_interactive turns w = loop turns st w').
Proof.
  unfold Main.main_interactive, Main.bind. rewrite main_print_run.
  pose proof (keeps_input_default_directory
                (Main.log w [Main.Print (Main.LnText
                   "DUPLICATE TERMINATOR - INTERACTIVE MODE")])) as H1.
  destruct (get_safe_default_directory _) as [[default_dir | e] w1];
    [| left; exists e, w1; reflexivity].
  simpl in H1. rewrite main_input_run.
  destruct (Main.w_stdin w1) as [|answer rest] eqn:Ein;
    [left; do 2 eexists; reflexivity |].
  match goal with
  | |- context [if ?b then ?m else Main.ret default_dir] =>
      assert (Hd : Main.reads_only (if b then m else Main.ret default_dir))
  end.
  { destruct (Main.nonempty _); [| apply reads_only_ret].
    apply reads_only_bind; [apply reads_only_isdir | intros [|]];
      [apply reads_only_ret |].
    apply reads_only_bind; [apply reads_only_print | intros _].
    apply reads_only_bind; [apply reads_only_print | intros _].
    apply reads_only_ret. }
  match goal with
  | |- context [(if ?b then ?m else Main.ret default_dir) ?v] =>
      destruct (Hd v) as [r [evs Er]]; rewrite Er
  end.
  destruct r as [directory | e]; [| left; do 2 eexists; reflexivity].
  right. do 2 eexists. split; [| reflexivity].
  simpl. clear - H1. cbn [List.length] in H1. lia.
Qed.

(** X15.  The interactive program ends with its input.  A run of [main]
    that may make more turns of its loop than the standard input has lines
    never uses them up: it returns or raises (at the latest [EOFError] from
    an [input] with nothing left to read), and what it does is what it does
    with one turn more than lines, so that the number of turns allowed
    plays no part in it. *)
Theorem the_program_ends_with_its_input (turns : nat) (sys_argv : list string)
    (w : Main.world) :
  (List.length (Main.w_stdin w) < turns)%nat ->
  fst (main turns sys_argv w) <> Main.Ok None
  /\ main turns sys_argv w = main (S (List.length (Main.w_stdin w))) sys_argv w.
Proof.
  intros Hlen.
  assert (Hinter : fst (main_interactive turns w) <> Main.Ok None
                   /\ main_interactive turns w
                      = main_interactive (S (List.length (Main.w_stdin w))) w).
  { destruct (main_interactive_enters w) as [[e [w' E]] | [st [w' [Hin E]]]].
    - rewrite !E. split; [discriminate | reflexivity].
    - rewrite !E.
      destruct (loop_enough (S (List.length (Main.w_stdin w'))) turns st w') as [L1 L2];
        [lia | lia |].
      destruct (loop_enough (S (List.length (Main.w_stdin w')))
                  (S (List.length (Main.w_stdin w))) st w') as [L3 _]; [lia | lia |].
      rewrite L1, L3. split; [exact L2 | reflexivity]. }
  unfold Main.main. destruct sys_argv as [|program [|directory others]]; try exact Hinter.
  split; [| reflexivity]. unfold Main.bind.
  destruct (Main.main_with_arguments _ _ _ _ _ w) as [[[] | e] w']; discriminate.
Qed.

End LoopFacts.

(** X15, at work: the example tree, scanned and left with three lines. *)
Lemma the_program_ends_with_its_input_witness :
  let run turns :=
    Main.main example_digest (fun p => p) (fun p => p)
      (fun a b => (a ++ "/" ++ b)%string) (fun _ => []) false "prog" "prog.py"
      "/home/u" "/data" turns ["prog"] (Main.mkworld example_tree ["/data"; "n"; "6"] []) in
  fst (run 7%nat) <> Main.Ok None /\ run 7%nat = run 4%nat.
Proof.
  apply (the_program_ends_with_its_input example_digest (fun p => p) (fun p => p)
           (fun a b => (a ++ "/" ++ b)%string) (fun _ => []) false "prog" "prog.py"
           "/home/u" "/data" 7 ["prog"] (Main.mkworld example_tree ["/data"; "n"; "6"] [])).
  simpl. lia.
Defined.

(** ** The exceptions of the program's own *)

Lemma never_raises_bind_with {A B : Type} (Q : A -> Prop) (e : Main.exn) (m : Main.M A)
    (k : A -> Main.M B) :
  Main.returns_only Q m -> Main.never_raises e m ->
  (forall a, Q a -> Main.never_raises e (k a)) ->
  Main.never_raises e (Main.bind m k).
Proof.
  intros HQ Hm Hk w. unfold Main.bind. specialize (Hm w).
  destruct (m w) as [[a | e'] w1] eqn:E.
  - apply Hk. exact (HQ w a w1 E).
  - simpl in *. intros [= H]. apply Hm. now rewrite H.
Qed.

Lemma never_raises_bind {A B : Type} (e : Main.exn) (m : Main.M A) (k : A -> Main.M B) :
  Main.never_raises e m -> (forall a, Main.never_raises e (k a)) ->
  Main.never_raises e (Main.bind m k).
Proof.
  intros Hm Hk. apply (never_raises_bind_with (fun _ => True)); auto.
  now intros w a w' _.
Qed.

Lemma never_raises_ret {A : Type} (e : Main.exn) (a : A) : Main.never_raises e (Main.ret a).
Proof. intros w. discriminate. Qed.

Lemma never_raises_print (e : Main.exn) (l : Main.line) :
  Main.never_raises e (Main.print l).
Proof. intros w. discriminate. Qed.

Lemma never_raises_lift {A : Type} (e : Main.exn) (m : M A) :
  (forall x, e <> Main.EngineError x) -> Main.never_raises e (Main.lift m).
Proof.
  intros He w. unfold Main.lift. destruct (m _) as [[a | x] w0]; simpl; [discriminate |].
  intros [= H]. now apply (He x).
Qed.

Lemma never_raises_input (e : Main.exn) (p : Main.prompt) :
  (forall x, e <> Main.EngineError x) -> Main.never_raises e (Main.input p).
Proof.
  intros He w. rewrite main_input_run. destruct (Main.w_stdin w); simpl; [| discriminate].
  intros [= H]. now apply (He EOFError).
Qed.

Lemma never_raises_item0 {X : Type} (e : Main.exn) (l : list X) :
  (forall x, e <> Main.EngineError x) -> Main.never_raises e (Main.item0 l).
Proof.
  intros He w. destruct l; simpl; [| discriminate]. intros [= H]. now apply (He IndexError).
Qed.

Lemma never_raises_for_each {X S : Type} (e : Main.exn) (body : S -> X -> Main.M S)
    (xs : list X) :
  (forall s x, Main.never_raises e (body s x)) ->
  forall s, Main.never_raises e (Main.for_each xs body s).
Proof.
  intros H. induction xs as [|x xs IH]; intros s; simpl.
  - apply never_raises_ret.
  - apply never_raises_bind; [apply H | exact IH].
Qed.

Lemma returns_only_bind {A B : Type} (Q : B -> Prop) (m : Main.M A) (k : A -> Main.M B) :
  (forall a, Main.returns_only Q (k a)) -> Main.returns_only Q (Main.bind m k).
Proof.
  intros Hk w b w' E. unfold Main.bind in E.
  destruct (m w) as [[a | e] w1]; [exact (Hk a w1 b w' E) | discriminate].
Qed.

Lemma returns_only_ret {A : Type} (Q : A -> Prop) (a : A) :
  Q a -> Main.returns_only Q (Main.ret a).
Proof. intros H w b w' [= <- _]. exact H. Qed.

Ltac never_raises_head :=
  solve [ apply never_raises_ret
        | apply never_raises_print
        | apply never_raises_input; assumption
        | apply never_raises_lift; assumption
        | apply never_raises_item0; assumption ].

Ltac never_raises_step :=
  first [ never_raises_head | apply never_raises_bind; [never_raises_head | intros ?] ].

Lemma never_raises_total_space (e : Main.exn) (duplicates : list (string * list path)) :
  (forall x, e <> Main.EngineError x) ->
  Main.never_raises e (Main.total_space_of duplicates).
Proof.
  intros He. apply never_raises_for_each. intros acc [h files].
  repeat never_raises_step.
Qed.

Lemma never_raises_list_group (e : Main.exn) (st : Z * list (string * list path))
    (group : string * list path) :
  (forall x, e <> Main.EngineError x) ->
  Main.never_raises e (Main.list_group st group).
Proof.
  intros He. destruct st as [group_number listed]. destruct group as [file_hash file_list].
  unfold Main.list_group.
  do 4 never_raises_step. apply never_raises_bind; [| intros; never_raises_step].
  apply never_raises_for_each. intros _ [i filepath]. repeat never_raises_step.
Qed.

Lemma never_raises_show_main_menu (e : Main.exn) : Main.never_raises e Main.show_main_menu.
Proof. unfold Main.show_main_menu. repeat never_raises_step. Qed.

(** Listing a dict raises nothing of the program's own. *)
Lemma never_raises_show_duplicates_list (e : Main.exn) (d : list (string * list path)) :
  (forall x, e <> Main.EngineError x) ->
  Main.never_raises e (Main.show_duplicates_list (Some d)).
Proof.
  intros He. unfold Main.show_duplicates_list.
  do 2 (apply never_raises_bind; [apply never_raises_print | intros _]).
  apply never_raises_bind.
  - apply never_raises_for_each. intros. now apply never_raises_list_group.
  - intros [n listed]. repeat never_raises_step.
Qed.

Section ErrorFacts.
Variable md5_hexdigest : bytes -> string.
Variable os_path_abspath : string -> string.
Variable os_path_dirname : string -> string.
Variable os_path_join : string -> string -> string.
Variable locate : string -> path.
Variable sys_frozen : bool.
Variable sys_executable : string.
Variable script_file : string.
Variable home_dir : string.
Variable current_dir : string.

#[local] Abbreviation get_safe_default_directory :=
  (Main.get_safe_default_directory os_path_abspath os_path_dirname os_path_join locate
     sys_frozen sys_executable script_file home_dir current_dir).
#[local] Abbreviation turn_of :=
  (Main.turn_of md5_hexdigest os_path_abspath os_path_dirname os_path_join locate
     sys_frozen sys_executable script_file home_dir current_dir).
#[local] Abbreviation loop :=
  (Main.loop md5_hexdigest os_path_abspath os_path_dirname os_path_join locate
     sys_frozen sys_executable script_file home_dir current_dir).
#[local] Abbreviation main :=
  (Main.main md5_hexdigest os_path_abspath os_path_dirname os_path_join locate
     sys_frozen sys_executable script_file home_dir current_dir).

Variable e : Main.exn.
Hypothesis own : forall x, e <> Main.EngineError x.

Lemma never_raises_isdir (directory : string) :
  Main.never_raises e (Main.os_path_isdir locate directory).
Proof. intros w. rewrite os_path_isdir_run. discriminate. Qed.

Lemma never_raises_makedirs (directory : string) :
  Main.never_raises e (Main.os_makedirs locate directory).
Proof.
  intros w. unfold Main.os_makedirs, Main.bind. rewrite main_emit_run.
  destruct (Main.makedirs _ _); simpl; [discriminate |].
  intros [= H]. now apply (own OSError).
Qed.

Lemma never_raises_default_directory : Main.never_raises e get_safe_default_directory.
Proof.
  unfold Main.get_safe_default_directory.
  repeat (match goal with |- context [if ?b then _ else _] => destruct b end;
          [apply never_raises_ret |]).
  apply never_raises_bind; [apply never_raises_makedirs | intros; apply never_raises_ret].
Qed.

Lemma never_raises_ask_safe_directory (st : Main.state) :
  Main.never_raises e
    (Main.ask_safe_directory os_path_abspath os_path_dirname os_path_join locate
       sys_frozen sys_executable script_file home_dir current_dir st).
Proof.
  unfold Main.ask_safe_directory.
  do 2 never_raises_step. apply never_raises_bind.
  - destruct (Main.nonempty _); [apply never_raises_isdir | apply never_raises_ret].
  - intros [|]; [apply never_raises_ret |].
    never_raises_step. apply never_raises_bind;
      [apply never_raises_default_directory | intros; apply never_raises_ret].
Qed.

Lemma never_raises_scan_if_needed (st : Main.state) :
  Main.never_raises e (Main.scan_if_needed md5_hexdigest locate st).
Proof.
  unfold Main.scan_if_needed. destruct (Main.duplicates st); [apply never_raises_ret |].
  do 2 never_raises_step.
  apply never_raises_bind; [now apply never_raises_lift | intros found].
  destruct (negb _); repeat never_raises_step.
Qed.

Lemma never_raises_ask_choice (st : Main.state) : Main.never_raises e (Main.ask_choice st).
Proof.
  unfold Main.ask_choice.
  destruct (Main.duplicates st) as [[|g found]|]; try (repeat never_raises_step).
  apply never_raises_bind; [now apply never_raises_total_space | intros total_space].
  do 3 never_raises_step.
  apply never_raises_bind; [apply never_raises_show_main_menu | intros _].
  repeat never_raises_step.
Qed.

End ErrorFacts.

Section UnboundFacts.
Variable md5_hexdigest : bytes -> string.
Variable os_path_abspath : string -> string.
Variable os_path_dirname : string -> string.
Variable os_path_join : string -> string -> string.
Variable locate : string -> path.
Variable sys_frozen : bool.
Variable sys_executable : string.
Variable script_file : string.
Variable home_dir : string.
Variable current_dir : string.

#[local] Abbreviation turn_of :=
  (Main.turn_of md5_hexdigest os_path_abspath os_path_dirname os_path_join locate
     sys_frozen sys_executable script_file home_dir current_dir).
#[local] Abbreviation loop :=
  (Main.loop md5_hexdigest os_path_abspath os_path_dirname os_path_join locate
     sys_frozen sys_executable script_file home_dir current_dir).
#[local] Abbreviation main :=
  (Main.main md5_hexdigest os_path_abspath os_path_dirname os_path_join locate
     sys_frozen sys_executable script_file home_dir current_dir).

Lemma unbound_is_own (x : exn) : Main.UnboundLocalError <> Main.EngineError x.
Proof. discriminate. Qed.

Lemma never_unbound_items_of (duplicates : option (list (string * list path))) :
  Main.never_raises Main.UnboundLocalError (Main.items_of duplicates).
Proof. destruct duplicates; intros w; discriminate. Qed.

Lemma never_unbound_show_duplicates_list (duplicates : option (list (string * list path))) :
  Main.never_raises Main.UnboundLocalError (Main.show_duplicates_list duplicates).
Proof.
  destruct duplicates as [d|].
  - apply never_raises_show_duplicates_list, unbound_is_own.
  - unfold Main.show_duplicates_list.
    do 2 (apply never_raises_bind; [apply never_raises_print | intros _]).
    intros w. discriminate.
Qed.

(** The branch of [choice == '2'] is the one that reads [total_duplicates]. *)
Lemma never_unbound_dispatch (st : Main.state) (choice : string) :
  (choice = "2" -> Main.total_duplicates st <> None) ->
  Main.never_raises Main.UnboundLocalError (Main.dispatch os_path_abspath locate st choice).
Proof.
  intros Hbound. pose proof unbound_is_own as own. unfold Main.dispatch.
  destruct (String.eqb choice "1").
  { do 2 never_raises_step.
    apply never_raises_bind; [apply never_unbound_items_of | intros found].
    apply never_raises_bind; [now apply never_raises_lift | intros [deleted reclaimed]].
    repeat never_raises_step. }
  destruct (String.eqb choice "2") eqn:E2.
  { apply String.eqb_eq in E2.
    destruct (Main.total_duplicates st) as [total|]; [| now destruct (Hbound E2)].
    never_raises_step. destruct (negb _); [repeat never_raises_step |].
    do 2 never_raises_step.
    apply never_raises_bind; [apply never_unbound_items_of | intros found].
    apply never_raises_bind; [now apply never_raises_lift | intros [deleted reclaimed]].
    repeat never_raises_step. }
  destruct (String.eqb choice "3").
  { never_raises_step. destruct (Main.nonempty _); [| repeat never_raises_step].
    apply never_raises_bind; [now apply never_raises_isdir | intros [|]];
      repeat never_raises_step. }
  destruct (String.eqb choice "4").
  { apply never_raises_bind; [apply never_unbound_show_duplicates_list | intros listed].
    never_raises_step. }
  destruct (String.eqb choice "5"); [repeat never_raises_step |].
  destruct (String.eqb choice "6"); repeat never_raises_step.
Qed.

(** The menu binds [total_duplicates] where it offers the bulk deletion,
    and where it does not, the answer [2] stands for a rescan. *)
Lemma ask_choice_binds (st : Main.state) :
  Main.returns_only
    (fun '(st', choice) => choice = "2" -> Main.total_duplicates st' <> None)
    (Main.ask_choice st).
Proof.
  unfold Main.ask_choice.
  assert (Hshort : forall answer : string,
            (if String.eqb (PyStr.strip answer) "1" then "3"
             else if String.eqb (PyStr.strip answer) "2" then "5"
             else if String.eqb (PyStr.strip answer) "3" then "6"
             else PyStr.strip answer) <> "2").
  { intros answer. destruct (String.eqb (PyStr.strip answer) "1"); [discriminate |].
    destruct (String.eqb (PyStr.strip answer) "2") eqn:E; [discriminate |].
    destruct (String.eqb (PyStr.strip answer) "3"); [discriminate |].
    now apply String.eqb_neq. }
  destruct (Main.duplicates st) as [[|g found]|].
  1, 3: do 4 (apply returns_only_bind; intros ?); apply returns_only_ret;
        intros H; now destruct (Hshort a2).
  do 6 (apply returns_only_bind; intros ?). apply returns_only_ret. discriminate.
Qed.

Lemma never_unbound_turn_of (st : Main.state) :
  Main.never_raises Main.UnboundLocalError (turn_of st).
Proof.
  pose proof unbound_is_own as own. unfold Main.turn_of.
  destruct (Main.is_protected_directory _ _); [now apply never_raises_ask_safe_directory |].
  apply never_raises_bind; [now apply never_raises_scan_if_needed | intros st1].
  apply (never_raises_bind_with _ _ _ _ (ask_choice_binds st1));
    [now apply never_raises_ask_choice | intros [st2 choice] Hbound].
  now apply never_unbound_dispatch.
Qed.

Lemma never_unbound_loop (turns : nat) : forall st : Main.state,
  Main.never_raises Main.UnboundLocalError (loop turns st).
Proof.
  induction turns as [|turns IH]; intros st; simpl; [apply never_raises_ret |].
  apply never_raises_bind; [apply never_unbound_turn_of | intros [st' |]];
    [apply IH | apply never_raises_ret].
Qed.

(** X16.  [total_duplicates] is bound wherever it is read.  The loop of the
    interactive run assigns [total_duplicates] only in the turns that have
    duplicates to show and reads it in the branch of the bulk deletion; no
    run of [main], whatever is typed and whatever the tree holds, reads it
    before it is assigned. *)
Theorem total_duplicates_is_bound_where_it_is_read (turns : nat) (sys_argv : list string)
    (w : Main.world) :
  fst (main turns sys_argv w) <> Main.Raise Main.UnboundLocalError.
Proof.
  pose proof unbound_is_own as own.
  assert (Hinter : Main.never_raises Main.UnboundLocalError
                     (Main.main_interactive md5_hexdigest os_path_abspath os_path_dirname
                        os_path_join locate sys_frozen sys_executable script_file home_dir
                        current_dir turns)).
  { unfold Main.main_interactive. never_raises_step.
    apply never_raises_bind; [now apply never_raises_default_directory | intros default_dir].
    never_raises_step. apply never_raises_bind; [| intros; apply never_unbound_loop].
    destruct (Main.nonempty _); [| never_raises_step].
    apply never_raises_bind; [now apply never_raises_isdir | intros [|]];
      repeat never_raises_step. }
  unfold Main.main. destruct sys_argv as [|program [|directory others]];
    try exact (Hinter w).
  revert w. apply never_raises_bind; [| intros; never_raises_step].
  unfold Main.main_with_arguments.
  apply never_raises_bind; [now apply never_raises_isdir | intros is_dir].
  destruct (negb is_dir); [never_raises_step |].
  destruct (Main.is_protected_directory _ _); [never_raises_step |].
  apply never_raises_bind; [now apply never_raises_lift | intros duplicates].
  destruct (negb _); [never_raises_step |].
  apply never_raises_bind; [now apply never_raises_total_space | intros total_space].
  do 4 never_raises_step. destruct (negb _); [never_raises_step |].
  do 2 never_raises_step.
  apply never_raises_bind; [now apply never_raises_lift | intros [deleted reclaimed]].
  repeat never_raises_step.
Qed.

End UnboundFacts.

Section ListingFacts.
Variable md5_hexdigest : bytes -> string.
Variable os_path_abspath : string -> string.
Variable os_path_dirname : string -> string.
Variable os_path_join : string -> string -> string.
Variable locate : string -> path.
Variable sys_frozen : bool.
Variable sys_executable : string.
Variable script_file : string.
Variable home_dir : string.
Variable current_dir : string.

#[local] Abbreviation loop :=
  (Main.loop md5_hexdigest os_path_abspath os_path_dirname os_path_join locate
     sys_frozen sys_executable script_file home_dir current_dir).

(** X17.  Asking for the list when the scan found nothing raises.  In a
    turn of the interactive loop on a directory that is not protected and
    not scanned yet, a scan that finds no duplicates sets [duplicates] back
    to [None] and the menu of three options is shown.  The answer [4] is
    none of the three, but it is not refused: it reaches
    [show_duplicates_list(None)], which prints its title and rule and
    leaves the loop with [AttributeError].  The tree is as it was, and the
    two lines are taken. *)
Theorem listing_with_nothing_found_raises (turns : nat) (st : Main.state) (w : Main.world)
    (subfolders choice : string) (rest : list string) :
  let root := Main.w_root w in
  let directory := locate (Main.directory st) in
  let include_subfolders := String.eqb (PyStr.lower (PyStr.strip subfolders)) "y" in
  let paths := DoubleTerminator.scanned_paths root directory include_subfolders in
  Main.is_protected_directory os_path_abspath (Main.directory st) = false ->
  Main.duplicates st = None ->
  Main.w_stdin w = subfolders :: choice :: rest ->
  PyStr.strip choice = "4" ->
  DoubleTerminator.listable root directory include_subfolders ->
  DoubleTerminator.groups md5_hexdigest root (DoubleTerminator.size_buckets root paths) = [] ->
  exists scan,
    loop (S turns) st w
    = (Main.Raise Main.AttributeError,
       Main.mkworld root rest
         (Main.w_trace w
          ++ [Main.Input (Main.AskText "Include subfolders in search? (y/N): ");
              Main.Print (Main.LnScanning (Main.directory st))]
          ++ map Main.Engine scan
          ++ [Main.Print (Main.LnText "No duplicates found!");
              Main.Print (Main.LnText "1. Change directory");
              Main.Print (Main.LnText "2. Rescan for duplicates");
              Main.Print (Main.LnText "3. Exit");
              Main.Input (Main.AskText "Select option (1-3): ");
              Main.Print (Main.LnText "LIST OF DUPLICATE FILES");
              Main.Print (Main.LnRule 60)])).
Proof.
  intros root directory include_subfolders paths Hsafe Hnone Hin Hchoice Hlist Hgroups.
  cbn [Main.loop]. unfold Main.bind at 1. unfold Main.turn_of. rewrite Hsafe.
  unfold Main.bind at 1. unfold Main.scan_if_needed. rewrite Hnone.
  unfold Main.bind at 1. rewrite main_input_run, Hin.
  unfold Main.bind at 1. rewrite main_print_run.
  unfold Main.bind at 1. unfold Main.find_duplicates. fold include_subfolders.
  match goal with
  | |- context [Main.lift ?m ?v] =>
      destruct (lift_runs m root _ _ v
                  (find_duplicates_runs md5_hexdigest root directory include_subfolders true
                     Hlist) eq_refl) as [scan [Escan _]]
  end.
  rewrite Escan. fold directory. fold paths. rewrite Hgroups.
  cbn [Main.of_engine Main.truthy negb].
  unfold Main.bind at 1. rewrite main_print_run. cbn [Main.ret].
  unfold Main.ask_choice. cbn [Main.duplicates].
  unfold Main.bind at 1. unfold Main.bind at 1. rewrite main_print_run.
  unfold Main.bind at 1. rewrite main_print_run.
  unfold Main.bind at 1. rewrite main_print_run.
  unfold Main.bind at 1. rewrite main_input_run. cbn [Main.w_stdin Main.log].
  cbn [Main.ret]. rewrite Hchoice. cbn [String.eqb Ascii.eqb Bool.eqb].
  unfold Main.dispatch. cbn [String.eqb Ascii.eqb Bool.eqb Main.duplicates].
  unfold Main.bind at 1. unfold Main.show_duplicates_list.
  unfold Main.bind at 1. rewrite main_print_run.
  unfold Main.bind at 1. rewrite main_print_run.
  exists scan. unfold Main.raise, Main.log. cbn [Main.w_root Main.w_stdin Main.w_trace].
  f_equal. f_equal. repeat rewrite <- app_assoc. reflexivity.
Qed.

End ListingFacts.

(** X17, at work: the directory [sub] of the example tree, which holds one
    file. *)
Lemma listing_with_nothing_found_raises_witness :
  exists w',
    Main.loop example_digest (fun p => p) (fun p => p)
      (fun a b => (a ++ "/" ++ b)%string) (fun _ => ["sub"]) false "prog" "prog.py"
      "/home/u" "/data" 1 (Main.mkstate "/data/sub" false true None None)
      (Main.mkworld example_tree ["n"; " 4 "] [])
    = (Main.Raise Main.AttributeError, w') /\
    Main.w_stdin w' = [].
Proof.
  destruct (listing_with_nothing_found_raises example_digest (fun p => p) (fun p => p)
              (fun a b => (a ++ "/" ++ b)%string) (fun _ => ["sub"]) false "prog" "prog.py"
              "/home/u" "/data" 0 (Main.mkstate "/data/sub" false true None None)
              (Main.mkworld example_tree ["n"; " 4 "] []) "n" " 4 " [])
    as [scan E].
  - reflexivity.
  - reflexivity.
  - reflexivity.
  - reflexivity.
  - right. do 3 eexists. reflexivity.
  - reflexivity.
  - eexists. split; [exact E | reflexivity].
Defined.

(** ** Listing, then deleting *)

Lemma sort_keyed_of_sorted {X : Type} (l : list (Z * X)) :
  StronglySorted (fun a b => fst a <= fst b) l -> Py.sort_keyed l = l.
Proof.
  induction 1 as [|kx l Hs IH Hall]; simpl; [reflexivity |].
  rewrite IH. destruct l as [|ky l]; [reflexivity |]. simpl.
  inversion Hall as [|? ? Hle _]; subst.
  apply Z.leb_le in Hle. now rewrite Hle.
Qed.

(** Sorting what is sorted changes nothing. *)
Lemma sorted_by_idempotent {X : Type} (key : X -> Z) (l : list X) :
  Py.sorted_by key (Py.sorted_by key l) = Py.sorted_by key l.
Proof.
  pose proof (sorted_by_sorted key l) as S.
  set (s := Py.sorted_by key l) in *. unfold Py.sorted_by at 1.
  rewrite combine_keys, sort_keyed_of_sorted; [now rewrite map_map, map_id |].
  clear - S. induction S as [|x s Hs IH Hall]; simpl; constructor; [exact IH |].
  rewrite Forall_forall in *. intros y Hy. apply in_map_iff in Hy.
  destruct Hy as [z [<- Hz]]. simpl. now apply Hall.
Qed.

(** What the removals of a list of files give depends on the tree alone. *)
Lemma delete_files_on_equal_trees (files : list path) : forall (st : Z * Z) (w1 w2 : world),
  w_root w1 = w_root w2 ->
  fst (for_each files DoubleTerminator.delete_file st w1)
  = fst (for_each files DoubleTerminator.delete_file st w2) /\
  w_root (snd (for_each files DoubleTerminator.delete_file st w1))
  = w_root (snd (for_each files DoubleTerminator.delete_file st w2)).
Proof.
  induction files as [|p files IH]; intros st w1 w2 Hw; simpl; [now split |].
  unfold bind. rewrite !delete_file_run, Hw.
  destruct (stat_size (w_root w2) p) as [size|];
    [destruct (removable (w_root w2) p) |]; apply IH; simpl; congruence.
Qed.

(** A group sorted by times that are those of the tree, where the tree has
    them, is removed as the group is. *)
Lemma delete_group_of_sorted (keep_oldest : bool) (st : Z * Z) (g : list path)
    (key : path -> Z) (w1 w2 : world) :
  w_root w1 = w_root w2 ->
  (forall p, In p g ->
     stat_mtime (w_root w1) p = None
     \/ DoubleTerminator.mtime_or_zero (w_root w1) p = key p) ->
  fst (DoubleTerminator.delete_group keep_oldest st (Py.sorted_by key g) w1)
  = fst (DoubleTerminator.delete_group keep_oldest st g w2) /\
  w_root (snd (DoubleTerminator.delete_group keep_oldest st (Py.sorted_by key g) w1))
  = w_root (snd (DoubleTerminator.delete_group keep_oldest st g w2)).
Proof.
  intros Hw Hkey. unfold DoubleTerminator.delete_group, bind.
  destruct (mtime_all_or_one_missing (w_root w1) g) as [Hall | [p [Hp Hn]]].
  - assert (Hall' : forall p, In p (Py.sorted_by key g) -> stat_mtime (w_root w1) p <> None).
    { intros p Hp. apply Hall. exact (Permutation_in _ (sorted_by_perm key g) Hp). }
    rewrite (sort_by_mtime_sorts _ w1 Hall').
    assert (Hall2 : forall p, In p g -> stat_mtime (w_root w2) p <> None)
      by (rewrite <- Hw; exact Hall).
    rewrite (sort_by_mtime_sorts g w2 Hall2).
    assert (Es : Py.sorted_by (DoubleTerminator.mtime_or_zero (w_root w1)) (Py.sorted_by key g)
                 = Py.sorted_by (DoubleTerminator.mtime_or_zero (w_root w2)) g).
    { rewrite <- Hw.
      rewrite <- (sorted_by_ext (DoubleTerminator.mtime_or_zero (w_root w1)) key g).
      - apply sorted_by_idempotent.
      - intros p Hp. destruct (Hkey p Hp) as [Hn | Hk]; [| exact Hk].
        now destruct (Hall p Hp). }
    rewrite Es. apply delete_files_on_equal_trees. now rewrite !log_root.
  - destruct (sort_by_mtime_raises (Py.sorted_by key g) w1) as [evs1 [E1 _]].
    { exists p. split; [| exact Hn].
      exact (Permutation_in _ (Permutation_sym (sorted_by_perm key g)) Hp). }
    destruct (sort_by_mtime_raises g w2) as [evs2 [E2 _]].
    { exists p. split; [exact Hp | now rewrite <- Hw]. }
    rewrite E1, E2. simpl. split; [reflexivity | exact Hw].
Qed.

Lemma delete_groups_of_sorted (keep_oldest : bool) (root : node) (groups : list (list path)) :
  forall (st : Z * Z) (w1 w2 : world),
  w_root w1 = w_root w2 ->
  (forall q, stat (w_root w1) q = stat root q \/ stat (w_root w1) q = None) ->
  let sorted := map (Py.sorted_by (DoubleTerminator.mtime_or_zero root)) groups in
  fst (for_each sorted (DoubleTerminator.delete_group keep_oldest) st w1)
  = fst (for_each groups (DoubleTerminator.delete_group keep_oldest) st w2) /\
  w_root (snd (for_each sorted (DoubleTerminator.delete_group keep_oldest) st w1))
  = w_root (snd (for_each groups (DoubleTerminator.delete_group keep_oldest) st w2)).
Proof.
  induction groups as [|g groups IH]; intros st w1 w2 Hw Hinv; simpl; [now split |].
  unfold bind.
  destruct (delete_group_of_sorted keep_oldest st g
              (DoubleTerminator.mtime_or_zero root) w1 w2 Hw) as [Hres Hroot].
  { intros p _. unfold DoubleTerminator.mtime_or_zero, stat_mtime.
    destruct (Hinv p) as [-> | ->]; [now right | now left]. }
  destruct (delete_group_touches keep_oldest st
              (Py.sorted_by (DoubleTerminator.mtime_or_zero root) g) w1)
    as [res [w1' [evs [E [_ [_ [_ [_ [G _]]]]]]]]].
  rewrite E in Hres, Hroot |- *. simpl in Hres, Hroot.
  destruct (DoubleTerminator.delete_group keep_oldest st g w2) as [res2 w2'].
  simpl in Hres, Hroot. subst res2.
  destruct res as [st' | e]; [| now split].
  apply IH; [exact Hroot |].
  intros q. destruct (G q) as [-> | ->]; [apply Hinv | now right].
Qed.

Lemma list_group_returns (n : Z) (listed : list (string * list path)) (h : string)
    (fl : list path) (w : Main.world) (r : Z * list (string * list path))
    (w' : Main.world) :
  Main.list_group (n, listed) (h, fl) w = (Main.Ok r, w') ->
  r = (n + 1,
       (listed ++ [(h, Py.sorted_by (DoubleTerminator.mtime_or_zero (Main.w_root w)) fl)])%list)
  /\ exists evs, w' = Main.log w evs.
Proof.
  intros E. split.
  - unfold Main.list_group, Main.bind in E.
    destruct fl as [|first rest]; [discriminate |].
    rewrite main_item0_run, main_getsize_run in E.
    destruct (stat_size (Main.w_root w) first) as [size|]; [| discriminate].
    rewrite main_print_run, main_log_log in E.
    set (w1 := Main.log w _) in E.
    destruct (mtime_all_or_one_missing (Main.w_root w) (first :: rest)) as [Hall | Hone].
    + rewrite (lift_run _ w1 _ _
                 (sort_by_mtime_sorts (first :: rest)
                    (mkworld (Main.w_root w1) (Main.w_stdin w1) []) Hall)) in E.
      cbn [Main.of_engine] in E.
      match type of E with
      | context [Main.for_each ?l ?b ?s ?v] => destruct (Main.for_each l b s v) as [[[] | e] w3]
      end; [| discriminate].
      now injection E as <- _.
    + destruct (sort_by_mtime_raises (first :: rest)
                  (mkworld (Main.w_root w1) (Main.w_stdin w1) []) Hone) as [evs [Es _]].
      rewrite (lift_run _ w1 _ _ Es) in E. discriminate.
  - destruct (reads_only_list_group (n, listed) (h, fl) w) as [res [evs E']].
    rewrite E' in E. injection E as _ <-. now exists evs.
Qed.

Lemma for_each_list_group_returns (duplicates : list (string * list path)) :
  forall (n : Z) (listed : list (string * list path)) (w : Main.world)
         (r : Z * list (string * list path)) (w' : Main.world),
  Main.for_each duplicates Main.list_group (n, listed) w = (Main.Ok r, w') ->
  snd r = (listed
           ++ map (fun '(h, fl) =>
                     (h, Py.sorted_by (DoubleTerminator.mtime_or_zero (Main.w_root w)) fl))
                  duplicates)%list
  /\ exists evs, w' = Main.log w evs.
Proof.
  induction duplicates as [|[h fl] duplicates IH]; intros n listed w r w' E;
    cbn [Main.for_each] in E.
  - injection E as <- <-. simpl. rewrite app_nil_r. split; [reflexivity |].
    exists []. unfold Main.log. rewrite app_nil_r. now destruct w.
  - unfold Main.bind in E.
    destruct (Main.list_group (n, listed) (h, fl) w) as [[r1 | e] w1] eqn:E1; [| discriminate].
    destruct (list_group_returns _ _ _ _ _ _ _ E1) as [-> [evs1 ->]].
    destruct (IH _ _ _ _ _ E) as [Hr [evs2 ->]].
    rewrite main_log_root in Hr. split.
    + rewrite Hr. cbn [map]. now rewrite <- app_assoc.
    + exists (evs1 ++ evs2)%list. apply main_log_log.
Qed.

(** What the listing returns: the dict with every list sorted; the tree is
    as it was and one line is taken. *)
Lemma show_duplicates_list_returns (duplicates listed : list (string * list path))
    (w w' : Main.world) :
  Main.show_duplicates_list (Some duplicates) w = (Main.Ok listed, w') ->
  Main.w_root w' = Main.w_root w
  /\ (exists answer, Main.w_stdin w = answer :: Main.w_stdin w')
  /\ listed = map (fun '(h, fl) =>
                     (h, Py.sorted_by (DoubleTerminator.mtime_or_zero (Main.w_root w)) fl))
                  duplicates.
Proof.
  intros E. unfold Main.show_duplicates_list, Main.bind in E.
  rewrite !main_print_run, main_log_log in E.
  set (w1 := Main.log w _) in E.
  destruct (Main.for_each duplicates Main.list_group (1, []) w1) as [[[n l] | e] w2] eqn:Ef;
    [| discriminate].
  destruct (for_each_list_group_returns _ _ _ _ _ _ Ef) as [Hl [evs ->]].
  simpl in Hl. subst l. rewrite main_input_run in E.
  destruct (Main.w_stdin (Main.log w1 evs)) as [|answer rest] eqn:Ein;
    [discriminate |].
  injection E as <- <-. simpl in Ein. simpl.
  split; [reflexivity | split; [now exists answer | reflexivity]].
Qed.

(** X18.  Listing first does not change the deletion.
    [show_duplicates_list] sorts the lists of the caller's dict in place.
    When it returns, the tree is as it was, one line of input is taken and
    every list of the dict is the stable sort by modification time of what
    it was; and the bulk deletion of the dict as the listing left it gives,
    on the tree that was listed, the counts and the tree that the deletion
    of the dict as the scan left it gives, whichever of the oldest and the
    newest is kept. *)
Theorem listing_first_does_not_change_the_deletion
    (duplicates listed : list (string * list path)) (w w' : Main.world) :
  Main.show_duplicates_list (Some duplicates) w = (Main.Ok listed, w') ->
  Main.w_root w' = Main.w_root w
  /\ (exists answer, Main.w_stdin w = answer :: Main.w_stdin w')
  /\ listed = map (fun '(h, fl) =>
                     (h, Py.sorted_by (DoubleTerminator.mtime_or_zero (Main.w_root w)) fl))
                  duplicates
  /\ forall (keep_oldest : bool) (w0 : world),
       w_root w0 = Main.w_root w ->
       let after_listing := DoubleTerminator.delete_duplicates listed keep_oldest w0 in
       let without := DoubleTerminator.delete_duplicates duplicates keep_oldest w0 in
       fst after_listing = fst without
       /\ w_root (snd after_listing) = w_root (snd without).
Proof.
  intros E. destruct (show_duplicates_list_returns _ _ _ _ E) as [Hroot [Hin ->]].
  split; [exact Hroot | split; [exact Hin | split; [reflexivity |]]].
  intros keep_oldest w0 Hw0. unfold DoubleTerminator.delete_duplicates.
  rewrite map_map.
  rewrite (map_ext _ (fun x => Py.sorted_by (DoubleTerminator.mtime_or_zero (Main.w_root w))
                                 (snd x))) by now intros [h fl].
  rewrite <- (map_map snd (Py.sorted_by (DoubleTerminator.mtime_or_zero (Main.w_root w)))).
  apply (delete_groups_of_sorted keep_oldest (Main.w_root w) (map snd duplicates)
           (0, 0) w0 w0 eq_refl).
  intros q. left. now rewrite Hw0.
Qed.

(** X18, at work: the groups of the example, whose second member [b] may
    not be unlinked. *)
Lemma listing_first_does_not_change_the_deletion_witness :
  exists listed w',
    Main.show_duplicates_list (Some example_groups) (Main.mkworld example_root ["ok"] [])
    = (Main.Ok listed, w') /\
    fst (DoubleTerminator.delete_duplicates listed false example_world)
    = fst (DoubleTerminator.delete_duplicates example_groups false example_world).
Proof.
  destruct (Main.show_duplicates_list (Some example_groups)
              (Main.mkworld example_root ["ok"] [])) as [[listed | e] w'] eqn:E;
    [| vm_compute in E; discriminate].
  exists listed, w'. split; [reflexivity |].
  destruct (listing_first_does_not_change_the_deletion example_groups listed _ w' E)
    as [_ [_ [_ H]]].
  exact (proj1 (H false example_world eq_refl)).
Defined.

(** ** The default directory *)

Lemma find_entry_new (name : string) (c : node) (es : list (string * node)) :
  find_entry name es = None -> find_entry name (es ++ [(name, c)]) = Some c.
Proof.
  induction es as [|[n c0] es IH]; simpl.
  - now rewrite String.eqb_refl.
  - destruct (String.eqb n name); [discriminate | exact IH].
Qed.

Lemma lookup_new_chain (p : path) :
  lookup (fold_right (fun name' c' => Dir 0 0 [(name', c')]) (Dir 0 0 []) p) p
  = Some (Dir 0 0 []).
Proof. induction p as [|name p IH]; simpl; [reflexivity |]. now rewrite String.eqb_refl. Qed.

(** What [os.makedirs] has made is a directory. *)
Lemma makedirs_makes (p : path) : forall n n' : node,
  Main.makedirs n p = Some n' ->
  exists mtime size entries, lookup n' p = Some (Dir mtime size entries).
Proof.
  induction p as [|name rest IH]; intros n n' E.
  - destruct n as [f | mtime size entries |]; try discriminate.
    injection E as <-. simpl. eauto.
  - destruct n as [f | mtime size entries |]; try discriminate.
    cbn [Main.makedirs] in E.
    destruct (find_entry name entries) as [c|] eqn:Ef.
    + destruct (Main.makedirs c rest) as [c'|] eqn:Ec; [| discriminate].
      injection E as <-. cbn [lookup].
      rewrite (find_entry_set_same name c c' entries Ef). exact (IH c c' Ec).
    + injection E as <-. cbn [lookup]. rewrite (find_entry_new _ _ _ Ef).
      rewrite lookup_new_chain. eauto.
Qed.

Section DefaultDirectory.
Variable os_path_abspath : string -> string.
Variable os_path_dirname : string -> string.
Variable os_path_join : string -> string -> string.
Variable locate : string -> path.
Variable sys_frozen : bool.
Variable sys_executable : string.
Variable script_file : string.
Variable home_dir : string.
Variable current_dir : string.

#[local] Abbreviation is_protected_directory :=
  (DoubleTerminator.is_protected_directory os_path_abspath).
#[local] Abbreviation get_safe_default_directory :=
  (Main.get_safe_default_directory os_path_abspath os_path_dirname os_path_join locate
     sys_frozen sys_executable script_file home_dir current_dir).

(** X19.  The default directory.  [get_safe_default_directory] returns the
    first of the script's directory, the home directory and the current
    directory that the guard does not protect, and touches nothing.  When
    the guard protects all three, it makes [DuplicateScan] under the home
    directory and returns its name without asking the guard: the call
    raises [OSError] or leaves a directory of that name in the tree; and
    when the home directory is protected by a reserved segment (its
    normalized form has more than three characters) and the normalized
    name of the new directory extends that of the home directory, the
    directory returned is protected too. *)
Theorem default_directory_is_a_candidate_or_the_last_resort (w : Main.world) :
  let script_dir :=
    Main.get_script_directory os_path_abspath os_path_dirname sys_frozen sys_executable
      script_file in
  let temp_dir := os_path_join home_dir "DuplicateScan" in
  let unprotected := filter (fun d => negb (is_protected_directory d))
                            [script_dir; home_dir; current_dir] in
  (forall d others, unprotected = d :: others ->
     get_safe_default_directory w = (Main.Ok d, w))
  /\ (unprotected = [] ->
      (forall d w', get_safe_default_directory w = (Main.Ok d, w') ->
         d = temp_dir
         /\ exists mtime size entries,
              lookup (Main.w_root w') (locate temp_dir) = Some (Dir mtime size entries))
      /\ (forall e, fst (get_safe_default_directory w) = Main.Raise e ->
            e = Main.EngineError OSError)
      /\ forall rest,
           (3 < String.length (DoubleTerminator.path_lower os_path_abspath home_dir))%nat ->
           DoubleTerminator.path_lower os_path_abspath temp_dir
           = DoubleTerminator.path_lower os_path_abspath home_dir ++ rest ->
           is_protected_directory temp_dir = true).
Proof.
  intros script_dir temp_dir unprotected.
  unfold Main.get_safe_default_directory, Main.is_protected_directory.
  fold script_dir. fold temp_dir. subst unprotected. cbn [filter].
  destruct (is_protected_directory script_dir) eqn:E1; cbn [negb];
    [| split; [now intros d others [= <- _] | discriminate]].
  destruct (is_protected_directory home_dir) eqn:E2; cbn [negb];
    [| split; [now intros d others [= <- _] | discriminate]].
  destruct (is_protected_directory current_dir) eqn:E3; cbn [negb];
    [| split; [now intros d others [= <- _] | discriminate]].
  split; [discriminate | intros _].
  assert (Hbelow : forall rest,
            (3 < String.length (DoubleTerminator.path_lower os_path_abspath home_dir))%nat ->
            DoubleTerminator.path_lower os_path_abspath temp_dir
            = DoubleTerminator.path_lower os_path_abspath home_dir ++ rest ->
            is_protected_directory temp_dir = true).
  { intros rest Hlen Hbelow. revert E2.
    unfold DoubleTerminator.is_protected_directory. intros H.
    apply Nat.leb_gt in Hlen. rewrite Hlen in H. cbn [andb] in H.
    rewrite Hbelow. destruct (_ && _)%bool; [reflexivity |].
    apply existsb_exists in H. destruct H as [p [Hp H]].
    apply existsb_exists. exists p. split; [exact Hp | now apply contains_app_r]. }
  unfold Main.bind, Main.os_makedirs, Main.bind. rewrite main_emit_run.
  rewrite main_log_root.
  destruct (Main.makedirs (Main.w_root w) (locate temp_dir)) as [root'|] eqn:Em; simpl.
  - split; [| split; [discriminate | exact Hbelow]].
    intros d w' [= <- <-]. split; [reflexivity |]. simpl.
    exact (makedirs_makes _ _ _ Em).
  - split; [discriminate | split; [now intros e [= <-] | exact Hbelow]].
Qed.

End DefaultDirectory.

(** X19, at work: a process whose three candidates lie under [/etc]. *)
Lemma default_directory_is_a_candidate_or_the_last_resort_witness :
  let default_directory :=
    Main.get_safe_default_directory (fun p => p) (fun p => p)
      (fun a b => (a ++ "/" ++ b)%string) (fun _ => ["skel"]) false "/etc/prog" "/etc/prog.py"
      "/etc/skel" "/etc/cron.d" in
  fst (default_directory (Main.mkworld example_tree [] [])) = Main.Ok "/etc/skel/DuplicateScan"
  /\ DoubleTerminator.is_protected_directory (fun p => p) "/etc/skel/DuplicateScan" = true.
Proof.
  destruct (default_directory_is_a_candidate_or_the_last_resort (fun p => p) (fun p => p)
              (fun a b => (a ++ "/" ++ b)%string) (fun _ => ["skel"]) false "/etc/prog"
              "/etc/prog.py" "/etc/skel" "/etc/cron.d" (Main.mkworld example_tree [] []))
    as [_ H].
  destruct (H eq_refl) as [_ [_ Hbelow]].
  split; [reflexivity |].
  apply (Hbelow "/duplicatescan"); [simpl; lia | reflexivity].
Defined.

(** ** Where the program removes *)














Lemma adds_weaken {A : Type} (P Q : event -> Prop) (m : M A) :
  (forall e, P e -> Q e) -> ScanCalls.adds P m -> ScanCalls.adds Q m.
Proof.
  intros H Hm w. destruct (Hm w) as [evs [T F]]. exists evs.
  split; [exact T | exact (Forall_impl _ H F)].
Qed.



Section Removals.
Variable R : path -> Prop.

#[local] Abbreviation removing := (fun e : event => forall p, e = EvRemove p -> R p).



End Removals.

(** Induction on a tree, the entries of a directory being smaller. *)
Lemma node_entries_ind (P : node -> Prop) :
  (forall f, P (File f)) -> P Broken ->
  (forall mtime size entries,
     Forall (fun e => P (snd e)) entries -> P (Dir mtime size entries)) ->
  forall n, P n.
Proof.
  intros Hf Hb Hd. fix IH 1. intros [f | mtime size entries |];
    [apply Hf | | apply Hb].
  apply Hd. revert entries. fix IHes 1. intros [|[name c] es]; constructor.
  - apply IH.
  - apply IHes.
Qed.

(** What [os.walk] reports lies at or below its top. *)
Lemma walk_from_below (n : node) : forall (top r : path) (dirs files : list string),
  In (r, dirs, files) (walk_from top n) -> exists rel, r = (top ++ rel)%list.
Proof.
  induction n as [f | | mtime size entries IH] using node_entries_ind;
    intros top r dirs files H; simpl in H; try (now destruct H).
  destruct H as [H | H].
  - injection H as <- _ _. exists []. now rewrite app_nil_r.
  - induction IH as [|[name c] es Hc _ IHes]; [destruct H |].
    apply in_app_or in H. destruct H as [H | H]; [| exact (IHes H)].
    simpl in H. destruct c as [f | mtime' size' entries' |]; try (now destruct H).
    apply Hc in H. destruct H as [rel ->].
    exists (name :: rel). unfold join. now rewrite <- app_assoc.
Qed.


Section ScanMembers.
Variable md5_hexdigest : bytes -> string.



End ScanMembers.














Section RemovalFacts.
Variable md5_hexdigest : bytes -> string.
Variable os_path_abspath : string -> string.
Variable os_path_dirname : string -> string.
Variable os_path_join : string -> string -> string.
Variable locate : string -> path.
Variable sys_frozen : bool.
Variable sys_executable : string.
Variable script_file : string.
Variable home_dir : string.
Variable current_dir : string.

#[local] Abbreviation is_protected_directory :=
  (DoubleTerminator.is_protected_directory os_path_abspath).
#[local] Abbreviation turn_of :=
  (Main.turn_of md5_hexdigest os_path_abspath os_path_dirname os_path_join locate
     sys_frozen sys_executable script_file home_dir current_dir).
#[local] Abbreviation loop :=
  (Main.loop md5_hexdigest os_path_abspath os_path_dirname os_path_join locate
     sys_frozen sys_executable script_file home_dir current_dir).
#[local] Abbreviation main :=
  (Main.main md5_hexdigest os_path_abspath os_path_dirname os_path_join locate
     sys_frozen sys_executable script_file home_dir current_dir).

(** [p] lies below a directory that the guard does not protect. *)
#[local] Abbreviation guarded :=
  (fun p : path =>
     exists directory rel,
       is_protected_directory directory = false /\ rel <> [] /\
       p = (locate directory ++ rel)%list).
#[local] Abbreviation safe :=
  (fun e : Main.event => forall p, e = Main.Engine (EvRemove p) -> guarded p).
#[local] Abbreviation below :=
  (fun (directory : string) (found : list (string * list path)) =>
     forall h fl p, In (h, fl) found -> In p fl ->
       exists rel, rel <> [] /\ p = (locate directory ++ rel)%list).
(** The dict, when there is one, is of the directory, which is not
    protected. *)
#[local] Abbreviation of_the_directory :=
  (fun st : Main.state =>
     forall found, Main.duplicates st = Some found ->
       is_protected_directory (Main.directory st) = false
       /\ below (Main.directory st) found).





















End RemovalFacts.

(** ** The categories of sorttofolders.py *)

Lemma mem_iff (x : string) (l : list string) : PyStr.mem x l = true <-> In x l.
Proof.
  unfold PyStr.mem. rewrite existsb_exists. split.
  - intros [y [Hy E]]. apply String.eqb_eq in E. now subst.
  - intros H. exists x. split; [exact H | apply String.eqb_refl].
Qed.

(** The key [next] yields: that of the first entry that lists the
    extension, ['Other'] when none does. *)
Lemma first_category_spec (categories : list (string * list string)) (ext : string) :
  (exists before v after,
     categories = (before ++ (Organizer.first_category categories ext, v) :: after)%list
     /\ In ext v
     /\ forall k' v', In (k', v') before -> ~ In ext v')
  \/ (Organizer.first_category categories ext = "Other"
      /\ forall k' v', In (k', v') categories -> ~ In ext v').
Proof.
  induction categories as [|[k v] categories IH]; simpl.
  - right. split; [reflexivity | intros k' v' []].
  - destruct (PyStr.mem ext v) eqn:E.
    + left. exists [], v, categories. apply mem_iff in E.
      split; [reflexivity | split; [exact E | intros k' v' []]].
    + assert (Hv : ~ In ext v) by (intros H; apply mem_iff in H; congruence).
      destruct IH as [[before [v0 [after [Hc [Hin Hb]]]]] | [Ho Hn]].
      * left. exists ((k, v) :: before), v0, after.
        split; [simpl; now rewrite <- Hc | split; [exact Hin |]].
        intros k' v' [[= <- <-] | H]; [exact Hv | now apply (Hb k' v')].
      * right. split; [exact Ho |].
        intros k' v' [[= <- <-] | H]; [exact Hv | now apply (Hn k' v')].
Qed.

(** X21.  The category of a file name is a key of [get_file_categories]:
    that of the first entry, in the order of the dict, that lists the
    lower-cased extension, and ['Other'] when no entry lists it.  The
    extensions [.json] and [.xml] are listed under ['Code'] and again under
    ['Data']: they are always ['Code'], and ['Data'] is the category of
    exactly the extensions [.csv], [.sql], [.db], [.sqlite] and
    [.sqlite3]. *)
Theorem json_and_xml_are_code_never_data (filename : string) :
  let ext := PyStr.lower (snd (Organizer.splitext filename)) in
  let category := Organizer.category_of filename in
  In category (map fst Organizer.get_file_categories)
  /\ (In ext [".json"; ".xml"] -> category = "Code")
  /\ (category = "Data" <-> In ext [".csv"; ".sql"; ".db"; ".sqlite"; ".sqlite3"])
  /\ (category = "Other" <->
      forall k v, In (k, v) Organizer.get_file_categories -> ~ In ext v).
Proof.
  intros ext category. subst category. unfold Organizer.category_of. fold ext.
  generalize ext. clear ext filename. intros ext.
  pose proof (first_category_spec Organizer.get_file_categories ext) as S.
  split; [| split; [| split]].
  - destruct S as [[before [v [after [Hc _]]]] | [-> _]]; [| simpl; tauto].
    rewrite Hc at 2. rewrite map_app. apply in_or_app. right. now left.
  - intros [<- | [<- | []]]; reflexivity.
  - split.
    + intros Hd. rewrite Hd in S. destruct S as [[before [v [after [Hc [Hin Hb]]]]] | [H _]];
        [| discriminate].
      assert (Hlist : In ("Data", v) Organizer.get_file_categories).
      { rewrite Hc. apply in_or_app. right. now left. }
      simpl in Hlist.
      repeat (destruct Hlist as [Hlist | Hlist]; [try discriminate |]); [| destruct Hlist].
      injection Hlist as <-. simpl in Hin.
      destruct Hin as [<- | [<- | [<- | [<- | [<- | [<- | [<- | []]]]]]]];
        try (simpl; tauto); discriminate.
    + intros H. simpl in H.
      destruct H as [<- | [<- | [<- | [<- | [<- | []]]]]]; reflexivity.
  - split.
    + intros Ho. rewrite Ho in S. destruct S as [[before [v [after [Hc [Hin Hb]]]]] | [_ H]];
        [| exact H].
      assert (Hlist : In ("Other", v) Organizer.get_file_categories).
      { rewrite Hc. apply in_or_app. right. now left. }
      simpl in Hlist.
      repeat (destruct Hlist as [Hlist | Hlist]; [try discriminate |]); [| destruct Hlist].
      injection Hlist as <-. destruct Hin.
    + intros H. destruct S as [[before [v [after [Hc [Hin Hb]]]]] | [Ho _]]; [| exact Ho].
      exfalso. apply (H (Organizer.first_category Organizer.get_file_categories ext) v);
        [| exact Hin].
      rewrite Hc at 2. apply in_or_app. right. now left.
Qed.
(** ** The runs of the organizer *)

Lemma org_log_root (w : Organizer.world) (evs : list Organizer.event) :
  Organizer.w_root (Organizer.log w evs) = Organizer.w_root w.
Proof. reflexivity. Qed.

Lemma org_log_nil (w : Organizer.world) : Organizer.log w [] = w.
Proof. destruct w; unfold Organizer.log; simpl. now rewrite app_nil_r. Qed.

Lemma org_log_log (w : Organizer.world) (a b : list Organizer.event) :
  Organizer.log (Organizer.log w a) b = Organizer.log w (a ++ b).
Proof. unfold Organizer.log; simpl. now rewrite app_assoc. Qed.

Lemma org_emit_run (e : Organizer.event) (w : Organizer.world) :
  Organizer.emit e w = (Some tt, Organizer.log w [e]).
Proof. reflexivity. Qed.

Lemma org_print_run (l : Organizer.line) (w : Organizer.world) :
  Organizer.print l w = (Some tt, Organizer.log w [Organizer.Print l]).
Proof. reflexivity. Qed.

Lemma org_exists_run (p : path) (w : Organizer.world) :
  Organizer.os_path_exists p w
  = (Some (Organizer.exists_in (Organizer.w_root w) p), Organizer.log w [Organizer.Exists p]).
Proof. reflexivity. Qed.

Lemma org_isdir_run (p : path) (w : Organizer.world) :
  Organizer.os_path_isdir p w
  = (Some (match lookup (Organizer.w_root w) p with
           | Some n => is_dir n
           | None => false
           end), Organizer.log w [Organizer.Isdir p]).
Proof. reflexivity. Qed.

Lemma org_isfile_run (p : path) (w : Organizer.world) :
  Organizer.os_path_isfile p w
  = (Some (DoubleTerminator.is_file (Organizer.w_root w) p),
     Organizer.log w [Organizer.Isfile p]).
Proof. reflexivity. Qed.

Lemma org_getmtime_run (p : path) (w : Organizer.world) :
  Organizer.os_path_getmtime p w
  = (stat_mtime (Organizer.w_root w) p, Organizer.log w [Organizer.Getmtime p]).
Proof. reflexivity. Qed.

Lemma org_progress_run (progress total : Z) (prefix : string) (w : Organizer.world) :
  Organizer.progress_bar progress total prefix w
  = (Some tt,
     Organizer.log w (if total =? 0 then []
                      else [Organizer.Progress prefix progress total])).
Proof.
  unfold Organizer.progress_bar. destruct (total =? 0); [| reflexivity].
  now rewrite org_log_nil.
Qed.

(** A step that only tells: it returns, and the tree is as it was. *)
Lemma org_tell_run (b : bool) (m : Organizer.M unit) (w : Organizer.world) :
  (forall w0, exists evs, m w0 = (Some tt, Organizer.log w0 evs)) ->
  exists evs, (if b then m else Organizer.ret tt) w = (Some tt, Organizer.log w evs).
Proof.
  intros H. destruct b; [apply H |]. exists []. now rewrite org_log_nil.
Qed.

Ltac org_close :=
  unfold Organizer.ret, Organizer.log;
  cbn [Organizer.w_root Organizer.w_trace fst snd];
  rewrite <- ?app_assoc; cbn [app]; rewrite ?app_nil_r; reflexivity.

Section OrganizeFile.
Variable datetime : Type.
Variable datetime_fromtimestamp : Z -> option datetime.
Variable format_date : Z -> datetime -> string.
Variable shutil_move : node -> path -> path -> bool * node.

#[local] Abbreviation organize_file :=
  (Organizer.organize_file datetime datetime_fromtimestamp format_date shutil_move).

(** The [try] block for one file, case by case. *)
Lemma organize_file_run (directory : path) (mode date_format : Z) (show_progress : bool)
    (files moved errors skipped i : Z) (file_path : path) (filename : string)
    (w : Organizer.world) :
  let root := Organizer.w_root w in
  let category := Organizer.category_of filename in
  organize_file directory mode date_format show_progress files moved errors skipped i
    file_path filename w
  = match stat_mtime root file_path with
    | None => (None, Organizer.log w [Organizer.Getmtime file_path])
    | Some mod_time =>
        match datetime_fromtimestamp mod_time with
        | None => (None, Organizer.log w [Organizer.Getmtime file_path])
        | Some mod_date =>
            let date_folder :=
              Organizer.date_folder_of datetime format_date mode date_format mod_date in
            match Organizer.target_dir_of directory mode category date_folder with
            | None =>
                (Some Organizer.ReturnFalse,
                 Organizer.log w [Organizer.Getmtime file_path;
                                  Organizer.Print Organizer.LnInvalidMode])
            | Some target_dir =>
                let target_path := join target_dir filename in
                match Main.makedirs root target_dir with
                | None =>
                    (None, Organizer.log w [Organizer.Getmtime file_path;
                                            Organizer.Makedirs target_dir])
                | Some root1 =>
                    if Organizer.exists_in root1 target_path then
                      (Some (Organizer.Next moved errors (skipped + 1)),
                       Organizer.mkworld root1
                         (Organizer.w_trace w
                          ++ [Organizer.Getmtime file_path; Organizer.Makedirs target_dir;
                              Organizer.Exists target_path]))
                    else if fst (shutil_move root1 file_path target_path) then
                      (Some (Organizer.Next (moved + 1) errors skipped),
                       Organizer.mkworld (snd (shutil_move root1 file_path target_path))
                         (Organizer.w_trace w
                          ++ [Organizer.Getmtime file_path; Organizer.Makedirs target_dir;
                              Organizer.Exists target_path;
                              Organizer.Move file_path target_path]
                          ++ (if (show_progress && ((i + 1) mod 10 =? 0))%bool
                              then if files =? 0 then []
                                   else [Organizer.Progress "Organizing files" (i + 1) files]
                              else [])))
                    else
                      (None,
                       Organizer.mkworld (snd (shutil_move root1 file_path target_path))
                         (Organizer.w_trace w
                          ++ [Organizer.Getmtime file_path; Organizer.Makedirs target_dir;
                              Organizer.Exists target_path;
                              Organizer.Move file_path target_path]))
                end
            end
        end
    end.
Proof.
  intros root category. unfold Organizer.organize_file, Organizer.bind.
  rewrite org_getmtime_run. fold root.
  destruct (stat_mtime root file_path) as [mod_time|]; [| reflexivity].
  unfold Organizer.fromtimestamp.
  destruct (datetime_fromtimestamp mod_time) as [mod_date|]; [| reflexivity].
  fold category.
  destruct (Organizer.target_dir_of directory mode category _) as [target_dir|].
  2:{ unfold Organizer.bind. rewrite org_print_run. org_close. }
  unfold Organizer.bind, Organizer.os_makedirs, Organizer.bind.
  rewrite org_emit_run. cbn [Organizer.w_root Organizer.log Organizer.w_trace]. fold root.
  destruct (Main.makedirs root target_dir) as [root1|]; [| org_close].
  rewrite org_exists_run. cbn [Organizer.w_root Organizer.log Organizer.w_trace].
  destruct (Organizer.exists_in root1 (join target_dir filename)); [org_close |].
  unfold Organizer.move, Organizer.bind. rewrite org_emit_run.
  cbn [Organizer.w_root Organizer.log Organizer.w_trace].
  destruct (shutil_move root1 file_path (join target_dir filename)) as [[|] root2];
    cbn [fst snd]; [| org_close].
  destruct (show_progress && ((i + 1) mod 10 =? 0))%bool; [| org_close].
  rewrite org_progress_run. org_close.
Qed.

End OrganizeFile.
(** A loop of steps that only read: it returns, the tree is as it was, and
    what holds of the loop's variables is kept. *)
Lemma org_for_each_reads {X S : Type} (P : Organizer.event -> Prop) (Inv : S -> Prop)
    (body : S -> X -> Organizer.M S) (xs : list X) :
  (forall s x w, In x xs -> Inv s ->
     exists s' evs, body s x w = (Some s', Organizer.log w evs) /\ Forall P evs /\ Inv s') ->
  forall s w, Inv s ->
    exists s' evs,
      Organizer.for_each xs body s w = (Some s', Organizer.log w evs)
      /\ Forall P evs /\ Inv s'.
Proof.
  induction xs as [|x xs IH]; intros H s w Hs; simpl.
  - exists s, []. rewrite org_log_nil. now repeat split.
  - unfold Organizer.bind.
    destruct (H s x w (or_introl eq_refl) Hs) as [s1 [e1 [E1 [F1 H1]]]]. rewrite E1.
    destruct (IH (fun s x w Hx => H s x w (or_intror Hx)) s1 (Organizer.log w e1) H1)
      as [s2 [e2 [E2 [F2 H2]]]].
    rewrite E2, org_log_log. exists s2, (e1 ++ e2)%list.
    split; [reflexivity | split; [now apply Forall_app | exact H2]].
Qed.

Lemma org_filter_m_reads {X : Type} (P : Organizer.event -> Prop) (Q : X -> Prop)
    (f : X -> Organizer.M bool) (xs : list X) :
  (forall x w, In x xs ->
     exists b evs, f x w = (Some b, Organizer.log w evs) /\ Forall P evs
                   /\ (b = true -> Q x)) ->
  forall w,
    exists ys evs,
      Organizer.filter_m f xs w = (Some ys, Organizer.log w evs)
      /\ Forall P evs /\ Forall Q ys.
Proof.
  induction xs as [|x xs IH]; intros H w; simpl.
  - exists [], []. rewrite org_log_nil. now repeat split.
  - unfold Organizer.bind.
    destruct (H x w (or_introl eq_refl)) as [b [e1 [E1 [F1 Hb]]]]. rewrite E1.
    destruct (IH (fun x w Hx => H x w (or_intror Hx)) (Organizer.log w e1))
      as [ys [e2 [E2 [F2 Hys]]]].
    rewrite E2, org_log_log. exists (if b then x :: ys else ys), (e1 ++ e2)%list.
    split; [reflexivity | split; [now apply Forall_app |]].
    destruct b; [constructor; auto | exact Hys].
Qed.

Lemma org_walk_run (top : path) (w : Organizer.world) :
  Organizer.os_walk top w
  = (Some (match lookup (Organizer.w_root w) top with
           | Some n => walk_from top n
           | None => []
           end), Organizer.log w [Organizer.Walk top]).
Proof. reflexivity. Qed.

Lemma org_listdir_run (d : path) (w : Organizer.world) :
  Organizer.os_listdir d w
  = (match lookup (Organizer.w_root w) d with
     | Some (Dir _ _ entries) => Some (map fst entries)
     | _ => None
     end, Organizer.log w [Organizer.Listdir d]).
Proof.
  unfold Organizer.os_listdir, Organizer.bind. rewrite org_emit_run, org_log_root.
  now destruct (lookup (Organizer.w_root w) d) as [[| |]|].
Qed.

(** The events of the scan for files. *)
#[local] Abbreviation scanning :=
  (fun e : Organizer.event =>
     match e with
     | Organizer.Walk _ | Organizer.Listdir _ | Organizer.Isfile _
     | Organizer.Progress "Scanning files" _ _ => True
     | _ => False
     end).

(** A file to organize: not hidden, and somewhere below the directory. *)
#[local] Abbreviation found_below :=
  (fun (directory : path) (entry : path * string) =>
     PyStr.startswith "." (snd entry) = false
     /\ exists rel, fst entry = (directory ++ rel ++ [snd entry])%list).

Lemma scanning_progress (b : bool) (progress total : Z) (w : Organizer.world) :
  exists evs,
    (if b then Organizer.progress_bar progress total "Scanning files"
     else Organizer.ret tt) w = (Some tt, Organizer.log w evs)
    /\ Forall scanning evs.
Proof.
  destruct b.
  - rewrite org_progress_run. eexists. split; [reflexivity |].
    destruct (total =? 0); repeat constructor.
  - exists []. rewrite org_log_nil. now split.
Qed.

Lemma count_files_run (directory : path) (w : Organizer.world) :
  exists total_files evs,
    Organizer.count_files directory w = (Some total_files, Organizer.log w evs)
    /\ Forall scanning evs.
Proof.
  unfold Organizer.count_files. unfold Organizer.bind at 1. rewrite org_walk_run.
  match goal with
  | |- context [Organizer.for_each ?xs ?body ?s0 ?w0] =>
      destruct (fun H => org_for_each_reads scanning (fun _ : Z => True) body xs H s0 w0)
        as [total [evs [E [F _]]]]; [| exact I |]
  end.
  - intros s [[root dirs] files] w0 _ _. unfold Organizer.bind, Organizer.visible_files.
    match goal with
    | |- context [Organizer.filter_m ?f ?xs ?w1] =>
        destruct (fun H => org_filter_m_reads scanning (fun _ => True) f xs H w1)
          as [ys [evs [E [F _]]]]
    end.
    + intros f w1 _. destruct (negb _).
      * rewrite org_isfile_run. do 2 eexists.
        split; [reflexivity | split; [repeat constructor | auto]].
      * exists false, []. rewrite org_log_nil. now repeat split.
    + rewrite E. exists (s + Py.len ys), evs. now repeat split.
  - rewrite E, org_log_log. do 2 eexists. split; [reflexivity |].
    constructor; [exact I | exact F].
Qed.

Lemma collect_files_run (directory : path) (show_progress : bool) (total_files : Z)
    (w : Organizer.world) :
  exists file_list evs,
    Organizer.collect_files directory show_progress total_files w
    = (Some file_list, Organizer.log w evs)
    /\ Forall scanning evs /\ Forall (found_below directory) file_list.
Proof.
  unfold Organizer.collect_files. unfold Organizer.bind at 1. rewrite org_walk_run.
  set (triples := match lookup (Organizer.w_root w) directory with
                  | Some n => walk_from directory n
                  | None => []
                  end).
  assert (Hbelow : forall r dirs files, In (r, dirs, files) triples ->
            exists rel, r = (directory ++ rel)%list).
  { intros r dirs files H. subst triples.
    destruct (lookup (Organizer.w_root w) directory) as [n|]; [| destruct H].
    exact (walk_from_below n directory r dirs files H). }
  unfold Organizer.bind at 1.
  match goal with
  | |- context [Organizer.for_each triples ?body ?s0 ?w0] =>
      destruct (fun H => org_for_each_reads scanning
                  (fun st : list (path * string) * Z =>
                     Forall (found_below directory) (fst st)) body triples H s0 w0)
        as [[file_list n] [evs [E [F Hfl]]]]; [| constructor |]
  end.
  - intros st [[root dirs] files] w0 Hin Hst.
    destruct (Hbelow root dirs files Hin) as [rel ->].
    apply org_for_each_reads; [| exact Hst].
    intros [fl k] file w1 _ Hl. unfold Organizer.collect_file.
    destruct (PyStr.startswith "." file) eqn:Ehid.
    { exists (fl, k), []. rewrite org_log_nil. now repeat split. }
    unfold Organizer.bind at 1. rewrite org_isfile_run.
    destruct (DoubleTerminator.is_file _ _).
    + unfold Organizer.bind.
      destruct (scanning_progress (show_progress && ((k + 1) mod 10 =? 0))%bool (k + 1)
                  total_files
                  (Organizer.log w1 [Organizer.Isfile (join (directory ++ rel)%list file)]))
        as [evs [E F]].
      rewrite E, org_log_log. do 2 eexists.
      split; [reflexivity | split; [constructor; [exact I | exact F] |]].
      simpl. apply Forall_app. split; [exact Hl |]. constructor; [| constructor].
      split; [exact Ehid |]. exists rel. unfold join. simpl. now rewrite <- app_assoc.
    + do 2 eexists. split; [reflexivity | split; [repeat constructor | exact Hl]].
  - rewrite E, org_log_log. exists file_list. eexists.
    split; [reflexivity | split; [constructor; [exact I | exact F] | exact Hfl]].
Qed.

Lemma listed_files_run (directory : path) (w : Organizer.world) (mtime size : Z)
    (entries : list (string * node)) :
  lookup (Organizer.w_root w) directory = Some (Dir mtime size entries) ->
  exists files evs,
    Organizer.listed_files directory w = (Some files, Organizer.log w evs)
    /\ Forall scanning evs
    /\ Forall (fun f => PyStr.startswith "." f = false) files.
Proof.
  intros Hdir. unfold Organizer.listed_files. unfold Organizer.bind at 1.
  rewrite org_listdir_run, Hdir.
  match goal with
  | |- context [Organizer.filter_m ?test ?xs ?w0] =>
      destruct (fun H => org_filter_m_reads scanning
                           (fun name => PyStr.startswith "." name = false) test xs H w0)
        as [files [evs [E [F Hf]]]]
  end.
  - intros f w0 _. unfold Organizer.bind. rewrite org_isfile_run.
    do 2 eexists. split; [reflexivity | split; [repeat constructor |]].
    intros H. apply andb_prop in H. destruct H as [_ H]. now apply negb_true_iff in H.
  - rewrite E, org_log_log. do 2 eexists.
    split; [reflexivity | split; [constructor; [exact I | exact F] | exact Hf]].
Qed.

Lemma collect_listed_run (directory : path) (show_progress : bool) (total_files : Z)
    (files : list string) (w : Organizer.world) :
  Forall (fun f => PyStr.startswith "." f = false) files ->
  exists file_list evs,
    Organizer.collect_listed directory show_progress total_files files w
    = (Some file_list, Organizer.log w evs)
    /\ Forall scanning evs /\ Forall (found_below directory) file_list.
Proof.
  intros Hf. unfold Organizer.collect_listed.
  assert (Hen : forall start i f, In (i, f) (DoubleTerminator.enumerate files start) ->
            In f files).
  { clear. induction files as [|x l IH]; intros start i f; simpl; [tauto |].
    intros [[= _ <-] | H]; [now left | right; exact (IH _ _ _ H)]. }
  apply org_for_each_reads; [| constructor].
  intros fl [i file] w0 Hin Hl. unfold Organizer.bind.
  destruct (scanning_progress (show_progress && (i mod 10 =? 0))%bool (i + 1) total_files w0)
    as [evs [E F]].
  rewrite E. do 2 eexists. split; [reflexivity | split; [exact F |]].
  apply Forall_app. split; [exact Hl |]. constructor; [| constructor].
  split.
  - rewrite Forall_forall in Hf. apply Hf. exact (Hen _ _ _ Hin).
  - exists []. reflexivity.
Qed.

(** The scan for files returns; the tree is as it was; the files it found
    are not hidden and lie below the directory. *)
Lemma scan_for_files_run (directory : path) (include_subfolders show_progress : bool)
    (w : Organizer.world) (mtime size : Z) (entries : list (string * node)) :
  lookup (Organizer.w_root w) directory = Some (Dir mtime size entries) ->
  exists total_files found evs,
    Organizer.scan_for_files directory include_subfolders show_progress w
    = (Some (total_files, found), Organizer.log w evs)
    /\ Forall scanning evs
    /\ forall file_list, found = Some file_list ->
         Forall (found_below directory) file_list.
Proof.
  intros Hdir. unfold Organizer.scan_for_files. destruct include_subfolders.
  - unfold Organizer.bind at 1.
    destruct (count_files_run directory w) as [total [e1 [E1 F1]]]. rewrite E1.
    destruct (total =? 0).
    { exists total, None, e1. split; [reflexivity | split; [exact F1 | discriminate]]. }
    unfold Organizer.bind.
    destruct (collect_files_run directory show_progress total (Organizer.log w e1))
      as [fl [e2 [E2 [F2 Hfl]]]].
    rewrite E2, org_log_log. exists total, (Some fl), (e1 ++ e2)%list.
    split; [reflexivity | split; [now apply Forall_app | now intros ? [= <-]]].
  - unfold Organizer.bind at 1.
    destruct (listed_files_run directory w mtime size entries Hdir) as [files [e1 [E1 [F1 Hf]]]].
    rewrite E1. destruct (Py.len files =? 0).
    { exists (Py.len files), None, e1.
      split; [reflexivity | split; [exact F1 | discriminate]]. }
    unfold Organizer.bind.
    destruct (collect_listed_run directory show_progress (Py.len files) files
                (Organizer.log w e1) Hf) as [fl [e2 [E2 [F2 Hfl]]]].
    rewrite E2, org_log_log. exists (Py.len files), (Some fl), (e1 ++ e2)%list.
    split; [reflexivity | split; [now apply Forall_app | now intros ? [= <-]]].
Qed.
Lemma error_lines_app (a b : list Organizer.event) :
  Organizer.error_lines (a ++ b) = Organizer.error_lines a + Organizer.error_lines b.
Proof.
  unfold Organizer.error_lines, Py.len. rewrite filter_app, length_app. lia.
Qed.

Lemma target_dir_of_valid (directory : path) (mode : Z) (category date_folder : string) :
  Organizer.target_dir_of directory mode category date_folder <> None
  <-> (mode = 1 \/ mode = 2 \/ mode = 3).
Proof.
  unfold Organizer.target_dir_of.
  destruct (Z.eqb_spec mode 1); [split; [tauto | discriminate] |].
  destruct (Z.eqb_spec mode 2); [split; [tauto | discriminate] |].
  destruct (Z.eqb_spec mode 3); [split; [tauto | discriminate] |].
  split; [congruence | tauto].
Qed.

Section OrganizeEach.
Variable datetime : Type.
Variable datetime_fromtimestamp : Z -> option datetime.
Variable format_date : Z -> datetime -> string.
Variable shutil_move : node -> path -> path -> bool * node.
Variable directory : path.
Variable mode date_format : Z.
Variable show_progress : bool.
Variable files : Z.

(** What the loop is shown to keep between the tree it finds and the tree
    it leaves: kept by [os.makedirs] of a target, and by a move onto a name
    that is not there. *)
Variable R : node -> node -> Prop.
Hypothesis R_refl : forall r, R r r.
Hypothesis R_trans : forall r1 r2 r3, R r1 r2 -> R r2 r3 -> R r1 r3.
Hypothesis R_makedirs : forall r r' filename date_folder target_dir,
  Organizer.target_dir_of directory mode (Organizer.category_of filename) date_folder
  = Some target_dir ->
  Main.makedirs r target_dir = Some r' -> R r r'.
Hypothesis R_move : forall r filename rel date_folder target_dir,
  Organizer.target_dir_of directory mode (Organizer.category_of filename) date_folder
  = Some target_dir ->
  Organizer.exists_in r (join target_dir filename) = false ->
  R r (snd (shutil_move r (directory ++ rel ++ [filename])%list (join target_dir filename))).

#[local] Abbreviation organize_file :=
  (Organizer.organize_file datetime datetime_fromtimestamp format_date shutil_move directory
     mode date_format show_progress files).
#[local] Abbreviation organize_each :=
  (Organizer.organize_each datetime datetime_fromtimestamp format_date shutil_move directory
     mode date_format show_progress files).
#[local] Abbreviation valid := (mode = 1 \/ mode = 2 \/ mode = 3).

(** One turn of the loop, with its [try] and [except]. *)
Lemma organize_turn (moved errors skipped i : Z) (file_path : path) (filename : string)
    (rel : list string) (w : Organizer.world) :
  PyStr.startswith "." filename = false ->
  file_path = (directory ++ rel ++ [filename])%list ->
  let run :=
    Organizer.try_except
      (organize_file moved errors skipped i file_path filename)
      (Organizer.bind (Organizer.print (Organizer.LnErrorMoving filename))
         (fun _ => Organizer.ret (Organizer.Next moved (errors + 1) skipped))) w in
  exists next work,
    fst run = Some next
    /\ Organizer.w_trace (snd run) = (Organizer.w_trace w ++ work)%list
    /\ Forall (Organizer.organizing directory mode) work
    /\ R (Organizer.w_root w) (Organizer.w_root (snd run))
    /\ (valid -> next <> Organizer.ReturnFalse)
    /\ forall moved' errors' skipped',
         next = Organizer.Next moved' errors' skipped' ->
         moved' + errors' + skipped' = moved + errors + skipped + 1
         /\ moved <= moved' /\ skipped <= skipped'
         /\ errors' = errors + Organizer.error_lines work.
Proof.
  intros Hvis Hpath run. subst run. unfold Organizer.try_except.
  rewrite organize_file_run. cbv zeta.
  set (root := Organizer.w_root w).
  assert (Hcount : forall m e s : Z, Organizer.Next moved (errors + 1) skipped
                                      = Organizer.Next m e s ->
            m + e + s = moved + errors + skipped + 1 /\ moved <= m /\ skipped <= s).
  { intros m e s [= <- <- <-]. lia. }
  destruct (stat_mtime root file_path) as [mod_time|].
  2:{ unfold Organizer.bind. rewrite org_print_run, org_log_log. cbn [fst snd].
      do 2 eexists. split; [reflexivity | split; [reflexivity |]].
      split; [repeat constructor | split; [apply R_refl | split; [discriminate |]]].
      intros m e s H. destruct (Hcount m e s H) as [H1 [H2 H3]].
      injection H as <- <- <-. repeat split; auto. }
  destruct (datetime_fromtimestamp mod_time) as [mod_date|].
  2:{ unfold Organizer.bind. rewrite org_print_run, org_log_log. cbn [fst snd].
      do 2 eexists. split; [reflexivity | split; [reflexivity |]].
      split; [repeat constructor | split; [apply R_refl | split; [discriminate |]]].
      intros m e s H. destruct (Hcount m e s H) as [H1 [H2 H3]].
      injection H as <- <- <-. repeat split; auto. }
  set (date_folder := Organizer.date_folder_of datetime format_date mode date_format mod_date).
  destruct (Organizer.target_dir_of directory mode (Organizer.category_of filename)
              date_folder) as [target_dir|] eqn:Et.
  2:{ cbn [fst snd]. do 2 eexists. split; [reflexivity | split; [reflexivity |]].
      split; [repeat constructor | split; [apply R_refl | split; [| discriminate]]].
      intros Hv.
      apply (target_dir_of_valid directory mode (Organizer.category_of filename) date_folder)
        in Hv.
      congruence. }
  assert (Hmk : Organizer.organizing directory mode (Organizer.Makedirs target_dir)).
  { simpl. now exists filename, date_folder. }
  destruct (Main.makedirs root target_dir) as [root1|] eqn:Em.
  2:{ unfold Organizer.bind. rewrite org_print_run, org_log_log. cbn [fst snd].
      do 2 eexists. split; [reflexivity | split; [reflexivity |]].
      split; [repeat constructor; exact Hmk |
              split; [apply R_refl | split; [discriminate |]]].
      intros m e s H. destruct (Hcount m e s H) as [H1 [H2 H3]].
      injection H as <- <- <-. repeat split; auto. }
  assert (R1 : R root root1) by exact (R_makedirs _ _ _ _ _ Et Em).
  destruct (Organizer.exists_in root1 (join target_dir filename)) eqn:Ex.
  { cbn [fst snd Organizer.w_root Organizer.w_trace].
    do 2 eexists. split; [reflexivity | split; [reflexivity |]].
    split; [repeat constructor; exact Hmk | split; [exact R1 | split; [discriminate |]]].
    intros m e s [= <- <- <-]. unfold Organizer.error_lines, Py.len. simpl. lia. }
  assert (Hmv : Organizer.organizing directory mode
                  (Organizer.Move file_path (join target_dir filename))).
  { simpl. exists filename, rel, date_folder, target_dir. auto. }
  assert (R2 : R root (snd (shutil_move root1 file_path (join target_dir filename)))).
  { apply (R_trans _ _ _ R1). rewrite Hpath. exact (R_move _ _ _ _ _ Et Ex). }
  destruct (fst (shutil_move root1 file_path (join target_dir filename))).
  - cbn [fst snd Organizer.w_root Organizer.w_trace].
    do 2 eexists. split; [reflexivity | split; [reflexivity |]].
    split; [| split; [exact R2 | split; [discriminate |]]].
    + repeat (constructor; [first [exact I | exact Hmk | exact Hmv] |]).
      destruct (show_progress && _)%bool; [| constructor].
      destruct (files =? 0); repeat constructor.
    + intros m e s [= <- <- <-].
      assert (He : forall tail,
                Forall (fun e => match e with
                                 | Organizer.Print (Organizer.LnErrorMoving _) => False
                                 | _ => True
                                 end) tail -> Organizer.error_lines tail = 0).
      { clear. induction 1 as [|e tail He _ IH]; [reflexivity |].
        unfold Organizer.error_lines in *. simpl.
        destruct e as [[]| | | | | | | | |]; try exact IH. destruct He. }
      rewrite He; [lia |].
      repeat (constructor; [exact I |]).
      destruct (show_progress && _)%bool; [| constructor].
      destruct (files =? 0); repeat constructor.
  - unfold Organizer.bind. rewrite org_print_run.
    cbn [fst snd Organizer.w_root Organizer.w_trace Organizer.log Organizer.ret].
    rewrite <- app_assoc.
    do 2 eexists. split; [reflexivity | split; [reflexivity |]].
    split; [| split; [exact R2 | split; [discriminate |]]].
    + repeat (constructor; [first [exact I | exact Hmk | exact Hmv] |]). constructor.
    + intros m e s H. destruct (Hcount m e s H) as [H1 [H2 H3]].
      injection H as <- <- <-. repeat split; auto.
Qed.

(** The loop over the files found. *)
Lemma organize_each_run (entries : list (Z * (path * string))) :
  Forall (fun entry =>
            PyStr.startswith "." (snd (snd entry)) = false
            /\ exists rel, fst (snd entry) = (directory ++ rel ++ [snd (snd entry)])%list)
         entries ->
  forall (moved errors skipped : Z) (w : Organizer.world),
  let run := organize_each entries moved errors skipped w in
  exists next work,
    fst run = Some next
    /\ Organizer.w_trace (snd run) = (Organizer.w_trace w ++ work)%list
    /\ Forall (Organizer.organizing directory mode) work
    /\ R (Organizer.w_root w) (Organizer.w_root (snd run))
    /\ (valid -> next <> Organizer.ReturnFalse)
    /\ forall moved' errors' skipped',
         next = Organizer.Next moved' errors' skipped' ->
         moved' + errors' + skipped' = moved + errors + skipped + Py.len entries
         /\ moved <= moved' /\ skipped <= skipped'
         /\ errors' = errors + Organizer.error_lines work.
Proof.
  induction 1 as [|[i [file_path filename]] entries [Hvis [rel Hpath]] _ IH];
    intros moved errors skipped w; cbn [Organizer.organize_each].
  - exists (Organizer.Next moved errors skipped), []. cbn [fst snd Organizer.ret].
    rewrite app_nil_r.
    split; [reflexivity | split; [reflexivity | split; [constructor |]]].
    split; [apply R_refl | split; [discriminate |]].
    intros m e s [= <- <- <-]. unfold Organizer.error_lines, Py.len. simpl. lia.
  - simpl in Hvis, Hpath. unfold Organizer.bind.
    destruct (organize_turn moved errors skipped i file_path filename rel w Hvis Hpath)
      as [next1 [work1 [E1 [T1 [F1 [R1 [V1 C1]]]]]]].
    destruct (Organizer.try_except _ _ w) as [r1 w1]. cbn [fst snd] in E1, T1, R1.
    subst r1. destruct next1 as [m1 e1 s1 |].
    + destruct (IH m1 e1 s1 w1) as [next2 [work2 [E2 [T2 [F2 [R2 [V2 C2]]]]]]].
      exists next2, (work1 ++ work2)%list.
      split; [exact E2 | split; [now rewrite T2, T1, app_assoc |]].
      split; [now apply Forall_app | split; [exact (R_trans _ _ _ R1 R2) |]].
      split; [exact V2 |].
      intros m e s H. destruct (C1 m1 e1 s1 eq_refl) as [A1 [A2 [A3 A4]]].
      destruct (C2 m e s H) as [B1 [B2 [B3 B4]]].
      rewrite error_lines_app. unfold Py.len in *. cbn [List.length].
      rewrite Nat2Z.inj_succ. lia.
    + exists Organizer.ReturnFalse, work1. cbn [fst snd Organizer.ret].
      split; [reflexivity | split; [exact T1 | split; [exact F1 |]]].
      split; [exact R1 | split; [exact V1 | discriminate]].
Qed.

End OrganizeEach.
(** The lines after the loop. *)
#[local] Abbreviation summary :=
  (fun (show_progress : bool) (files moved errors skipped : Z) =>
     ((if show_progress
       then (if files =? 0 then []
             else [Organizer.Progress "Organizing files" files files])
            ++ [Organizer.Print Organizer.LnNewline]
       else [])
      ++ [Organizer.Print (Organizer.LnOrganized moved)]
      ++ (if 0 <? skipped then [Organizer.Print (Organizer.LnSkipped skipped)] else [])
      ++ (if 0 <? errors then [Organizer.Print (Organizer.LnErrors errors)] else []))%list).

(** The events that make or move nothing. *)
#[local] Abbreviation quiet :=
  (fun e : Organizer.event =>
     match e with
     | Organizer.Move _ _ | Organizer.Makedirs _ => False
     | _ => True
     end).

Lemma report_run (show_progress : bool) (files moved errors skipped : Z)
    (w : Organizer.world) :
  Organizer.report show_progress files moved errors skipped w
  = (Some tt, Organizer.log w (summary show_progress files moved errors skipped)).
Proof.
  unfold Organizer.report, Organizer.bind.
  destruct show_progress, (0 <? skipped), (0 <? errors);
    repeat first [ rewrite org_progress_run | rewrite org_print_run | rewrite org_log_log
                 | progress cbn [Organizer.ret] ];
    rewrite <- ?app_assoc; cbn [app]; rewrite ?app_nil_r; try reflexivity;
    rewrite <- (org_log_nil w) at 1; rewrite ?org_log_log; reflexivity.
Qed.

Lemma enumerate_entries {X : Type} (Q : X -> Prop) (l : list X) : forall start,
  Forall Q l -> Forall (fun entry => Q (snd entry)) (DoubleTerminator.enumerate l start).
Proof.
  induction l as [|x l IH]; intros start H; simpl; [constructor |].
  inversion H; subst. constructor; [assumption | now apply IH].
Qed.

Lemma enumerate_length {X : Type} (l : list X) : forall start,
  List.length (DoubleTerminator.enumerate l start) = List.length l.
Proof. induction l as [|x l IH]; intros start; simpl; [reflexivity | now rewrite IH]. Qed.

Section OrganizeFiles.
Variable os_path_abspath : string -> string.
Variable locate : string -> path.
Variable datetime : Type.
Variable datetime_fromtimestamp : Z -> option datetime.
Variable format_date : Z -> datetime -> string.
Variable shutil_move : node -> path -> path -> bool * node.
Variable directory : string.
Variable mode date_format : Z.
Variable include_subfolders show_progress : bool.

Variable R : node -> node -> Prop.
Hypothesis R_refl : forall r, R r r.
Hypothesis R_trans : forall r1 r2 r3, R r1 r2 -> R r2 r3 -> R r1 r3.
Hypothesis R_makedirs : forall r r' filename date_folder target_dir,
  Organizer.target_dir_of (locate directory) mode (Organizer.category_of filename) date_folder
  = Some target_dir ->
  Main.makedirs r target_dir = Some r' -> R r r'.
Hypothesis R_move : forall r filename rel date_folder target_dir,
  Organizer.target_dir_of (locate directory) mode (Organizer.category_of filename) date_folder
  = Some target_dir ->
  Organizer.exists_in r (join target_dir filename) = false ->
  R r (snd (shutil_move r (locate directory ++ rel ++ [filename])%list
              (join target_dir filename))).

#[local] Abbreviation organize_files :=
  (Organizer.organize_files os_path_abspath locate datetime datetime_fromtimestamp
     format_date shutil_move directory mode date_format include_subfolders show_progress).

(** [organize_files] returns: it leaves before its loop, with [False] and
    the tree as it was, or it announces the files it found and runs its
    loop over them. *)
Lemma organize_files_run (w : Organizer.world) :
  let run := organize_files w in
  exists b evs,
    fst run = Some b
    /\ Organizer.w_trace (snd run) = (Organizer.w_trace w ++ evs)%list
    /\ R (Organizer.w_root w) (Organizer.w_root (snd run))
    /\ ((b = false /\ Organizer.w_root (snd run) = Organizer.w_root w /\ Forall quiet evs)
        \/ (SortToFolders.is_protected_directory os_path_abspath directory = false
            /\ exists before files next work after,
                 evs = (before ++ Organizer.Print (Organizer.LnFound files) :: work
                        ++ after)%list
                 /\ Forall quiet before
                 /\ Forall (Organizer.organizing (locate directory) mode) work
                 /\ (mode = 1 \/ mode = 2 \/ mode = 3 -> next <> Organizer.ReturnFalse)
                 /\ (next = Organizer.ReturnFalse -> b = false /\ after = [])
                 /\ forall moved errors skipped,
                      next = Organizer.Next moved errors skipped ->
                      b = true
                      /\ after = summary show_progress files moved errors skipped
                      /\ moved + errors + skipped = files
                      /\ 0 <= moved /\ 0 <= skipped
                      /\ errors = Organizer.error_lines work)).
Proof.
  intros run. subst run.
  destruct (organize_files w) as [r w'] eqn:Erun. cbn [fst snd].
  unfold Organizer.organize_files, Organizer.is_protected_directory in Erun.
  set (place := locate directory) in *.
  assert (Hearly : forall (l : Organizer.line) evs0,
            Forall quiet evs0 ->
            Organizer.bind (Organizer.print l) (fun _ => Organizer.ret false)
              (Organizer.log w evs0) = (r, w') ->
            exists b evs,
              r = Some b
              /\ Organizer.w_trace w' = (Organizer.w_trace w ++ evs)%list
              /\ R (Organizer.w_root w) (Organizer.w_root w')
              /\ ((b = false /\ Organizer.w_root w' = Organizer.w_root w /\ Forall quiet evs)
                  \/ (SortToFolders.is_protected_directory os_path_abspath directory = false
                      /\ exists before files next work after,
                           evs = (before ++ Organizer.Print (Organizer.LnFound files)
                                  :: work ++ after)%list
                           /\ Forall quiet before
                           /\ Forall (Organizer.organizing place mode) work
                           /\ (mode = 1 \/ mode = 2 \/ mode = 3 ->
                               next <> Organizer.ReturnFalse)
                           /\ (next = Organizer.ReturnFalse -> b = false /\ after = [])
                           /\ forall moved errors skipped,
                                next = Organizer.Next moved errors skipped ->
                                b = true
                                /\ after = summary show_progress files moved errors skipped
                                /\ moved + errors + skipped = files
                                /\ 0 <= moved /\ 0 <= skipped
                                /\ errors = Organizer.error_lines work))).
  { intros l evs0 F0 E. unfold Organizer.bind in E. rewrite org_print_run, org_log_log in E.
    cbn [Organizer.ret] in E. injection E as <- <-.
    exists false, (evs0 ++ [Organizer.Print l])%list.
    split; [reflexivity | split; [reflexivity | split; [apply R_refl |]]].
    left. split; [reflexivity | split; [reflexivity |]].
    apply Forall_app. split; [exact F0 | repeat constructor]. }
  destruct (SortToFolders.is_protected_directory os_path_abspath directory) eqn:Hsafe.
  { rewrite <- (org_log_nil w) in Erun at 1. exact (Hearly _ [] (Forall_nil _) Erun). }
  unfold Organizer.bind at 1 in Erun. rewrite org_exists_run in Erun.
  destruct (Organizer.exists_in (Organizer.w_root w) place) eqn:Hex; cbn [negb] in Erun.
  2:{ refine (Hearly _ _ _ Erun). repeat constructor. }
  unfold Organizer.bind at 1 in Erun. rewrite org_isdir_run, org_log_root, org_log_log in Erun.
  destruct (lookup (Organizer.w_root w) place) as [[f | mtime size entries |]|] eqn:Hdir;
    cbn [is_dir negb] in Erun;
    try (refine (Hearly _ _ _ Erun); repeat constructor).
  unfold Organizer.bind at 1 in Erun. rewrite org_print_run, org_log_log in Erun.
  unfold Organizer.bind at 1 in Erun.
  match type of Erun with
  | context [Organizer.scan_for_files _ _ _ ?w0] =>
      destruct (scan_for_files_run place include_subfolders show_progress w0 mtime size
                  entries Hdir) as [total [found [scan [Es [Fs Hfound]]]]]
  end.
  rewrite Es, org_log_log in Erun.
  assert (Fq : Forall quiet scan).
  { eapply Forall_impl; [| exact Fs]. intros [] He; try exact I; destruct He. }
  destruct found as [file_list|].
  2:{ refine (Hearly _ _ _ Erun).
      repeat (apply Forall_app; split); try exact Fq; repeat constructor. }
  specialize (Hfound file_list eq_refl).
  unfold Organizer.bind at 1 in Erun.
  match type of Erun with
  | context [Organizer.log w ?evs0] =>
      destruct (org_tell_run show_progress
                  (Organizer.bind (Organizer.progress_bar total total "Scanning files")
                     (fun _ => Organizer.print Organizer.LnNewline))
                  (Organizer.log w evs0)) as [tell Et]
  end.
  { intros w0. unfold Organizer.bind. rewrite org_progress_run, org_print_run, org_log_log.
    eexists. reflexivity. }
  assert (Ftell : Forall quiet tell).
  { destruct show_progress.
    - unfold Organizer.bind in Et. rewrite org_progress_run, org_print_run, org_log_log in Et.
      injection Et as Et. apply app_inv_head in Et. subst tell.
      destruct (total =? 0); repeat constructor.
    - cbn [Organizer.ret] in Et. injection Et as Et.
      rewrite <- (app_nil_r (Organizer.w_trace w ++ _)) in Et at 1.
      apply app_inv_head in Et. subst tell. constructor. }
  rewrite Et, org_log_log in Erun. clear Et.
  unfold Organizer.bind at 1 in Erun. rewrite org_print_run, org_log_log in Erun.
  unfold Organizer.bind at 1 in Erun.
  match type of Erun with
  | context [Organizer.organize_each _ _ _ _ _ _ _ _ _ ?entries 0 0 0 ?w0] =>
      destruct (organize_each_run datetime datetime_fromtimestamp format_date shutil_move
                  place mode date_format show_progress (Py.len file_list) R R_refl R_trans
                  R_makedirs R_move entries (enumerate_entries _ file_list 0 Hfound)
                  0 0 0 w0)
        as [next [work [E [T [F [HR [V C]]]]]]];
      destruct (Organizer.organize_each datetime datetime_fromtimestamp format_date
                  shutil_move place mode date_format show_progress (Py.len file_list)
                  entries 0 0 0 w0) as [r1 w1]
  end.
  cbn [fst snd] in E, T, HR. subst r1. rewrite org_log_root in HR.
  cbn [Organizer.log Organizer.w_trace] in T.
  match type of T with
  | _ = ((_ ++ ?pre ++ [Organizer.Print (Organizer.LnFound _)]) ++ _)%list =>
      set (before := pre) in *
  end.
  assert (Fb : Forall quiet before).
  { subst before. repeat (apply Forall_app; split); try exact Fq; try exact Ftell;
      repeat constructor. }
  clearbody before.
  destruct next as [moved errors skipped |].
  - unfold Organizer.bind in Erun. rewrite report_run in Erun. cbn [Organizer.ret] in Erun.
    injection Erun as <- <-. cbn [Organizer.log Organizer.w_trace Organizer.w_root].
    exists true. eexists.
    split; [reflexivity | split; [| split; [exact HR |]]].
    2:{ right. split; [reflexivity |].
        exists before, (Py.len file_list), (Organizer.Next moved errors skipped), work,
          (summary show_progress (Py.len file_list) moved errors skipped).
        split; [reflexivity | split; [exact Fb | split; [exact F | split; [exact V |]]]].
        split; [discriminate |].
        intros m e s [= <- <- <-]. destruct (C moved errors skipped eq_refl) as [C1 [C2 [C3 C4]]].
        unfold Py.len in C1. rewrite enumerate_length in C1. fold (Py.len file_list) in C1.
        repeat split; auto; lia. }
    rewrite T. rewrite <- !app_assoc. reflexivity.
  - cbn [Organizer.ret] in Erun. injection Erun as <- <-.
    exists false. eexists.
    split; [reflexivity | split; [| split; [exact HR |]]].
    2:{ right. split; [reflexivity |].
        exists before, (Py.len file_list), Organizer.ReturnFalse, work, [].
        split; [reflexivity | split; [exact Fb | split; [exact F | split; [exact V |]]]].
        split; [auto | discriminate]. }
    rewrite T. rewrite <- !app_assoc. now rewrite app_nil_r.
Qed.

End OrganizeFiles.
(** ** Trees under [os.makedirs] and a move *)

Lemma find_entry_app_some (name : string) (c : node) (es more : list (string * node)) :
  find_entry name es = Some c -> find_entry name (es ++ more) = Some c.
Proof.
  induction es as [|[n c0] es IH]; simpl; [discriminate |].
  destruct (String.eqb n name); [auto | exact IH].
Qed.

Lemma find_entry_app_other (name n0 : string) (c : node) (es : list (string * node)) :
  n0 <> name -> find_entry n0 (es ++ [(name, c)]) = find_entry n0 es.
Proof.
  intros Hne. induction es as [|[n c0] es IH]; simpl.
  - destruct (String.eqb name n0) eqn:E; [| reflexivity].
    apply String.eqb_eq in E. congruence.
  - destruct (String.eqb n n0); [reflexivity | exact IH].
Qed.

Lemma stat_cons (mtime size : Z) (es : list (string * node)) (name : string) (q : path) :
  stat (Dir mtime size es) (name :: q)
  = match find_entry name es with
    | Some c => stat c q
    | None => None
    end.
Proof. unfold stat. simpl. now destruct (find_entry name es). Qed.

(** [os.makedirs] leaves what [stat] sees of every path that is there. *)
Lemma makedirs_keeps (p : path) : forall (n n' : node),
  Main.makedirs n p = Some n' ->
  forall q, stat n q <> None -> stat n' q = stat n q.
Proof.
  induction p as [|name rest IH]; intros n n' E q Hq.
  - destruct n; simpl in E; try discriminate. now injection E as <-.
  - destruct n as [f | mtime size es |]; try discriminate.
    cbn [Main.makedirs] in E.
    destruct q as [|n0 qrest].
    { destruct (find_entry name es) as [c|];
        [destruct (Main.makedirs c rest); [| discriminate] |]; now injection E as <-. }
    rewrite stat_cons in Hq. rewrite (stat_cons mtime size es).
    destruct (find_entry n0 es) as [c0|] eqn:E0; [| congruence].
    destruct (find_entry name es) as [c|] eqn:Ec.
    + destruct (Main.makedirs c rest) as [c'|] eqn:Em; [| discriminate].
      injection E as <-. rewrite stat_cons.
      destruct (String.eqb n0 name) eqn:En.
      * apply String.eqb_eq in En. subst n0.
        rewrite (find_entry_set_same name c c' es Ec).
        assert (c0 = c) by congruence. subst c0. exact (IH c c' Em qrest Hq).
      * rewrite find_entry_set_other, E0; [reflexivity |].
        intros ->. now rewrite String.eqb_refl in En.
    + injection E as <-. rewrite stat_cons.
      now rewrite (find_entry_app_some n0 c0 es _ E0).
Qed.

(** A name put where nothing is: [stat] sees it there, and every other
    path as it was. *)
Lemma stat_put (dst : path) : forall (r r' c : node),
  Organizer.put r dst c = Some r' -> is_dir c = false ->
  Organizer.exists_in r dst = false ->
  forall q, stat r' q = if path_eqb q dst then Some (inode_of c) else stat r q.
Proof.
  induction dst as [|name rest IH]; intros r r' c E Hc Hex q; [discriminate |].
  destruct r as [f | mtime size es |]; try discriminate.
  cbn [Organizer.put] in E.
  destruct rest as [|x rest'].
  - injection E as <-.
    destruct q as [|n0 qrest]; [reflexivity |].
    rewrite stat_cons, (stat_cons mtime size es). cbn [path_eqb].
    rewrite (String.eqb_sym n0 name).
    destruct (String.eqb name n0) eqn:En.
    + apply String.eqb_eq in En. subst n0.
      assert (Hnew : find_entry name
                       (match find_entry name es with
                        | Some _ => set_entry name c es
                        | None => (es ++ [(name, c)])%list
                        end) = Some c).
      { destruct (find_entry name es) as [old|] eqn:Eo;
          [exact (find_entry_set_same name old c es Eo) | exact (find_entry_new _ _ _ Eo)]. }
      rewrite Hnew. destruct qrest as [|y qrest]; [reflexivity |]. cbn [path_eqb andb].
      unfold Organizer.exists_in in Hex. rewrite stat_cons in Hex.
      destruct (find_entry name es) as [old|]; [| now destruct c].
      destruct old as [f | m' s' es' |]; try discriminate.
      now destruct c.
    + cbn [andb].
      assert (Hne : n0 <> name) by (intros ->; now rewrite String.eqb_refl in En).
      destruct (find_entry name es) as [old|].
      * now rewrite find_entry_set_other.
      * now rewrite find_entry_app_other.
  - destruct (find_entry name es) as [d|] eqn:Ed; [| discriminate].
    destruct (Organizer.put d (x :: rest') c) as [d'|] eqn:Ep; [| discriminate].
    injection E as <-.
    destruct q as [|n0 qrest]; [reflexivity |].
    rewrite stat_cons, (stat_cons mtime size es). cbn [path_eqb].
    rewrite (String.eqb_sym n0 name).
    destruct (String.eqb name n0) eqn:En.
    + apply String.eqb_eq in En. subst n0.
      rewrite (find_entry_set_same name d d' es Ed), Ed. cbn [andb].
      apply (IH d d' c Ep Hc).
      unfold Organizer.exists_in in *. rewrite stat_cons, Ed in Hex. exact Hex.
    + cbn [andb]. rewrite find_entry_set_other; [reflexivity |].
      intros ->. now rewrite String.eqb_refl in En.
Qed.

(** The renaming move is a move of files. *)
Lemma rename_moves_files : Organizer.moves_files Organizer.rename.
Proof.
  intros root src dst Hex. unfold Organizer.rename.
  destruct (lookup root src) as [[f | m s es |]|] eqn:El;
    try (cbn [fst snd]; split; [reflexivity | split; [discriminate | reflexivity]]).
  destruct (removable root src) eqn:Er;
    [| cbn [fst snd]; split; [reflexivity | split; [discriminate | reflexivity]]].
  destruct (Organizer.put (unlink root src) dst (File f)) as [root'|] eqn:Ep;
    [| cbn [fst snd]; split; [reflexivity | split; [discriminate | reflexivity]]].
  cbn [fst snd].
  assert (Hsrc : stat root src = Some (IFile f)) by (unfold stat; now rewrite El).
  assert (Hne : src <> dst).
  { intros ->. unfold Organizer.exists_in in Hex. now rewrite Hsrc in Hex. }
  assert (Hex' : Organizer.exists_in (unlink root src) dst = false).
  { unfold Organizer.exists_in. rewrite (stat_unlink_removable root src dst Er).
    now rewrite (path_eqb_neq dst src) by congruence. }
  pose proof (stat_put dst (unlink root src) root' (File f) Ep eq_refl Hex') as Hput.
  split; [| split; [| discriminate]].
  - intros q Hq1 Hq2. rewrite Hput, (path_eqb_neq q dst Hq2).
    rewrite (stat_unlink_removable root src q Er). now rewrite (path_eqb_neq q src Hq1).
  - intros _. split.
    + rewrite Hput. assert (E : path_eqb dst dst = true) by now apply path_eqb_spec.
      now rewrite E, Hsrc.
    + rewrite Hput, (path_eqb_neq src dst Hne).
      rewrite (stat_unlink_removable root src src Er).
      assert (E : path_eqb src src = true) by now apply path_eqb_spec.
      now rewrite E.
Qed.
(** ** What [organize_files] does *)

Lemma target_dir_below (directory : path) (mode : Z) (category date_folder : string)
    (target_dir : path) :
  Organizer.target_dir_of directory mode category date_folder = Some target_dir ->
  exists folders, target_dir = (directory ++ folders)%list.
Proof.
  assert (J : forall d name, exists l, Organizer.join_folder d name = (d ++ l)%list).
  { intros d [|c s]; [exists []; simpl; now rewrite app_nil_r | now exists [String c s]]. }
  unfold Organizer.target_dir_of.
  destruct (mode =? 1); [intros [= <-]; apply J |].
  destruct (mode =? 2); [intros [= <-]; apply J |].
  destruct (mode =? 3); [| discriminate]. intros [= <-].
  destruct (J directory category) as [l1 ->].
  destruct (J (directory ++ l1)%list date_folder) as [l2 ->].
  exists (l1 ++ l2)%list. now rewrite app_assoc.
Qed.

Section OrganizerTheorems.
Variable os_path_abspath : string -> string.
Variable locate : string -> path.
Variable datetime : Type.
Variable datetime_fromtimestamp : Z -> option datetime.
Variable format_date : Z -> datetime -> string.
Variable shutil_move : node -> path -> path -> bool * node.

#[local] Abbreviation organize_files :=
  (Organizer.organize_files os_path_abspath locate datetime datetime_fromtimestamp
     format_date shutil_move).

(** X22.  The summary accounts for every file.  When [organize_files]
    returns [True], it has announced the number of files it found, run its
    loop, and ended with the line of the files moved, the line of the
    files skipped when there are some, and the line of the errors when
    there are some; the three counts add up to the number announced, and
    the number of errors is the number of [Error moving] lines the loop
    printed.  Nothing is made or moved before the announcement. *)
Theorem organizer_summary_accounts_for_every_file (directory : string)
    (mode date_format : Z) (include_subfolders show_progress : bool)
    (w w' : Organizer.world) :
  organize_files directory mode date_format include_subfolders show_progress w
  = (Some true, w') ->
  exists before files work moved errors skipped,
    Organizer.w_trace w'
    = (Organizer.w_trace w ++ before
       ++ Organizer.Print (Organizer.LnFound files) :: work
       ++ (if show_progress
           then (if files =? 0 then []
                 else [Organizer.Progress "Organizing files" files files])
                ++ [Organizer.Print Organizer.LnNewline]
           else [])
       ++ [Organizer.Print (Organizer.LnOrganized moved)]
       ++ (if 0 <? skipped then [Organizer.Print (Organizer.LnSkipped skipped)] else [])
       ++ (if 0 <? errors then [Organizer.Print (Organizer.LnErrors errors)] else []))%list
    /\ moved + skipped + errors = files
    /\ 0 <= moved /\ 0 <= skipped
    /\ errors = Organizer.error_lines work
    /\ Forall (Organizer.organizing (locate directory) mode) work
    /\ Forall (fun e => forall src dst target_dir,
                 e <> Organizer.Move src dst /\ e <> Organizer.Makedirs target_dir) before.
Proof.
  intros E.
  destruct (organize_files_run os_path_abspath locate datetime datetime_fromtimestamp
              format_date shutil_move directory mode date_format include_subfolders
              show_progress (fun _ _ => True) (fun _ => I) (fun _ _ _ _ _ => I)
              (fun _ _ _ _ _ _ _ => I) (fun _ _ _ _ _ _ _ => I) w)
    as [b [evs [Eb [T [_ H]]]]].
  rewrite E in Eb, T. cbn [fst snd] in Eb, T. injection Eb as <-.
  destruct H as [[Hb _] | [_ [before [files [next [work [after H]]]]]]]; [discriminate |].
  destruct H as [-> [Fb [Fw [_ [Hfalse Hnext]]]]].
  destruct next as [moved errors skipped |]; [| now destruct (Hfalse eq_refl)].
  destruct (Hnext moved errors skipped eq_refl) as [_ [-> [Hsum [Hm [Hs He]]]]].
  exists before, files, work, moved, errors, skipped.
  split; [rewrite T; now rewrite <- ?app_assoc |].
  split; [lia | split; [exact Hm | split; [exact Hs | split; [exact He | split; [exact Fw |]]]]].
  eapply Forall_impl; [| exact Fb].
  intros e He' src dst td. split; intros ->; exact He'.
Qed.


(** X25.  Every move keeps the name inside the directory.  Each call of
    [shutil.move] that [organize_files] makes, whether the function returns
    or not, is made on a directory the guard does not protect; it takes a
    file whose name does not start with a dot, from the directory or a
    folder below it, to the folder of its category, of its date or of both
    directly under the directory, and the name of the file is kept. *)
Theorem organizer_moves_keep_names_inside_the_directory (directory : string)
    (mode date_format : Z) (include_subfolders show_progress : bool)
    (w : Organizer.world) :
  let run :=
    organize_files directory mode date_format include_subfolders show_progress w in
  exists evs,
    Organizer.w_trace (snd run) = (Organizer.w_trace w ++ evs)%list
    /\ forall src dst, In (Organizer.Move src dst) evs ->
         SortToFolders.is_protected_directory os_path_abspath directory = false
         /\ exists filename rel date_folder target_dir,
              PyStr.startswith "." filename = false
              /\ src = (locate directory ++ rel ++ [filename])%list
              /\ Organizer.target_dir_of (locate directory) mode
                   (Organizer.category_of filename) date_folder = Some target_dir
              /\ dst = join target_dir filename.
Proof.
  intros run. subst run.
  destruct (organize_files_run os_path_abspath locate datetime datetime_fromtimestamp
              format_date shutil_move directory mode date_format include_subfolders
              show_progress (fun _ _ => True) (fun _ => I) (fun _ _ _ _ _ => I)
              (fun _ _ _ _ _ _ _ => I) (fun _ _ _ _ _ _ _ => I) w)
    as [b [evs [Eb [T [_ H]]]]].
  exists evs. split; [exact T |]. intros src dst Hin.
  destruct H as [[_ [_ Fq]] | [Hsafe [before [files [next [work [after H]]]]]]].
  { rewrite Forall_forall in Fq. destruct (Fq _ Hin). }
  destruct H as [-> [Fb [Fw [_ [Hfalse Hnext]]]]].
  split; [exact Hsafe |].
  apply in_app_or in Hin. destruct Hin as [Hin | [Hin | Hin]]; [| discriminate |].
  { rewrite Forall_forall in Fb. destruct (Fb _ Hin). }
  apply in_app_or in Hin. destruct Hin as [Hin | Hin].
  { rewrite Forall_forall in Fw. exact (Fw _ Hin). }
  exfalso. destruct next as [moved errors skipped |].
  - destruct (Hnext moved errors skipped eq_refl) as [_ [-> _]].
    destruct show_progress, (files =? 0), (0 <? skipped), (0 <? errors); simpl in Hin;
      repeat (destruct Hin as [Hin | Hin]; [discriminate |]); exact Hin.
  - destruct (Hfalse eq_refl) as [_ ->]. exact Hin.
Qed.

(** X24.  No file is lost.  With a [shutil.move] that, onto a name that is
    not there, changes nothing else, puts the source at the destination
    when it succeeds and leaves the source when it raises, [organize_files]
    leaves everything outside the directory as [stat] saw it; and every
    regular file of the tree is somewhere in the tree it leaves, content,
    time and permissions as they were, no two of them at the same place: a
    destination is never a name that is taken. *)
Theorem organizer_loses_no_file (directory : string) (mode date_format : Z)
    (include_subfolders show_progress : bool) (w : Organizer.world) :
  Organizer.moves_files shutil_move ->
  let root := Organizer.w_root w in
  let root' :=
    Organizer.w_root
      (snd (organize_files directory mode date_format include_subfolders show_progress w)) in
  (forall q, (forall rel, q <> (locate directory ++ rel)%list) ->
             stat root q <> None -> stat root' q = stat root q)
  /\ exists now_at : path -> path,
       (forall q f, stat root q = Some (IFile f) -> stat root' (now_at q) = Some (IFile f))
       /\ forall q1 q2 f1 f2,
            stat root q1 = Some (IFile f1) -> stat root q2 = Some (IFile f2) ->
            now_at q1 = now_at q2 -> q1 = q2.
Proof.
  intros Hmove root root'. subst root root'.
  destruct (organize_files_run os_path_abspath locate datetime datetime_fromtimestamp
              format_date shutil_move directory mode date_format include_subfolders
              show_progress
              (fun r r' =>
                 (forall q, (forall rel, q <> (locate directory ++ rel)%list) ->
                            stat r q <> None -> stat r' q = stat r q)
                 /\ exists now_at : path -> path,
                      (forall q f, stat r q = Some (IFile f) ->
                                   stat r' (now_at q) = Some (IFile f))
                      /\ forall q1 q2 f1 f2,
                           stat r q1 = Some (IFile f1) -> stat r q2 = Some (IFile f2) ->
                           now_at q1 = now_at q2 -> q1 = q2)) with (w := w)
    as [b [evs [_ [_ [HR _]]]]]; [| | | | exact HR].
  - intros r. split; [reflexivity |]. exists (fun q => q). split; auto.
  - intros r1 r2 r3 [F12 [g1 [K1 I1]]] [F23 [g2 [K2 I2]]]. split.
    + intros q Hout Hq. rewrite (F23 q Hout), (F12 q Hout Hq); [reflexivity |].
      now rewrite (F12 q Hout Hq).
    + exists (fun q => g2 (g1 q)). split.
      * intros q f Hq. exact (K2 _ f (K1 q f Hq)).
      * intros q1 q2 f1 f2 H1 H2 E.
        apply (I1 q1 q2 f1 f2 H1 H2).
        exact (I2 _ _ f1 f2 (K1 q1 f1 H1) (K1 q2 f2 H2) E).
  - intros r r' filename date_folder target_dir _ Em.
    pose proof (makedirs_keeps target_dir r r' Em) as K. split.
    + intros q _ Hq. exact (K q Hq).
    + exists (fun q => q). split; [| auto].
      intros q f Hq. rewrite K; [exact Hq | congruence].
  - intros r filename rel date_folder target_dir Et Hex.
    set (src := (locate directory ++ rel ++ [filename])%list).
    set (dst := join target_dir filename).
    destruct (Hmove r src dst Hex) as [Hother [Hdone Hfailed]].
    destruct (target_dir_below _ _ _ _ _ Et) as [folders Htd].
    assert (Hnofile : forall f, stat r dst <> Some (IFile f)).
    { intros f Hf. unfold Organizer.exists_in in Hex. fold dst in Hex. now rewrite Hf in Hex. }
    split.
    + intros q Hout Hq. apply Hother.
      * intros ->. now apply (Hout (rel ++ [filename])%list).
      * intros ->. apply (Hout (folders ++ [filename])%list).
        unfold dst, join. rewrite Htd. now rewrite <- app_assoc.
    + exists (fun q => if path_eqb q src
                       then (if fst (shutil_move r src dst) then dst else src)
                       else q).
      split.
      * intros q f Hq. destruct (path_eqb q src) eqn:Eq.
        -- apply path_eqb_spec in Eq. subst q.
           destruct (fst (shutil_move r src dst)) eqn:Ed.
           ++ destruct (Hdone eq_refl) as [H1 _]. now rewrite H1.
           ++ now rewrite (Hfailed eq_refl).
        -- rewrite Hother; [exact Hq | |].
           ++ intros ->. assert (E : path_eqb src src = true) by now apply path_eqb_spec.
              congruence.
           ++ intros ->. exact (Hnofile f Hq).
      * intros q1 q2 f1 f2 H1 H2.
        destruct (path_eqb q1 src) eqn:E1, (path_eqb q2 src) eqn:E2.
        -- apply path_eqb_spec in E1, E2. congruence.
        -- apply path_eqb_spec in E1. subst q1.
           destruct (fst (shutil_move r src dst)); intros <-.
           ++ now destruct (Hnofile f2).
           ++ assert (E : path_eqb src src = true) by now apply path_eqb_spec. congruence.
        -- apply path_eqb_spec in E2. subst q2.
           destruct (fst (shutil_move r src dst)); intros ->.
           ++ now destruct (Hnofile f1).
           ++ assert (E : path_eqb src src = true) by now apply path_eqb_spec. congruence.
        -- auto.
Qed.

End OrganizerTheorems.

(** X22, at work: [photos], by type and without subfolders: of three files
    one is moved, one skipped, one refused. *)
Lemma organizer_summary_accounts_for_every_file_witness :
  let run := OrganizerExamples.organize_photos 1 false in
  fst run = Some true
  /\ exists files moved errors skipped,
       In (Organizer.Print (Organizer.LnFound files)) (Organizer.w_trace (snd run))
       /\ In (Organizer.Print (Organizer.LnOrganized moved)) (Organizer.w_trace (snd run))
       /\ moved + skipped + errors = files.
Proof.
  intros run.
  destruct (organizer_summary_accounts_for_every_file (fun p => p) (fun _ => []) Z Some
              (fun _ _ => "2024") Organizer.rename "/home/u/photos" 1 2 false true
              (Organizer.mkworld OrganizerExamples.photos []) (snd run))
    as [before [files [work [moved [errors [skipped [T [Hsum _]]]]]]]].
  - subst run. vm_compute. reflexivity.
  - split; [subst run; vm_compute; reflexivity |].
    exists files, moved, errors, skipped. rewrite T.
    split; [| split; [| exact Hsum]].
    + apply in_or_app. right. apply in_or_app. right. now left.
    + apply in_or_app. right. apply in_or_app. right. right.
      apply in_or_app. right. apply in_or_app. right. apply in_or_app. left. now left.
Defined.

(** X24, at work: [photos], by type and with subfolders. *)
Lemma organizer_loses_no_file_witness :
  let root' := Organizer.w_root (snd (OrganizerExamples.organize_photos 1 true)) in
  exists now_at : path -> path,
    forall q f, stat OrganizerExamples.photos q = Some (IFile f) ->
                stat root' (now_at q) = Some (IFile f).
Proof.
  intros root'.
  destruct (organizer_loses_no_file (fun p => p) (fun _ => []) Z Some (fun _ _ => "2024")
              Organizer.rename "/home/u/photos" 1 2 true true
              (Organizer.mkworld OrganizerExamples.photos []) rename_moves_files)
    as [_ [now_at [H _]]].
  exists now_at. exact H.
Defined.
